(** * Checkout orchestration engine of the Target content script

    A shallow embedding of [sites/target/content-script.js].  The script is a
    collection of [async] functions that share the closure variables of
    [initializeTargetCheckout] and talk to the page through external helpers
    ([utils], [finder], [storage], the DOM).  Here

    - the closure variables are the record [RunState];
    - what the page, the storage collaborator and the external helpers answer
      at one instant is the record [Dom] (a snapshot; a helper may also raise);
    - an [async] function is a tree of type [Async A]: reads and writes of the
      run state, looks at the snapshot, externally visible actions, and the
      suspension points ([Await]) at which other callback chains may run;
    - [run] executes one chain against a stream of snapshots, [runPool]
      interleaves several chains under an arbitrary schedule.

    The embedding comes first, function by function in the order of the
    script; then the notions the properties are stated with and the pages
    and states used as examples; then the properties and their proofs. *)

From Stdlib Require Import String Ascii List Bool Arith ZArith QArith Qminmax Lia DecimalString.

Import ListNotations.

Local Open Scope nat_scope.

Local Open Scope string_scope.

Local Open Scope list_scope.

(** ** JavaScript values the engine tests for truthiness *)

(** A string-valued property that may be missing: [None] is [undefined]/[null]. *)
Definition JsString := option string.

(** [if (v)] on a string-or-undefined value: the empty string is falsy. *)
Definition truthyStr (v : JsString) : bool :=
  match v with
  | Some (String _ _) => true
  | _ => false
  end.

(** [if (n)] on a number-or-null value: [null] and [0] are falsy (the price
    extractors never return [NaN]). *)
Definition truthyNum (v : option Q) : bool :=
  match v with
  | Some q => negb (Qeq_bool q 0)
  | None => false
  end.

(** [haystack.includes(needle)]. *)
Fixpoint includes (needle haystack : string) : bool :=
  if prefix needle haystack then true
  else match haystack with
       | EmptyString => false
       | String _ rest => includes needle rest
       end.

(** A plain object used as a dictionary; [lookupKey] is [obj[key]] and
    [hasKey] is [key in obj]. *)
Definition JsObject (V : Type) := list (string * V).

Fixpoint lookupKey {V} (key : string) (obj : JsObject V) : option V :=
  match obj with
  | [] => None
  | (k, v) :: rest => if String.eqb k key then Some v else lookupKey key rest
  end.

Definition hasKey {V} (key : string) (obj : JsObject V) : bool :=
  match lookupKey key obj with Some _ => true | None => false end.

(** ** Data model *)

(** Payment data nested under [profile.paymentMethod]. *)
Record PaymentMethod := {
  pm_cardNumber : JsString;
  pm_nameOnCard : JsString;
  pm_expiryMonth : JsString;
  pm_expiryYear : JsString;
  pm_cvv : JsString
}.

(** Payment data nested under [profile.payment]. *)
Record Payment := {
  pay_cardNumber : JsString;
  pay_cvv : JsString
}.

(** A checkout profile.  Payment data may sit directly on the profile, under
    [paymentMethod], or under [payment]. *)
Record Profile := {
  p_id : string;
  p_name : string;
  p_firstName : JsString;
  p_lastName : JsString;
  p_address1 : JsString;
  p_address2 : JsString;
  p_city : JsString;
  p_state : JsString;
  p_zip : JsString;
  p_phone : JsString;
  p_email : JsString;
  p_cvv : JsString;
  p_cardNumber : JsString;
  p_paymentMethod : option PaymentMethod;
  p_payment : option Payment
}.

(** [siteSettings]: [{enabled, quantity, profileId}].  A missing [enabled]
    reads as [false] and a missing [profileId] as [''] (the script only tests
    them for [=== true] and for truthiness); a missing [quantity] is
    [undefined], which [setQuantity] does not treat as 1. *)
Record SiteSettings := {
  ss_enabled : bool;
  ss_quantity : option Z;    (* None: undefined *)
  ss_profileId : string
}.

(** [globalSettings]; a missing flag reads as [false]. *)
Record GlobalSettings := {
  autoSubmit : bool;
  randomizeDelay : bool;
  useBuyNowWhenAvailable : bool;
  autoCloseCart : bool        (* globalSettings.autoCloseCartPage *)
}.

(** The state variables of [initializeTargetCheckout] (lines 119-133), the
    alert flag of line 686, and the two properties the script keeps on
    [window].  [nextHandle] numbers the observers and timers it creates. *)
Record RunState := {
  isEnabled : bool;
  siteSettings : SiteSettings;
  globalSettings : GlobalSettings;
  checkoutInProgress : bool;
  currentStep : string;
  profile : option Profile;
  placeOrderButtonClicked : bool;
  confirmButtonClicked : bool;
  verifyCardButtonClicked : bool;
  isFillingCardInput : bool;
  isFillingCvvInput : bool;
  inBuyNowErrorRecovery : bool;
  observers : list nat;
  intervals : list nat;
  priceCheckAlertShown : bool;
  highDemandRetryInterval : option nat;
  targetContentScriptExecuted : bool;
  nextHandle : nat
}.

Definition set_isEnabled (v : bool) (s : RunState) : RunState :=
  {| isEnabled := v; siteSettings := siteSettings s; globalSettings := globalSettings s; checkoutInProgress :=
     checkoutInProgress s; currentStep := currentStep s; profile := profile s; placeOrderButtonClicked :=
     placeOrderButtonClicked s; confirmButtonClicked := confirmButtonClicked s; verifyCardButtonClicked :=
     verifyCardButtonClicked s; isFillingCardInput := isFillingCardInput s; isFillingCvvInput := isFillingCvvInput s;
     inBuyNowErrorRecovery := inBuyNowErrorRecovery s; observers := observers s; intervals := intervals s;
     priceCheckAlertShown := priceCheckAlertShown s; highDemandRetryInterval := highDemandRetryInterval s;
     targetContentScriptExecuted := targetContentScriptExecuted s; nextHandle := nextHandle s |}.

Definition set_siteSettings (v : SiteSettings) (s : RunState) : RunState :=
  {| isEnabled := isEnabled s; siteSettings := v; globalSettings := globalSettings s; checkoutInProgress :=
     checkoutInProgress s; currentStep := currentStep s; profile := profile s; placeOrderButtonClicked :=
     placeOrderButtonClicked s; confirmButtonClicked := confirmButtonClicked s; verifyCardButtonClicked :=
     verifyCardButtonClicked s; isFillingCardInput := isFillingCardInput s; isFillingCvvInput := isFillingCvvInput s;
     inBuyNowErrorRecovery := inBuyNowErrorRecovery s; observers := observers s; intervals := intervals s;
     priceCheckAlertShown := priceCheckAlertShown s; highDemandRetryInterval := highDemandRetryInterval s;
     targetContentScriptExecuted := targetContentScriptExecuted s; nextHandle := nextHandle s |}.

Definition set_globalSettings (v : GlobalSettings) (s : RunState) : RunState :=
  {| isEnabled := isEnabled s; siteSettings := siteSettings s; globalSettings := v; checkoutInProgress :=
     checkoutInProgress s; currentStep := currentStep s; profile := profile s; placeOrderButtonClicked :=
     placeOrderButtonClicked s; confirmButtonClicked := confirmButtonClicked s; verifyCardButtonClicked :=
     verifyCardButtonClicked s; isFillingCardInput := isFillingCardInput s; isFillingCvvInput := isFillingCvvInput s;
     inBuyNowErrorRecovery := inBuyNowErrorRecovery s; observers := observers s; intervals := intervals s;
     priceCheckAlertShown := priceCheckAlertShown s; highDemandRetryInterval := highDemandRetryInterval s;
     targetContentScriptExecuted := targetContentScriptExecuted s; nextHandle := nextHandle s |}.

Definition set_checkoutInProgress (v : bool) (s : RunState) : RunState :=
  {| isEnabled := isEnabled s; siteSettings := siteSettings s; globalSettings := globalSettings s; checkoutInProgress
     := v; currentStep := currentStep s; profile := profile s; placeOrderButtonClicked := placeOrderButtonClicked s;
     confirmButtonClicked := confirmButtonClicked s; verifyCardButtonClicked := verifyCardButtonClicked s;
     isFillingCardInput := isFillingCardInput s; isFillingCvvInput := isFillingCvvInput s; inBuyNowErrorRecovery :=
     inBuyNowErrorRecovery s; observers := observers s; intervals := intervals s; priceCheckAlertShown :=
     priceCheckAlertShown s; highDemandRetryInterval := highDemandRetryInterval s; targetContentScriptExecuted :=
     targetContentScriptExecuted s; nextHandle := nextHandle s |}.

Definition set_currentStep (v : string) (s : RunState) : RunState :=
  {| isEnabled := isEnabled s; siteSettings := siteSettings s; globalSettings := globalSettings s; checkoutInProgress
     := checkoutInProgress s; currentStep := v; profile := profile s; placeOrderButtonClicked :=
     placeOrderButtonClicked s; confirmButtonClicked := confirmButtonClicked s; verifyCardButtonClicked :=
     verifyCardButtonClicked s; isFillingCardInput := isFillingCardInput s; isFillingCvvInput := isFillingCvvInput s;
     inBuyNowErrorRecovery := inBuyNowErrorRecovery s; observers := observers s; intervals := intervals s;
     priceCheckAlertShown := priceCheckAlertShown s; highDemandRetryInterval := highDemandRetryInterval s;
     targetContentScriptExecuted := targetContentScriptExecuted s; nextHandle := nextHandle s |}.

Definition set_profile (v : option Profile) (s : RunState) : RunState :=
  {| isEnabled := isEnabled s; siteSettings := siteSettings s; globalSettings := globalSettings s; checkoutInProgress
     := checkoutInProgress s; currentStep := currentStep s; profile := v; placeOrderButtonClicked :=
     placeOrderButtonClicked s; confirmButtonClicked := confirmButtonClicked s; verifyCardButtonClicked :=
     verifyCardButtonClicked s; isFillingCardInput := isFillingCardInput s; isFillingCvvInput := isFillingCvvInput s;
     inBuyNowErrorRecovery := inBuyNowErrorRecovery s; observers := observers s; intervals := intervals s;
     priceCheckAlertShown := priceCheckAlertShown s; highDemandRetryInterval := highDemandRetryInterval s;
     targetContentScriptExecuted := targetContentScriptExecuted s; nextHandle := nextHandle s |}.

Definition set_placeOrderButtonClicked (v : bool) (s : RunState) : RunState :=
  {| isEnabled := isEnabled s; siteSettings := siteSettings s; globalSettings := globalSettings s; checkoutInProgress
     := checkoutInProgress s; currentStep := currentStep s; profile := profile s; placeOrderButtonClicked := v;
     confirmButtonClicked := confirmButtonClicked s; verifyCardButtonClicked := verifyCardButtonClicked s;
     isFillingCardInput := isFillingCardInput s; isFillingCvvInput := isFillingCvvInput s; inBuyNowErrorRecovery :=
     inBuyNowErrorRecovery s; observers := observers s; intervals := intervals s; priceCheckAlertShown :=
     priceCheckAlertShown s; highDemandRetryInterval := highDemandRetryInterval s; targetContentScriptExecuted :=
     targetContentScriptExecuted s; nextHandle := nextHandle s |}.

Definition set_confirmButtonClicked (v : bool) (s : RunState) : RunState :=
  {| isEnabled := isEnabled s; siteSettings := siteSettings s; globalSettings := globalSettings s; checkoutInProgress
     := checkoutInProgress s; currentStep := currentStep s; profile := profile s; placeOrderButtonClicked :=
     placeOrderButtonClicked s; confirmButtonClicked := v; verifyCardButtonClicked := verifyCardButtonClicked s;
     isFillingCardInput := isFillingCardInput s; isFillingCvvInput := isFillingCvvInput s; inBuyNowErrorRecovery :=
     inBuyNowErrorRecovery s; observers := observers s; intervals := intervals s; priceCheckAlertShown :=
     priceCheckAlertShown s; highDemandRetryInterval := highDemandRetryInterval s; targetContentScriptExecuted :=
     targetContentScriptExecuted s; nextHandle := nextHandle s |}.

Definition set_verifyCardButtonClicked (v : bool) (s : RunState) : RunState :=
  {| isEnabled := isEnabled s; siteSettings := siteSettings s; globalSettings := globalSettings s; checkoutInProgress
     := checkoutInProgress s; currentStep := currentStep s; profile := profile s; placeOrderButtonClicked :=
     placeOrderButtonClicked s; confirmButtonClicked := confirmButtonClicked s; verifyCardButtonClicked := v;
     isFillingCardInput := isFillingCardInput s; isFillingCvvInput := isFillingCvvInput s; inBuyNowErrorRecovery :=
     inBuyNowErrorRecovery s; observers := observers s; intervals := intervals s; priceCheckAlertShown :=
     priceCheckAlertShown s; highDemandRetryInterval := highDemandRetryInterval s; targetContentScriptExecuted :=
     targetContentScriptExecuted s; nextHandle := nextHandle s |}.

Definition set_isFillingCardInput (v : bool) (s : RunState) : RunState :=
  {| isEnabled := isEnabled s; siteSettings := siteSettings s; globalSettings := globalSettings s; checkoutInProgress
     := checkoutInProgress s; currentStep := currentStep s; profile := profile s; placeOrderButtonClicked :=
     placeOrderButtonClicked s; confirmButtonClicked := confirmButtonClicked s; verifyCardButtonClicked :=
     verifyCardButtonClicked s; isFillingCardInput := v; isFillingCvvInput := isFillingCvvInput s;
     inBuyNowErrorRecovery := inBuyNowErrorRecovery s; observers := observers s; intervals := intervals s;
     priceCheckAlertShown := priceCheckAlertShown s; highDemandRetryInterval := highDemandRetryInterval s;
     targetContentScriptExecuted := targetContentScriptExecuted s; nextHandle := nextHandle s |}.

Definition set_isFillingCvvInput (v : bool) (s : RunState) : RunState :=
  {| isEnabled := isEnabled s; siteSettings := siteSettings s; globalSettings := globalSettings s; checkoutInProgress
     := checkoutInProgress s; currentStep := currentStep s; profile := profile s; placeOrderButtonClicked :=
     placeOrderButtonClicked s; confirmButtonClicked := confirmButtonClicked s; verifyCardButtonClicked :=
     verifyCardButtonClicked s; isFillingCardInput := isFillingCardInput s; isFillingCvvInput := v;
     inBuyNowErrorRecovery := inBuyNowErrorRecovery s; observers := observers s; intervals := intervals s;
     priceCheckAlertShown := priceCheckAlertShown s; highDemandRetryInterval := highDemandRetryInterval s;
     targetContentScriptExecuted := targetContentScriptExecuted s; nextHandle := nextHandle s |}.

Definition set_inBuyNowErrorRecovery (v : bool) (s : RunState) : RunState :=
  {| isEnabled := isEnabled s; siteSettings := siteSettings s; globalSettings := globalSettings s; checkoutInProgress
     := checkoutInProgress s; currentStep := currentStep s; profile := profile s; placeOrderButtonClicked :=
     placeOrderButtonClicked s; confirmButtonClicked := confirmButtonClicked s; verifyCardButtonClicked :=
     verifyCardButtonClicked s; isFillingCardInput := isFillingCardInput s; isFillingCvvInput := isFillingCvvInput s;
     inBuyNowErrorRecovery := v; observers := observers s; intervals := intervals s; priceCheckAlertShown :=
     priceCheckAlertShown s; highDemandRetryInterval := highDemandRetryInterval s; targetContentScriptExecuted :=
     targetContentScriptExecuted s; nextHandle := nextHandle s |}.

Definition set_observers (v : list nat) (s : RunState) : RunState :=
  {| isEnabled := isEnabled s; siteSettings := siteSettings s; globalSettings := globalSettings s; checkoutInProgress
     := checkoutInProgress s; currentStep := currentStep s; profile := profile s; placeOrderButtonClicked :=
     placeOrderButtonClicked s; confirmButtonClicked := confirmButtonClicked s; verifyCardButtonClicked :=
     verifyCardButtonClicked s; isFillingCardInput := isFillingCardInput s; isFillingCvvInput := isFillingCvvInput s;
     inBuyNowErrorRecovery := inBuyNowErrorRecovery s; observers := v; intervals := intervals s; priceCheckAlertShown
     := priceCheckAlertShown s; highDemandRetryInterval := highDemandRetryInterval s; targetContentScriptExecuted :=
     targetContentScriptExecuted s; nextHandle := nextHandle s |}.

Definition set_intervals (v : list nat) (s : RunState) : RunState :=
  {| isEnabled := isEnabled s; siteSettings := siteSettings s; globalSettings := globalSettings s; checkoutInProgress
     := checkoutInProgress s; currentStep := currentStep s; profile := profile s; placeOrderButtonClicked :=
     placeOrderButtonClicked s; confirmButtonClicked := confirmButtonClicked s; verifyCardButtonClicked :=
     verifyCardButtonClicked s; isFillingCardInput := isFillingCardInput s; isFillingCvvInput := isFillingCvvInput s;
     inBuyNowErrorRecovery := inBuyNowErrorRecovery s; observers := observers s; intervals := v; priceCheckAlertShown
     := priceCheckAlertShown s; highDemandRetryInterval := highDemandRetryInterval s; targetContentScriptExecuted :=
     targetContentScriptExecuted s; nextHandle := nextHandle s |}.

Definition set_priceCheckAlertShown (v : bool) (s : RunState) : RunState :=
  {| isEnabled := isEnabled s; siteSettings := siteSettings s; globalSettings := globalSettings s; checkoutInProgress
     := checkoutInProgress s; currentStep := currentStep s; profile := profile s; placeOrderButtonClicked :=
     placeOrderButtonClicked s; confirmButtonClicked := confirmButtonClicked s; verifyCardButtonClicked :=
     verifyCardButtonClicked s; isFillingCardInput := isFillingCardInput s; isFillingCvvInput := isFillingCvvInput s;
     inBuyNowErrorRecovery := inBuyNowErrorRecovery s; observers := observers s; intervals := intervals s;
     priceCheckAlertShown := v; highDemandRetryInterval := highDemandRetryInterval s; targetContentScriptExecuted :=
     targetContentScriptExecuted s; nextHandle := nextHandle s |}.

Definition set_highDemandRetryInterval (v : option nat) (s : RunState) : RunState :=
  {| isEnabled := isEnabled s; siteSettings := siteSettings s; globalSettings := globalSettings s; checkoutInProgress
     := checkoutInProgress s; currentStep := currentStep s; profile := profile s; placeOrderButtonClicked :=
     placeOrderButtonClicked s; confirmButtonClicked := confirmButtonClicked s; verifyCardButtonClicked :=
     verifyCardButtonClicked s; isFillingCardInput := isFillingCardInput s; isFillingCvvInput := isFillingCvvInput s;
     inBuyNowErrorRecovery := inBuyNowErrorRecovery s; observers := observers s; intervals := intervals s;
     priceCheckAlertShown := priceCheckAlertShown s; highDemandRetryInterval := v; targetContentScriptExecuted :=
     targetContentScriptExecuted s; nextHandle := nextHandle s |}.

Definition set_targetContentScriptExecuted (v : bool) (s : RunState) : RunState :=
  {| isEnabled := isEnabled s; siteSettings := siteSettings s; globalSettings := globalSettings s; checkoutInProgress
     := checkoutInProgress s; currentStep := currentStep s; profile := profile s; placeOrderButtonClicked :=
     placeOrderButtonClicked s; confirmButtonClicked := confirmButtonClicked s; verifyCardButtonClicked :=
     verifyCardButtonClicked s; isFillingCardInput := isFillingCardInput s; isFillingCvvInput := isFillingCvvInput s;
     inBuyNowErrorRecovery := inBuyNowErrorRecovery s; observers := observers s; intervals := intervals s;
     priceCheckAlertShown := priceCheckAlertShown s; highDemandRetryInterval := highDemandRetryInterval s;
     targetContentScriptExecuted := v; nextHandle := nextHandle s |}.

Definition set_nextHandle (v : nat) (s : RunState) : RunState :=
  {| isEnabled := isEnabled s; siteSettings := siteSettings s; globalSettings := globalSettings s; checkoutInProgress
     := checkoutInProgress s; currentStep := currentStep s; profile := profile s; placeOrderButtonClicked :=
     placeOrderButtonClicked s; confirmButtonClicked := confirmButtonClicked s; verifyCardButtonClicked :=
     verifyCardButtonClicked s; isFillingCardInput := isFillingCardInput s; isFillingCvvInput := isFillingCvvInput s;
     inBuyNowErrorRecovery := inBuyNowErrorRecovery s; observers := observers s; intervals := intervals s;
     priceCheckAlertShown := priceCheckAlertShown s; highDemandRetryInterval := highDemandRetryInterval s;
     targetContentScriptExecuted := targetContentScriptExecuted s; nextHandle := v |}.

(** ** The page, the storage collaborator and the external helpers *)

(** What a lookup is keyed by: an entry of the selector tables of
    [selectors.js] (named by its path) or a selector the script spells out. *)
Inductive Target :=
| Sel (path : string)
| Css (selector : string).

Definition Target_eqb (a b : Target) : bool :=
  match a, b with
  | Sel x, Sel y => String.eqb x y
  | Css x, Css y => String.eqb x y
  | _, _ => false
  end.

(** The properties of an element the script reads. *)
Record Elem := {
  visible : bool;          (* finder.isElementVisible(el) *)
  disabled : bool;         (* finder.isElementDisabled(el) *)
  offsetParent : bool;     (* el.offsetParent !== null *)
  disabledProp : bool;     (* el.disabled *)
  checked : bool;          (* el.checked *)
  insideForm : bool;       (* el.closest('form') *)
  isSelect : bool;         (* el.tagName === 'SELECT' *)
  text : string;           (* el.textContent.trim() *)
  dollarPrefixed : bool;   (* its text starts with '$' *)
  parsedPrice : option Q;  (* parseFloat of its text without '$'; None is NaN *)
  parsedInt : option Z     (* parseInt(el.textContent?.trim() || '1'); None is NaN *)
}.

(** An external call that may raise instead of answering. *)
Inductive Call :=
| CallSleep                          (* utils.sleep *)
| CallClick (name : string)          (* utils.clickElement(el, name) *)
| CallFill (name : string)           (* utils.fillField(el, value, name) *)
| CallFillBySelectors (field : string)
| CallFind (t : Target)              (* finder.findElementWithSelectors, document.querySelector *)
| CallQueryAll (selector : string)   (* document.querySelectorAll *)
| CallWaitForElement (t : Target)    (* utils.waitForElement *)
| CallStorageGet                     (* storage.getFromStorage *)
| CallGetProfiles                    (* storage.getProfiles *)
| CallSaveToStorage                  (* storage.saveToStorage *)
| CallUpdateSiteSettings             (* storage.updateSiteSettings *)
| CallChromeStorageGet               (* chrome.storage.local.get *)
| CallWindowClose                    (* window.close *)
| CallAlert                          (* alert *)
| CallUrlMatch                       (* window.location.pathname.match *)
| CallGetAttribute                   (* el.getAttribute *)
| CallJsonParse                      (* JSON.parse *)
| CallIframeDocument (i : nat)       (* iframe.contentDocument of the i-th frame *)
| CallIframeQuery (selector : string)(* a lookup inside the Buy-Now sub-document *)
| CallIframeEvent (name : string).   (* scrollIntoView/focus/dispatchEvent/click there *)

(** What [storage.getFromStorage] resolves to, as far as the script reads it. *)
Record Storage := {
  st_siteSettingsTarget : option SiteSettings;  (* data.siteSettings?.target *)
  st_globalSettings : option GlobalSettings;    (* data.globalSettings *)
  st_price_check_enabled : bool;                (* data.price_check_enabled === true *)
  st_price_check_closeTabOnFail : bool;         (* data.price_check_closeTabOnFail === true *)
  st_price_check_items : option (JsObject Q)    (* data.price_check_items *)
}.

(** What [storage.getProfiles] resolves to. *)
Record ProfileData := {
  pd_profiles : list Profile;
  pd_selectedProfileId : string
}.

(** A document embedded in an [iframe], seen through the lookups the
    Buy-Now helpers make in it. *)
Record IframeDoc := {
  iquery : string -> option Elem;            (* doc.querySelector(selector), getElementById *)
  buttonWithText : string -> option Elem;    (* a button found by the text test named *)
  inputMentioning : string -> option Elem;   (* an input found by the attribute test named *)
  headingConfirmOrder : bool;                (* some h2 contains 'Confirm your order' *)
  alertCannotComplete : bool;                (* div[role=alert] says the order cannot be completed *)
  visibleErrorMessage : bool;                (* some error-classed element is displayed *)
  svgButton : option Elem                    (* closest button of the first 'button svg' *)
}.

Record Iframe := {
  if_id : string;
  if_src : string;                   (* '' when the frame has no src *)
  if_document : option IframeDoc     (* None: not accessible (cross-origin) *)
}.

(** One snapshot of everything outside the script. *)
Record Dom := {
  href : string;                       (* window.location.href *)
  pathname : string;                   (* window.location.pathname *)
  readyStateLoaded : bool;             (* document.readyState is complete or interactive *)
  query : Target -> option Elem;       (* first match of a lookup in the outer document *)
  waitFor : Target -> option Elem;     (* what utils.waitForElement resolves to *)
  fails : Call -> option string;       (* the call raises an Error with this message *)
  clickOk : string -> bool;            (* what utils.clickElement(el, name) resolves to *)
  stored : Storage;
  profileData : ProfileData;
  urlTcin : JsString;                  (* group 1 of pathname.match(/\/p\/.*?-\/A-(\d+)/) *)
  dataTcin : option JsString;          (* data-tcin of the first [data-tcin] element, if any *)
  fallbackPriceElems : list Elem;      (* '.styles__PriceFontSize-sc-x06r9i-0, .h-text-bold' *)
  structuredPrice : option (option Q); (* ld+json script present; parseFloat(offers.price) *)
  highDemandContent : bool;            (* .styles_content__WBF0i carries the high-demand text *)
  highDemandFallback : bool;           (* some error/content element carries it *)
  buyNowButtonByText : option Elem;    (* a button whose text includes 'buy now' *)
  verifyButtonByText : option Elem;    (* a button whose text includes 'verify' *)
  iframes : list Iframe;
  spinnerSelectorsIsArray : bool;      (* Array.isArray(checkoutPageSelectors.loadingSpinner) *)
  emailFieldConfigured : bool;         (* shippingFields.email is set *)
  dropdownOption : option Z -> option bool
    (* the option whose value or text is String(quantity); Some true: already selected *)
}.

(** ** Externally visible actions *)

Inductive Severity := StatusWaiting | StatusRunning | StatusComplete.

Inductive Action :=
| Status (msg : string) (sev : Severity)           (* utils.updateStatus(msg, class) *)
| StatusPrice (msg : string) (price maxPrice : Q) (sev : Severity)
| StatusQuantity (qty : option Z)                   (* 'Setting quantity: ' + qty *)
| Console (msg : string)                           (* a console line kept as a landmark *)
| ConsoleRetry (attempt : nat) (delayMs : Q)       (* 'Beginning retry attempt n/5 after d ms' *)
| ConsolePoll (attempt : nat)                      (* 'Polling for Buy Now button (attempt n/10)' *)
| Click (name : string)                            (* utils.clickElement(el, name) *)
| Fill (name : string) (value : JsString)          (* utils.fillField(el, value, name) *)
| FillBySelectors (field : string) (value : JsString)
| IframeClick (name : string)                      (* element.click() in the sub-document *)
| IframeFill (name : string) (value : string)
| DomWrite (what : string)                         (* an element property written in place *)
| Sleep (ms : option Q) (randomize : bool)         (* utils.sleep(ms, randomize) *)
| WaitForElement (t : Target) (timeout : Q)
| Navigate (url : string)                          (* window.location.href = url *)
| CloseTab                                         (* window.close() *)
| Alert (price maxPrice : Q)
| StorageGet (keys : list string)                  (* storage.getFromStorage(keys) *)
| ChromeStorageGet (keys : list string)            (* chrome.storage.local.get(keys) *)
| GetProfiles
| SaveToStorage (key value : string)
| UpdateSiteSettings (site key value : string)
| SetInterval (handle : nat) (ms : Q)
| ClearInterval (handle : nat)
| Observe (handle : nat)                           (* observer.observe(document.body, ...) *)
| Disconnect (handle : nat)                        (* observer.disconnect() *)
| AddMessageListener                               (* chrome.runtime.onMessage.addListener *)
| SendResponse.                                    (* sendResponse({success: true, ...}) *)

(** ** Asynchronous computations

    [Get]/[Modify] read and write the shared run state, [Look] reads the
    current snapshot, [Act] performs an action, [Await] is a suspension point,
    [Spawn] starts a callback chain nobody waits for ([setTimeout], a promise
    left to itself).  [Stuck] marks an exhausted recursion allowance: it is
    no JavaScript exception and no handler catches it. *)
Inductive Async (A : Type) : Type :=
| Ret (a : A)
| Throw (e : string)
| Stuck
| Get (k : RunState -> Async A)
| Modify (f : RunState -> RunState) (k : Async A)
| Look (k : Dom -> Async A)
| Act (a : Action) (k : Async A)
| Await (k : Async A)
| Spawn (t : Async unit) (k : Async A).

Arguments Ret {A} a.

Arguments Throw {A} e.

Arguments Stuck {A}.

Arguments Get {A} k.

Arguments Modify {A} f k.

Arguments Look {A} k.

Arguments Act {A} a k.

Arguments Await {A} k.

Arguments Spawn {A} t k.

Fixpoint bind {A B} (m : Async A) (f : A -> Async B) : Async B :=
  match m with
  | Ret a => f a
  | Throw e => Throw e
  | Stuck => Stuck
  | Get k => Get (fun s => bind (k s) f)
  | Modify g k => Modify g (bind k f)
  | Look k => Look (fun d => bind (k d) f)
  | Act a k => Act a (bind k f)
  | Await k => Await (bind k f)
  | Spawn t k => Spawn t (bind k f)
  end.

Declare Scope async_scope.

Delimit Scope async_scope with async.

Bind Scope async_scope with Async.

Notation "x <- m ;; k" := (bind m (fun x => k))
  (at level 61, m at next level, right associativity) : async_scope.

Notation "m ;; k" := (bind m (fun _ => k))
  (at level 61, right associativity) : async_scope.

Local Open Scope async_scope.

Definition get : Async RunState := Get (fun s => Ret s).

Definition modify (f : RunState -> RunState) : Async unit := Modify f (Ret tt).

Definition look : Async Dom := Look (fun d => Ret d).

Definition act (a : Action) : Async unit := Act a (Ret tt).

Definition suspend : Async unit := Await (Ret tt).

Definition spawn (t : Async unit) : Async unit := Spawn t (Ret tt).

(** [try { m } catch (e) { h e }]. *)
Fixpoint tryCatch {A} (m : Async A) (h : string -> Async A) : Async A :=
  match m with
  | Ret a => Ret a
  | Throw e => h e
  | Stuck => Stuck
  | Get k => Get (fun s => tryCatch (k s) h)
  | Modify g k => Modify g (tryCatch k h)
  | Look k => Look (fun d => tryCatch (k d) h)
  | Act a k => Act a (tryCatch k h)
  | Await k => Await (tryCatch k h)
  | Spawn t k => Spawn t (tryCatch k h)
  end.

(** The settled value of a promise: rejected with a message or fulfilled. *)
Definition attempt {A} (m : Async A) : Async (string + A) :=
  tryCatch (a <- m ;; Ret (inr a)) (fun e => Ret (inl e)).

Definition settle {A} (r : string + A) : Async A :=
  match r with
  | inl e => Throw e
  | inr a => Ret a
  end.

(** [try { m } finally { f }]. *)
Definition tryFinally {A} (m : Async A) (f : Async unit) : Async A :=
  r <- attempt m ;; f ;; settle r.

(** [await m()] for an [async] function of the script: its body runs (with
    the suspensions it contains), and the caller resumes one turn after the
    promise has settled. *)
Definition await {A} (m : Async A) : Async A :=
  r <- attempt m ;; suspend ;; settle r.

(** A promise held in a variable: already settled, or still running. *)
Inductive Promise (A : Type) : Type :=
| Settled (r : string + A)
| Pending (rest : Async A).

Arguments Settled {A} r.

Arguments Pending {A} rest.

(** [const p = m()], not awaited: the body runs up to its first suspension
    within the caller's turn, and the caller goes on with the promise. *)
Fixpoint callAsync {A B} (m : Async A) (k : Promise A -> Async B) : Async B :=
  match m with
  | Ret a => k (Settled (inr a))
  | Throw e => k (Settled (inl e))
  | Stuck => Stuck
  | Get f => Get (fun s => callAsync (f s) k)
  | Modify g m' => Modify g (callAsync m' k)
  | Look f => Look (fun d => callAsync (f d) k)
  | Act a m' => Act a (callAsync m' k)
  | Await m' => k (Pending m')
  | Spawn t m' => Spawn t (callAsync m' k)
  end.

(** [await p] on a promise obtained from [callAsync]. *)
Definition awaitPromise {A} (p : Promise A) : Async A :=
  match p with
  | Settled r => suspend ;; settle r
  | Pending rest => suspend ;; r <- attempt rest ;; suspend ;; settle r
  end.

(** A promise nobody awaits: what is left of it runs as a chain of its own,
    and its outcome is dropped. *)
Definition detached {A} (p : Promise A) : Async unit :=
  match p with
  | Settled _ => Ret tt
  | Pending rest => _ <- attempt rest ;; Ret tt
  end.

(** [m()] as a statement, neither awaited nor kept. *)
Definition fireAndForget {A} (m : Async A) : Async unit :=
  callAsync m (fun p => spawn (detached p)).

(** An external helper raises when the snapshot says so. *)
Definition ext (c : Call) : Async unit :=
  Look (fun d => match fails d c with
                 | Some e => Throw e
                 | None => Ret tt
                 end).

(** ** Running a chain

    One chain runs against a stream of snapshots: the snapshot of the current
    turn answers every [Look], and each suspension moves to the next turn.
    Chains started with [Spawn] are collected, not run. *)

Record Config := {
  cst : RunState;
  clock : nat;
  trace : list Action;
  spawned : list (Async unit)
}.

Inductive Outcome (A : Type) : Type :=
| Returned (a : A)
| Raised (e : string)
| OutOfFuel.

Arguments Returned {A} a.

Arguments Raised {A} e.

Arguments OutOfFuel {A}.

Definition withState (f : RunState -> RunState) (c : Config) : Config :=
  {| cst := f (cst c); clock := clock c; trace := trace c; spawned := spawned c |}.

Definition logged (a : Action) (c : Config) : Config :=
  {| cst := cst c; clock := clock c; trace := trace c ++ [a]; spawned := spawned c |}.

Definition nextTurn (c : Config) : Config :=
  {| cst := cst c; clock := S (clock c); trace := trace c; spawned := spawned c |}.

Definition withSpawned (t : Async unit) (c : Config) : Config :=
  {| cst := cst c; clock := clock c; trace := trace c; spawned := spawned c ++ [t] |}.

Fixpoint run {A} (w : nat -> Dom) (t : Async A) (c : Config) : Outcome A * Config :=
  match t with
  | Ret a => (Returned a, c)
  | Throw e => (Raised e, c)
  | Stuck => (OutOfFuel, c)
  | Get k => run w (k (cst c)) c
  | Modify f k => run w k (withState f c)
  | Look k => run w (k (w (clock c))) c
  | Act a k => run w k (logged a c)
  | Await k => run w k (nextTurn c)
  | Spawn t' k => run w k (withSpawned t' c)
  end.

Definition initialConfig (s : RunState) : Config :=
  {| cst := s; clock := 0; trace := []; spawned := [] |}.

(** ** Interleaving chains

    Between two suspension points a chain runs alone ([segment]); at a
    suspension point any chain of the pool may be resumed, on whatever
    snapshot the page then shows.  A schedule lists, turn by turn, the chain
    resumed and the snapshot it sees. *)

Inductive SegmentEnd (A : Type) : Type :=
| SegReturned (a : A)
| SegRaised (e : string)
| SegStuck
| SegSuspended (rest : Async A).

Arguments SegReturned {A} a.

Arguments SegRaised {A} e.

Arguments SegStuck {A}.

Arguments SegSuspended {A} rest.

Record Segment (A : Type) := {
  seg_state : RunState;
  seg_actions : list Action;
  seg_spawned : list (Async unit);
  seg_end : SegmentEnd A
}.

Arguments seg_state {A} s.

Arguments seg_actions {A} s.

Arguments seg_spawned {A} s.

Arguments seg_end {A} s.

Fixpoint segmentFrom {A} (d : Dom) (t : Async A) (s : RunState)
    (acts : list Action) (sp : list (Async unit)) : Segment A :=
  match t with
  | Ret a => {| seg_state := s; seg_actions := acts; seg_spawned := sp; seg_end := SegReturned a |}
  | Throw e => {| seg_state := s; seg_actions := acts; seg_spawned := sp; seg_end := SegRaised e |}
  | Stuck => {| seg_state := s; seg_actions := acts; seg_spawned := sp; seg_end := SegStuck |}
  | Get k => segmentFrom d (k s) s acts sp
  | Modify f k => segmentFrom d k (f s) acts sp
  | Look k => segmentFrom d (k d) s acts sp
  | Act a k => segmentFrom d k s (acts ++ [a]) sp
  | Await k => {| seg_state := s; seg_actions := acts; seg_spawned := sp; seg_end := SegSuspended k |}
  | Spawn t' k => segmentFrom d k s acts (sp ++ [t'])
  end.

Definition segment {A} (d : Dom) (t : Async A) (s : RunState) : Segment A :=
  segmentFrom d t s [] [].

Record Pool := {
  pool_state : RunState;
  pool_trace : list Action;
  pool_chains : list (Async unit)
}.

(** What a chain leaves in the pool after a turn. *)
Definition leftover (e : SegmentEnd unit) : Async unit :=
  match e with
  | SegSuspended rest => rest
  | SegStuck => Stuck
  | SegReturned _ => Ret tt
  | SegRaised _ => Ret tt
  end.

Fixpoint replaceNth {X} (i : nat) (x : X) (l : list X) : list X :=
  match l, i with
  | [], _ => []
  | _ :: rest, 0 => x :: rest
  | y :: rest, S j => y :: replaceNth j x rest
  end.

Definition poolStep (p : Pool) (turn : nat * Dom) : Pool :=
  match nth_error (pool_chains p) (fst turn) with
  | None => p
  | Some t =>
      let r := segment (snd turn) t (pool_state p) in
      {| pool_state := seg_state r;
         pool_trace := pool_trace p ++ seg_actions r;
         pool_chains := replaceNth (fst turn) (leftover (seg_end r)) (pool_chains p)
                          ++ seg_spawned r |}
  end.

Definition runPool (schedule : list (nat * Dom)) (p : Pool) : Pool :=
  fold_left poolStep schedule p.

Definition startPool (s : RunState) (chains : list (Async unit)) : Pool :=
  {| pool_state := s; pool_trace := []; pool_chains := chains |}.

(** How many actions of a trace satisfy a test. *)
Definition countActions (p : Action -> bool) (l : list Action) : nat :=
  length (filter p l).

(** ** The external helpers, as the script calls them *)

(** [utils.updateStatus(msg, class)]. *)
Definition updateStatus (msg : string) (sev : Severity) : Async unit :=
  act (Status msg sev).

(** [await utils.sleep(ms)]. *)
Definition sleep (ms : Q) : Async unit :=
  act (Sleep (Some ms) false) ;; suspend ;; ext CallSleep.

(** [await utils.sleep(globalSettings.randomizeDelay ? utils.sleep(ms, true) : ms)]:
    with [randomizeDelay] the argument of the outer call is itself a promise. *)
Definition sleepMaybeRandom (ms : Q) : Async unit :=
  s <- get ;;
  (if randomizeDelay (globalSettings s)
   then act (Sleep (Some ms) true) ;; act (Sleep None false)
   else act (Sleep (Some ms) false)) ;;
  suspend ;; ext CallSleep.

(** [finder.findElementWithSelectors(selectors...)] and [document.querySelector(...)]. *)
Definition find (t : Target) : Async (option Elem) :=
  ext (CallFind t) ;; d <- look ;; Ret (query d t).

(** [await utils.clickElement(el, name)]. *)
Definition clickElement (name : string) : Async bool :=
  act (Click name) ;; suspend ;; ext (CallClick name) ;; d <- look ;; Ret (clickOk d name).

(** [await utils.fillField(el, value, name)]. *)
Definition fillField (name : string) (value : JsString) : Async unit :=
  act (Fill name value) ;; suspend ;; ext (CallFill name).

(** [await finder.fillFieldBySelectors(fields.x, value)]. *)
Definition fillFieldBySelectors (field : string) (value : JsString) : Async unit :=
  act (FillBySelectors field value) ;; suspend ;; ext (CallFillBySelectors field).

(** [await utils.waitForElement(selector, timeout)]. *)
Definition waitForElement (t : Target) (timeout : Q) : Async (option Elem) :=
  act (WaitForElement t timeout) ;; suspend ;; ext (CallWaitForElement t) ;;
  d <- look ;; Ret (waitFor d t).

(** [await storage.getFromStorage(keys)]. *)
Definition getFromStorage (keys : list string) : Async Storage :=
  act (StorageGet keys) ;; suspend ;; ext CallStorageGet ;; d <- look ;; Ret (stored d).

(** [await storage.getProfiles()]. *)
Definition getProfiles : Async ProfileData :=
  act GetProfiles ;; suspend ;; ext CallGetProfiles ;; d <- look ;; Ret (profileData d).

(** [await storage.saveToStorage({key: value})]. *)
Definition saveToStorage (key value : string) : Async unit :=
  act (SaveToStorage key value) ;; suspend ;; ext CallSaveToStorage.

(** [await storage.updateSiteSettings(site, {key: value})]. *)
Definition updateSiteSettings (site key value : string) : Async unit :=
  act (UpdateSiteSettings site key value) ;; suspend ;; ext CallUpdateSiteSettings.

(** [window.close()]. *)
Definition windowClose : Async unit :=
  ext CallWindowClose ;; act CloseTab.

Definition isSome {X} (o : option X) : bool :=
  match o with Some _ => true | None => false end.

(** [el && finder.isElementVisible(el)]. *)
Definition isVisible (o : option Elem) : bool :=
  match o with Some el => visible el | None => false end.

(** [el && finder.isElementVisible(el) && !finder.isElementDisabled(el)]. *)
Definition isUsable (o : option Elem) : bool :=
  match o with Some el => visible el && negb (disabled el) | None => false end.

(** ** The cart page (lines 8-58) *)

(** [autoCloseCartPage], lines 16-52. *)
Definition autoCloseCartPage : Async unit :=
  tryCatch
    (act (ChromeStorageGet ["globalSettings"]) ;; suspend ;; ext CallChromeStorageGet ;;
     d <- look ;;
     if match st_globalSettings (stored d) with
        | Some g => autoCloseCart g
        | None => false
        end
     then
       updateStatus "Auto-closing cart page..." StatusRunning ;;
       windowClose ;;
       spawn (tryCatch windowClose (fun _ => Ret tt))
     else
       updateStatus "Cart page detected (automation disabled)" StatusWaiting)
    (fun _ => Ret tt).

(** ** Settings and profile (lines 161-259) *)

Definition settingsKeys : list string :=
  ["siteSettings"; "globalSettings"; "debugMode"; "price_check_enabled";
   "price_check_closeTabOnFail"; "price_check_items"].

Definition defaultSiteSettings : SiteSettings :=
  {| ss_enabled := false; ss_quantity := Some 1%Z; ss_profileId := "" |}.

Definition defaultGlobalSettings : GlobalSettings :=
  {| autoSubmit := true; randomizeDelay := false;
     useBuyNowWhenAvailable := false; autoCloseCart := false |}.

(** [profiles.find(p => p.id === id)]. *)
Definition findProfile (pid : string) (profiles : list Profile) : option Profile :=
  List.find (fun p => String.eqb (p_id p) pid) profiles.

Definition nonEmpty (s : string) : bool :=
  match s with EmptyString => false | _ => true end.

Definition withProfileId (pid : string) (ss : SiteSettings) : SiteSettings :=
  {| ss_enabled := ss_enabled ss; ss_quantity := ss_quantity ss; ss_profileId := pid |}.

(** [loadSettingsAndProfile].  The copy of the settings it keeps in
    [sessionStorage] (lines 192-201, in a try-block of its own, which also
    catches the failure of line 195 on a missing quantity) writes no variable
    of the engine and is left out. *)
Definition loadSettingsAndProfile : Async unit :=
  tryCatch
    (data <- getFromStorage settingsKeys ;;
     modify (set_siteSettings
               (match st_siteSettingsTarget data with
                | Some ss => ss
                | None => defaultSiteSettings
                end)) ;;
     modify (set_globalSettings
               (match st_globalSettings data with
                | Some g => g
                | None => defaultGlobalSettings
                end)) ;;
     modify (fun s => set_isEnabled (ss_enabled (siteSettings s)) s) ;;
     pd <- getProfiles ;;
     s <- get ;;
     let profiles := pd_profiles pd in
     let siteProfileId := ss_profileId (siteSettings s) in
     let globalProfileId := pd_selectedProfileId pd in
     modify (set_profile None) ;;
     (if nonEmpty siteProfileId
      then modify (set_profile (findProfile siteProfileId profiles))
      else Ret tt) ;;
     s1 <- get ;;
     (if negb (isSome (profile s1)) && nonEmpty globalProfileId
      then modify (set_profile (findProfile globalProfileId profiles))
      else Ret tt) ;;
     s2 <- get ;;
     match profile s2, profiles with
     | None, first :: _ =>
         modify (set_profile (Some first)) ;;
         saveToStorage "selectedProfile" (p_id first) ;;
         modify (fun s => set_siteSettings (withProfileId (p_id first) (siteSettings s)) s) ;;
         updateSiteSettings "target" "profileId" (p_id first)
     | _, _ => Ret tt
     end)
    (fun e =>
       modify (set_isEnabled false) ;;
       updateStatus ("Error loading settings: " ++ e) StatusWaiting).

(** ** Page classification (lines 382-410) *)

Inductive PageType := PageProduct | PageCheckout | PageCart | PageRegistry | PageUnknown.

(** [detectCurrentPage]: a function of [window.location] alone. *)
Definition detectCurrentPage (d : Dom) : PageType :=
  if includes "target.com/p/" (href d) then PageProduct
  else if includes "/gift-registry" (href d) then PageRegistry
  else if includes "target.com/checkout" (href d) then PageCheckout
  else if String.eqb (pathname d) "/cart" then PageCart
  else PageUnknown.

(** ** Cleanup and the generic error handler (lines 545-572) *)

Fixpoint disconnectAll (handles : list nat) : Async unit :=
  match handles with
  | [] => Ret tt
  | h :: rest => act (Disconnect h) ;; disconnectAll rest
  end.

Fixpoint clearAll (handles : list nat) : Async unit :=
  match handles with
  | [] => Ret tt
  | h :: rest => act (ClearInterval h) ;; clearAll rest
  end.

(** [cleanup], lines 545-563. *)
Definition cleanup : Async unit :=
  modify (set_checkoutInProgress false) ;;
  modify (set_currentStep "") ;;
  modify (set_placeOrderButtonClicked false) ;;
  modify (set_confirmButtonClicked false) ;;
  modify (set_verifyCardButtonClicked false) ;;
  modify (set_isFillingCardInput false) ;;
  modify (set_isFillingCvvInput false) ;;
  s <- get ;;
  disconnectAll (observers s) ;;
  modify (set_observers []) ;;
  clearAll (intervals s) ;;
  modify (set_intervals []).

(** [handleCheckoutError], lines 568-572. *)
Definition handleCheckoutError (e : string) : Async unit :=
  updateStatus ("Error: " ++ e) StatusWaiting ;;
  modify (set_checkoutInProgress false).

(** ** The price guard (lines 580-861) *)

(** [extractTCIN], lines 580-606: whatever goes wrong inside is caught here
    and reported as "not found". *)
Definition extractTCIN : Async JsString :=
  tryCatch
    (ext CallUrlMatch ;;
     d <- look ;;
     if truthyStr (urlTcin d) then Ret (urlTcin d)
     else
       ext (CallQueryAll "[data-tcin]") ;;
       match dataTcin d with
       | Some v => ext CallGetAttribute ;; Ret v
       | None => Ret None
       end)
    (fun _ => Ret None).

(** The first fallback element whose text starts with '$' and parses. *)
Fixpoint firstDollarPrice (els : list Elem) : option Q :=
  match els with
  | [] => None
  | el :: rest =>
      if dollarPrefixed el
      then match parsedPrice el with
           | Some p => Some p
           | None => firstDollarPrice rest
           end
      else firstDollarPrice rest
  end.

Definition fallbackPriceSelector : string :=
  ".styles__PriceFontSize-sc-x06r9i-0, .h-text-bold".

(** [extractPrice], lines 612-683: same policy, an exception inside is a
    price "not found". *)
Definition extractPrice : Async (option Q) :=
  tryCatch
    (priceElement <- find (Css "[data-test='product-price']") ;;
     match match priceElement with
           | Some el => parsedPrice el
           | None => None
           end with
     | Some price => Ret (Some price)
     | None =>
         ext (CallQueryAll fallbackPriceSelector) ;;
         d <- look ;;
         match firstDollarPrice (fallbackPriceElems d) with
         | Some price => Ret (Some price)
         | None =>
             structuredData <- find (Css "script[type='application/ld+json']") ;;
             match structuredPrice d with
             | Some offer =>
                 tryCatch (ext CallJsonParse ;; Ret offer) (fun _ => Ret None)
             | None => Ret None
             end
         end
     end)
    (fun _ => Ret None).

Definition priceCheckKeys : list string :=
  ["price_check_enabled"; "price_check_closeTabOnFail"; "price_check_items"].

(** The alert of lines 826-829 and 833-836, shown once per page. *)
Definition alertOnce (price maxPrice : Q) : Async unit :=
  s <- get ;;
  if priceCheckAlertShown s then Ret tt
  else modify (set_priceCheckAlertShown true) ;; ext CallAlert ;; act (Alert price maxPrice).

(** Lines 793-848: the extracted price against the ceiling configured for
    the extracted TCIN, if there is one.  [true] lets the checkout go on,
    [false] blocks it. *)
Definition compareWithCeiling (data : Storage) (tcin : string) (price : Q) : Async bool :=
  let price_check_closeTabOnFail := st_price_check_closeTabOnFail data in
  let price_check_items :=
    match st_price_check_items data with Some items => items | None => [] end in
  match lookupKey tcin price_check_items with
  | Some maxPrice =>
      if negb (Qle_bool price maxPrice) then
        act (StatusPrice "Price check failed" price maxPrice StatusWaiting) ;;
        (if price_check_closeTabOnFail then
           tryCatch
             (windowClose ;;
              spawn (tryCatch windowClose (fun _ => Ret tt)))
             (fun _ => alertOnce price maxPrice)
         else alertOnce price maxPrice) ;;
        Ret false
      else
        act (StatusPrice "Price check passed" price maxPrice StatusRunning) ;;
        Ret true
  | None => Ret true
  end.

(** Lines 755-848: what is decided once TCIN and price have been extracted.
    The lookups made only to log what the page contains are kept, because
    they can raise. *)
Definition judgePrice (data : Storage) (tcin : JsString) (price : option Q) : Async bool :=
  if negb (truthyStr tcin) then
    ext (CallQueryAll "div b") ;;
    ext (CallQueryAll ".ProductDetailsLayout") ;;
    Ret true
  else if negb (truthyNum price) then
    ext (CallQueryAll "[data-test='product-price']") ;;
    ext (CallQueryAll ".styles__PriceDetailsWrapper-sc-1iuiv4s-0, .styles__PriceFontSize-sc-x06r9i-0") ;;
    Ret true
  else
    match tcin, price with
    | Some tcin, Some price => compareWithCeiling data tcin price
    | _, _ => Ret true
    end.

(** Lines 703-848: the [try] block after storage has answered. *)
Definition priceCheckBody (data : Storage) : Async bool :=
  if negb (st_price_check_enabled data) then Ret true
  else
    tcin <- extractTCIN ;;
    ext (CallQueryAll "div b") ;;
    _ <- find (Css "meta[name='productId']") ;;
    price <- extractPrice ;;
    ext (CallQueryAll "[data-test='product-price']") ;;
    ext (CallQueryAll fallbackPriceSelector) ;;
    judgePrice data tcin price.

(** The [catch] of lines 849-860: an exception that reaches it blocks the
    checkout. *)
Definition priceCheckFailed (e : string) : Async bool :=
  updateStatus ("Price check error: " ++ e) StatusWaiting ;;
  Ret false.

(** [checkProductPrice], lines 692-861. *)
Definition checkProductPrice : Async bool :=
  tryCatch (data <- getFromStorage priceCheckKeys ;; priceCheckBody data) priceCheckFailed.

(** ** The readiness probe (lines 866-883) *)

(** [areCriticalElementsReady]: what [addToCartButton && isElementVisible(...)]
    evaluates to, [None] for the [null] of a missing button.  Nothing in the
    script calls it. *)
Definition areCriticalElementsReady : Async (option bool) :=
  tryCatch
    (addToCartButton <- find (Sel "productPageSelectors.addToCart") ;;
     Ret (match addToCartButton with
          | Some el => Some (visible el)
          | None => None
          end))
    (fun _ => Ret (Some false)).

(** ** Product page: delivery and quantity (lines 1088-1167) *)

(** [selectDeliveryMethod], lines 1088-1094. *)
Definition selectDeliveryMethod : Async unit :=
  modify (set_currentStep "select-delivery").

(** The loop of lines 1122-1126: [n] clicks at most, stopping at a disabled
    button; the button is looked at afresh before each click. *)
Fixpoint stepperClicks (n : nat) (button : Target) (name : string) : Async unit :=
  match n with
  | 0 => Ret tt
  | S n' =>
      d <- look ;;
      if match query d button with Some el => disabled el | None => true end
      then Ret tt
      else _ <- clickElement name ;; sleepMaybeRandom 150 ;; stepperClicks n' button name
  end.

(** [`qty-opt-${targetQty}`]. *)
Definition qtyOptionName (qty : option Z) : string :=
  "qty-opt-" ++ match qty with
                | Some q => DecimalString.NilZero.string_of_int (Z.to_int q)
                | None => "undefined"
                end.

(** [targetQty <= 1]: [undefined <= 1] is [false]. *)
Definition atMostOne (qty : option Z) : bool :=
  match qty with Some q => (q <=? 1)%Z | None => false end.

(** [setQuantity], lines 1097-1167. *)
Definition setQuantity : Async unit :=
  modify (set_currentStep "set-quantity") ;;
  s <- get ;;
  let targetQty := ss_quantity (siteSettings s) in
  if atMostOne targetQty then Ret tt
  else
    act (StatusQuantity targetQty) ;;
    incBtn <- find (Sel "productPageSelectors.quantity.stepper.increment") ;;
    decBtn <- find (Sel "productPageSelectors.quantity.stepper.decrement") ;;
    valEl <- find (Sel "productPageSelectors.quantity.stepper.value") ;;
    match incBtn, valEl with
    | Some _, Some val =>
        match targetQty, parsedInt val with
        | Some qty, Some currentVal =>
            let clicks := (qty - currentVal)%Z in
            if (0 <? clicks)%Z then
              stepperClicks (Z.abs_nat clicks)
                (Sel "productPageSelectors.quantity.stepper.increment") "qty-inc"
            else if (clicks <? 0)%Z then
              match decBtn with
              | Some _ =>
                  stepperClicks (Z.abs_nat clicks)
                    (Sel "productPageSelectors.quantity.stepper.decrement") "qty-dec"
              | None => Ret tt
              end
            else Ret tt
        | _, _ => Ret tt
        end ;;
        sleep 200
    | _, _ =>
        dropdownTrigger <- find (Sel "productPageSelectors.quantity.dropdown") ;;
        match dropdownTrigger with
        | Some trigger =>
            if isSelect trigger then
              d <- look ;;
              match dropdownOption d targetQty with
              | Some alreadySelected =>
                  if alreadySelected then Ret tt
                  else act (DomWrite "quantity dropdown value") ;; sleepMaybeRandom 400
              | None => Ret tt
              end
            else
              _ <- clickElement "qty-dd-trigger" ;;
              sleepMaybeRandom 500 ;;
              ext (CallQueryAll "productPageSelectors.quantity.dropdownOptions") ;;
              d <- look ;;
              match dropdownOption d targetQty with
              | Some _ => _ <- clickElement (qtyOptionName targetQty) ;; sleepMaybeRandom 400
              | None => Ret tt
              end
        | None => Ret tt
        end
    end.

(** ** The Buy-Now sub-document (lines 1173-1536) *)

Definition orElse {X} (a b : option X) : option X :=
  match a with Some x => Some x | None => b end.

(** Ranked strategies: the first that finds something wins. *)
Definition firstOf {X} (candidates : list (option X)) : option X :=
  fold_right orElse None candidates.

Fixpoint findIndexFrom {X} (p : X -> bool) (l : list X) (i : nat) : option nat :=
  match l with
  | [] => None
  | x :: rest => if p x then Some i else findIndexFrom p rest (S i)
  end.

Definition srcIsBuyNow (f : Iframe) : bool :=
  nonEmpty (if_src f)
  && (includes "/checkout/buy-now" (if_src f) || includes "/buy-now/checkout" (if_src f)).

(** The probing loop of lines 1204-1226; a frame that cannot be read is
    skipped. *)
Fixpoint probeIframes (frames : list Iframe) (i : nat) : Async (option nat) :=
  match frames with
  | [] => Ret None
  | f :: rest =>
      hit <- tryCatch
               (ext (CallIframeDocument i) ;;
                match if_document f with
                | None => Ret false
                | Some doc =>
                    ext (CallIframeQuery "[data-test='placeOrderButton']") ;;
                    ext (CallIframeQuery "h2") ;;
                    Ret (isSome (iquery doc "[data-test='placeOrderButton']")
                         || headingConfirmOrder doc)
                end)
               (fun _ => Ret false) ;;
      if hit then Ret (Some i) else probeIframes rest (S i)
  end.

(** [findBuyNowIframe], lines 1173-1230; the frame is named by its position. *)
Definition findBuyNowIframe : Async (option nat) :=
  ext (CallQueryAll "iframe") ;;
  d <- look ;;
  let frames := iframes d in
  match frames with
  | [] => Ret None
  | _ =>
      match findIndexFrom (fun f => String.eqb (if_id f) "buy-now-iframe") frames 0 with
      | Some i => Ret (Some i)
      | None =>
          match findIndexFrom srcIsBuyNow frames 0 with
          | Some i => Ret (Some i)
          | None => probeIframes frames 0
          end
      end
  end.

(** [withBuyNowIframe], lines 1237-1260: anything that goes wrong is "not
    found". *)
Definition withBuyNowIframe {A} (callback : IframeDoc -> Async A) : Async (option A) :=
  tryCatch
    (found <- await findBuyNowIframe ;;
     match found with
     | None => Ret None
     | Some i =>
         ext (CallIframeDocument i) ;;
         d <- look ;;
         match match nth_error (iframes d) i with
               | Some f => if_document f
               | None => None
               end with
         | Some doc => r <- await (callback doc) ;; Ret (Some r)
         | None => Ret None
         end
     end)
    (fun _ => Ret None).

Definition placeOrderStrategies (doc : IframeDoc) : option Elem :=
  firstOf [iquery doc "[data-test='placeOrderButton']";
           buttonWithText doc "Place your order";
           iquery doc "button.styles_ndsBaseButton__W8Gl7.styles_ndsButton__XOOOH";
           buttonWithText doc "place"].

Definition cvvInputStrategies (doc : IframeDoc) : option Elem :=
  firstOf [iquery doc "#enter-cvv"; inputMentioning doc "cvv"].

Definition confirmStrategies (doc : IframeDoc) : option Elem :=
  firstOf [iquery doc "[data-test='confirm-button']"; buttonWithText doc "confirm"].

Definition closeStrategies (doc : IframeDoc) : option Elem :=
  firstOf [iquery doc "div.styles_body__kQRBi button";
           iquery doc "button.styles_ndsButton__XOOOH";
           buttonWithText doc "close";
           svgButton doc].

(** The callback of [findInBuyNowIframe], lines 1268-1412. *)
Definition lookupInIframe (doc : IframeDoc) (selector : string) : option Elem :=
  firstOf [iquery doc selector;
           if includes "placeOrderButton" selector || includes "Place your order" selector
           then placeOrderStrategies doc else None;
           if includes "enter-cvv" selector || String.eqb selector "#enter-cvv"
           then cvvInputStrategies doc else None;
           if includes "confirm-button" selector || includes "Confirm" selector
           then confirmStrategies doc else None;
           if includes "close" selector || includes "styles_body__kQRBi" selector
           then closeStrategies doc else None].

(** [findInBuyNowIframe], lines 1267-1413. *)
Definition findInBuyNowIframe (selector : string) : Async (option Elem) :=
  r <- await (withBuyNowIframe
                (fun doc => ext (CallIframeQuery selector) ;; Ret (lookupInIframe doc selector))) ;;
  Ret (match r with Some found => found | None => None end).

(** [clickInBuyNowIframe], lines 1421-1445. *)
Definition clickInBuyNowIframe (selector actionName : string) : Async bool :=
  element <- await (findInBuyNowIframe selector) ;;
  match element with
  | None => Ret false
  | Some _ =>
      tryCatch
        (ext (CallIframeEvent actionName) ;;
         sleep 300 ;;
         ext (CallIframeEvent actionName) ;;
         act (IframeClick actionName) ;;
         Ret true)
        (fun _ => Ret false)
  end.

(** [fillInBuyNowIframe], lines 1454-1479. *)
Definition fillInBuyNowIframe (selector value actionName : string) : Async bool :=
  element <- await (findInBuyNowIframe selector) ;;
  match element with
  | None => Ret false
  | Some _ =>
      tryCatch
        (ext (CallIframeEvent actionName) ;;
         sleep 300 ;;
         ext (CallIframeEvent actionName) ;;
         act (IframeFill actionName value) ;;
         Ret true)
        (fun _ => Ret false)
  end.

(** [elementExistsInBuyNowIframe], lines 1486-1518. *)
Definition elementExistsInBuyNowIframe (selector : string) : Async bool :=
  r <- await (withBuyNowIframe
                (fun doc =>
                   ext (CallIframeQuery selector) ;;
                   let element :=
                     orElse (iquery doc selector)
                       (if includes "placeOrderButton" selector then
                          orElse (iquery doc "[data-test='placeOrderButton']")
                                 (buttonWithText doc "Place your order")
                        else if String.eqb selector "#enter-cvv" then
                          orElse (iquery doc "#enter-cvv")
                                 (inputMentioning doc "cvv (placeholder or name)")
                        else None) in
                   Ret (match element with
                        | Some el => offsetParent el
                        | None => false
                        end))) ;;
  Ret (match r with Some b => b | None => false end).

(** [hasErrorInBuyNowIframe], lines 1524-1536. *)
Definition hasErrorInBuyNowIframe : Async bool :=
  r <- await (withBuyNowIframe
                (fun doc =>
                   ext (CallIframeQuery "div[role='alert']") ;;
                   if alertCannotComplete doc then Ret true
                   else
                     ext (CallIframeQuery ".error, .error-message, [class*='error'], [class*='Error']") ;;
                     Ret (visibleErrorMessage doc))) ;;
  Ret (match r with Some b => b | None => false end).

(** ** The Buy-Now flow and its retry loop (lines 1543-1761) *)

Definition maxRetries : nat := 5.

Definition maxPollAttempts : nat := 10.

Definition pollIntervalMs : Q := 500.

(** The delay handed to the next retry: [Math.min(initialDelayMs * 1.5, 5000)]. *)
Definition nextDelay (initialDelayMs : Q) : Q :=
  Qmin (initialDelayMs * 1.5) 5000.

(** The lookup of lines 1578-1582. *)
Definition lookForBuyNowButton : Async (option Elem) :=
  byAttribute <- find (Css "[data-test='buy-now-button']") ;;
  match byAttribute with
  | Some el => Ret (Some el)
  | None =>
      byTag <- find (Css "button[data-test='buy-now-button']") ;;
      match byTag with
      | Some el => Ret (Some el)
      | None => ext (CallQueryAll "button") ;; d <- look ;; Ret (buyNowButtonByText d)
      end
  end.

(** The polling loop of lines 1573-1593.  [allowance] only makes the
    recursion structural; the loop is bounded by [maxPollAttempts]. *)
Fixpoint pollForBuyNowButton (allowance pollAttempts : nat) (buyNowButton : option Elem)
    : Async (option Elem) :=
  if (pollAttempts <? maxPollAttempts)%nat then
    match allowance with
    | 0 => Stuck
    | S allowance' =>
        let pollAttempts := S pollAttempts in
        act (ConsolePoll pollAttempts) ;;
        buyNowButton <- lookForBuyNowButton ;;
        if isVisible buyNowButton then Ret buyNowButton
        else
          (if (pollAttempts <? maxPollAttempts)%nat then sleep pollIntervalMs else Ret tt) ;;
          pollForBuyNowButton allowance' pollAttempts buyNowButton
    end
  else Ret buyNowButton.

(** [retryBuyNow], lines 1552-1619.  [retryCount] is the closure variable of
    the enclosing [useBuyNowCheckout] call, [restart] is the fresh
    [useBuyNowCheckout(buyNowButton)] of line 1610 (a new call has a counter
    of its own, starting at 0).  The [catch] of lines 1611-1614 guards a call
    that only builds a promise and is never entered. *)
Fixpoint retryBuyNow (restart : Async unit) (allowance retryCount : nat) (initialDelayMs : Q)
    : Async unit :=
  if (maxRetries <=? retryCount)%nat then
    updateStatus "Buy now checkout failed, please try again" StatusWaiting
  else
    match allowance with
    | 0 => Stuck
    | S allowance' =>
        let retryCount := S retryCount in
        act (ConsoleRetry retryCount initialDelayMs) ;;
        sleep initialDelayMs ;;
        buyNowButton <- pollForBuyNowButton maxPollAttempts 0 None ;;
        if isVisible buyNowButton then
          sleep 500 ;;
          modify (set_inBuyNowErrorRecovery false) ;;
          restart
        else
          retryBuyNow restart allowance' retryCount (nextDelay initialDelayMs)
    end.

(** The CVV lookup of lines 1673-1685. *)
Definition useBuyNowCheckout_cvv (profile : option Profile) : JsString :=
  match profile with
  | None => None
  | Some p =>
      if truthyStr (p_cvv p) then p_cvv p
      else if truthyStr (match p_paymentMethod p with Some pm => pm_cvv pm | None => None end)
      then match p_paymentMethod p with Some pm => pm_cvv pm | None => None end
      else if truthyStr (match p_payment p with Some pay => pay_cvv pay | None => None end)
      then match p_payment p with Some pay => pay_cvv pay | None => None end
      else None
  end.

(** The search of lines 1635-1647: up to eight looks, one second apart. *)
Fixpoint waitForPlaceOrderInIframe (left : nat) : Async bool :=
  match left with
  | 0 => Ret false
  | S left' =>
      placeOrderFound <- await (elementExistsInBuyNowIframe "[data-test='placeOrderButton']") ;;
      if placeOrderFound then Ret true
      else sleep 1000 ;; waitForPlaceOrderInIframe left'
  end.

(** The [try] block of lines 1621-1755.  It ends the flow ([None]) or hands
    a delay to [retryBuyNow] ([Some d]); the retry is returned without being
    awaited, so it runs outside the block's [catch]. *)
Definition buyNowSequence : Async (option Q) :=
  clicked <- clickElement "buy-now" ;;
  if negb clicked then Throw "Failed to click Buy Now button."
  else
    sleep 2000 ;;
    placeOrderFound <- waitForPlaceOrderInIframe 8 ;;
    if negb placeOrderFound then Ret (Some 2500%Q)
    else
      placeOrderClicked <- await (clickInBuyNowIframe "[data-test='placeOrderButton']" "place-order") ;;
      if negb placeOrderClicked then Ret (Some 1500%Q)
      else
        sleep 1500 ;;
        cvvExists <- await (elementExistsInBuyNowIframe "#enter-cvv") ;;
        if negb cvvExists then Ret (Some 1500%Q)
        else
          s <- get ;;
          match useBuyNowCheckout_cvv (profile s) with
          | Some (String c rest) =>
              cvvFilled <- await (fillInBuyNowIframe "#enter-cvv" (String c rest) "cvv") ;;
              if negb cvvFilled then Ret (Some 1500%Q)
              else
                sleep 500 ;;
                confirmClicked <- await (clickInBuyNowIframe "[data-test='confirm-button']" "confirm-cvv") ;;
                if negb confirmClicked then Ret (Some 1500%Q)
                else
                  sleep 1500 ;;
                  hasError <- await hasErrorInBuyNowIframe ;;
                  if hasError then
                    modify (set_inBuyNowErrorRecovery true) ;;
                    closeClicked <- await (clickInBuyNowIframe "div.styles_body__kQRBi button" "close-error") ;;
                    (if closeClicked then Ret tt
                     else _ <- await (clickInBuyNowIframe "button.styles_ndsButton__XOOOH" "close-error-alt") ;;
                          Ret tt) ;;
                    sleep 3500 ;;
                    spawn (modify (set_inBuyNowErrorRecovery false)) ;;
                    Ret (Some 1500%Q)
                  else
                    finalButtonExists <- await (elementExistsInBuyNowIframe "div.styles_body__kQRBi button") ;;
                    (if finalButtonExists
                     then _ <- await (clickInBuyNowIframe "div.styles_body__kQRBi button" "final-confirm") ;;
                          Ret tt
                     else Ret tt) ;;
                    updateStatus "Order successfully placed!" StatusComplete ;;
                    Ret None
          | _ => Ret None
          end.

(** The body of [useBuyNowCheckout], lines 1543-1761; [restart] is the call
    of line 1610. *)
Definition useBuyNowCheckoutWith (restart : Async unit) : Async unit :=
  modify (set_currentStep "buy-now-checkout") ;;
  updateStatus "Using Buy Now checkout..." StatusRunning ;;
  next <- tryCatch buyNowSequence (fun _ => Ret (Some 2500%Q)) ;;
  match next with
  | Some delay => retryBuyNow restart maxRetries 0 delay
  | None => Ret tt
  end.

(** [useBuyNowCheckout]: [fuel] bounds how often the flow may be restarted. *)
Fixpoint useBuyNowCheckout (fuel : nat) : Async unit :=
  useBuyNowCheckoutWith
    (match fuel with 0 => Stuck | S fuel' => useBuyNowCheckout fuel' end).

(** ** Add to cart, popups, navigation (lines 1764-1880) *)

Definition dquote : string := String (ascii_of_nat 34) EmptyString.

(** [addToCart], lines 1764-1792. *)
Definition addToCart (fuel : nat) : Async unit :=
  modify (set_currentStep "add-to-cart") ;;
  updateStatus "Adding item to cart..." StatusRunning ;;
  await setQuantity ;;
  sleep 200 ;;
  s <- get ;;
  viaBuyNow <- (if useBuyNowWhenAvailable (globalSettings s)
                then buyNowButton <- find (Css "[data-test='buy-now-button']") ;;
                     Ret (isUsable buyNowButton)
                else Ret false) ;;
  if viaBuyNow then await (useBuyNowCheckout fuel)
  else
    addButton <- find (Sel "productPageSelectors.addToCart") ;;
    choice <- match addButton with
              | Some el => Ret (Some el, "add-to-cart")
              | None =>
                  preOrder <- find (Sel "productPageSelectors.preOrderButton") ;;
                  Ret (preOrder, if isSome preOrder then "pre-order" else "add-to-cart")
              end ;;
    match fst choice with
    | None => Throw "Add to Cart/Pre-Order button not found."
    | Some actionButton =>
        if disabled actionButton
        then Throw (dquote ++ text actionButton ++ dquote ++ " button disabled.")
        else
          clicked <- clickElement (snd choice) ;;
          if clicked then Ret tt
          else Throw ("Failed to click " ++ dquote ++ text actionButton ++ dquote ++ " button.")
    end.

(** The popup picked at lines 1806-1830: the first button that is shown (and,
    for the continue button, stands outside a form). *)
Definition popupToHandle (decline noThanks continue : option Elem) : option string :=
  if isVisible decline then Some "decline-protection"
  else if isVisible noThanks then Some "no-thanks"
  else if isVisible continue
          && negb (match continue with Some el => insideForm el | None => false end)
       then Some "popup-continue"
  else None.

(** The body of [handlePopups], lines 1795-1855; [again] is the recursive
    call of line 1846, which is returned without being awaited and so runs
    outside the [catch]. *)
Definition handlePopupsWith (again : Async unit) : Async unit :=
  modify (set_currentStep "handle-popups") ;;
  updateStatus "Checking for popups..." StatusRunning ;;
  sleep 300 ;;
  more <- tryCatch
            (decline <- find (Sel "popupSelectors.declineProtectionButton") ;;
             noThanks <- find (Sel "popupSelectors.noThanksButton") ;;
             continue <- find (Sel "popupSelectors.continueButton") ;;
             match popupToHandle decline noThanks continue with
             | Some name =>
                 s <- get ;;
                 if inBuyNowErrorRecovery s then Ret false
                 else _ <- clickElement name ;; sleep 300 ;; Ret true
             | None => Ret false
             end)
            (fun _ => Ret false) ;;
  if more then again else Ret tt.

(** [handlePopups]: [fuel] bounds how many popups are dismissed in a row. *)
Fixpoint handlePopups (fuel : nat) : Async unit :=
  handlePopupsWith (match fuel with 0 => Stuck | S fuel' => handlePopups fuel' end).

(** [goDirectlyToCheckout], lines 1858-1880. *)
Definition goDirectlyToCheckout : Async unit :=
  modify (set_currentStep "go-to-checkout") ;;
  s <- get ;;
  if inBuyNowErrorRecovery s then
    act (Console "In Buy Now error recovery, skipping navigation to checkout page")
  else
    buyNowSidePanel <- find (Css "[data-test='placeOrderButton']") ;;
    if isSome buyNowSidePanel then
      act (Console "Buy Now side panel detected, skipping navigation to checkout page")
    else
      updateStatus "Navigating to checkout..." StatusRunning ;;
      act (Navigate "https://www.target.com/checkout").

(** ** The product-page pipeline (lines 889-999) *)

(** The executor of [stockCheckPromise], lines 921-940; it has no suspension
    point, so the promise is settled when the constructor returns: rejected
    with a message ([inl]) or resolved ([inr]). *)
Definition stockCheck : Async (string + unit) :=
  tryCatch
    (modify (set_currentStep "check-stock") ;;
     oosElement <- find (Sel "productPageSelectors.outOfStock") ;;
     if isVisible oosElement then Ret (inl "Item is out of stock.") else Ret (inr tt))
    (fun e => if includes "out of stock" e then Ret (inl e) else Ret (inr tt)).

(** [await Promise.all([priceCheckPromise, stockCheckPromise])], lines 943-946:
    a rejected stock check rejects the whole at once and leaves the price
    check running on its own. *)
Definition awaitPriceAndStock (priceCheckPromise : Promise bool) (stock : string + unit)
    : Async bool :=
  match stock with
  | inl e => spawn (detached priceCheckPromise) ;; suspend ;; Throw e
  | inr _ => awaitPromise priceCheckPromise
  end.

(** The four guarded steps of lines 954-988. *)
Definition stepSelectDelivery : Async unit :=
  modify (set_currentStep "select-delivery") ;;
  await selectDeliveryMethod ;;
  sleepMaybeRandom 150.

Definition stepAddToCart (fuel : nat) : Async unit :=
  modify (set_currentStep "add-to-cart") ;;
  await (addToCart fuel) ;;
  sleep 150.

Definition stepHandlePopups (fuel : nat) : Async unit :=
  modify (set_currentStep "handle-popups") ;;
  await (handlePopups fuel).

Definition stepGoToCheckout : Async unit :=
  modify (set_currentStep "go-to-checkout") ;;
  await goDirectlyToCheckout.

Definition warnSelectDelivery (e : string) : Async unit :=
  act (Console ("Error in select-delivery step: " ++ e ++ ". Continuing anyway.")).

Definition rethrowAddToCart (e : string) : Async unit :=
  act (Console ("Critical error in add-to-cart step: " ++ e)) ;; Throw e.

Definition warnPopups (e : string) : Async unit :=
  act (Console ("Error handling popups: " ++ e ++ ". Continuing anyway.")).

(** Lines 978-988: popups, then navigation. *)
Definition stepsFromPopups (fuel : nat) : Async unit :=
  tryCatch (stepHandlePopups fuel) warnPopups ;;
  stepGoToCheckout.

(** Lines 966-988. *)
Definition stepsFromAddToCart (fuel : nat) : Async unit :=
  tryCatch (stepAddToCart fuel) rethrowAddToCart ;;
  stepsFromPopups fuel.

(** Lines 955-988, the body of the inner [try]. *)
Definition productSteps (fuel : nat) : Async unit :=
  tryCatch stepSelectDelivery warnSelectDelivery ;;
  stepsFromAddToCart fuel.

(** The outer [try] block of [startCheckoutProcess], lines 898-992. *)
Definition startCheckoutBody (fuel : nat) (skipSettingsReload : bool) : Async unit :=
  (if skipSettingsReload then Ret tt else await loadSettingsAndProfile) ;;
  s <- get ;;
  if negb (isSome (profile s)) then
    updateStatus "Error: No profile selected" StatusWaiting ;;
    Throw "Cannot start checkout: No profile selected."
  else if negb (isEnabled s) then
    act (Console "Checkout start aborted: Extension disabled.") ;;
    modify (set_checkoutInProgress false)
  else
    callAsync checkProductPrice
      (fun priceCheckPromise =>
         stock <- stockCheck ;;
         priceCheckPassed <- awaitPriceAndStock priceCheckPromise stock ;;
         if negb priceCheckPassed then
           act (Console "Checkout aborted due to price check failure") ;;
           modify (set_checkoutInProgress false)
         else
           tryCatch (productSteps fuel) handleCheckoutError).

(** The outer [catch], lines 993-998. *)
Definition reportSetupError (e : string) : Async unit :=
  updateStatus ("Error: " ++ e) StatusWaiting ;;
  modify (set_checkoutInProgress false).

(** [startCheckoutProcess], lines 889-999. *)
Definition startCheckoutProcess (fuel : nat) (skipSettingsReload : bool) : Async unit :=
  s <- get ;;
  if checkoutInProgress s then act (Console "Checkout already in progress...")
  else
    modify (set_checkoutInProgress true) ;;
    updateStatus "Starting checkout..." StatusRunning ;;
    modify (set_currentStep "start") ;;
    tryCatch (startCheckoutBody fuel skipSettingsReload) reportSetupError.

(** [proceedFromCart], lines 1002-1006: one console line; nothing in the
    script calls it. *)
Definition proceedFromCart : Async unit :=
  act (Console "proceedFromCart called but all cart page processing is disabled").

(** ** Checkout page: forms (lines 1883-1996) *)

(** [profile.x] on a profile variable that may have become [null]. *)
Definition requireProfile : Async Profile :=
  s <- get ;;
  match profile s with
  | Some p => Ret p
  | None => Throw "Cannot read properties of null"
  end.

(** [fillShippingInfo], lines 1883-1947. *)
Definition fillShippingInfo : Async unit :=
  modify (set_currentStep "fill-shipping") ;;
  updateStatus "Checking shipping info..." StatusRunning ;;
  s <- get ;;
  if negb (isSome (profile s)) then Throw "Profile missing for shipping."
  else
    shippingContinueBtn <- find (Sel "checkoutPageSelectors.continueButtons.shipping") ;;
    if isVisible shippingContinueBtn then
      _ <- clickElement "shipping-continue" ;; sleep 500
    else
      updateStatus "Filling shipping info..." StatusRunning ;;
      shippingFormContainer <- waitForElement (Sel "checkoutPageSelectors.shippingForm") 5000 ;;
      if negb (isSome shippingFormContainer) then
        paymentForm <- find (Sel "checkoutPageSelectors.paymentForm") ;;
        if isSome paymentForm then Ret tt
        else _ <- find (Sel "checkoutPageSelectors.placeOrderButton") ;; Ret tt
      else
        d <- look ;;
        p <- requireProfile ;;
        fillFieldBySelectors "shippingFields.firstName" (p_firstName p) ;; sleep 200 ;;
        fillFieldBySelectors "shippingFields.lastName" (p_lastName p) ;; sleep 200 ;;
        fillFieldBySelectors "shippingFields.address1" (p_address1 p) ;; sleep 200 ;;
        (if truthyStr (p_address2 p)
         then fillFieldBySelectors "shippingFields.address2" (p_address2 p) ;; sleep 200
         else Ret tt) ;;
        fillFieldBySelectors "shippingFields.city" (p_city p) ;; sleep 200 ;;
        fillFieldBySelectors "shippingFields.state" (p_state p) ;; sleep 200 ;;
        fillFieldBySelectors "shippingFields.zip" (p_zip p) ;; sleep 200 ;;
        fillFieldBySelectors "shippingFields.phone" (p_phone p) ;; sleep 200 ;;
        emailField <- (if emailFieldConfigured d
                       then find (Sel "checkoutPageSelectors.shippingFields.email")
                       else Ret None) ;;
        (if isSome emailField
         then fillFieldBySelectors "shippingFields.email" (p_email p) ;; sleep 200
         else Ret tt) ;;
        continueBtn <- find (Sel "checkoutPageSelectors.continueButtons.shipping") ;;
        if isVisible continueBtn
        then _ <- clickElement "shipping-continue" ;; sleep 500
        else Ret tt.

(** [`${x}`] of a property that may be missing. *)
Definition interpolate (v : JsString) : string :=
  match v with Some s => s | None => "undefined" end.

(** [fillPaymentInfo], lines 1950-1996. *)
Definition fillPaymentInfo : Async unit :=
  modify (set_currentStep "fill-payment") ;;
  updateStatus "Filling payment info..." StatusRunning ;;
  s <- get ;;
  match profile s with
  | None => Throw "Profile missing for payment."
  | Some p0 =>
      if negb (isSome (p_paymentMethod p0)) then Ret tt
      else
        addPaymentBtn <- find (Sel "checkoutPageSelectors.addPaymentButton") ;;
        (if isVisible addPaymentBtn
         then _ <- clickElement "add-payment" ;; sleep 1000
         else Ret tt) ;;
        paymentForm <- waitForElement (Sel "checkoutPageSelectors.paymentForm") 6000 ;;
        if negb (isSome paymentForm) then Ret tt
        else
          cardFrame <- find (Sel "checkoutPageSelectors.cardNumberFrame") ;;
          if isSome cardFrame then Ret tt
          else
            prof <- requireProfile ;;
            match p_paymentMethod prof with
            | None => Throw "Cannot read properties of undefined"
            | Some p =>
                fillFieldBySelectors "paymentFields.cardNumber" (pm_cardNumber p) ;; sleep 300 ;;
                fillFieldBySelectors "paymentFields.nameOnCard"
                  (if truthyStr (pm_nameOnCard p) then pm_nameOnCard p
                   else Some (interpolate (p_firstName prof) ++ " " ++ interpolate (p_lastName prof))%string) ;;
                sleep 300 ;;
                fillFieldBySelectors "paymentFields.expiryMonth" (pm_expiryMonth p) ;; sleep 200 ;;
                fillFieldBySelectors "paymentFields.expiryYear" (pm_expiryYear p) ;; sleep 200 ;;
                fillFieldBySelectors "paymentFields.cvv" (pm_cvv p) ;; sleep 500
            end
  end.

(** ** Checkout page: verification handlers (lines 1999-2184) *)

(** The CVV lookup of lines 2014-2026. *)
Definition handleCVVConfirmation_cvv (profile : option Profile) : JsString :=
  match profile with
  | None => None
  | Some p =>
      if truthyStr (p_cvv p) then p_cvv p
      else if truthyStr (match p_paymentMethod p with Some pm => pm_cvv pm | None => None end)
      then match p_paymentMethod p with Some pm => pm_cvv pm | None => None end
      else if truthyStr (match p_payment p with Some pay => pay_cvv pay | None => None end)
      then match p_payment p with Some pay => pay_cvv pay | None => None end
      else None
  end.

(** [handleCVVConfirmation], lines 1999-2074. *)
Definition handleCVVConfirmation : Async unit :=
  s <- get ;;
  if isFillingCvvInput s || confirmButtonClicked s then Ret tt
  else
    modify (set_currentStep "handle-cvv") ;;
    updateStatus "Confirming CVV..." StatusRunning ;;
    modify (set_isFillingCvvInput true) ;;
    tryFinally
      (tryCatch
         (await loadSettingsAndProfile ;;
          s <- get ;;
          let cvv := handleCVVConfirmation_cvv (profile s) in
          if negb (truthyStr cvv) then Ret tt
          else
            cvvInput <- find (Sel "checkoutPageSelectors.cvvVerification.input") ;;
            if negb (isVisible cvvInput) then Ret tt
            else
              fillField "cvv-verification" cvv ;;
              sleep 500 ;;
              confirmBtn <- find (Sel "checkoutPageSelectors.cvvVerification.confirmButton") ;;
              if isUsable confirmBtn then
                s <- get ;;
                if confirmButtonClicked s then Ret tt
                else
                  modify (set_confirmButtonClicked true) ;;
                  _ <- clickElement "cvv-confirm" ;;
                  sleep 1000
              else Ret tt)
         (fun _ => Ret tt))
      (modify (set_isFillingCvvInput false)).

(** The card-number lookup of lines 2092-2104. *)
Definition handleCreditCardConfirmation_cardNumber (profile : option Profile) : JsString :=
  match profile with
  | None => None
  | Some p =>
      if truthyStr (p_cardNumber p) then p_cardNumber p
      else match p_paymentMethod p with
           | Some pm => if truthyStr (pm_cardNumber pm) then pm_cardNumber pm else None
           | None => None
           end
  end.

(** The value handed to [utils.fillField] at line 2145: [profile.cardNumber]. *)
Definition handleCreditCardConfirmation_filled (p : Profile) : JsString :=
  p_cardNumber p.

(** [handleCreditCardConfirmation], lines 2077-2184. *)
Definition handleCreditCardConfirmation : Async unit :=
  s <- get ;;
  if isFillingCardInput s || verifyCardButtonClicked s then Ret tt
  else
    modify (set_currentStep "handle-card-verification") ;;
    updateStatus "Verifying card..." StatusRunning ;;
    modify (set_isFillingCardInput true) ;;
    tryFinally
      (tryCatch
         (await loadSettingsAndProfile ;;
          s <- get ;;
          let cardNumber := handleCreditCardConfirmation_cardNumber (profile s) in
          if negb (truthyStr cardNumber) then
            updateStatus "Error: Missing card number in profile" StatusWaiting ;;
            modify (set_isFillingCardInput false)
          else
            direct <- find (Css "#credit-card-number-input") ;;
            viaTable <- (if isSome direct then Ret direct
                         else find (Sel "checkoutPageSelectors.cardVerification.input")) ;;
            cardInput <- (if isSome viaTable then Ret viaTable
                          else find (Css "input[type='tel']")) ;;
            if negb (isVisible cardInput) then Ret tt
            else
              act (DomWrite "card input focused") ;;
              sleep 200 ;;
              act (DomWrite "card input cleared") ;;
              sleep 200 ;;
              p <- requireProfile ;;
              fillField "card-verification" (handleCreditCardConfirmation_filled p) ;;
              sleep 500 ;;
              viaTable <- find (Sel "checkoutPageSelectors.cardVerification.verifyButton") ;;
              viaAttribute <- (if isSome viaTable then Ret viaTable
                               else find (Css "button[data-test='verify-card-button']")) ;;
              verifyBtn <- (if isSome viaAttribute then Ret viaAttribute
                            else ext (CallQueryAll "button") ;;
                                 d <- look ;; Ret (verifyButtonByText d)) ;;
              if isUsable verifyBtn then
                s <- get ;;
                if verifyCardButtonClicked s then Ret tt
                else
                  modify (set_verifyCardButtonClicked true) ;;
                  _ <- clickElement "verify-card" ;;
                  sleep 1000
              else Ret tt)
         (fun _ => Ret tt))
      (modify (set_isFillingCardInput false)).

(** ** Checkout page: placing the order (lines 2190-2373) *)

(** [checkForHighDemandMessage], lines 2190-2218. *)
Definition checkForHighDemandMessage : Async bool :=
  tryCatch
    (ext (CallFind (Css ".styles_content__WBF0i")) ;;
     d <- look ;;
     if highDemandContent d then Ret true
     else
       ext (CallQueryAll ".error, .error-message, [class*='error'], [class*='Error'], [class*='content']") ;;
       Ret (highDemandFallback d))
    (fun _ => Ret false).

(** The callback of the retry timer installed at lines 2238-2264. *)
Definition highDemandRetryTick : Async unit :=
  tryCatch
    (placeOrderBtn <- find (Sel "checkoutPageSelectors.placeOrderButton") ;;
     (if isVisible placeOrderBtn then
        modify (set_placeOrderButtonClicked false) ;;
        fireAndForget (clickElement "high-demand-retry") ;;
        modify (set_placeOrderButtonClicked true)
      else Ret tt) ;;
     highDemand <- checkForHighDemandMessage ;;
     if highDemand then Ret tt
     else
       s <- get ;;
       match highDemandRetryInterval s with
       | Some h => act (ClearInterval h) ;; modify (set_highDemandRetryInterval None)
       | None => modify (set_highDemandRetryInterval None)
       end)
    (fun _ => Ret tt).

(** Lines 2237-2268: install the retry timer unless one is installed. *)
Definition installHighDemandRetry : Async unit :=
  s <- get ;;
  match highDemandRetryInterval s with
  | Some _ => Ret tt
  | None =>
      let h := nextHandle s in
      act (SetInterval h 3000) ;;
      modify (set_highDemandRetryInterval (Some h)) ;;
      modify (set_nextHandle (S h)) ;;
      modify (fun s => set_intervals (intervals s ++ [h]) s)
  end.

(** What follows the click on the place-order button, lines 2341-2372:
    a verification form resets the flags, is handled, and the order is
    placed again. *)
Definition afterPlaceOrderClick (again : Async unit) : Async unit :=
  sleep 2000 ;;
  postClickCvv <- find (Sel "checkoutPageSelectors.cvvVerification.input") ;;
  if isSome postClickCvv then
    modify (set_confirmButtonClicked false) ;;
    modify (set_placeOrderButtonClicked false) ;;
    await handleCVVConfirmation ;;
    sleep 1000 ;;
    await again
  else
    postClickCard <- find (Sel "checkoutPageSelectors.cardVerification.input") ;;
    if isSome postClickCard then
      modify (set_verifyCardButtonClicked false) ;;
      modify (set_placeOrderButtonClicked false) ;;
      await handleCreditCardConfirmation ;;
      sleep 1000 ;;
      await again
    else
      updateStatus "Order successfully placed!" StatusComplete.

(** The guarded click, lines 2330-2338, and what follows it. *)
Definition submitOrder (again : Async unit) : Async unit :=
  s <- get ;;
  if placeOrderButtonClicked s then Ret tt
  else
    modify (set_placeOrderButtonClicked true) ;;
    updateStatus "Submitting order..." StatusRunning ;;
    _ <- clickElement "place-order" ;;
    afterPlaceOrderClick again.

(** The body of [placeOrder], lines 2221-2373; [again] is the recursive call
    of lines 2353 and 2367. *)
Definition placeOrderWith (again : Async unit) : Async unit :=
  modify (set_currentStep "place-order") ;;
  s <- get ;;
  if negb (autoSubmit (globalSettings s)) then
    updateStatus "Order ready - Submit disabled" StatusComplete
  else
    updateStatus "Placing order..." StatusRunning ;;
    highDemand <- checkForHighDemandMessage ;;
    (if highDemand then
       updateStatus "High demand message detected - auto-retrying..." StatusRunning ;;
       installHighDemandRetry
     else Ret tt) ;;
    cvvInput <- find (Sel "checkoutPageSelectors.cvvVerification.input") ;;
    if isSome cvvInput then
      modify (set_placeOrderButtonClicked false) ;;
      await handleCVVConfirmation
    else
      cardInput <- find (Sel "checkoutPageSelectors.cardVerification.input") ;;
      if isSome cardInput then
        modify (set_placeOrderButtonClicked false) ;;
        await handleCreditCardConfirmation
      else
        termsCheckbox <- find (Sel "checkoutPageSelectors.termsCheckbox") ;;
        (if isVisible termsCheckbox
            && negb (match termsCheckbox with Some el => checked el | None => false end)
         then act (DomWrite "terms checkbox checked") ;; sleep 500
         else Ret tt) ;;
        placeOrderBtn <- find (Sel "checkoutPageSelectors.placeOrderButton") ;;
        match placeOrderBtn with
        | None => Ret tt
        | Some btn =>
            if negb (visible btn) then Ret tt
            else if disabled btn then
              saveAndContinueBtn <- find (Sel "checkoutPageSelectors.continueButtons.saveAndContinue") ;;
              if isUsable saveAndContinueBtn then
                updateStatus "Continuing checkout steps..." StatusRunning ;;
                _ <- clickElement "save-and-continue" ;;
                sleep 1500 ;;
                modify (set_placeOrderButtonClicked false)
              else Ret tt
            else submitOrder again
        end.

(** [placeOrder]: [fuel] bounds how often the order is re-placed after a
    verification step. *)
Fixpoint placeOrder (fuel : nat) : Async unit :=
  placeOrderWith (match fuel with 0 => Stuck | S fuel' => placeOrder fuel' end).

(** ** The checkout-page pipeline (lines 1009-1085) *)

(** The priority checks of lines 1047-1082. *)
Definition checkoutStepDispatch (fuel : nat) : Async unit :=
  modify (set_currentStep "check-cvv") ;;
  cvv <- find (Sel "checkoutPageSelectors.cvvVerification.input") ;;
  if isSome cvv then
    await handleCVVConfirmation ;; sleep 1500 ;; await (placeOrder fuel)
  else
    modify (set_currentStep "check-card-verify") ;;
    card <- find (Sel "checkoutPageSelectors.cardVerification.input") ;;
    if isSome card then
      await handleCreditCardConfirmation ;; sleep 1500 ;; await (placeOrder fuel)
    else
      modify (set_currentStep "check-place-order") ;;
      button <- find (Sel "checkoutPageSelectors.placeOrderButton") ;;
      if isSome button then await (placeOrder fuel)
      else
        modify (set_currentStep "check-payment-form") ;;
        paymentForm <- find (Sel "checkoutPageSelectors.paymentForm") ;;
        if isSome paymentForm then
          await fillPaymentInfo ;; sleep 1500 ;; await (placeOrder fuel)
        else
          modify (set_currentStep "check-shipping-form") ;;
          shippingForm <- find (Sel "checkoutPageSelectors.shippingForm") ;;
          if isSome shippingForm then
            await fillShippingInfo ;; sleep 1500 ;;
            await fillPaymentInfo ;; sleep 1500 ;;
            await (placeOrder fuel)
          else
            modify (set_currentStep "fallback-check") ;;
            await fillPaymentInfo ;; sleep 1500 ;; await (placeOrder fuel).

(** The [try]/[catch]/[finally] of [continueCheckoutProcess], lines
    1019-1084; [again] is the re-entry of line 1038.  It sits inside the
    [try] of the loading probe: an exception it raises is caught there, and
    the step dispatch follows. *)
Definition continueCheckoutAttempt (fuel : nat) (again : Async unit) : Async unit :=
  tryFinally
    (tryCatch
       (sleep 500 ;;
        reentered <- tryCatch
                       (modify (set_currentStep "wait-for-load") ;;
                        d <- look ;;
                        if spinnerSelectorsIsArray d then
                          loader <- find (Sel "checkoutPageSelectors.loadingSpinner") ;;
                          if isVisible loader then
                            sleep 2000 ;;
                            modify (set_checkoutInProgress false) ;;
                            await again ;;
                            Ret true
                          else Ret false
                        else Ret false)
                       (fun _ => Ret false) ;;
        if reentered then Ret tt else checkoutStepDispatch fuel)
       handleCheckoutError)
    (modify (set_checkoutInProgress false)).

(** The body of [continueCheckoutProcess], lines 1009-1085. *)
Definition continueCheckoutProcessWith (fuel : nat) (again : Async unit) : Async unit :=
  s <- get ;;
  if checkoutInProgress s then act (Console "Checkout continuation already in progress.")
  else
    await loadSettingsAndProfile ;;
    s <- get ;;
    if negb (isSome (profile s)) then
      updateStatus "Error: No profile for checkout" StatusWaiting ;;
      Throw "Cannot continue checkout: No profile selected."
    else if negb (isEnabled s) then
      act (Console "Continue checkout aborted: Extension disabled.")
    else
      modify (set_checkoutInProgress true) ;;
      updateStatus "Continuing checkout..." StatusRunning ;;
      modify (set_currentStep "continue-checkout") ;;
      continueCheckoutAttempt fuel again.

(** [continueCheckoutProcess]: [fuel] bounds the re-entries while the page
    shows its loading indicator (and the re-placed orders of [placeOrder]). *)
Fixpoint continueCheckoutProcess (fuel : nat) : Async unit :=
  continueCheckoutProcessWith fuel
    (match fuel with 0 => Stuck | S fuel' => continueCheckoutProcess fuel' end).

(** The call of line 1038, with the allowance that is left. *)
Definition reentry (fuel : nat) : Async unit :=
  match fuel with 0 => Stuck | S fuel' => continueCheckoutProcess fuel' end.

(** ** The two watcher channels (lines 2378-2475) *)

(** [el && el.offsetParent !== null]. *)
Definition isDisplayed (o : option Elem) : bool :=
  match o with Some el => offsetParent el | None => false end.

(** The entry test of both channels, lines 2400 and 2440. *)
Definition watcherIdle (s : RunState) : bool :=
  negb (isEnabled s) || isFillingCvvInput s || isFillingCardInput s.

(** The checks both channels make, in priority order: lines 2404-2426,
    repeated at lines 2445-2466.  The handlers are started and left to
    themselves (their rejections are only logged). *)
Definition watcherChecks (fuel : nat) : Async unit :=
  s <- get ;;
  cvvInput <- find (Css "#enter-cvv") ;;
  if isDisplayed cvvInput && negb (confirmButtonClicked s) then
    fireAndForget handleCVVConfirmation
  else
    cardInput <- find (Css "#credit-card-number-input") ;;
    if isDisplayed cardInput && negb (verifyCardButtonClicked s) then
      fireAndForget handleCreditCardConfirmation
    else
      placeOrderBtn <- find (Css "button[data-test='placeOrderButton']") ;;
      if isDisplayed placeOrderBtn
         && negb (match placeOrderBtn with Some el => disabledProp el | None => false end)
         && negb (placeOrderButtonClicked s)
      then fireAndForget (placeOrder fuel)
      else Ret tt.

(** The callback of the [MutationObserver], lines 2398-2427. *)
Definition checkoutObserverCallback (fuel : nat) : Async unit :=
  s <- get ;;
  if watcherIdle s then Ret tt else watcherChecks fuel.

(** The callback of the safety interval, lines 2438-2470. *)
Definition safetyIntervalCallback (fuel : nat) : Async unit :=
  s <- get ;;
  if watcherIdle s then Ret tt
  else tryCatch (watcherChecks fuel) (fun _ => Ret tt).

(** [setupCheckoutPageObservers], lines 2378-2475: the callbacks are started
    by the page, not by this function. *)
Definition setupCheckoutPageObservers : Async unit :=
  s <- get ;;
  disconnectAll (observers s) ;;
  modify (set_observers []) ;;
  clearAll (intervals s) ;;
  modify (set_intervals []) ;;
  modify (set_placeOrderButtonClicked false) ;;
  modify (set_confirmButtonClicked false) ;;
  modify (set_verifyCardButtonClicked false) ;;
  modify (set_isFillingCardInput false) ;;
  modify (set_isFillingCvvInput false) ;;
  s <- get ;;
  let observer := nextHandle s in
  let interval := S (nextHandle s) in
  act (Observe observer) ;;
  modify (fun s => set_observers (observers s ++ [observer]) s) ;;
  act (SetInterval interval 5000) ;;
  modify (fun s => set_intervals (intervals s ++ [interval]) s) ;;
  modify (set_nextHandle (S interval)).

(** ** Page detection and activation (lines 416-540) *)

(** [initiateCheckout], lines 441-465. *)
Definition initiateCheckout (fuel : nat) : Async unit :=
  tryCatch
    (fireAndForget
       (r <- attempt (startCheckoutProcess fuel true) ;;
        match r with
        | inr _ => Ret tt
        | inl e =>
            suspend ;;
            if includes "lookup route" e then
              updateStatus "Working around route error..." StatusRunning ;;
              spawn (tryCatch (startCheckoutProcess fuel true) handleCheckoutError)
            else handleCheckoutError e
        end))
    handleCheckoutError.

(** [handlePageDetection], lines 416-518. *)
Definition handlePageDetection (fuel : nat) (pageType : PageType) : Async unit :=
  cleanup ;;
  match pageType with
  | PageCart => updateStatus "Cart page detected (automation disabled)" StatusWaiting
  | _ =>
      tryCatch
        (s <- get ;;
         if isEnabled s then
           match pageType with
           | PageProduct =>
               updateStatus "Ready on product page" StatusRunning ;;
               fireAndForget
                 (tryCatch
                    (loadSettingsAndProfile ;;
                     suspend ;;
                     d <- look ;;
                     if readyStateLoaded d then initiateCheckout fuel
                     else
                       spawn (initiateCheckout fuel) ;;
                       spawn (initiateCheckout fuel))
                    (fun _ => updateStatus "Error loading settings" StatusWaiting))
           | PageCheckout =>
               updateStatus "Continuing on checkout page" StatusRunning ;;
               setupCheckoutPageObservers ;;
               fireAndForget
                 (tryCatch
                    (loadSettingsAndProfile ;;
                     suspend ;;
                     spawn (tryCatch (continueCheckoutProcess fuel) handleCheckoutError))
                    (fun _ => updateStatus "Error loading settings" StatusWaiting))
           | PageRegistry =>
               updateStatus "Gift registry page detected (not supported)" StatusWaiting
           | _ => updateStatus "On non-targetable Target page" StatusWaiting
           end
         else
           updateStatus
             (match pageType with
              | PageProduct => "Product page detected (Disabled)"
              | PageCheckout => "Checkout page detected (Disabled)"
              | PageRegistry => "Gift registry page detected (not supported)"
              | _ => "Non-targetable Target page"
              end) StatusWaiting)
        (fun _ => updateStatus "Error handling page detection" StatusWaiting)
  end.

(** [onActivate], lines 523-540. *)
Definition onActivate (fuel : nat) : Async unit :=
  d <- look ;;
  if String.eqb (pathname d) "/cart" then
    updateStatus "Cart page detected (automation disabled)" StatusWaiting
  else
    fireAndForget
      (loadSettingsAndProfile ;;
       suspend ;;
       d <- look ;;
       match detectCurrentPage d with
       | PageCart => Ret tt
       | pageType => handlePageDetection fuel pageType
       end).

(** ** The command channel (lines 265-376) *)

(** A partial update of the site settings: only the keys present are merged. *)
Record SiteSettingsUpdate := {
  u_enabled : option bool;
  u_quantity : option Z;
  u_profileId : option string
}.

Record GlobalSettingsUpdate := {
  u_autoSubmit : option bool;
  u_randomizeDelay : option bool;
  u_useBuyNowWhenAvailable : option bool;
  u_autoCloseCart : option bool
}.

Definition orKeep {X} (update : option X) (current : X) : X :=
  match update with Some x => x | None => current end.

(** [Object.assign(siteSettings, message.siteSettings)]. *)
Definition mergeSiteSettings (u : SiteSettingsUpdate) (ss : SiteSettings) : SiteSettings :=
  {| ss_enabled := orKeep (u_enabled u) (ss_enabled ss);
     ss_quantity := match u_quantity u with
                    | Some qty => Some qty
                    | None => ss_quantity ss
                    end;
     ss_profileId := orKeep (u_profileId u) (ss_profileId ss) |}.

(** [Object.assign(globalSettings, message.globalSettings)]. *)
Definition mergeGlobalSettings (u : GlobalSettingsUpdate) (g : GlobalSettings) : GlobalSettings :=
  {| autoSubmit := orKeep (u_autoSubmit u) (autoSubmit g);
     randomizeDelay := orKeep (u_randomizeDelay u) (randomizeDelay g);
     useBuyNowWhenAvailable := orKeep (u_useBuyNowWhenAvailable u) (useBuyNowWhenAvailable g);
     autoCloseCart := orKeep (u_autoCloseCart u) (autoCloseCart g) |}.

Inductive Message :=
| DetectPage (site : string) (type : PageType)
| ActivateSite (site : string) (settings : option SiteSettings)
| ToggleStatus (enabled : bool)
| UpdateSiteSetting (site : string) (update : SiteSettingsUpdate)
| UpdateGlobalSetting (update : GlobalSettingsUpdate)
| ProfileUpdated
| ProfileSelected.

(** After the effective enabled state changed from [was]: lines 288-292,
    303-307 and 334-335. *)
Definition enabledChanged (fuel : nat) (was : bool) : Async unit :=
  s <- get ;;
  if negb was && isEnabled s then onActivate fuel
  else if was && negb (isEnabled s) then cleanup
  else Ret tt.

(** The listener installed by [setupListeners], lines 266-374. *)
Definition onMessage (fuel : nat) (message : Message) : Async unit :=
  match message with
  | DetectPage site type =>
      if String.eqb site "target" then
        match type with
        | PageCart => Ret tt
        | _ => handlePageDetection fuel type
        end
      else Ret tt
  | ActivateSite site settings =>
      if String.eqb site "target" then
        s <- get ;;
        modify (fun s => set_siteSettings (orKeep settings (siteSettings s)) s) ;;
        modify (fun s => set_isEnabled (ss_enabled (siteSettings s)) s) ;;
        enabledChanged fuel (isEnabled s)
      else Ret tt
  | ToggleStatus globalEnabled =>
      s <- get ;;
      modify (set_isEnabled (globalEnabled && ss_enabled (siteSettings s))) ;;
      if isEnabled s && negb (globalEnabled && ss_enabled (siteSettings s)) then cleanup
      else if negb (isEnabled s) && globalEnabled && ss_enabled (siteSettings s)
      then onActivate fuel
      else Ret tt
  | UpdateSiteSetting site update =>
      if String.eqb site "target" then
        modify (fun s => set_siteSettings (mergeSiteSettings update (siteSettings s)) s) ;;
        (if isSome (u_enabled update) then
           s <- get ;;
           modify (fun s => set_isEnabled (ss_enabled (siteSettings s)) s) ;;
           s' <- get ;;
           if isEnabled s && negb (isEnabled s') then cleanup
           else if negb (isEnabled s) && isEnabled s' then onActivate fuel
           else Ret tt
         else Ret tt) ;;
        (if isSome (u_profileId update)
         then fireAndForget loadSettingsAndProfile
         else Ret tt) ;;
        act SendResponse
      else Ret tt
  | UpdateGlobalSetting update =>
      modify (fun s => set_globalSettings (mergeGlobalSettings update (globalSettings s)) s)
  | ProfileUpdated => fireAndForget loadSettingsAndProfile
  | ProfileSelected => fireAndForget loadSettingsAndProfile
  end.

(** [setupListeners], lines 265-376: the listener itself is [onMessage]. *)
Definition setupListeners : Async unit :=
  act AddMessageListener.

(** ** Script start (lines 8-156) *)

(** [init], lines 141-156.  The page type computed at line 155 is only
    logged. *)
Definition init : Async unit :=
  d <- look ;;
  if String.eqb (pathname d) "/cart" then
    updateStatus "Cart page detected (automation disabled)" StatusWaiting
  else
    await loadSettingsAndProfile ;;
    setupListeners ;;
    d <- look ;;
    let _ := detectCurrentPage d in
    Ret tt.

(** The variables declared at lines 120-133 and 686; [{}] for both settings
    objects: every flag reads as [false], the profile id as [''], and the
    quantity is [undefined]. *)
Definition declareState (s : RunState) : RunState :=
  {| isEnabled := false;
     siteSettings := {| ss_enabled := false; ss_quantity := None; ss_profileId := "" |};
     globalSettings := {| autoSubmit := false; randomizeDelay := false;
                          useBuyNowWhenAvailable := false; autoCloseCart := false |};
     checkoutInProgress := false;
     currentStep := "";
     profile := None;
     placeOrderButtonClicked := false;
     confirmButtonClicked := false;
     verifyCardButtonClicked := false;
     isFillingCardInput := false;
     isFillingCvvInput := false;
     inBuyNowErrorRecovery := false;
     observers := [];
     intervals := [];
     priceCheckAlertShown := false;
     highDemandRetryInterval := highDemandRetryInterval s;
     targetContentScriptExecuted := targetContentScriptExecuted s;
     nextHandle := nextHandle s |}.

(** [initializeTargetCheckout], lines 113-136. *)
Definition initializeTargetCheckout : Async unit :=
  modify declareState ;;
  fireAndForget init.

(** The cart branch of the script, lines 10-58. *)
Definition cartBranch : Async unit :=
  updateStatus "Cart page detected - checking auto-close setting" StatusWaiting ;;
  fireAndForget autoCloseCartPage ;;
  modify (set_targetContentScriptExecuted true).

(** The other branch, lines 59-112 (and the function it calls). *)
Definition engineBranch : Async unit :=
  s <- get ;;
  if targetContentScriptExecuted s then Ret tt
  else
    modify (set_targetContentScriptExecuted true) ;;
    initializeTargetCheckout.

(** The script as injected, lines 8-112. *)
Definition contentScript : Async unit :=
  d <- look ;;
  if String.eqb (pathname d) "/cart" then cartBranch else engineBranch.

(** What the script does on a cart page and nothing else: its three status
    lines, the read of [globalSettings] for the auto-close option, and
    [window.close()]. *)
Definition cartPageAction (a : Action) : bool :=
  match a with
  | Status msg _ =>
      existsb (String.eqb msg)
        ["Cart page detected - checking auto-close setting";
         "Auto-closing cart page...";
         "Cart page detected (automation disabled)"]
  | ChromeStorageGet [key] => String.eqb key "globalSettings"
  | CloseTab => true
  | _ => false
  end.

(** Every other action: loading the engine's settings, the price check, a
    pipeline start, the installation of a watcher, a click, a navigation. *)
Definition automationStep (a : Action) : bool := negb (cartPageAction a).

(* ================================================================== *)
(** * Notions the properties are stated with *)

(** ** Chains that leave a variable alone

    [Preserves proj t]: no assignment in [t] changes [proj] of the run state
    (chains [t] merely starts are not looked into: [run] does not run them). *)

Section PreservesDef.
Context {X : Type} (proj : RunState -> X).

Fixpoint Preserves {A} (t : Async A) : Prop :=
  match t with
  | Ret _ => True
  | Throw _ => True
  | Stuck => True
  | Get k => forall s, Preserves (k s)
  | Modify f k => (forall s, proj (f s) = proj s) /\ Preserves k
  | Look k => forall d, Preserves (k d)
  | Act _ k => Preserves k
  | Await k => Preserves k
  | Spawn _ k => Preserves k
  end.

Definition PreservesPromise {A} (p : Promise A) : Prop :=
  match p with
  | Settled _ => True
  | Pending rest => Preserves rest
  end.

End PreservesDef.

(** ** Calls that are not awaited *)

(** What [callAsync m k] has done when [k] takes over: [m] has run up to its
    first suspension. *)
Fixpoint startOf {A} (w : nat -> Dom) (m : Async A) (c : Config) : option (Promise A) * Config :=
  match m with
  | Ret a => (Some (Settled (inr a)), c)
  | Throw e => (Some (Settled (inl e)), c)
  | Stuck => (None, c)
  | Get k => startOf w (k (cst c)) c
  | Modify f k => startOf w k (withState f c)
  | Look k => startOf w (k (w (clock c))) c
  | Act a k => startOf w k (logged a c)
  | Await k => (Some (Pending k), c)
  | Spawn t k => startOf w k (withSpawned t c)
  end.

(** ** The last action of a trace *)

Definition lastAction (l : list Action) : option Action :=
  match rev l with
  | a :: _ => Some a
  | [] => None
  end.

(** Completion of the go-to-checkout step, read off the trace. *)
Definition checkoutNavigationDone (l : list Action) : bool :=
  match lastAction l with
  | Some (Navigate _) => true
  | Some (Console m) =>
      String.eqb m "In Buy Now error recovery, skipping navigation to checkout page"
      || String.eqb m "Buy Now side panel detected, skipping navigation to checkout page"
  | _ => false
  end.

(** ** Example pages and states *)

Definition plainElem : Elem :=
  {| visible := true; disabled := false; offsetParent := true; disabledProp := false;
     checked := false; insideForm := false; isSelect := false; text := "";
     dollarPrefixed := false; parsedPrice := None; parsedInt := None |}.

Definition emptyStorage : Storage :=
  {| st_siteSettingsTarget := None; st_globalSettings := None;
     st_price_check_enabled := false; st_price_check_closeTabOnFail := false;
     st_price_check_items := None |}.

Definition onPage (shown : list Target) : Target -> option Elem :=
  fun t => if existsb (Target_eqb t) shown then Some plainElem else None.

Definition pageDom (url path : string) (shown : list Target) (data : Storage)
    (failing : Call -> option string) : Dom :=
  {| href := url; pathname := path; readyStateLoaded := true;
     query := onPage shown; waitFor := onPage shown;
     fails := failing; clickOk := fun _ => true;
     stored := data;
     profileData := {| pd_profiles := []; pd_selectedProfileId := "" |};
     urlTcin := None; dataTcin := None; fallbackPriceElems := []; structuredPrice := None;
     highDemandContent := false; highDemandFallback := false;
     buyNowButtonByText := None; verifyButtonByText := None;
     iframes := []; spinnerSelectorsIsArray := true; emailFieldConfigured := false;
     dropdownOption := fun _ => None |}.

Definition noFailure : Call -> option string := fun _ => None.

Definition exampleProfile : Profile :=
  {| p_id := "p1"; p_name := "Main";
     p_firstName := Some "Ada"; p_lastName := Some "Lovelace";
     p_address1 := Some "1 Main St"; p_address2 := None;
     p_city := Some "Springfield"; p_state := Some "IL"; p_zip := Some "62701";
     p_phone := Some "5550100"; p_email := Some "ada@example.com";
     p_cvv := Some "111"; p_cardNumber := Some "4111111111111111";
     p_paymentMethod := None; p_payment := None |}.

Definition exampleState : RunState :=
  {| isEnabled := true;
     siteSettings := {| ss_enabled := true; ss_quantity := Some 1%Z; ss_profileId := "p1" |};
     globalSettings := defaultGlobalSettings;
     checkoutInProgress := false; currentStep := ""; profile := Some exampleProfile;
     placeOrderButtonClicked := false; confirmButtonClicked := false;
     verifyCardButtonClicked := false; isFillingCardInput := false;
     isFillingCvvInput := false; inBuyNowErrorRecovery := false;
     observers := []; intervals := []; priceCheckAlertShown := false;
     highDemandRetryInterval := None; targetContentScriptExecuted := true;
     nextHandle := 1 |}.

Definition productPage : Dom :=
  pageDom "https://www.target.com/p/item/-/A-12345" "/p/item/-/A-12345"
    [Sel "productPageSelectors.addToCart"] emptyStorage noFailure.

Definition loadedStorage : Storage :=
  {| st_siteSettingsTarget := Some {| ss_enabled := true; ss_quantity := Some 1%Z; ss_profileId := "p1" |};
     st_globalSettings := Some defaultGlobalSettings;
     st_price_check_enabled := false; st_price_check_closeTabOnFail := false;
     st_price_check_items := None |}.

(** The same page with a stored profile. *)
Definition withProfiles (profiles : list Profile) (d : Dom) : Dom :=
  {| href := href d; pathname := pathname d; readyStateLoaded := readyStateLoaded d;
     query := query d; waitFor := waitFor d; fails := fails d; clickOk := clickOk d;
     stored := stored d;
     profileData := {| pd_profiles := profiles; pd_selectedProfileId := "" |};
     urlTcin := urlTcin d; dataTcin := dataTcin d;
     fallbackPriceElems := fallbackPriceElems d; structuredPrice := structuredPrice d;
     highDemandContent := highDemandContent d; highDemandFallback := highDemandFallback d;
     buyNowButtonByText := buyNowButtonByText d; verifyButtonByText := verifyButtonByText d;
     iframes := iframes d; spinnerSelectorsIsArray := spinnerSelectorsIsArray d;
     emailFieldConfigured := emailFieldConfigured d; dropdownOption := dropdownOption d |}.

(** A checkout page that shows nothing but its place-order button. *)
Definition checkoutPage : Dom :=
  withProfiles [exampleProfile]
    (pageDom "https://www.target.com/checkout" "/checkout"
       [Sel "checkoutPageSelectors.placeOrderButton"] loadedStorage noFailure).

Definition sleepFails : Call -> option string :=
  fun c => match c with CallSleep => Some "timer unavailable" | _ => None end.

Definition brokenTimerPage : Dom :=
  pageDom "https://www.target.com/p/item/-/A-12345" "/p/item/-/A-12345"
    [Sel "productPageSelectors.addToCart"] emptyStorage sleepFails.

Definition barePage : Dom :=
  pageDom "https://www.target.com/p/item/-/A-12345" "/p/item/-/A-12345"
    [] emptyStorage noFailure.

Definition submitDisabledState : RunState :=
  set_globalSettings
    {| autoSubmit := false; randomizeDelay := false;
       useBuyNowWhenAvailable := false; autoCloseCart := false |} exampleState.

(** The same page with other frames. *)
Definition withIframes (frames : list Iframe) (d : Dom) : Dom :=
  {| href := href d; pathname := pathname d; readyStateLoaded := readyStateLoaded d;
     query := query d; waitFor := waitFor d; fails := fails d; clickOk := clickOk d;
     stored := stored d; profileData := profileData d;
     urlTcin := urlTcin d; dataTcin := dataTcin d;
     fallbackPriceElems := fallbackPriceElems d; structuredPrice := structuredPrice d;
     highDemandContent := highDemandContent d; highDemandFallback := highDemandFallback d;
     buyNowButtonByText := buyNowButtonByText d; verifyButtonByText := verifyButtonByText d;
     iframes := frames; spinnerSelectorsIsArray := spinnerSelectorsIsArray d;
     emailFieldConfigured := emailFieldConfigured d; dropdownOption := dropdownOption d |}.

(** The Buy-Now panel with its place-order button, its CVV input and its
    confirm button, and no error. *)
Definition buyNowPanel : IframeDoc :=
  {| iquery := fun selector =>
       if existsb (String.eqb selector)
            ["[data-test='placeOrderButton']"; "#enter-cvv"; "[data-test='confirm-button']"]
       then Some plainElem else None;
     buttonWithText := fun _ => None;
     inputMentioning := fun _ => None;
     headingConfirmOrder := false;
     alertCannotComplete := false;
     visibleErrorMessage := false;
     svgButton := None |}.

(** A product page that offers Buy Now and shows the panel. *)
Definition buyNowPage : Dom :=
  withIframes [{| if_id := "buy-now-iframe"; if_src := ""; if_document := Some buyNowPanel |}]
    (pageDom "https://www.target.com/p/item/-/A-12345" "/p/item/-/A-12345"
       [Css "[data-test='buy-now-button']"; Sel "productPageSelectors.addToCart"]
       emptyStorage noFailure).

(** Submission switched off, Buy Now switched on. *)
Definition buyNowSubmitDisabledState : RunState :=
  set_globalSettings
    {| autoSubmit := false; randomizeDelay := false;
       useBuyNowWhenAvailable := true; autoCloseCart := false |} exampleState.

(** ** The price guard *)

(** What a chain returns when run on one snapshot. *)
Definition returns {A} (d : Dom) (s : RunState) (t : Async A) : Outcome A :=
  fst (run (fun _ => d) t (initialConfig s)).

(** The decision table of the specification for the price guard; [true] is
    Pass, [false] is Block.  A TCIN or price that JavaScript reads as false
    (no value, the empty string, zero) counts as absent. *)
Definition priceGuardTable (enabled : bool) (items : JsObject Q)
    (tcin : JsString) (price : option Q) : bool :=
  if negb enabled then true
  else if negb (truthyStr tcin) then true
  else if negb (truthyNum price) then true
  else match tcin, price with
       | Some t, Some p =>
           match lookupKey t items with
           | Some maxPrice => Qle_bool p maxPrice
           | None => true
           end
       | _, _ => true
       end.

Definition priceElem (p : Q) : Elem :=
  {| visible := true; disabled := false; offsetParent := true; disabledProp := false;
     checked := false; insideForm := false; isSelect := false; text := "price";
     dollarPrefixed := true; parsedPrice := Some p; parsedInt := None |}.

(** A product page that shows TCIN [tcin] in its address and [price] in its
    price element, with the price check configured as given. *)
Definition pricePage (enabled : bool) (items : JsObject Q) (tcin : JsString)
    (price : option Q) (failing : Call -> option string) : Dom :=
  {| href := "https://www.target.com/p/item/-/A-123"; pathname := "/p/item/-/A-123";
     readyStateLoaded := true;
     query := fun t => if Target_eqb t (Css "[data-test='product-price']")
                       then option_map priceElem price else None;
     waitFor := fun _ => None;
     fails := failing; clickOk := fun _ => true;
     stored := {| st_siteSettingsTarget := None; st_globalSettings := None;
                  st_price_check_enabled := enabled;
                  st_price_check_closeTabOnFail := false;
                  st_price_check_items := Some items |};
     profileData := {| pd_profiles := []; pd_selectedProfileId := "" |};
     urlTcin := tcin; dataTcin := None; fallbackPriceElems := []; structuredPrice := None;
     highDemandContent := false; highDemandFallback := false;
     buyNowButtonByText := None; verifyButtonByText := None;
     iframes := []; spinnerSelectorsIsArray := true; emailFieldConfigured := false;
     dropdownOption := fun _ => None |}.


Definition verdictOn (d : Dom) : Outcome bool :=
  fst (run (fun _ => d) checkProductPrice (initialConfig exampleState)).

(** ** Payment data: which shape of the profile is read *)

(** The specification's rule: the first candidate that is present wins.
    Present is what the source tests, a value JavaScript reads as true. *)
Fixpoint firstPresent (candidates : list JsString) : JsString :=
  match candidates with
  | [] => None
  | v :: rest => if truthyStr v then v else firstPresent rest
  end.

(** The three places a CVV may sit, in the specification's order. *)
Definition cvvShapes (p : Profile) : list JsString :=
  [ p_cvv p;
    match p_paymentMethod p with Some pm => pm_cvv pm | None => None end;
    match p_payment p with Some pay => pay_cvv pay | None => None end ].


Definition resolveFrom (shapes : Profile -> list JsString) (profile : option Profile)
    : JsString :=
  match profile with
  | Some p => firstPresent (shapes p)
  | None => None
  end.

Definition bareProfile : Profile :=
  {| p_id := "p1"; p_name := "Main";
     p_firstName := None; p_lastName := None; p_address1 := None; p_address2 := None;
     p_city := None; p_state := None; p_zip := None; p_phone := None; p_email := None;
     p_cvv := None; p_cardNumber := None; p_paymentMethod := None; p_payment := None |}.

Definition withCvv (direct nested paid : JsString) : Profile :=
  {| p_id := "p1"; p_name := "Main";
     p_firstName := None; p_lastName := None; p_address1 := None; p_address2 := None;
     p_city := None; p_state := None; p_zip := None; p_phone := None; p_email := None;
     p_cvv := direct; p_cardNumber := None;
     p_paymentMethod :=
       match nested with
       | Some _ => Some {| pm_cardNumber := None; pm_nameOnCard := None;
                           pm_expiryMonth := None; pm_expiryYear := None; pm_cvv := nested |}
       | None => None
       end;
     p_payment :=
       match paid with
       | Some _ => Some {| pay_cardNumber := None; pay_cvv := paid |}
       | None => None
       end |}.





(** ** Counting actions *)

(** A test on actions, and the chains that perform at most [n] actions
    passing it, whatever the page shows and however the turns fall; the
    chains a chain starts are counted with it. *)
Section AtMostDef.
Variable p : Action -> bool.

Fixpoint AtMost {A : Type} (n : nat) (t : Async A) : Prop :=
  match t with
  | Ret _ => True
  | Throw _ => True
  | Stuck => True
  | Get k => forall s, AtMost n (k s)
  | Modify _ k => AtMost n k
  | Look k => forall d, AtMost n (k d)
  | Act a k =>
      if p a then match n with 0 => False | S m => AtMost m k end
      else AtMost n k
  | Await k => AtMost n k
  | Spawn t' k => exists a b, a + b <= n /\ AtMost a t' /\ AtMost b k
  end.

Definition AtMostPromise {A} (n : nat) (pr : Promise A) : Prop :=
  match pr with
  | Settled _ => True
  | Pending rest => AtMost n rest
  end.

Definition AtMostEnd {A} (n : nat) (e : SegmentEnd A) : Prop :=
  match e with
  | SegSuspended rest => AtMost n rest
  | _ => True
  end.

(** A pool whose chains together perform at most [n] such actions. *)
Fixpoint PoolAtMost (n : nat) (chains : list (Async unit)) : Prop :=
  match chains with
  | [] => True
  | t :: rest => exists a b, a + b <= n /\ AtMost a t /\ PoolAtMost b rest
  end.

End AtMostDef.

(** ** The cart page *)

(** A cart page of the store, and one whose address also mentions the
    checkout. *)
Definition cartPage : Dom :=
  pageDom "https://www.target.com/cart" "/cart" [] loadedStorage noFailure.

Definition cartPageWithReturnAddress : Dom :=
  pageDom "https://www.target.com/cart?next=https://www.target.com/checkout" "/cart"
    [] loadedStorage noFailure.

(** ** The Buy-Now retry loop *)

(** Chains that never run out of their recursion allowance. *)
Fixpoint Unstuck {A : Type} (t : Async A) : Prop :=
  match t with
  | Ret _ => True
  | Throw _ => True
  | Stuck => False
  | Get k => forall s, Unstuck (k s)
  | Modify _ k => Unstuck k
  | Look k => forall d, Unstuck (k d)
  | Act _ k => Unstuck k
  | Await k => Unstuck k
  | Spawn _ k => Unstuck k
  end.

Definition isRetry (a : Action) : bool :=
  match a with ConsoleRetry _ _ => true | _ => false end.

Definition isPoll (a : Action) : bool :=
  match a with ConsolePoll _ => true | _ => false end.

Definition retryFailed : Action :=
  Status "Buy now checkout failed, please try again" StatusWaiting.

(** The element the lookup of lines 1578-1582 settles on. *)
Definition buyNowLookup (d : Dom) : option Elem :=
  match query d (Css "[data-test='buy-now-button']") with
  | Some el => Some el
  | None =>
      match query d (Css "button[data-test='buy-now-button']") with
      | Some el => Some el
      | None => buyNowButtonByText d
      end
  end.

(** No helper raises on this snapshot. *)
Definition quiet (d : Dom) : Prop := forall call, fails d call = None.

(** What the polling loop prints and waits for when it never sees the button. *)
Fixpoint pollTraceFrom (left pollAttempts : nat) : list Action :=
  match left with
  | 0 => []
  | S left' =>
      ConsolePoll (S pollAttempts)
        :: (if (S pollAttempts <? maxPollAttempts)%nat
            then [Sleep (Some pollIntervalMs) false] else [])
        ++ pollTraceFrom left' (S pollAttempts)
  end.

(** The same for the whole retry loop, down to its last status line. *)
Fixpoint retryTraceFrom (left retryCount : nat) (delay : Q) : list Action :=
  match left with
  | 0 => [retryFailed]
  | S left' =>
      [ConsoleRetry (S retryCount) delay; Sleep (Some delay) false]
        ++ pollTraceFrom maxPollAttempts 0
        ++ retryTraceFrom left' (S retryCount) (nextDelay delay)
  end.

(** A product page on which the Buy-Now button never comes back. *)
Definition buttonGonePage : Dom :=
  pageDom "https://www.target.com/p/item/-/A-12345" "/p/item/-/A-12345" []
    loadedStorage noFailure.

(** A product page that shows the Buy-Now button. *)
Definition buttonBackPage : Dom :=
  pageDom "https://www.target.com/p/item/-/A-12345" "/p/item/-/A-12345"
    [Css "[data-test='buy-now-button']"] loadedStorage noFailure.

(** The delays of the attempts a trace shows, oldest first. *)
Fixpoint retryDelays (tr : list Action) : list Q :=
  match tr with
  | [] => []
  | ConsoleRetry _ delay :: rest => delay :: retryDelays rest
  | _ :: rest => retryDelays rest
  end.

Fixpoint sameDelays (l1 l2 : list Q) : bool :=
  match l1, l2 with
  | [], [] => true
  | x :: r1, y :: r2 => Qeq_bool x y && sameDelays r1 r2
  | _, _ => false
  end.

(** ** One turn of a chain *)

(** [Turn d t s acts Q E S]: run from state [s] on snapshot [d], with
    [acts] already done in this turn, chain [t] either returns within the turn
    in a state and after actions that satisfy [Q], or raises within the turn
    with [E], or stops at its first suspension point (or for want of
    recursion allowance) with [S]. *)
Fixpoint Turn {A : Type} (d : Dom) (t : Async A) (s : RunState) (acts : list Action)
    (Q : A -> RunState -> list Action -> Prop)
    (E : string -> RunState -> list Action -> Prop)
    (S : RunState -> list Action -> Prop) : Prop :=
  match t with
  | Ret a => Q a s acts
  | Throw e => E e s acts
  | Stuck => S s acts
  | Get k => Turn d (k s) s acts Q E S
  | Modify f k => Turn d k (f s) acts Q E S
  | Look k => Turn d (k d) s acts Q E S
  | Act a k => Turn d k s (acts ++ [a]) Q E S
  | Await _ => S s acts
  | Spawn _ k => Turn d k s acts Q E S
  end.

(** The same condition however the turn ends. *)
Definition TurnEnds {A : Type} (d : Dom) (t : Async A) (s : RunState) (acts : list Action)
    (P : RunState -> list Action -> Prop) : Prop :=
  Turn d t s acts (fun _ => P) (fun _ => P) P.

(** How a turn ended, read off a segment. *)
Definition atEnd {A : Type} (r : Segment A)
    (Q : A -> RunState -> list Action -> Prop)
    (E : string -> RunState -> list Action -> Prop)
    (S : RunState -> list Action -> Prop) : Prop :=
  match seg_end r with
  | SegReturned a => Q a (seg_state r) (seg_actions r)
  | SegRaised e => E e (seg_state r) (seg_actions r)
  | SegStuck => S (seg_state r) (seg_actions r)
  | SegSuspended _ => S (seg_state r) (seg_actions r)
  end.

(** ** The guard flags of the checkout page *)

(** The clicks on the element called [name]. *)
Definition clicks (name : string) (a : Action) : bool :=
  match a with
  | Click n => String.eqb n name
  | _ => false
  end.

(** The entry tests of the two verification handlers, lines 2001 and 2079. *)
Definition cvvGuard (s : RunState) : bool :=
  isFillingCvvInput s || confirmButtonClicked s.

Definition cardGuard (s : RunState) : bool :=
  isFillingCardInput s || verifyCardButtonClicked s.

(** A turn in which a chain does nothing and returns. *)
Definition idleTurn (s : RunState) : Segment unit :=
  {| seg_state := s; seg_actions := []; seg_spawned := []; seg_end := SegReturned tt |}.

Definition suspended {A} (r : Segment A) : bool :=
  match seg_end r with SegSuspended _ => true | _ => false end.

(** How many times the order has been submitted. *)
Definition placed (acts : list Action) : nat := countActions (clicks "place-order") acts.

Definition bothChannels (fuel : nat) : list (Async unit) :=
  [checkoutObserverCallback fuel; safetyIntervalCallback fuel].

(** The page shows the CVV prompt and the channels may act on it. *)
Definition cvvPrompted (d : Dom) (s : RunState) : Prop :=
  watcherIdle s = false
  /\ confirmButtonClicked s = false
  /\ fails d (CallFind (Css "#enter-cvv")) = None
  /\ isDisplayed (query d (Css "#enter-cvv")) = true.

(** The page shows the card prompt, not the CVV prompt. *)
Definition cardPrompted (d : Dom) (s : RunState) : Prop :=
  watcherIdle s = false
  /\ verifyCardButtonClicked s = false
  /\ fails d (CallFind (Css "#enter-cvv")) = None
  /\ isDisplayed (query d (Css "#enter-cvv")) = false
  /\ fails d (CallFind (Css "#credit-card-number-input")) = None
  /\ isDisplayed (query d (Css "#credit-card-number-input")) = true.

(** A checkout page ready for submission, the same page asking for the CVV
    again, and a page that shows the CVV prompt to both channels. *)
Definition readyToSubmitPage : Dom :=
  withProfiles [exampleProfile]
    (pageDom "https://www.target.com/checkout" "/checkout"
       [Sel "checkoutPageSelectors.placeOrderButton";
        Css "button[data-test='placeOrderButton']"] loadedStorage noFailure).

Definition cvvPromptPage : Dom :=
  withProfiles [exampleProfile]
    (pageDom "https://www.target.com/checkout" "/checkout"
       [Sel "checkoutPageSelectors.placeOrderButton";
        Css "button[data-test='placeOrderButton']";
        Css "#enter-cvv";
        Sel "checkoutPageSelectors.cvvVerification.input";
        Sel "checkoutPageSelectors.cvvVerification.confirmButton"] loadedStorage noFailure).

(** A page that shows the card-number prompt to both channels. *)
Definition cardPromptPage : Dom :=
  withProfiles [exampleProfile]
    (pageDom "https://www.target.com/checkout" "/checkout"
       [Css "#credit-card-number-input";
        Sel "checkoutPageSelectors.cardVerification.verifyButton"] loadedStorage noFailure).

Definition cardSchedule (k : nat) : list (nat * Dom) :=
  [(0, cardPromptPage); (1, cardPromptPage)] ++ repeat (2, cardPromptPage) k.

(** Both channels fire on the ready page; the order is submitted, the page
    asks for the CVV for [k] turns, and then shows the ready page again. *)
Definition resubmitSchedule (k : nat) : list (nat * Dom) :=
  [(0, readyToSubmitPage); (1, readyToSubmitPage); (2, readyToSubmitPage)]
    ++ repeat (2, cvvPromptPage) k
    ++ repeat (2, readyToSubmitPage) 3.

(** Both channels fire on the CVV prompt, and the handler is resumed [k]
    times. *)
Definition cvvSchedule (k : nat) : list (nat * Dom) :=
  [(0, cvvPromptPage); (1, cvvPromptPage)] ++ repeat (2, cvvPromptPage) k.

Definition clickNames (tr : list Action) : list string :=
  flat_map (fun a => match a with Click n => [n] | _ => [] end) tr.

(** ** Life cycle of the engine *)

(** A configuration with more actions on its trace. *)
Definition withTrace (acts : list Action) (c : Config) : Config :=
  {| cst := cst c; clock := clock c; trace := trace c ++ acts; spawned := spawned c |}.

(** The five guard flags of the checkout page are all lowered. *)
Definition guardsLowered (s : RunState) : bool :=
  negb (placeOrderButtonClicked s) && negb (confirmButtonClicked s)
  && negb (verifyCardButtonClicked s) && negb (isFillingCardInput s)
  && negb (isFillingCvvInput s).

(** A state in which the high-demand timer is running. *)
Definition timerRunningState : RunState :=
  set_intervals [7] (set_highDemandRetryInterval (Some 7) (set_nextHandle 8 exampleState)).

(** ** Choosing the profile *)

(** A profile looked up by an id, when the id is a non-empty string. *)
Definition lookupProfile (pid : string) (profiles : list Profile) : option Profile :=
  if nonEmpty pid then findProfile pid profiles else None.

(** The profile named by the site setting, else the one named globally. *)
Definition chosenById (siteProfileId globalProfileId : string) (profiles : list Profile)
    : option Profile :=
  match lookupProfile siteProfileId profiles with
  | Some p => Some p
  | None => lookupProfile globalProfileId profiles
  end.

(** The priority order of the profile selection: site id, global id, first. *)
Definition selectProfile (siteProfileId globalProfileId : string) (profiles : list Profile)
    : option Profile :=
  match chosenById siteProfileId globalProfileId profiles with
  | Some p => Some p
  | None => hd_error profiles
  end.

(** What is written back when the selection fell through to the first
    profile. *)
Definition savedSelection (siteProfileId globalProfileId : string) (profiles : list Profile)
    : list Action :=
  match chosenById siteProfileId globalProfileId profiles, profiles with
  | None, first :: _ =>
      [SaveToStorage "selectedProfile" (p_id first);
       UpdateSiteSettings "target" "profileId" (p_id first)]
  | _, _ => []
  end.

(** No helper raises in any turn. *)
Definition quietWorld (w : nat -> Dom) : Prop := forall k call, fails (w k) call = None.

(** Where a run stands when the awaited [loadSettingsAndProfile] of line
    1011 has answered. *)
Definition settingsLoaded (w : nat -> Dom) (c : Config) : Config :=
  snd (run w (await loadSettingsAndProfile) c).

(** ** What the engine does to the page *)

(** A click, a fill, a write into the page or a navigation. *)
Definition actsOnPage (a : Action) : bool :=
  match a with
  | Click _ | Fill _ _ | FillBySelectors _ _ | IframeClick _ | IframeFill _ _
  | DomWrite _ | Navigate _ => true
  | _ => false
  end.

(** The registration of an observer or of an interval timer. *)
Definition startsWatcher (a : Action) : bool :=
  match a with
  | Observe _ | SetInterval _ _ => true
  | _ => false
  end.

Definition engineStep (a : Action) : bool := actsOnPage a || startsWatcher a.

(** [window.close()]. *)
Definition isCloseTab (a : Action) : bool :=
  match a with CloseTab => true | _ => false end.

(** The snapshot is not the cart page (line 9). *)
Definition notCartPage (d : Dom) : Prop := String.eqb (pathname d) "/cart" = false.

(** The stored global settings do not ask for the cart page to be closed
    (lines 19-22). *)
Definition autoCloseOff (d : Dom) : Prop :=
  match st_globalSettings (stored d) with
  | Some g => autoCloseCart g
  | None => false
  end = false.

(** A cart page whose stored settings ask for it to be closed. *)
Definition closingCartPage : Dom :=
  pageDom "https://www.target.com/cart" "/cart" []
    {| st_siteSettingsTarget := None;
       st_globalSettings := Some {| autoSubmit := true; randomizeDelay := false;
                                    useBuyNowWhenAvailable := false; autoCloseCart := true |};
       st_price_check_enabled := false; st_price_check_closeTabOnFail := false;
       st_price_check_items := None |}
    noFailure.

(** ** Chains that never raise

    [NoThrow t]: no path through [t] ends in an exception. *)
Fixpoint NoThrow {A : Type} (t : Async A) : Prop :=
  match t with
  | Ret _ => True
  | Throw _ => False
  | Stuck => True
  | Get k => forall s, NoThrow (k s)
  | Modify _ k => NoThrow k
  | Look k => forall d, NoThrow (k d)
  | Act _ k => NoThrow k
  | Await k => NoThrow k
  | Spawn _ k => NoThrow k
  end.

(** ** The product pipeline *)



(** The turn of a second start while the pipeline is running. *)
Definition alreadyRunningTurn (s : RunState) : Segment unit :=
  {| seg_state := s; seg_actions := [Console "Checkout already in progress..."];
     seg_spawned := []; seg_end := SegReturned tt |}.


(** ** The checkout page *)

(** What [handlePageDetection] reports for a page while the engine is
    disabled (lines 503-512). *)
Definition disabledMessage (pageType : PageType) : string :=
  match pageType with
  | PageProduct => "Product page detected (Disabled)"
  | PageCheckout => "Checkout page detected (Disabled)"
  | PageRegistry => "Gift registry page detected (not supported)"
  | _ => "Non-targetable Target page"
  end.

(** ** The command channel *)

(** The enabled state a message leaves behind.  [activateSite] for this
    site: the [enabled] switch of the site settings then in force (line 286).
    [toggleStatus]: the toggle and that switch (line 300).
    [updateSiteSetting] for this site: the new [enabled] value when the
    update carries one (line 332), and the state as it was when it does not
    (lines 330-336 are skipped), whatever the site's switch says.  Any other
    message: the state as it was. *)
Definition enabledAfter (message : Message) (s : RunState) : bool :=
  match message with
  | ActivateSite site settings =>
      if String.eqb site "target" then ss_enabled (orKeep settings (siteSettings s))
      else isEnabled s
  | ToggleStatus globalEnabled => globalEnabled && ss_enabled (siteSettings s)
  | UpdateSiteSetting site update =>
      if String.eqb site "target" then orKeep (u_enabled update) (isEnabled s)
      else isEnabled s
  | _ => isEnabled s
  end.

Definition isDetectPage (message : Message) : bool :=
  match message with DetectPage _ _ => true | _ => false end.

(** An update that changes the quantity and nothing else. *)
Definition quantityUpdate : SiteSettingsUpdate :=
  {| u_enabled := None; u_quantity := Some 2%Z; u_profileId := None |}.

(** What a message has done when the listener returns: the enabled state
    is [enabledAfter], the turn is the same, and a message that switched the
    engine off has left it cleaned up. *)
Definition channelOutcome (message : Message) (c c' : Config) : Prop :=
  isEnabled (cst c') = enabledAfter message (cst c)
  /\ clock c' = clock c
  /\ (isEnabled (cst c) = true -> enabledAfter message (cst c) = false ->
      checkoutInProgress (cst c') = false
      /\ guardsLowered (cst c') = true
      /\ observers (cst c') = []
      /\ intervals (cst c') = []).

(** ** Chains that stay quiet under an invariant

    [Under Inv p t]: started in a state that satisfies [Inv], the chain [t]
    keeps [Inv] with every assignment and performs no action counted by [p]
    (chains [t] merely starts are not looked into). *)

Section UnderDef.
Context (Inv : RunState -> Prop) (p : Action -> bool).

Fixpoint Under {A : Type} (t : Async A) : Prop :=
  match t with
  | Ret _ => True
  | Throw _ => True
  | Stuck => True
  | Get k => forall s, Inv s -> Under (k s)
  | Modify f k => (forall s, Inv s -> Inv (f s)) /\ Under k
  | Look k => forall d, Under (k d)
  | Act a k => p a = false /\ Under k
  | Await k => Under k
  | Spawn _ k => Under k
  end.

End UnderDef.

Definition inIframe (a : Action) : bool :=
  match a with
  | IframeClick _ | IframeFill _ _ => true
  | _ => false
  end.

(** What only the Buy-Now flow does: the click on the Buy-Now button and
    everything inside the sub-document. *)
Definition buyNowStep (a : Action) : bool := clicks "buy-now" a || inIframe a.

(** A product page in Buy-Now error recovery shows a popup. *)
Definition popupPage : Dom :=
  withProfiles [exampleProfile]
    (pageDom "https://www.target.com/p/item/-/A-12345" "/p/item/-/A-12345"
       [Sel "popupSelectors.noThanksButton"; Sel "productPageSelectors.addToCart"]
       loadedStorage noFailure).

(** The status line of the route-error workaround, line 451. *)
Definition isRouteWorkaround (a : Action) : bool :=
  match a with
  | Status msg _ => String.eqb msg "Working around route error..."
  | _ => false
  end.

(** The clicks inside the Buy-Now sub-document that the script makes under
    the action name [name] (the second argument of [clickInBuyNowIframe]). *)
Definition iframeClicks (name : string) (a : Action) : bool :=
  match a with
  | IframeClick n => String.eqb n name
  | _ => false
  end.

(** Any click inside the Buy-Now sub-document. *)
Definition panelClick (a : Action) : bool :=
  match a with
  | IframeClick _ => true
  | _ => false
  end.

(** ** Chains that use up an allowance

    [Spends p n left thrown t]: the chain [t] performs at most [n] actions
    counted by [p]; when it returns [a] at least [left a] of the [n] are
    unused, and when it raises at least [thrown] are. *)

Section SpendsDef.
Context (p : Action -> bool).

Fixpoint Spends {A : Type} (n : nat) (left : A -> nat) (thrown : nat) (t : Async A) : Prop :=
  match t with
  | Ret a => left a <= n
  | Throw _ => thrown <= n
  | Stuck => True
  | Get k => forall s, Spends n left thrown (k s)
  | Modify _ k => Spends n left thrown k
  | Look k => forall d, Spends n left thrown (k d)
  | Act a k =>
      if p a then match n with 0 => False | S m => Spends m left thrown k end
      else Spends n left thrown k
  | Await k => Spends n left thrown k
  | Spawn t' k => exists a b, a + b <= n /\ AtMost p a t' /\ Spends b left thrown k
  end.

End SpendsDef.

(** ** Chains that stay quiet while the page is in some condition

    [Within Wd p t]: on snapshots that all satisfy [Wd], the chain [t]
    performs no action counted by [p], and neither do the chains it starts. *)

Section WithinDef.
Context (Wd : Dom -> Prop) (p : Action -> bool).

Fixpoint Within {A : Type} (t : Async A) : Prop :=
  match t with
  | Ret _ => True
  | Throw _ => True
  | Stuck => True
  | Get k => forall s, Within (k s)
  | Modify _ k => Within k
  | Look k => forall d, Wd d -> Within (k d)
  | Act a k => p a = false /\ Within k
  | Await k => Within k
  | Spawn t' k => Within t' /\ Within k
  end.

Definition WithinPromise {A} (pr : Promise A) : Prop :=
  match pr with
  | Settled _ => True
  | Pending rest => Within rest
  end.

(** What a turn leaves behind stays within the condition. *)
Definition WithinEnd {A} (e : SegmentEnd A) : Prop :=
  match e with
  | SegSuspended rest => Within rest
  | _ => True
  end.

End WithinDef.

(** The place-order button of the checkout page cannot be used: it is
    missing, hidden or disabled. *)
Definition submitUnusable (d : Dom) : Prop :=
  isUsable (query d (Sel "checkoutPageSelectors.placeOrderButton")) = false.

(** A checkout page whose place-order button is disabled. *)
Definition disabledSubmitPage : Dom :=
  {| href := href checkoutPage; pathname := pathname checkoutPage;
     readyStateLoaded := true;
     query := fun t =>
       if Target_eqb t (Sel "checkoutPageSelectors.placeOrderButton")
       then Some {| visible := true; disabled := true; offsetParent := true;
                    disabledProp := true; checked := false; insideForm := false;
                    isSelect := false; text := "Place your order";
                    dollarPrefixed := false; parsedPrice := None; parsedInt := None |}
       else None;
     waitFor := fun _ => None;
     fails := noFailure; clickOk := fun _ => true;
     stored := loadedStorage;
     profileData := profileData checkoutPage;
     urlTcin := None; dataTcin := None; fallbackPriceElems := []; structuredPrice := None;
     highDemandContent := false; highDemandFallback := false;
     buyNowButtonByText := None; verifyButtonByText := None;
     iframes := []; spinnerSelectorsIsArray := true; emailFieldConfigured := false;
     dropdownOption := fun _ => None |}.

(** What runs on the checkout page: the pipeline and the callbacks of the
    two watchers, started any number of times. *)
Definition checkoutPageChain (fuel : nat) (t : Async unit) : Prop :=
  t = continueCheckoutProcess fuel
  \/ t = checkoutObserverCallback fuel
  \/ t = safetyIntervalCallback fuel
  \/ t = placeOrder fuel.

(** ** The quantity stepper *)

(** A click on either button of the quantity stepper. *)
Definition stepperClick (a : Action) : bool := clicks "qty-inc" a || clicks "qty-dec" a.

(** A product page whose stepper shows the quantity [shown]. *)
Definition stepperPage (shown : Z) : Dom :=
  {| href := href productPage; pathname := pathname productPage;
     readyStateLoaded := true;
     query := fun t =>
       if Target_eqb t (Sel "productPageSelectors.quantity.stepper.value")
       then Some {| visible := true; disabled := false; offsetParent := true;
                    disabledProp := false; checked := false; insideForm := false;
                    isSelect := false; text := ""; dollarPrefixed := false;
                    parsedPrice := None; parsedInt := Some shown |}
       else if Target_eqb t (Sel "productPageSelectors.quantity.stepper.increment")
       then Some plainElem
       else None;
     waitFor := fun _ => None;
     fails := noFailure; clickOk := fun _ => true;
     stored := loadedStorage;
     profileData := profileData productPage;
     urlTcin := None; dataTcin := None; fallbackPriceElems := []; structuredPrice := None;
     highDemandContent := false; highDemandFallback := false;
     buyNowButtonByText := None; verifyButtonByText := None;
     iframes := []; spinnerSelectorsIsArray := true; emailFieldConfigured := false;
     dropdownOption := fun _ => None |}.

Definition wantsThree : RunState :=
  set_siteSettings {| ss_enabled := true; ss_quantity := Some 3%Z; ss_profileId := "p1" |}
    exampleState.

(** [Math.abs(targetQty - currentVal)] as a number of clicks; with the
    quantity missing the difference is [NaN] and no button is chosen. *)
Definition unitsMissing (quantity : option Z) (shown : Z) : nat :=
  match quantity with
  | Some qty => Z.abs_nat (qty - shown)
  | None => 0
  end.

(** A product page without the stepper, whose quantity is chosen from a
    custom dropdown. *)
Definition dropdownPage : Dom :=
  {| href := href productPage; pathname := pathname productPage;
     readyStateLoaded := true;
     query := fun t =>
       if Target_eqb t (Sel "productPageSelectors.quantity.dropdown")
       then Some plainElem
       else None;
     waitFor := fun _ => None;
     fails := noFailure; clickOk := fun _ => true;
     stored := loadedStorage;
     profileData := profileData productPage;
     urlTcin := None; dataTcin := None; fallbackPriceElems := []; structuredPrice := None;
     highDemandContent := false; highDemandFallback := false;
     buyNowButtonByText := None; verifyButtonByText := None;
     iframes := []; spinnerSelectorsIsArray := true; emailFieldConfigured := false;
     dropdownOption := fun _ => None |}.

(** ** The payment form *)

Definition isFormFill (a : Action) : bool :=
  match a with FillBySelectors _ _ => true | _ => false end.

(** The card number field sits in a frame of its own. *)
Definition cardInFrame (d : Dom) : Prop :=
  isSome (query d (Sel "checkoutPageSelectors.cardNumberFrame")) = true.

(** A profile with a payment method, and checkout pages that show the
    payment form with and without the card-number frame. *)
Definition cardProfile : Profile :=
  {| p_id := "p2"; p_name := "Card";
     p_firstName := Some "Ada"; p_lastName := Some "Lovelace";
     p_address1 := Some "1 Main St"; p_address2 := None;
     p_city := Some "Springfield"; p_state := Some "IL"; p_zip := Some "62701";
     p_phone := Some "5550100"; p_email := Some "ada@example.com";
     p_cvv := None; p_cardNumber := None;
     p_paymentMethod :=
       Some {| pm_cardNumber := Some "4111111111111111"; pm_nameOnCard := None;
               pm_expiryMonth := Some "01"; pm_expiryYear := Some "2030";
               pm_cvv := Some "111" |};
     p_payment := None |}.

Definition framedCardPage : Dom :=
  pageDom "https://www.target.com/checkout" "/checkout"
    [Sel "checkoutPageSelectors.paymentForm"; Sel "checkoutPageSelectors.cardNumberFrame"]
    loadedStorage noFailure.

Definition plainCardPage : Dom :=
  pageDom "https://www.target.com/checkout" "/checkout"
    [Sel "checkoutPageSelectors.paymentForm"] loadedStorage noFailure.

(* ================================================================== *)
(** * Reasoning about chains *)

(** ** How [run] goes through the combinators *)

Lemma run_bind {A B} (w : nat -> Dom) (m : Async A) (f : A -> Async B) (c : Config) :
  run w (bind m f) c =
  match run w m c with
  | (Returned a, c') => run w (f a) c'
  | (Raised e, c') => (Raised e, c')
  | (OutOfFuel, c') => (OutOfFuel, c')
  end.
Proof.
  revert B f c.
  induction m; intros; simpl; auto.
Qed.

Lemma run_tryCatch {A} (w : nat -> Dom) (m : Async A) (h : string -> Async A) (c : Config) :
  run w (tryCatch m h) c =
  match run w m c with
  | (Raised e, c') => run w (h e) c'
  | other => other
  end.
Proof.
  revert h c.
  induction m; intros; simpl; auto.
Qed.

Lemma run_attempt {A} (w : nat -> Dom) (m : Async A) (c : Config) :
  run w (attempt m) c =
  match run w m c with
  | (Returned a, c') => (Returned (inr a), c')
  | (Raised e, c') => (Returned (inl e), c')
  | (OutOfFuel, c') => (OutOfFuel, c')
  end.
Proof.
  unfold attempt. rewrite run_tryCatch, run_bind.
  destruct (run w m c) as [[a | e |] c']; reflexivity.
Qed.

Lemma run_tryFinally {A} (w : nat -> Dom) (m : Async A) (f : Async unit) (c : Config) :
  run w (tryFinally m f) c =
  match run w m c with
  | (Returned a, c') =>
      match run w f c' with
      | (Returned _, c'') => (Returned a, c'')
      | (Raised e, c'') => (Raised e, c'')
      | (OutOfFuel, c'') => (OutOfFuel, c'')
      end
  | (Raised e, c') =>
      match run w f c' with
      | (Returned _, c'') => (Raised e, c'')
      | (Raised e', c'') => (Raised e', c'')
      | (OutOfFuel, c'') => (OutOfFuel, c'')
      end
  | (OutOfFuel, c') => (OutOfFuel, c')
  end.
Proof.
  unfold tryFinally. rewrite run_bind, run_attempt.
  destruct (run w m c) as [[a | e |] c']; try reflexivity;
    rewrite run_bind; destruct (run w f c') as [[[] | e' |] c'']; reflexivity.
Qed.

Lemma run_await {A} (w : nat -> Dom) (m : Async A) (c : Config) :
  run w (await m) c =
  match run w m c with
  | (Returned a, c') => (Returned a, nextTurn c')
  | (Raised e, c') => (Raised e, nextTurn c')
  | (OutOfFuel, c') => (OutOfFuel, c')
  end.
Proof.
  unfold await. rewrite run_bind, run_attempt.
  destruct (run w m c) as [[a | e |] c']; reflexivity.
Qed.

(** ** Chains that leave a variable alone *)

Section PreservesFacts.
Context {X : Type} (proj : RunState -> X).

Lemma Preserves_bind {A B} (m : Async A) (f : A -> Async B) :
  Preserves proj m -> (forall a, Preserves proj (f a)) -> Preserves proj (bind m f).
Proof.
  revert B f. induction m; intros B g Hm Hf; simpl in *; auto.
  destruct Hm; auto.
Qed.

Lemma Preserves_tryCatch {A} (m : Async A) (h : string -> Async A) :
  Preserves proj m -> (forall e, Preserves proj (h e)) -> Preserves proj (tryCatch m h).
Proof.
  revert h. induction m; intros h Hm Hh; simpl in *; auto.
  destruct Hm; auto.
Qed.

Lemma Preserves_attempt {A} (m : Async A) : Preserves proj m -> Preserves proj (attempt m).
Proof.
  intros. unfold attempt. apply Preserves_tryCatch; [apply Preserves_bind|]; simpl; auto.
Qed.

Lemma Preserves_settle {A} (r : string + A) : Preserves proj (settle r).
Proof. destruct r; exact I. Qed.

Lemma Preserves_tryFinally {A} (m : Async A) (f : Async unit) :
  Preserves proj m -> Preserves proj f -> Preserves proj (tryFinally m f).
Proof.
  intros. unfold tryFinally.
  apply Preserves_bind; [now apply Preserves_attempt|]. intros r.
  apply Preserves_bind; [assumption|]. intros _. apply Preserves_settle.
Qed.

Lemma Preserves_await {A} (m : Async A) : Preserves proj m -> Preserves proj (await m).
Proof.
  intros. unfold await.
  apply Preserves_bind; [now apply Preserves_attempt|]. intros r.
  simpl. apply Preserves_settle.
Qed.

Lemma Preserves_callAsync {A B} (m : Async A) (k : Promise A -> Async B) :
  Preserves proj m -> (forall p, PreservesPromise proj p -> Preserves proj (k p)) ->
  Preserves proj (callAsync m k).
Proof.
  revert k. induction m; intros k' Hm Hk; simpl in *;
    try (apply Hk; simpl; solve [exact I | assumption]);
    try (destruct Hm; split); auto.
Qed.

Lemma Preserves_awaitPromise {A} (p : Promise A) :
  PreservesPromise proj p -> Preserves proj (awaitPromise p).
Proof.
  destruct p as [r | rest]; simpl; intros H.
  - apply Preserves_settle.
  - apply Preserves_bind; [now apply Preserves_attempt|]. intros r.
    simpl. apply Preserves_settle.
Qed.

Lemma Preserves_fireAndForget {A} (m : Async A) : Preserves proj m -> Preserves proj (fireAndForget m).
Proof.
  intros. unfold fireAndForget. apply Preserves_callAsync; [assumption|].
  intros p _. exact I.
Qed.

Lemma Preserves_ext (c : Call) : Preserves proj (ext c).
Proof. intros d. simpl. destruct (fails d c); exact I. Qed.

(** What [Preserves] buys: [run] ends with the variable as it was. *)
Lemma Preserves_run {A} (w : nat -> Dom) (t : Async A) (c : Config) :
  Preserves proj t -> proj (cst (snd (run w t c))) = proj (cst c).
Proof.
  revert c. induction t; intros c Ht; simpl in *; auto.
  - destruct Ht as [Hf Hk]. rewrite IHt by assumption. simpl. apply Hf.
  - rewrite IHt by assumption. reflexivity.
  - rewrite IHt by assumption. reflexivity.
  - rewrite IHt2 by assumption. reflexivity.
Qed.

End PreservesFacts.

Create HintDb preserve discriminated.

(** One step of a [Preserves] proof: follow the shape of the chain. *)
Ltac preserve_step :=
  match goal with
  | |- forall _, _ => intro
  | |- True => exact I
  | |- _ /\ _ => split
  | |- _ = _ => reflexivity
  | H : ?P |- ?P => exact H
  | |- Preserves _ (bind _ _) => apply Preserves_bind
  | |- Preserves _ (tryCatch _ _) => apply Preserves_tryCatch
  | |- Preserves _ (tryFinally _ _) => apply Preserves_tryFinally
  | |- Preserves _ (await _) => apply Preserves_await
  | |- Preserves _ (attempt _) => apply Preserves_attempt
  | |- Preserves _ (settle _) => apply Preserves_settle
  | |- Preserves _ (callAsync _ _) => apply Preserves_callAsync
  | |- Preserves _ (awaitPromise _) => apply Preserves_awaitPromise
  | |- Preserves _ (fireAndForget _) => apply Preserves_fireAndForget
  | |- Preserves _ (ext _) => apply Preserves_ext
  | |- Preserves _ (if ?c then _ else _) => destruct c
  | |- Preserves _ (match ?x with _ => _ end) => destruct x
  | |- Preserves _ (let (_, _) := ?x in _) => destruct x
  | |- Preserves _ _ => solve [auto with preserve]
  | |- Preserves _ _ =>
      progress unfold get, modify, look, act, suspend, spawn, updateStatus, sleep,
        sleepMaybeRandom, find, clickElement, fillField, fillFieldBySelectors,
        waitForElement, getFromStorage, getProfiles, saveToStorage, updateSiteSettings,
        windowClose, requireProfile
  | |- Preserves _ _ => progress simpl
  end.

Ltac preserve := repeat preserve_step.

(** ** [checkoutInProgress] is written by the two pipelines, [cleanup] and
    the error handler only *)

Lemma loadSettingsAndProfile_keeps : Preserves checkoutInProgress loadSettingsAndProfile.
Proof. unfold loadSettingsAndProfile. preserve. Qed.
#[export] Hint Resolve loadSettingsAndProfile_keeps : preserve.

Lemma extractTCIN_keeps : Preserves checkoutInProgress extractTCIN.
Proof. unfold extractTCIN. preserve. Qed.
#[export] Hint Resolve extractTCIN_keeps : preserve.

Lemma extractPrice_keeps : Preserves checkoutInProgress extractPrice.
Proof. unfold extractPrice. preserve. Qed.
#[export] Hint Resolve extractPrice_keeps : preserve.

Lemma alertOnce_keeps p m : Preserves checkoutInProgress (alertOnce p m).
Proof. unfold alertOnce. preserve. Qed.
#[export] Hint Resolve alertOnce_keeps : preserve.

Lemma checkProductPrice_keeps : Preserves checkoutInProgress checkProductPrice.
Proof.
  unfold checkProductPrice, priceCheckBody, judgePrice, compareWithCeiling, priceCheckFailed.
  preserve.
Qed.
#[export] Hint Resolve checkProductPrice_keeps : preserve.

Lemma stockCheck_keeps : Preserves checkoutInProgress stockCheck.
Proof. unfold stockCheck. preserve. Qed.
#[export] Hint Resolve stockCheck_keeps : preserve.

Lemma stepperClicks_keeps n button name : Preserves checkoutInProgress (stepperClicks n button name).
Proof. induction n; simpl; preserve. Qed.
#[export] Hint Resolve stepperClicks_keeps : preserve.

Lemma setQuantity_keeps : Preserves checkoutInProgress setQuantity.
Proof. unfold setQuantity. preserve. Qed.
#[export] Hint Resolve setQuantity_keeps : preserve.

Lemma probeIframes_keeps frames i : Preserves checkoutInProgress (probeIframes frames i).
Proof. revert i. induction frames; intros; simpl; preserve. Qed.
#[export] Hint Resolve probeIframes_keeps : preserve.

Lemma findBuyNowIframe_keeps : Preserves checkoutInProgress findBuyNowIframe.
Proof. unfold findBuyNowIframe. preserve. Qed.
#[export] Hint Resolve findBuyNowIframe_keeps : preserve.

Lemma withBuyNowIframe_keeps {A} (callback : IframeDoc -> Async A) :
  (forall doc, Preserves checkoutInProgress (callback doc)) ->
  Preserves checkoutInProgress (withBuyNowIframe callback).
Proof. intros. unfold withBuyNowIframe. preserve. Qed.

Lemma findInBuyNowIframe_keeps selector : Preserves checkoutInProgress (findInBuyNowIframe selector).
Proof. unfold findInBuyNowIframe. preserve. Qed.
#[export] Hint Resolve findInBuyNowIframe_keeps : preserve.

Lemma clickInBuyNowIframe_keeps selector name :
  Preserves checkoutInProgress (clickInBuyNowIframe selector name).
Proof. unfold clickInBuyNowIframe. preserve. Qed.
#[export] Hint Resolve clickInBuyNowIframe_keeps : preserve.

Lemma fillInBuyNowIframe_keeps selector value name :
  Preserves checkoutInProgress (fillInBuyNowIframe selector value name).
Proof. unfold fillInBuyNowIframe. preserve. Qed.
#[export] Hint Resolve fillInBuyNowIframe_keeps : preserve.

Lemma elementExistsInBuyNowIframe_keeps selector :
  Preserves checkoutInProgress (elementExistsInBuyNowIframe selector).
Proof. unfold elementExistsInBuyNowIframe. preserve. Qed.
#[export] Hint Resolve elementExistsInBuyNowIframe_keeps : preserve.

Lemma hasErrorInBuyNowIframe_keeps : Preserves checkoutInProgress hasErrorInBuyNowIframe.
Proof. unfold hasErrorInBuyNowIframe. preserve. Qed.
#[export] Hint Resolve hasErrorInBuyNowIframe_keeps : preserve.

Lemma lookForBuyNowButton_keeps : Preserves checkoutInProgress lookForBuyNowButton.
Proof. unfold lookForBuyNowButton. preserve. Qed.
#[export] Hint Resolve lookForBuyNowButton_keeps : preserve.

Lemma pollForBuyNowButton_keeps allowance n b :
  Preserves checkoutInProgress (pollForBuyNowButton allowance n b).
Proof. revert n b. induction allowance; intros; simpl; preserve. Qed.
#[export] Hint Resolve pollForBuyNowButton_keeps : preserve.

Lemma retryBuyNow_keeps restart allowance retryCount delay :
  Preserves checkoutInProgress restart ->
  Preserves checkoutInProgress (retryBuyNow restart allowance retryCount delay).
Proof. intros Hr. revert retryCount delay. induction allowance; intros; simpl; preserve. Qed.
#[export] Hint Resolve retryBuyNow_keeps : preserve.

Lemma waitForPlaceOrderInIframe_keeps n : Preserves checkoutInProgress (waitForPlaceOrderInIframe n).
Proof. induction n; simpl; preserve. Qed.
#[export] Hint Resolve waitForPlaceOrderInIframe_keeps : preserve.

Lemma buyNowSequence_keeps : Preserves checkoutInProgress buyNowSequence.
Proof. unfold buyNowSequence. preserve. Qed.
#[export] Hint Resolve buyNowSequence_keeps : preserve.

Lemma useBuyNowCheckoutWith_keeps restart :
  Preserves checkoutInProgress restart ->
  Preserves checkoutInProgress (useBuyNowCheckoutWith restart).
Proof. intros. unfold useBuyNowCheckoutWith. preserve. Qed.

Lemma useBuyNowCheckout_keeps fuel : Preserves checkoutInProgress (useBuyNowCheckout fuel).
Proof.
  induction fuel; cbn [useBuyNowCheckout]; apply useBuyNowCheckoutWith_keeps;
    [exact I | assumption].
Qed.
#[export] Hint Resolve useBuyNowCheckout_keeps : preserve.

Lemma addToCart_keeps fuel : Preserves checkoutInProgress (addToCart fuel).
Proof. unfold addToCart. preserve. Qed.
#[export] Hint Resolve addToCart_keeps : preserve.

Lemma handlePopupsWith_keeps again :
  Preserves checkoutInProgress again ->
  Preserves checkoutInProgress (handlePopupsWith again).
Proof. intros. unfold handlePopupsWith. preserve. Qed.

Lemma handlePopups_keeps fuel : Preserves checkoutInProgress (handlePopups fuel).
Proof.
  induction fuel; cbn [handlePopups]; apply handlePopupsWith_keeps; [exact I | assumption].
Qed.
#[export] Hint Resolve handlePopups_keeps : preserve.

Lemma goDirectlyToCheckout_keeps : Preserves checkoutInProgress goDirectlyToCheckout.
Proof. unfold goDirectlyToCheckout. preserve. Qed.
#[export] Hint Resolve goDirectlyToCheckout_keeps : preserve.

Lemma stepSelectDelivery_keeps : Preserves checkoutInProgress stepSelectDelivery.
Proof. unfold stepSelectDelivery, selectDeliveryMethod. preserve. Qed.
#[export] Hint Resolve stepSelectDelivery_keeps : preserve.

Lemma stepAddToCart_keeps fuel : Preserves checkoutInProgress (stepAddToCart fuel).
Proof. unfold stepAddToCart. preserve. Qed.
#[export] Hint Resolve stepAddToCart_keeps : preserve.

Lemma stepHandlePopups_keeps fuel : Preserves checkoutInProgress (stepHandlePopups fuel).
Proof. unfold stepHandlePopups. preserve. Qed.
#[export] Hint Resolve stepHandlePopups_keeps : preserve.

Lemma stepGoToCheckout_keeps : Preserves checkoutInProgress stepGoToCheckout.
Proof. unfold stepGoToCheckout. preserve. Qed.
#[export] Hint Resolve stepGoToCheckout_keeps : preserve.

Lemma fillShippingInfo_keeps : Preserves checkoutInProgress fillShippingInfo.
Proof. unfold fillShippingInfo. preserve. Qed.
#[export] Hint Resolve fillShippingInfo_keeps : preserve.

Lemma fillPaymentInfo_keeps : Preserves checkoutInProgress fillPaymentInfo.
Proof. unfold fillPaymentInfo. preserve. Qed.
#[export] Hint Resolve fillPaymentInfo_keeps : preserve.

Lemma handleCVVConfirmation_keeps : Preserves checkoutInProgress handleCVVConfirmation.
Proof. unfold handleCVVConfirmation. preserve. Qed.
#[export] Hint Resolve handleCVVConfirmation_keeps : preserve.

Lemma handleCreditCardConfirmation_keeps : Preserves checkoutInProgress handleCreditCardConfirmation.
Proof. unfold handleCreditCardConfirmation. preserve. Qed.
#[export] Hint Resolve handleCreditCardConfirmation_keeps : preserve.

Lemma checkForHighDemandMessage_keeps : Preserves checkoutInProgress checkForHighDemandMessage.
Proof. unfold checkForHighDemandMessage. preserve. Qed.
#[export] Hint Resolve checkForHighDemandMessage_keeps : preserve.

Lemma installHighDemandRetry_keeps : Preserves checkoutInProgress installHighDemandRetry.
Proof. unfold installHighDemandRetry. preserve. Qed.
#[export] Hint Resolve installHighDemandRetry_keeps : preserve.

Lemma placeOrderWith_keeps again :
  Preserves checkoutInProgress again ->
  Preserves checkoutInProgress (placeOrderWith again).
Proof. intros. unfold placeOrderWith, submitOrder, afterPlaceOrderClick. preserve. Qed.

Lemma placeOrder_keeps fuel : Preserves checkoutInProgress (placeOrder fuel).
Proof.
  induction fuel; cbn [placeOrder]; apply placeOrderWith_keeps; [exact I | assumption].
Qed.
#[export] Hint Resolve placeOrder_keeps : preserve.

Lemma checkoutStepDispatch_keeps fuel : Preserves checkoutInProgress (checkoutStepDispatch fuel).
Proof. unfold checkoutStepDispatch. preserve. Qed.
#[export] Hint Resolve checkoutStepDispatch_keeps : preserve.

Lemma run_callAsync {A B} (w : nat -> Dom) (m : Async A) (k : Promise A -> Async B) (c : Config) :
  run w (callAsync m k) c =
  match startOf w m c with
  | (Some p, c') => run w (k p) c'
  | (None, c') => (OutOfFuel, c')
  end.
Proof.
  revert k c. induction m; intros; simpl; auto.
Qed.

Lemma Preserves_startOf {X A} (proj : RunState -> X) (w : nat -> Dom) (m : Async A) (c : Config) :
  Preserves proj m ->
  proj (cst (snd (startOf w m c))) = proj (cst c)
  /\ match fst (startOf w m c) with
     | Some p => PreservesPromise proj p
     | None => True
     end.
Proof.
  revert c. induction m; intros c Hm; simpl in *; auto.
  - destruct Hm as [Hf Hk]. destruct (IHm (withState f c) Hk) as [E P].
    split; [rewrite E; simpl; apply Hf | exact P].
  - destruct (IHm (logged a c) Hm) as [E P]. split; [rewrite E; reflexivity | exact P].
  - destruct (IHm2 (withSpawned m1 c) Hm) as [E P]. split; [rewrite E; reflexivity | exact P].
Qed.

(** ** The primitive steps under [run] *)

Lemma run_get {B} w (f : RunState -> Async B) c :
  run w (bind get f) c = run w (f (cst c)) c.
Proof. reflexivity. Qed.

Lemma run_modify {B} w g (f : unit -> Async B) c :
  run w (bind (modify g) f) c = run w (f tt) (withState g c).
Proof. reflexivity. Qed.

Lemma run_act {B} w a (f : unit -> Async B) c :
  run w (bind (act a) f) c = run w (f tt) (logged a c).
Proof. reflexivity. Qed.

Lemma run_look {B} w (f : Dom -> Async B) c :
  run w (bind look f) c = run w (f (w (clock c))) c.
Proof. reflexivity. Qed.

Lemma run_suspend {B} w (f : unit -> Async B) c :
  run w (bind suspend f) c = run w (f tt) (nextTurn c).
Proof. reflexivity. Qed.

Lemma keeps_run {X A} (proj : RunState -> X) w (t : Async A) c r c' :
  Preserves proj t -> run w t c = (r, c') -> proj (cst c') = proj (cst c).
Proof.
  intros Ht E. pose proof (Preserves_run proj w t c Ht) as H. rewrite E in H. exact H.
Qed.

Lemma lastAction_snoc l a : lastAction (l ++ [a]) = Some a.
Proof. unfold lastAction. rewrite rev_unit. reflexivity. Qed.

(** * The in-progress flag *)

Lemma stepGoToCheckout_returned w c c' :
  run w stepGoToCheckout c = (Returned tt, c') ->
  checkoutNavigationDone (trace c') = true.
Proof.
  unfold stepGoToCheckout, goDirectlyToCheckout, await, attempt, find, ext, updateStatus.
  simpl.
  destruct (inBuyNowErrorRecovery (cst c)); simpl.
  - intros E. inversion E. simpl. unfold checkoutNavigationDone. rewrite lastAction_snoc. reflexivity.
  - destruct (fails (w (clock c)) (CallFind (Css "[data-test='placeOrderButton']"))); simpl.
    + discriminate.
    + destruct (query (w (clock c)) (Css "[data-test='placeOrderButton']")); simpl;
      intros E; inversion E; simpl; unfold checkoutNavigationDone; rewrite lastAction_snoc; reflexivity.
Qed.

Lemma productSteps_returned w fuel c c' :
  run w (productSteps fuel) c = (Returned tt, c') ->
  checkoutNavigationDone (trace c') = true.
Proof.
  unfold productSteps, stepsFromAddToCart, stepsFromPopups.
  rewrite run_bind.
  destruct (run w (tryCatch stepSelectDelivery warnSelectDelivery) c) as [[[] | e |] c1];
    try discriminate.
  rewrite run_bind.
  destruct (run w (tryCatch (stepAddToCart fuel) rethrowAddToCart) c1) as [[[] | e |] c2];
    try discriminate.
  rewrite run_bind.
  destruct (run w (tryCatch (stepHandlePopups fuel) warnPopups) c2) as [[[] | e |] c3];
    try discriminate.
  apply stepGoToCheckout_returned.
Qed.

Lemma productSteps_keeps fuel : Preserves checkoutInProgress (productSteps fuel).
Proof.
  unfold productSteps, stepsFromAddToCart, stepsFromPopups, warnSelectDelivery,
    rethrowAddToCart, warnPopups.
  preserve.
Qed.

Lemma handled_exit w (e : string) c :
  run w (handleCheckoutError e) c
  = (Returned tt, withState (set_checkoutInProgress false)
                    (logged (Status ("Error: " ++ e) StatusWaiting) c)).
Proof. reflexivity. Qed.

Lemma productSteps_exit w fuel c r c' :
  checkoutInProgress (cst c) = true ->
  run w (tryCatch (productSteps fuel) handleCheckoutError) c = (r, c') ->
  r <> OutOfFuel ->
  r = Returned tt
  /\ checkoutInProgress (cst c') = checkoutNavigationDone (trace c').
Proof.
  intros Hc E Hr. rewrite run_tryCatch in E.
  destruct (run w (productSteps fuel) c) as [[[] | e |] c1] eqn:E1.
  - inversion E; subst. split; [reflexivity|].
    rewrite (keeps_run _ _ _ _ _ _ (productSteps_keeps fuel) E1), Hc.
    symmetry. eapply productSteps_returned; eassumption.
  - rewrite handled_exit in E. inversion E; subst. split; [reflexivity|].
    simpl. unfold checkoutNavigationDone. rewrite lastAction_snoc. reflexivity.
  - inversion E; subst. congruence.
Qed.

Lemma awaitPriceAndStock_keeps p stock :
  PreservesPromise checkoutInProgress p ->
  Preserves checkoutInProgress (awaitPriceAndStock p stock).
Proof. intros. unfold awaitPriceAndStock. destruct stock; preserve. Qed.

Lemma startCheckoutBody_exit w fuel skip c c' :
  checkoutInProgress (cst c) = true ->
  run w (startCheckoutBody fuel skip) c = (Returned tt, c') ->
  checkoutInProgress (cst c') = checkoutNavigationDone (trace c').
Proof.
  intros Hc E. unfold startCheckoutBody in E.
  rewrite run_bind in E.
  destruct (run w (if skip then Ret tt else await loadSettingsAndProfile) c)
    as [[[] | e |] c1] eqn:E1; try discriminate.
  assert (H1 : checkoutInProgress (cst c1) = true).
  { rewrite <- Hc. eapply keeps_run; [|exact E1]. destruct skip; preserve. }
  rewrite run_get in E.
  destruct (isSome (profile (cst c1))); simpl negb in E; cbv iota in E.
  2: { simpl in E. discriminate. }
  destruct (isEnabled (cst c1)); simpl negb in E; cbv iota in E.
  2: { simpl in E. inversion E; subst. simpl.
       unfold checkoutNavigationDone. rewrite lastAction_snoc. reflexivity. }
  rewrite run_callAsync in E.
  pose proof (Preserves_startOf checkoutInProgress w checkProductPrice c1
                checkProductPrice_keeps) as [H2 H3].
  destruct (startOf w checkProductPrice c1) as [[p |] c2]; try discriminate.
  simpl in H2, H3.
  rewrite run_bind in E.
  destruct (run w stockCheck c2) as [[stock | e |] c3] eqn:E3; try discriminate.
  assert (H4 : checkoutInProgress (cst c3) = true).
  { rewrite (keeps_run _ _ _ _ _ _ stockCheck_keeps E3). congruence. }
  rewrite run_bind in E.
  destruct (run w (awaitPriceAndStock p stock) c3) as [[passed | e |] c4] eqn:E4;
    try discriminate.
  assert (H5 : checkoutInProgress (cst c4) = true).
  { rewrite (keeps_run _ _ _ _ _ _ (awaitPriceAndStock_keeps p stock H3) E4). exact H4. }
  destruct passed; simpl negb in E; cbv iota in E.
  - eapply productSteps_exit in E; [tauto | exact H5 | discriminate].
  - simpl in E. inversion E; subst. simpl.
    unfold checkoutNavigationDone. rewrite lastAction_snoc. reflexivity.
Qed.

Lemma startCheckoutProcess_starts w fuel skip c :
  checkoutInProgress (cst c) = false ->
  run w (startCheckoutProcess fuel skip) c
  = run w (tryCatch (startCheckoutBody fuel skip) reportSetupError)
      (withState (set_currentStep "start")
         (logged (Status "Starting checkout..." StatusRunning)
            (withState (set_checkoutInProgress true) c))).
Proof.
  intros Hc. unfold startCheckoutProcess. rewrite run_get, Hc. reflexivity.
Qed.

Lemma startCheckoutProcess_exit w fuel skip c :
  checkoutInProgress (cst c) = false ->
  fst (run w (startCheckoutProcess fuel skip) c) <> OutOfFuel ->
  fst (run w (startCheckoutProcess fuel skip) c) = Returned tt
  /\ checkoutInProgress (cst (snd (run w (startCheckoutProcess fuel skip) c)))
     = checkoutNavigationDone (trace (snd (run w (startCheckoutProcess fuel skip) c))).
Proof.
  intros Hc. rewrite (startCheckoutProcess_starts w fuel skip c Hc), run_tryCatch.
  match goal with |- context [run w (startCheckoutBody fuel skip) ?c1] => set (c1' := c1) end.
  destruct (run w (startCheckoutBody fuel skip) c1') as [[[] | e |] c2] eqn:E; simpl.
  - intros _. split; [reflexivity|].
    eapply startCheckoutBody_exit; [|exact E]. reflexivity.
  - intros _. split; [reflexivity|].
    unfold checkoutNavigationDone. rewrite lastAction_snoc. reflexivity.
  - congruence.
Qed.

Lemma continueCheckoutProcessWith_exit w fuel again c r c' :
  checkoutInProgress (cst c) = false ->
  run w (continueCheckoutProcessWith fuel again) c = (r, c') ->
  r <> OutOfFuel ->
  checkoutInProgress (cst c') = false.
Proof.
  intros Hc E Hr. unfold continueCheckoutProcessWith in E.
  rewrite run_get, Hc in E. rewrite run_bind in E.
  destruct (run w (await loadSettingsAndProfile) c) as [[[] | e |] c1] eqn:E1.
  - assert (H1 : checkoutInProgress (cst c1) = false).
    { rewrite <- Hc. eapply keeps_run; [|exact E1]. preserve. }
    rewrite run_get in E.
    destruct (isSome (profile (cst c1))); simpl negb in E; cbv iota in E.
    2: { simpl in E. inversion E; subst. exact H1. }
    destruct (isEnabled (cst c1)); simpl negb in E; cbv iota in E.
    2: { simpl in E. inversion E; subst. exact H1. }
    unfold updateStatus at 1 in E. unfold continueCheckoutAttempt in E.
    rewrite run_modify, run_act, run_modify, run_tryFinally in E.
    match type of E with context [run w (tryCatch ?b ?h) ?c0] =>
      destruct (run w (tryCatch b h) c0) as [[[] | e |] c2] end;
      simpl in E; inversion E; subst; try reflexivity; congruence.
  - inversion E; subst. rewrite <- Hc. eapply keeps_run; [|exact E1]. preserve.
  - inversion E; subst. congruence.
Qed.

Lemma continueCheckoutProcess_exit w fuel c :
  checkoutInProgress (cst c) = false ->
  fst (run w (continueCheckoutProcess fuel) c) <> OutOfFuel ->
  checkoutInProgress (cst (snd (run w (continueCheckoutProcess fuel) c))) = false.
Proof.
  intros Hc Hr.
  destruct (run w (continueCheckoutProcess fuel) c) as [r c'] eqn:E. simpl in *.
  destruct fuel; cbn [continueCheckoutProcess] in E;
    eapply continueCheckoutProcessWith_exit; eassumption.
Qed.

(** * The steps of the product-page pipeline *)

Lemma run_add_to_cart_rethrow w fuel c e c1 :
  run w (stepAddToCart fuel) c = (Raised e, c1) ->
  run w (tryCatch (stepAddToCart fuel) rethrowAddToCart) c
  = (Raised e, logged (Console ("Critical error in add-to-cart step: " ++ e)) c1).
Proof. intros E. rewrite run_tryCatch, E. reflexivity. Qed.

(** C8: in the product-page pipeline an exception of the select-delivery
    step or of the handle-popups step is caught and logged and the pipeline
    goes on with the next step from the state the failed step left, while
    an exception of the add-to-cart step is logged, rethrown and handled by
    [handleCheckoutError]: the error is reported, [checkoutInProgress] is
    reset, and neither popups nor navigation follow. *)
Theorem product_steps_error_policy :
  forall (w : nat -> Dom) (fuel : nat) (c c1 : Config) (e : string),
    (run w stepSelectDelivery c = (Raised e, c1) ->
     run w (tryCatch (productSteps fuel) handleCheckoutError) c
     = run w (tryCatch (stepsFromAddToCart fuel) handleCheckoutError)
         (logged (Console ("Error in select-delivery step: " ++ e ++ ". Continuing anyway.")) c1))
    /\ (run w (stepHandlePopups fuel) c = (Raised e, c1) ->
        run w (tryCatch (stepsFromPopups fuel) handleCheckoutError) c
        = run w (tryCatch stepGoToCheckout handleCheckoutError)
            (logged (Console ("Error handling popups: " ++ e ++ ". Continuing anyway.")) c1))
    /\ (run w (stepAddToCart fuel) c = (Raised e, c1) ->
        run w (tryCatch (stepsFromAddToCart fuel) handleCheckoutError) c
        = (Returned tt,
           withState (set_checkoutInProgress false)
             (logged (Status ("Error: " ++ e) StatusWaiting)
                (logged (Console ("Critical error in add-to-cart step: " ++ e)) c1)))).
Proof.
  intros w fuel c c1 e. repeat split; intros E.
  - unfold productSteps. rewrite !run_tryCatch, run_bind, run_tryCatch, E. reflexivity.
  - unfold stepsFromPopups. rewrite !run_tryCatch, run_bind, run_tryCatch, E. reflexivity.
  - unfold stepsFromAddToCart. rewrite run_tryCatch, run_bind.
    rewrite (run_add_to_cart_rethrow _ _ _ _ _ E). reflexivity.
Qed.

(** The policy on concrete pages: a failing timer breaks the select-delivery
    step, which is skipped over; a page without an add-to-cart button ends
    the pipeline in the error handler. *)
Lemma product_steps_error_policy_witness :
  run (fun _ => brokenTimerPage) (tryCatch (productSteps 0) handleCheckoutError)
    (initialConfig exampleState)
  = run (fun _ => brokenTimerPage) (tryCatch (stepsFromAddToCart 0) handleCheckoutError)
      (logged (Console "Error in select-delivery step: timer unavailable. Continuing anyway.")
         (snd (run (fun _ => brokenTimerPage) stepSelectDelivery (initialConfig exampleState))))
  /\ run (fun _ => barePage) (tryCatch (stepsFromAddToCart 0) handleCheckoutError)
       (initialConfig exampleState)
     = (Returned tt,
        withState (set_checkoutInProgress false)
          (logged (Status "Error: Add to Cart/Pre-Order button not found." StatusWaiting)
             (logged (Console "Critical error in add-to-cart step: Add to Cart/Pre-Order button not found.")
                (snd (run (fun _ => barePage) (stepAddToCart 0) (initialConfig exampleState)))))).
Proof.
  split.
  - apply (proj1 (product_steps_error_policy (fun _ => brokenTimerPage) 0
                    (initialConfig exampleState)
                    (snd (run (fun _ => brokenTimerPage) stepSelectDelivery
                            (initialConfig exampleState)))
                    "timer unavailable")).
    vm_compute. reflexivity.
  - apply (proj2 (proj2 (product_steps_error_policy (fun _ => barePage) 0
                    (initialConfig exampleState)
                    (snd (run (fun _ => barePage) (stepAddToCart 0)
                            (initialConfig exampleState)))
                    "Add to Cart/Pre-Order button not found."))).
    vm_compute. reflexivity.
Defined.

(** * Submission switched off *)

Lemma placeOrderWith_autoSubmit_off w again c :
  autoSubmit (globalSettings (cst c)) = false ->
  run w (placeOrderWith again) c
  = (Returned tt,
     logged (Status "Order ready - Submit disabled" StatusComplete)
       (withState (set_currentStep "place-order") c)).
Proof.
  intros H. unfold placeOrderWith. rewrite run_modify, run_get. simpl.
  rewrite H. reflexivity.
Qed.

Lemma placeOrderWith_autoSubmit_off_segment d again s :
  autoSubmit (globalSettings s) = false ->
  segment d (placeOrderWith again) s
  = {| seg_state := set_currentStep "place-order" s;
       seg_actions := [Status "Order ready - Submit disabled" StatusComplete];
       seg_spawned := [];
       seg_end := SegReturned tt |}.
Proof.
  intros H. unfold placeOrderWith, segment. simpl. rewrite H. reflexivity.
Qed.

(** C10 (amended): with [globalSettings.autoSubmit] false, [placeOrder] returns within
    its first turn: it records the step, reports 'Order ready - Submit
    disabled', and does nothing else.  No click, no assignment to a guard
    flag, no verification handler, no suspension, no chain started; the DOM
    is not even looked at. *)
Theorem placeOrder_autoSubmit_off :
  forall (w : nat -> Dom) (d : Dom) (fuel : nat) (c : Config),
    autoSubmit (globalSettings (cst c)) = false ->
    run w (placeOrder fuel) c
    = (Returned tt,
       logged (Status "Order ready - Submit disabled" StatusComplete)
         (withState (set_currentStep "place-order") c))
    /\ segment d (placeOrder fuel) (cst c)
       = {| seg_state := set_currentStep "place-order" (cst c);
            seg_actions := [Status "Order ready - Submit disabled" StatusComplete];
            seg_spawned := [];
            seg_end := SegReturned tt |}
    /\ placeOrderButtonClicked (cst (snd (run w (placeOrder fuel) c)))
       = placeOrderButtonClicked (cst c)
    /\ confirmButtonClicked (cst (snd (run w (placeOrder fuel) c)))
       = confirmButtonClicked (cst c)
    /\ verifyCardButtonClicked (cst (snd (run w (placeOrder fuel) c)))
       = verifyCardButtonClicked (cst c).
Proof.
  intros w d fuel c H.
  assert (E : run w (placeOrder fuel) c
              = (Returned tt,
                 logged (Status "Order ready - Submit disabled" StatusComplete)
                   (withState (set_currentStep "place-order") c))).
  { destruct fuel; cbn [placeOrder]; now apply placeOrderWith_autoSubmit_off. }
  split; [exact E|]. split.
  - destruct fuel; cbn [placeOrder]; now apply placeOrderWith_autoSubmit_off_segment.
  - rewrite E. repeat split.
Qed.

Lemma placeOrder_autoSubmit_off_witness :
  autoSubmit (globalSettings (cst (initialConfig submitDisabledState))) = false
  /\ trace (snd (run (fun _ => checkoutPage) (placeOrder 3) (initialConfig submitDisabledState)))
     = [Status "Order ready - Submit disabled" StatusComplete].
Proof.
  split; [reflexivity|].
  rewrite (proj1 (placeOrder_autoSubmit_off (fun _ => checkoutPage) checkoutPage 3
                    (initialConfig submitDisabledState) eq_refl)).
  reflexivity.
Defined.

(** C10 as stated fails: [autoSubmit] is no switch for order submission,
    [placeOrder] alone reads it.  With the switch off and the Buy-Now option
    on, the product-page pipeline places the order in the Buy-Now panel and
    confirms the CVV there; and a high-demand retry timer that is running
    (installed before the switch was turned off) clicks the place-order
    button with its next tick. *)
Lemma order_placed_with_autoSubmit_off :
  autoSubmit (globalSettings buyNowSubmitDisabledState) = false
  /\ fst (run (fun _ => buyNowPage) (startCheckoutProcess 0 true)
            (initialConfig buyNowSubmitDisabledState)) = Returned tt
  /\ filter inIframe
       (trace (snd (run (fun _ => buyNowPage) (startCheckoutProcess 0 true)
                      (initialConfig buyNowSubmitDisabledState))))
     = [IframeClick "place-order"; IframeFill "cvv" "111"; IframeClick "confirm-cvv"]
  /\ autoSubmit (globalSettings
                   (set_globalSettings (globalSettings submitDisabledState)
                      (set_placeOrderButtonClicked true timerRunningState))) = false
  /\ seg_actions (segment readyToSubmitPage highDemandRetryTick
                    (set_globalSettings (globalSettings submitDisabledState)
                       (set_placeOrderButtonClicked true timerRunningState)))
     = [Click "high-demand-retry"; ClearInterval 7].
Proof. vm_compute. repeat split. Qed.

(** * The price guard *)

Ltac break_match :=
  match goal with
  | |- context [match fails ?d ?c with _ => _ end] => destruct (fails d c) eqn:?
  | |- context [if ?b then _ else _] => destruct b eqn:?
  | |- context [match ?x with _ => _ end] => destruct x eqn:?
  end.

Lemma run_ext_ok {B} w call (f : unit -> Async B) c :
  fails (w (clock c)) call = None ->
  run w (bind (ext call) f) c = run w (f tt) c.
Proof. intros H. unfold ext. simpl. rewrite H. reflexivity. Qed.

Lemma run_ext_fail {B} w call (f : unit -> Async B) c e :
  fails (w (clock c)) call = Some e ->
  run w (bind (ext call) f) c = (Raised e, c).
Proof. intros H. unfold ext. simpl. rewrite H. reflexivity. Qed.

Lemma run_find_ok {B} w t (f : option Elem -> Async B) c :
  fails (w (clock c)) (CallFind t) = None ->
  run w (bind (find t) f) c = run w (f (query (w (clock c)) t)) c.
Proof. intros H. unfold find, ext. simpl. rewrite H. reflexivity. Qed.

Lemma run_find_fail {B} w t (f : option Elem -> Async B) c e :
  fails (w (clock c)) (CallFind t) = Some e ->
  run w (bind (find t) f) c = (Raised e, c).
Proof. intros H. unfold find, ext. simpl. rewrite H. reflexivity. Qed.

Lemma run_getFromStorage {B} w keys (f : Storage -> Async B) c :
  run w (bind (getFromStorage keys) f) c
  = match fails (w (S (clock c))) CallStorageGet with
    | Some e => (Raised e, nextTurn (logged (StorageGet keys) c))
    | None => run w (f (stored (w (S (clock c))))) (nextTurn (logged (StorageGet keys) c))
    end.
Proof. unfold getFromStorage, ext. simpl. destruct (fails _ _); reflexivity. Qed.

Lemma extractTCIN_run w c :
  run w extractTCIN c = (returns (w (clock c)) (cst c) extractTCIN, c).
Proof.
  unfold returns, extractTCIN, ext. simpl.
  repeat (break_match; simpl); reflexivity.
Qed.

Lemma extractPrice_run w c :
  run w extractPrice c = (returns (w (clock c)) (cst c) extractPrice, c).
Proof.
  unfold returns, extractPrice, find, ext. simpl.
  repeat (break_match; simpl); reflexivity.
Qed.



(** With no helper raising, the comparison returns what the table says. *)
Lemma compareWithCeiling_ok w data t p c :
  (forall call, fails (w (clock c)) call = None) ->
  fst (run w (compareWithCeiling data t p) c)
  = Returned match lookupKey t match st_price_check_items data with
                               | Some items => items
                               | None => []
                               end with
             | Some maxPrice => Qle_bool p maxPrice
             | None => true
             end.
Proof.
  intros Hok. unfold compareWithCeiling, alertOnce, windowClose, ext. simpl.
  repeat (break_match; simpl; rewrite ?Hok in *; simpl); try reflexivity; try discriminate.
  all: destruct (Qle_bool _ _); simpl in *; congruence.
Qed.

Lemma judgePrice_ok w data tcin price c :
  (forall call, fails (w (clock c)) call = None) ->
  fst (run w (judgePrice data tcin price) c)
  = Returned (priceGuardTable true
                match st_price_check_items data with Some items => items | None => [] end
                tcin price).
Proof.
  intros Hok. unfold judgePrice, priceGuardTable. simpl negb. cbv iota.
  destruct (truthyStr tcin) eqn:Et; simpl negb; cbv iota.
  2: { rewrite !run_ext_ok by apply Hok. reflexivity. }
  destruct (truthyNum price) eqn:Ep; simpl negb; cbv iota.
  2: { rewrite !run_ext_ok by apply Hok. reflexivity. }
  destruct tcin as [t|]; [|discriminate]. destruct price as [p|]; [|discriminate].
  now apply compareWithCeiling_ok.
Qed.

Lemma priceCheckBody_ok w data c :
  (forall call, fails (w (clock c)) call = None) ->
  forall tcin price,
    returns (w (clock c)) (cst c) extractTCIN = Returned tcin ->
    returns (w (clock c)) (cst c) extractPrice = Returned price ->
    fst (run w (priceCheckBody data) c)
    = Returned (priceGuardTable (st_price_check_enabled data)
                  match st_price_check_items data with Some items => items | None => [] end
                  tcin price).
Proof.
  intros Hok tcin price Ht Hp. unfold priceCheckBody.
  destruct (st_price_check_enabled data); simpl negb; cbv iota; [|reflexivity].
  rewrite run_bind, extractTCIN_run, Ht.
  rewrite run_ext_ok by apply Hok.
  rewrite run_find_ok by apply Hok.
  rewrite run_bind, extractPrice_run, Hp.
  rewrite !run_ext_ok by apply Hok.
  now apply judgePrice_ok.
Qed.

Lemma checkProductPrice_ok w c :
  (forall call, fails (w (S (clock c))) call = None) ->
  forall tcin price,
    returns (w (S (clock c))) (cst c) extractTCIN = Returned tcin ->
    returns (w (S (clock c))) (cst c) extractPrice = Returned price ->
    fst (run w checkProductPrice c)
    = Returned (priceGuardTable (st_price_check_enabled (stored (w (S (clock c)))))
                  match st_price_check_items (stored (w (S (clock c)))) with
                  | Some items => items
                  | None => []
                  end
                  tcin price).
Proof.
  intros Hok tcin price Ht Hp. unfold checkProductPrice.
  rewrite run_tryCatch, run_getFromStorage, Hok.
  pose proof (priceCheckBody_ok w (stored (w (S (clock c))))
                (nextTurn (logged (StorageGet priceCheckKeys) c)) Hok tcin price Ht Hp) as H.
  destruct (run w (priceCheckBody (stored (w (S (clock c)))))
              (nextTurn (logged (StorageGet priceCheckKeys) c))) as [[b | e |] c2];
    simpl in H; try discriminate.
  simpl. exact H.
Qed.









(** C5: for inputs on which no helper raises, the verdict of the price guard
    is the decision table: disabled, TCIN absent, price absent, or no ceiling
    configured for the TCIN all pass; a price strictly above the ceiling
    blocks; a price at or below it passes.  "Absent" is what JavaScript
    reads as false: no value, an empty TCIN, a price of zero (a price above a
    non-negative ceiling is never zero). *)
Theorem price_guard_decision_table :
  forall (w : nat -> Dom) (c : Config) (tcin : JsString) (price : option Q),
    (forall call, fails (w (S (clock c))) call = None) ->
    returns (w (S (clock c))) (cst c) extractTCIN = Returned tcin ->
    returns (w (S (clock c))) (cst c) extractPrice = Returned price ->
    let enabled := st_price_check_enabled (stored (w (S (clock c)))) in
    let items := match st_price_check_items (stored (w (S (clock c)))) with
                 | Some items => items
                 | None => []
                 end in
    let verdict := fst (run w checkProductPrice c) in
    verdict = Returned (priceGuardTable enabled items tcin price)
    /\ (enabled = false -> verdict = Returned true)
    /\ (truthyStr tcin = false -> verdict = Returned true)
    /\ (truthyNum price = false -> verdict = Returned true)
    /\ (forall t, tcin = Some t -> lookupKey t items = None -> verdict = Returned true)
    /\ (forall t p maxPrice,
          enabled = true -> tcin = Some t -> t <> "" ->
          price = Some p -> ~ (p == 0)%Q ->
          lookupKey t items = Some maxPrice -> (maxPrice < p)%Q ->
          verdict = Returned false)
    /\ (forall t p maxPrice,
          tcin = Some t -> price = Some p ->
          lookupKey t items = Some maxPrice -> (p <= maxPrice)%Q ->
          verdict = Returned true).
Proof.
  intros w c tcin price Hok Ht Hp enabled items verdict.
  assert (E : verdict = Returned (priceGuardTable enabled items tcin price))
    by (apply checkProductPrice_ok; assumption).
  split; [exact E|]. rewrite E. unfold priceGuardTable.
  repeat split.
  - intros ->. reflexivity.
  - intros ->. destruct enabled; reflexivity.
  - intros ->. destruct enabled, (truthyStr tcin); reflexivity.
  - intros t -> ->. destruct enabled, (truthyStr (Some t)), (truthyNum price), price; reflexivity.
  - intros t p m -> -> Ht0 -> Hp0 -> Hlt.
    assert (truthyStr (Some t) = true) as -> by (destruct t; [congruence | reflexivity]).
    assert (truthyNum (Some p) = true) as ->.
    { simpl. destruct (Qeq_bool p 0) eqn:Eq; [|reflexivity].
      apply Qeq_bool_iff in Eq. contradiction. }
    simpl. destruct (Qle_bool p m) eqn:El; [|reflexivity].
    apply Qle_bool_iff in El. exfalso. eapply Qlt_not_le; eassumption.
  - intros t p m -> -> -> Hle.
    apply Qle_bool_iff in Hle. rewrite Hle.
    destruct enabled, (truthyStr (Some t)), (truthyNum (Some p)); reflexivity.
Qed.


(** The five cases the specification lists. *)
Lemma price_guard_decision_table_witness :
  verdictOn (pricePage true [("123", 40%Q)] None (Some 12%Q) noFailure) = Returned true
  /\ verdictOn (pricePage true [("123", 40%Q)] (Some "123") None noFailure) = Returned true
  /\ verdictOn (pricePage true [("123", 40%Q)] (Some "123") (Some 50%Q) noFailure) = Returned false
  /\ verdictOn (pricePage true [("123", 40%Q)] (Some "123") (Some 30%Q) noFailure) = Returned true
  /\ verdictOn (pricePage false [("123", 40%Q)] (Some "123") (Some 50%Q) noFailure) = Returned true.
Proof.
  unfold verdictOn.
  refine (conj _ (conj _ (conj _ (conj _ _)))).
  - apply (proj1 (proj2 (proj2 (price_guard_decision_table
             (fun _ => pricePage true [("123", 40%Q)] None (Some 12%Q) noFailure)
             (initialConfig exampleState) None (Some 12%Q)
             (fun _ => eq_refl) eq_refl eq_refl)))).
    reflexivity.
  - apply (proj1 (proj2 (proj2 (proj2 (price_guard_decision_table
             (fun _ => pricePage true [("123", 40%Q)] (Some "123") None noFailure)
             (initialConfig exampleState) (Some "123") None
             (fun _ => eq_refl) eq_refl eq_refl))))).
    reflexivity.
  - apply (proj2 (proj2 (proj2 (proj2 (proj2 (price_guard_decision_table
             (fun _ => pricePage true [("123", 40%Q)] (Some "123") (Some 50%Q) noFailure)
             (initialConfig exampleState) (Some "123") (Some 50%Q)
             (fun _ => eq_refl) eq_refl eq_refl))))))
      with (t := "123") (p := 50%Q) (maxPrice := 40%Q);
      try reflexivity; try discriminate.
  - apply (proj2 (proj2 (proj2 (proj2 (proj2 (proj2 (price_guard_decision_table
             (fun _ => pricePage true [("123", 40%Q)] (Some "123") (Some 30%Q) noFailure)
             (initialConfig exampleState) (Some "123") (Some 30%Q)
             (fun _ => eq_refl) eq_refl eq_refl)))))))
      with (t := "123") (p := 30%Q) (maxPrice := 40%Q);
      try reflexivity; try discriminate.
  - apply (proj1 (proj2 (price_guard_decision_table
             (fun _ => pricePage false [("123", 40%Q)] (Some "123") (Some 50%Q) noFailure)
             (initialConfig exampleState) (Some "123") (Some 50%Q)
             (fun _ => eq_refl) eq_refl eq_refl))).
    reflexivity.
Defined.



(** * Payment data *)

(** C6: both CVV lookups return the first present value among
    [profile.cvv], [profile.paymentMethod.cvv], [profile.payment.cvv], in that
    order; a present direct field wins over the other two. *)
Theorem cvv_resolution_order :
  forall profile : option Profile,
    handleCVVConfirmation_cvv profile = resolveFrom cvvShapes profile
    /\ useBuyNowCheckout_cvv profile = resolveFrom cvvShapes profile
    /\ useBuyNowCheckout_cvv profile = handleCVVConfirmation_cvv profile
    /\ (forall p, profile = Some p -> truthyStr (p_cvv p) = true ->
                  handleCVVConfirmation_cvv profile = p_cvv p
                  /\ useBuyNowCheckout_cvv profile = p_cvv p).
Proof.
  intros [p|]; cbn.
  - refine (conj _ (conj _ (conj eq_refl _))).
    + destruct (truthyStr (p_cvv p)); [reflexivity|].
      destruct (truthyStr _); [reflexivity|].
      destruct (truthyStr _); reflexivity.
    + destruct (truthyStr (p_cvv p)); [reflexivity|].
      destruct (truthyStr _); [reflexivity|].
      destruct (truthyStr _); reflexivity.
    + intros q [= <-] ->. split; reflexivity.
  - refine (conj eq_refl (conj eq_refl (conj eq_refl _))). discriminate.
Qed.

(** The four profiles the specification lists. *)
Lemma cvv_resolution_order_witness :
  handleCVVConfirmation_cvv (Some (withCvv (Some "111") None None)) = Some "111"
  /\ handleCVVConfirmation_cvv (Some (withCvv None (Some "222") None)) = Some "222"
  /\ handleCVVConfirmation_cvv (Some (withCvv None None (Some "333"))) = Some "333"
  /\ useBuyNowCheckout_cvv (Some (withCvv (Some "111") (Some "222") (Some "333")))
     = Some "111".
Proof.
  refine (conj _ (conj _ (conj _ _))).
  - exact (proj1 (cvv_resolution_order (Some (withCvv (Some "111") None None)))).
  - exact (proj1 (cvv_resolution_order (Some (withCvv None (Some "222") None)))).
  - exact (proj1 (cvv_resolution_order (Some (withCvv None None (Some "333"))))).
  - exact (proj2 (proj2 (proj2 (proj2
             (cvv_resolution_order (Some (withCvv (Some "111") (Some "222") (Some "333"))))))
             _ eq_refl eq_refl)).
Defined.




(** * Counting actions *)

Section AtMostFacts.
Variable p : Action -> bool.

Lemma AtMost_mono {A} (t : Async A) :
  forall n m, n <= m -> AtMost p n t -> AtMost p m t.
Proof.
  induction t; intros n m Hle Ht; simpl in *; eauto.
  - destruct (p a); eauto.
    destruct n as [|n]; [contradiction|].
    destruct m as [|m]; [lia|]. apply (IHt n); [lia | assumption].
  - destruct Ht as (a & b & Hab & Ha & Hb). exists a, b. repeat split; [lia | assumption..].
Qed.

Lemma AtMost_bind {A B} (m : Async A) (f : A -> Async B) :
  forall a b, AtMost p a m -> (forall x, AtMost p b (f x)) -> AtMost p (a + b) (bind m f).
Proof.
  revert B f. induction m; intros B g n b Hm Hf; simpl in *; eauto.
  - apply AtMost_mono with (n := b); [lia | apply Hf].
  - destruct (p a); eauto.
    destruct n as [|n]; [contradiction|]. simpl. eauto.
  - destruct Hm as (x & y & Hxy & Hx & Hy).
    exists x, (y + b). repeat split; [lia | assumption | eauto].
Qed.

Lemma AtMost_tryCatch {A} (m : Async A) (h : string -> Async A) :
  forall a b, AtMost p a m -> (forall e, AtMost p b (h e)) -> AtMost p (a + b) (tryCatch m h).
Proof.
  revert h. induction m; intros h n b Hm Hh; simpl in *; eauto.
  - apply AtMost_mono with (n := b); [lia | apply Hh].
  - destruct (p a); eauto.
    destruct n as [|n]; [contradiction|]. simpl. eauto.
  - destruct Hm as (x & y & Hxy & Hx & Hy).
    exists x, (y + b). repeat split; [lia | assumption | eauto].
Qed.

Lemma AtMost_attempt {A} (m : Async A) n : AtMost p n m -> AtMost p n (attempt m).
Proof.
  intros H. unfold attempt.
  apply AtMost_mono with (n := n + 0 + 0); [lia|].
  apply AtMost_tryCatch; [apply AtMost_bind|]; simpl; auto.
Qed.

Lemma AtMost_settle {A} (r : string + A) n : AtMost p n (settle r).
Proof. destruct r; exact I. Qed.

Lemma AtMost_tryFinally {A} (m : Async A) (f : Async unit) a b :
  AtMost p a m -> AtMost p b f -> AtMost p (a + b) (tryFinally m f).
Proof.
  intros Hm Hf. unfold tryFinally.
  apply AtMost_bind; [now apply AtMost_attempt|]. intros r.
  apply AtMost_mono with (n := b + 0); [lia|].
  apply AtMost_bind; [assumption|]. intros _. apply AtMost_settle.
Qed.

Lemma AtMost_await {A} (m : Async A) n : AtMost p n m -> AtMost p n (await m).
Proof.
  intros H. unfold await.
  apply AtMost_mono with (n := n + 0); [lia|].
  apply AtMost_bind; [now apply AtMost_attempt|]. intros r.
  simpl. apply AtMost_settle.
Qed.

Lemma AtMost_callAsync {A B} (m : Async A) (k : Promise A -> Async B) :
  forall n b,
    AtMost p n m ->
    (forall c pr, AtMostPromise p c pr -> AtMost p (c + b) (k pr)) ->
    AtMost p (n + b) (callAsync m k).
Proof.
  revert k. induction m; intros k' n b Hm Hk; simpl in *; eauto.
  - destruct (p a); eauto.
    destruct n as [|n]; [contradiction|]. simpl. eauto.
  - destruct Hm as (x & y & Hxy & Hx & Hy).
    exists x, (y + b). repeat split; [lia | assumption | eauto].
Qed.

Lemma AtMost_detached {A} (pr : Promise A) n : AtMostPromise p n pr -> AtMost p n (detached pr).
Proof.
  destruct pr as [r | rest]; simpl; intros H; [exact I|].
  apply AtMost_mono with (n := n + 0); [lia|].
  apply AtMost_bind; [now apply AtMost_attempt|]. intros; exact I.
Qed.

Lemma AtMost_awaitPromise {A} (pr : Promise A) n :
  AtMostPromise p n pr -> AtMost p n (awaitPromise pr).
Proof.
  destruct pr as [r | rest]; simpl; intros H.
  - apply AtMost_settle.
  - apply AtMost_mono with (n := n + 0); [lia|].
    apply AtMost_bind; [now apply AtMost_attempt|]. intros r.
    simpl. apply AtMost_settle.
Qed.

Lemma AtMost_fireAndForget {A} (m : Async A) n : AtMost p n m -> AtMost p n (fireAndForget m).
Proof.
  intros H. unfold fireAndForget.
  apply AtMost_mono with (n := n + 0); [lia|].
  apply AtMost_callAsync; [assumption|].
  intros c pr Hpr. exists c, 0. repeat split; [lia | now apply AtMost_detached].
Qed.

Lemma AtMost_ext (c : Call) n : AtMost p n (ext c).
Proof. intros d. simpl. destruct (fails d c); exact I. Qed.

Lemma countActions_app (l1 l2 : list Action) :
  countActions p (l1 ++ l2) = countActions p l1 + countActions p l2.
Proof. unfold countActions. rewrite filter_app, length_app. reflexivity. Qed.

Lemma countActions_snoc (l : list Action) (a : Action) :
  countActions p (l ++ [a]) = countActions p l + (if p a then 1 else 0).
Proof. rewrite countActions_app. unfold countActions. simpl. destruct (p a); reflexivity. Qed.

(** A chain run alone stays within its allowance. *)
Lemma AtMost_run {A} (w : nat -> Dom) (t : Async A) :
  forall n c,
    AtMost p n t ->
    countActions p (trace (snd (run w t c))) <= countActions p (trace c) + n.
Proof.
  induction t; intros n c Ht; simpl in *; try lia; eauto.
  - etransitivity; [apply (IHt n); assumption|]. simpl. lia.
  - destruct (p a) eqn:Ea.
    + destruct n as [|n]; [contradiction|].
      etransitivity; [apply (IHt n); assumption|].
      simpl. rewrite countActions_snoc, Ea. lia.
    + etransitivity; [apply (IHt n); assumption|].
      simpl. rewrite countActions_snoc, Ea. lia.
  - etransitivity; [apply (IHt n); assumption|]. simpl. lia.
  - destruct Ht as (x & y & Hxy & Hx & Hy).
    etransitivity; [apply (IHt2 y); assumption|]. simpl. lia.
Qed.

Lemma PoolAtMost_mono (chains : list (Async unit)) :
  forall n m, n <= m -> PoolAtMost p n chains -> PoolAtMost p m chains.
Proof.
  induction chains as [|t rest IH]; intros n m Hle H; simpl in *; [exact I|].
  destruct H as (a & b & Hab & Ha & Hb). exists a, b. repeat split; [lia | assumption..].
Qed.

Lemma PoolAtMost_app (l1 l2 : list (Async unit)) :
  forall a b, PoolAtMost p a l1 -> PoolAtMost p b l2 -> PoolAtMost p (a + b) (l1 ++ l2).
Proof.
  induction l1 as [|t rest IH]; intros a b H1 H2; simpl in *.
  - apply PoolAtMost_mono with (n := b); [lia | assumption].
  - destruct H1 as (x & y & Hxy & Hx & Hy).
    exists x, (y + b). repeat split; [lia | assumption | auto].
Qed.

Lemma PoolAtMost_replaceNth (chains : list (Async unit)) :
  forall i n t,
    PoolAtMost p n chains -> nth_error chains i = Some t ->
    exists a b, a + b <= n /\ AtMost p a t
                /\ forall t' a', AtMost p a' t' -> PoolAtMost p (a' + b) (replaceNth i t' chains).
Proof.
  induction chains as [|t0 rest IH]; intros i n t H Hnth.
  - destruct i; discriminate.
  - destruct H as (x & y & Hxy & Hx & Hy). destruct i as [|i]; simpl in *.
    + injection Hnth as <-. exists x, y. repeat split; [lia | assumption |].
      intros t' a' Ht'. exists a', y. repeat split; [lia | assumption..].
    + destruct (IH i y t Hy Hnth) as (a & b & Hab & Ha & Hrep).
      exists a, (x + b). repeat split; [lia | assumption |].
      intros t' a' Ht'. exists x, (a' + b). repeat split; [lia | assumption | auto].
Qed.

(** One turn of a chain: what it did, what is left of it and what it
    started stay within the allowance. *)
Lemma AtMost_segmentFrom {A} (d : Dom) (t : Async A) :
  forall n s acts sp b0,
    AtMost p n t -> PoolAtMost p b0 sp ->
    exists a b,
      countActions p (seg_actions (segmentFrom d t s acts sp)) + a + b
      <= countActions p acts + n + b0
      /\ AtMostEnd p a (seg_end (segmentFrom d t s acts sp))
      /\ PoolAtMost p b (seg_spawned (segmentFrom d t s acts sp)).
Proof.
  induction t; intros n s acts sp b0 Ht Hsp; simpl in *;
    try (exists 0, b0; repeat split; [lia | exact I | assumption]); eauto.
  - destruct (p a) eqn:Ea.
    + destruct n as [|n]; [contradiction|].
      destruct (IHt n s (acts ++ [a]) sp b0 Ht Hsp) as (x & y & Hxy & Hx & Hy).
      exists x, y. repeat split; [|assumption..].
      rewrite countActions_snoc, Ea in Hxy. lia.
    + destruct (IHt n s (acts ++ [a]) sp b0 Ht Hsp) as (x & y & Hxy & Hx & Hy).
      exists x, y. repeat split; [|assumption..].
      rewrite countActions_snoc, Ea in Hxy. lia.
  - destruct Ht as (x & y & Hxy & Hx & Hy).
    assert (Hsp' : PoolAtMost p (b0 + (x + 0)) (sp ++ [t1])).
    { apply PoolAtMost_app; [assumption|]. exists x, 0. repeat split; [lia | assumption]. }
    destruct (IHt2 y s acts (sp ++ [t1]) _ Hy Hsp') as (a' & b' & Hab' & Ha' & Hb').
    exists a', b'. repeat split; [lia | assumption..].
Qed.

Lemma AtMost_leftover (n : nat) (e : SegmentEnd unit) :
  AtMostEnd p n e -> AtMost p n (leftover e).
Proof. destruct e; simpl; auto. Qed.

(** The same for a pool, turn by turn. *)
Lemma PoolAtMost_step (P : Pool) (turn : nat * Dom) (n : nat) :
  PoolAtMost p n (pool_chains P) ->
  exists n',
    PoolAtMost p n' (pool_chains (poolStep P turn))
    /\ countActions p (pool_trace (poolStep P turn)) + n' <= countActions p (pool_trace P) + n.
Proof.
  intros H. unfold poolStep.
  destruct (nth_error (pool_chains P) (fst turn)) as [t|] eqn:Hnth.
  - destruct (PoolAtMost_replaceNth _ _ _ _ H Hnth) as (a & b & Hab & Ha & Hrep).
    destruct (AtMost_segmentFrom (snd turn) t a (pool_state P) [] [] 0 Ha I)
      as (x & y & Hxy & Hx & Hy).
    fold (segment (snd turn) t (pool_state P)) in Hxy, Hx, Hy.
    exists (x + b + y). simpl. split.
    + apply PoolAtMost_app; [|assumption].
      apply Hrep. now apply AtMost_leftover.
    + rewrite countActions_app. change (countActions p []) with 0 in Hxy. lia.
  - exists n. split; [assumption | lia].
Qed.

Lemma PoolAtMost_runPool (schedule : list (nat * Dom)) :
  forall P n,
    PoolAtMost p n (pool_chains P) ->
    countActions p (pool_trace (runPool schedule P)) <= countActions p (pool_trace P) + n.
Proof.
  induction schedule as [|turn rest IH]; intros P n H; simpl; [lia|].
  destruct (PoolAtMost_step P turn n H) as (n' & Hn' & Hle).
  etransitivity; [apply (IH _ n'); assumption|]. lia.
Qed.

End AtMostFacts.

(** * The cart page *)

Lemma windowClose_cartOnly : AtMost automationStep 0 windowClose.
Proof. intros d. simpl. destruct (fails d CallWindowClose); exact I. Qed.

Lemma autoCloseCartPage_cartOnly : AtMost automationStep 0 autoCloseCartPage.
Proof.
  unfold autoCloseCartPage.
  apply (AtMost_tryCatch automationStep _ _ 0 0); [|intros; exact I].
  apply (AtMost_bind automationStep _ _ 0 0); [exact I|]. intros _.
  apply (AtMost_bind automationStep _ _ 0 0); [exact I|]. intros _.
  apply (AtMost_bind automationStep _ _ 0 0); [apply AtMost_ext|]. intros _.
  apply (AtMost_bind automationStep _ _ 0 0); [intros d; exact I|]. intros d.
  destruct (match st_globalSettings (stored d) with
            | Some g => autoCloseCart g
            | None => false
            end).
  - apply (AtMost_bind automationStep _ _ 0 0); [exact I|]. intros _.
    apply (AtMost_bind automationStep _ _ 0 0); [apply windowClose_cartOnly|]. intros _.
    exists 0, 0. split; [lia | split; [| exact I]].
    apply (AtMost_tryCatch automationStep _ _ 0 0); [apply windowClose_cartOnly|].
    intros; exact I.
  - exact I.
Qed.

Lemma cartBranch_cartOnly : AtMost automationStep 0 cartBranch.
Proof.
  unfold cartBranch.
  apply (AtMost_bind automationStep _ _ 0 0); [exact I|]. intros _.
  apply (AtMost_bind automationStep _ _ 0 0); [|intros; exact I].
  apply AtMost_fireAndForget, autoCloseCartPage_cartOnly.
Qed.

Lemma poolStep_contentScript_cart (s : RunState) (d : Dom) :
  pathname d = "/cart" ->
  poolStep (startPool s [contentScript]) (0, d) = poolStep (startPool s [cartBranch]) (0, d).
Proof.
  intros H. unfold poolStep, startPool. simpl nth_error. cbv iota. cbn [fst snd pool_state].
  assert (E : segment d contentScript s = segment d cartBranch s).
  { unfold segment, contentScript. cbn [bind look segmentFrom]. rewrite H. reflexivity. }
  rewrite E. reflexivity.
Qed.

Lemma includes_cart_only (d : Dom) :
  detectCurrentPage d = PageCart ->
  pathname d = "/cart"
  /\ includes "target.com/p/" (href d) = false
  /\ includes "/gift-registry" (href d) = false
  /\ includes "target.com/checkout" (href d) = false.
Proof.
  unfold detectCurrentPage.
  destruct (includes "target.com/p/" (href d)); [discriminate|].
  destruct (includes "/gift-registry" (href d)); [discriminate|].
  destruct (includes "target.com/checkout" (href d)); [discriminate|].
  destruct (String.eqb (pathname d) "/cart") eqn:E; [|discriminate].
  apply String.eqb_eq in E. auto.
Qed.

(** C7 (amended): on a page whose path is the cart path the script takes its
    cart branch at once: under every schedule it performs nothing but its
    status lines, the read of [globalSettings] for the auto-close option and
    [window.close()]; the engine's settings are never loaded, no price check
    is made, no pipeline is started and no watcher is installed.  [init],
    [onActivate], [handlePageDetection] and the message listener stop at once
    for a cart page.  [detectCurrentPage] tests the cart path last: it
    answers cart exactly when the path is the cart path and the address
    contains none of the patterns of the three tests before it. *)
Theorem cart_page_short_circuit :
  forall d : Dom,
    pathname d = "/cart" ->
    (forall s rest,
        countActions automationStep
          (pool_trace (runPool ((0, d) :: rest) (startPool s [contentScript]))) = 0)
    /\ (forall s,
           seg_actions (segment d contentScript s)
           = [Status "Cart page detected - checking auto-close setting" StatusWaiting;
              ChromeStorageGet ["globalSettings"]]
           /\ seg_state (segment d contentScript s) = set_targetContentScriptExecuted true s)
    /\ (forall w c,
           w (clock c) = d ->
           run w init c
           = (Returned tt, logged (Status "Cart page detected (automation disabled)" StatusWaiting) c)
           /\ forall fuel,
               run w (onActivate fuel) c
               = (Returned tt,
                  logged (Status "Cart page detected (automation disabled)" StatusWaiting) c))
    /\ (forall fuel,
           handlePageDetection fuel PageCart
           = (cleanup ;; updateStatus "Cart page detected (automation disabled)" StatusWaiting)
           /\ onMessage fuel (DetectPage "target" PageCart) = Ret tt)
    /\ (detectCurrentPage d = PageCart
        <-> includes "target.com/p/" (href d) = false
            /\ includes "/gift-registry" (href d) = false
            /\ includes "target.com/checkout" (href d) = false).
Proof.
  intros d Hd. refine (conj _ (conj _ (conj _ (conj _ _)))).
  - intros s rest. simpl runPool.
    rewrite poolStep_contentScript_cart by assumption.
    change (fold_left poolStep rest (poolStep (startPool s [cartBranch]) (0, d)))
      with (runPool ((0, d) :: rest) (startPool s [cartBranch])).
    apply Nat.le_0_r.
    apply (PoolAtMost_runPool automationStep ((0, d) :: rest) (startPool s [cartBranch]) 0).
    exists 0, 0. split; [lia | split; [apply cartBranch_cartOnly | exact I]].
  - intros s. unfold segment, contentScript. cbn [bind look segmentFrom]. rewrite Hd.
    split; reflexivity.
  - intros w c Hw. split; [|intros fuel].
    + unfold init. rewrite run_bind. simpl. rewrite Hw, Hd. reflexivity.
    + unfold onActivate. rewrite run_bind. simpl. rewrite Hw, Hd. reflexivity.
  - intros fuel. split; reflexivity.
  - split.
    + intros H. apply includes_cart_only in H. tauto.
    + intros (H1 & H2 & H3). unfold detectCurrentPage. rewrite H1, H2, H3, Hd. reflexivity.
Qed.

Lemma cart_page_short_circuit_witness :
  countActions automationStep
    (pool_trace (runPool [(0, cartPage); (1, cartPage); (2, cartPage)]
                   (startPool exampleState [contentScript]))) = 0
  /\ detectCurrentPage cartPage = PageCart.
Proof.
  split.
  - apply (proj1 (cart_page_short_circuit cartPage eq_refl)).
  - apply (proj2 (proj2 (proj2 (proj2 (cart_page_short_circuit cartPage eq_refl))))).
    vm_compute. auto.
Defined.

(** C7 as stated fails for the classification: the path is the cart path,
    the address mentions the checkout, and [detectCurrentPage] answers
    checkout. *)
Lemma cart_path_classified_as_checkout :
  pathname cartPageWithReturnAddress = "/cart"
  /\ detectCurrentPage cartPageWithReturnAddress = PageCheckout.
Proof. vm_compute. split; reflexivity. Qed.

(** * The Buy-Now retry loop *)

Lemma Unstuck_bind {A B} (m : Async A) (f : A -> Async B) :
  Unstuck m -> (forall a, Unstuck (f a)) -> Unstuck (bind m f).
Proof. revert B f. induction m; intros B g Hm Hf; simpl in *; auto. Qed.

Lemma Unstuck_run {A} (w : nat -> Dom) (t : Async A) :
  forall c, Unstuck t -> fst (run w t c) <> OutOfFuel.
Proof. induction t; intros c Ht; simpl in *; auto; discriminate. Qed.

Lemma Unstuck_ext (c : Call) : Unstuck (ext c).
Proof. intros d. simpl. destruct (fails d c); exact I. Qed.

Lemma Unstuck_find (t : Target) : Unstuck (find t).
Proof. unfold find. apply Unstuck_bind; [apply Unstuck_ext|]. intros _ d. exact I. Qed.

Lemma Unstuck_sleep (ms : Q) : Unstuck (sleep ms).
Proof. unfold sleep. simpl. intros d. destruct (fails d CallSleep); exact I. Qed.

Lemma Unstuck_lookForBuyNowButton : Unstuck lookForBuyNowButton.
Proof.
  unfold lookForBuyNowButton.
  apply Unstuck_bind; [apply Unstuck_find|]. intros [el|]; [exact I|].
  apply Unstuck_bind; [apply Unstuck_find|]. intros [el|]; [exact I|].
  apply Unstuck_bind; [apply Unstuck_ext|]. intros _ d. exact I.
Qed.

Lemma AtMost_find p (t : Target) : AtMost p 0 (find t).
Proof.
  unfold find. apply (AtMost_bind p _ _ 0 0); [apply AtMost_ext|]. intros _ d. exact I.
Qed.

Lemma AtMost_lookForBuyNowButton p : AtMost p 0 lookForBuyNowButton.
Proof.
  unfold lookForBuyNowButton.
  apply (AtMost_bind p _ _ 0 0); [apply AtMost_find|]. intros [el|]; [exact I|].
  apply (AtMost_bind p _ _ 0 0); [apply AtMost_find|]. intros [el|]; [exact I|].
  apply (AtMost_bind p _ _ 0 0); [apply AtMost_ext|]. intros _ d. exact I.
Qed.

Lemma AtMost_sleep p (ms : Q) : p (Sleep (Some ms) false) = false -> AtMost p 0 (sleep ms).
Proof.
  intros H. unfold sleep. simpl. rewrite H. intros d. destruct (fails d CallSleep); exact I.
Qed.

(** The polling loop ends within its allowance ... *)
Lemma pollForBuyNowButton_unstuck :
  forall allowance pollAttempts buyNowButton,
    maxPollAttempts <= allowance + pollAttempts ->
    Unstuck (pollForBuyNowButton allowance pollAttempts buyNowButton).
Proof.
  induction allowance as [|allowance IH]; intros n b Hle.
  - simpl. destruct (n <? maxPollAttempts)%nat eqn:E; [|exact I].
    apply Nat.ltb_lt in E. simpl in Hle. lia.
  - cbn [pollForBuyNowButton]. destruct (n <? maxPollAttempts)%nat; [|exact I].
    apply (Unstuck_bind (act _)); [exact I|]. intros _.
    apply Unstuck_bind; [apply Unstuck_lookForBuyNowButton|]. intros el.
    destruct (isVisible el); [exact I|].
    apply Unstuck_bind.
    + destruct (S n <? maxPollAttempts)%nat; [apply Unstuck_sleep | exact I].
    + intros _. apply IH. lia.
Qed.

(** ... and looks at most [maxPollAttempts - pollAttempts] times. *)
Lemma pollForBuyNowButton_polls :
  forall allowance pollAttempts buyNowButton,
    AtMost isPoll (maxPollAttempts - pollAttempts)
      (pollForBuyNowButton allowance pollAttempts buyNowButton).
Proof.
  induction allowance as [|allowance IH]; intros n b.
  - simpl. destruct (n <? maxPollAttempts)%nat; exact I.
  - cbn [pollForBuyNowButton]. destruct (n <? maxPollAttempts)%nat eqn:E; [|exact I].
    apply Nat.ltb_lt in E.
    replace (maxPollAttempts - n) with (S (maxPollAttempts - S n)) by lia.
    change (AtMost isPoll (maxPollAttempts - S n)
              (buyNowButton <- lookForBuyNowButton ;;
               if isVisible buyNowButton then Ret buyNowButton
               else (if (S n <? maxPollAttempts)%nat then sleep pollIntervalMs else Ret tt) ;;
                    pollForBuyNowButton allowance (S n) buyNowButton)).
    apply (AtMost_bind isPoll _ _ 0); [apply AtMost_lookForBuyNowButton|]. intros el.
    destruct (isVisible el); [exact I|].
    apply (AtMost_bind isPoll _ _ 0).
    + destruct (S n <? maxPollAttempts)%nat; [now apply AtMost_sleep | exact I].
    + intros _. apply (IH (S n)).
Qed.

Lemma pollForBuyNowButton_no_retry :
  forall allowance pollAttempts buyNowButton,
    AtMost isRetry 0 (pollForBuyNowButton allowance pollAttempts buyNowButton).
Proof.
  induction allowance as [|allowance IH]; intros n b.
  - simpl. destruct (n <? maxPollAttempts)%nat; exact I.
  - cbn [pollForBuyNowButton]. destruct (n <? maxPollAttempts)%nat; [|exact I].
    apply (AtMost_bind isRetry (act _) _ 0 0); [exact I|]. intros _.
    apply (AtMost_bind isRetry _ _ 0 0); [apply AtMost_lookForBuyNowButton|]. intros el.
    destruct (isVisible el); [exact I|].
    apply (AtMost_bind isRetry _ _ 0 0).
    + destruct (S n <? maxPollAttempts)%nat; [now apply AtMost_sleep | exact I].
    + intros _. apply IH.
Qed.

Lemma retryBuyNow_unstuck (restart : Async unit) :
  Unstuck restart ->
  forall allowance retryCount delay,
    maxRetries <= allowance + retryCount ->
    Unstuck (retryBuyNow restart allowance retryCount delay).
Proof.
  intros Hr. induction allowance as [|allowance IH]; intros n delay Hle.
  - cbn [retryBuyNow]. destruct (maxRetries <=? n)%nat eqn:E; [exact I|].
    apply Nat.leb_gt in E. simpl in Hle. lia.
  - cbn [retryBuyNow]. destruct (maxRetries <=? n)%nat; [exact I|].
    apply (Unstuck_bind (act _)); [exact I|]. intros _.
    apply Unstuck_bind; [apply Unstuck_sleep|]. intros _.
    apply Unstuck_bind; [apply pollForBuyNowButton_unstuck; lia|]. intros el.
    destruct (isVisible el).
    + apply Unstuck_bind; [apply Unstuck_sleep|]. intros _. exact Hr.
    + apply IH. lia.
Qed.

Lemma retryBuyNow_retries (restart : Async unit) (r : nat) :
  AtMost isRetry r restart ->
  forall allowance retryCount delay,
    AtMost isRetry ((maxRetries - retryCount) + r)
      (retryBuyNow restart allowance retryCount delay).
Proof.
  intros Hr. induction allowance as [|allowance IH]; intros n delay.
  - cbn [retryBuyNow]. destruct (maxRetries <=? n)%nat; exact I.
  - cbn [retryBuyNow]. destruct (maxRetries <=? n)%nat eqn:E; [exact I|].
    apply Nat.leb_gt in E.
    replace (maxRetries - n + r) with (S (maxRetries - S n + r)) by lia.
    change (AtMost isRetry (maxRetries - S n + r)
              (sleep delay ;;
               buyNowButton <- pollForBuyNowButton maxPollAttempts 0 None ;;
               if isVisible buyNowButton then
                 sleep 500 ;;
                 modify (set_inBuyNowErrorRecovery false) ;;
                 restart
               else retryBuyNow restart allowance (S n) (nextDelay delay))).
    apply (AtMost_bind isRetry _ _ 0); [now apply AtMost_sleep|]. intros _.
    apply (AtMost_bind isRetry _ _ 0); [apply pollForBuyNowButton_no_retry|]. intros el.
    destruct (isVisible el).
    + apply (AtMost_bind isRetry _ _ 0); [now apply AtMost_sleep|]. intros _.
      cbn [bind modify AtMost].
      apply (AtMost_mono isRetry _ r (maxRetries - S n + r)); [lia | exact Hr].
    + apply (IH (S n)).
Qed.

Lemma nextDelay_capped (d : Q) : (nextDelay d <= 5000)%Q.
Proof. unfold nextDelay. apply Q.le_min_r. Qed.

Lemma nextDelay_multiplies (d : Q) :
  (d * 1.5 <= 5000)%Q -> (nextDelay d == d * 1.5)%Q.
Proof. intros H. unfold nextDelay. apply Q.min_l. exact H. Qed.

Lemma nextDelay_grows (d : Q) : (0 <= d)%Q -> (d <= 5000)%Q -> (d <= nextDelay d)%Q.
Proof.
  intros H0 H. unfold nextDelay. apply Q.min_glb; [|exact H].
  unfold Qle, Qmult in *. simpl in *. nia.
Qed.

Lemma run_sleep (w : nat -> Dom) (ms : Q) (c : Config) :
  run w (sleep ms) c
  = (match fails (w (S (clock c))) CallSleep with
     | Some e => Raised e
     | None => Returned tt
     end, nextTurn (logged (Sleep (Some ms) false) c)).
Proof. unfold sleep, ext. simpl. destruct (fails _ _); reflexivity. Qed.

Lemma lookForBuyNowButton_run (w : nat -> Dom) (c : Config) :
  quiet (w (clock c)) ->
  run w lookForBuyNowButton c = (Returned (buyNowLookup (w (clock c))), c).
Proof.
  intros H. unfold lookForBuyNowButton, buyNowLookup.
  rewrite run_find_ok by apply H.
  destruct (query (w (clock c)) (Css "[data-test='buy-now-button']")); [reflexivity|].
  rewrite run_find_ok by apply H.
  destruct (query (w (clock c)) (Css "button[data-test='buy-now-button']")); [reflexivity|].
  rewrite run_ext_ok by apply H. reflexivity.
Qed.

Lemma pollTraceFrom_step (n : nat) :
  n < maxPollAttempts ->
  pollTraceFrom (maxPollAttempts - n) n
  = ConsolePoll (S n)
      :: (if (S n <? maxPollAttempts)%nat then [Sleep (Some pollIntervalMs) false] else [])
      ++ pollTraceFrom (maxPollAttempts - S n) (S n).
Proof.
  intros H. replace (maxPollAttempts - n) with (S (maxPollAttempts - S n)) by lia.
  reflexivity.
Qed.

(** The polling loop on a page that never shows the button. *)
Lemma pollForBuyNowButton_gone (w : nat -> Dom) :
  (forall n, quiet (w n)) ->
  (forall n, isVisible (buyNowLookup (w n)) = false) ->
  forall allowance pollAttempts buyNowButton c,
    maxPollAttempts <= allowance + pollAttempts ->
    isVisible buyNowButton = false ->
    exists x c',
      run w (pollForBuyNowButton allowance pollAttempts buyNowButton) c = (Returned x, c')
      /\ isVisible x = false
      /\ cst c' = cst c
      /\ trace c' = trace c ++ pollTraceFrom (maxPollAttempts - pollAttempts) pollAttempts
      /\ spawned c' = spawned c.
Proof.
  intros Hq Hgone.
  induction allowance as [|allowance IH]; intros n b c Hle Hb.
  - cbn [pollForBuyNowButton]. destruct (n <? maxPollAttempts)%nat eqn:E.
    + apply Nat.ltb_lt in E. simpl in Hle. lia.
    + apply Nat.ltb_ge in E. exists b, c.
      replace (maxPollAttempts - n) with 0 by lia. simpl. rewrite app_nil_r. auto.
  - cbn [pollForBuyNowButton]. destruct (n <? maxPollAttempts)%nat eqn:E.
    + apply Nat.ltb_lt in E.
      rewrite run_act, run_bind, lookForBuyNowButton_run by apply Hq.
      cbn [clock logged]. rewrite Hgone.
      rewrite run_bind.
      destruct (S n <? maxPollAttempts)%nat eqn:E'.
      * rewrite run_sleep, Hq.
        destruct (IH (S n) (buyNowLookup (w (clock c)))
                    (nextTurn (logged (Sleep (Some pollIntervalMs) false)
                                 (logged (ConsolePoll (S n)) c))))
          as (x & c' & Hrun & Hx & Hst & Htr & Hsp); [lia | apply Hgone |].
        exists x, c'. rewrite Hrun.
        refine (conj eq_refl (conj Hx (conj Hst (conj _ Hsp)))).
        rewrite Htr, (pollTraceFrom_step n), E' by assumption.
        simpl. rewrite <- !app_assoc. reflexivity.
      * cbn [run].
        destruct (IH (S n) (buyNowLookup (w (clock c))) (logged (ConsolePoll (S n)) c))
          as (x & c' & Hrun & Hx & Hst & Htr & Hsp); [lia | apply Hgone |].
        exists x, c'. rewrite Hrun.
        refine (conj eq_refl (conj Hx (conj Hst (conj _ Hsp)))).
        rewrite Htr, (pollTraceFrom_step n), E' by assumption.
        simpl. rewrite <- !app_assoc. reflexivity.
    + apply Nat.ltb_ge in E. exists b, c.
      replace (maxPollAttempts - n) with 0 by lia. simpl. rewrite app_nil_r. auto.
Qed.

Lemma retryTraceFrom_step (n : nat) (delay : Q) :
  n < maxRetries ->
  retryTraceFrom (maxRetries - n) n delay
  = [ConsoleRetry (S n) delay; Sleep (Some delay) false]
      ++ pollTraceFrom maxPollAttempts 0
      ++ retryTraceFrom (maxRetries - S n) (S n) (nextDelay delay).
Proof.
  intros H. replace (maxRetries - n) with (S (maxRetries - S n)) by lia.
  reflexivity.
Qed.

(** The retry loop on such a page: it gives up after the attempts that are
    left, and what it does is the same whatever [restart] is. *)
Lemma retryBuyNow_gone (w : nat -> Dom) (restart : Async unit) :
  (forall n, quiet (w n)) ->
  (forall n, isVisible (buyNowLookup (w n)) = false) ->
  forall allowance retryCount delay c,
    maxRetries <= allowance + retryCount ->
    exists c',
      run w (retryBuyNow restart allowance retryCount delay) c = (Returned tt, c')
      /\ cst c' = cst c
      /\ trace c' = trace c ++ retryTraceFrom (maxRetries - retryCount) retryCount delay
      /\ spawned c' = spawned c.
Proof.
  intros Hq Hgone.
  induction allowance as [|allowance IH]; intros n delay c Hle.
  - cbn [retryBuyNow]. destruct (maxRetries <=? n)%nat eqn:E.
    + apply Nat.leb_le in E. eexists. split; [reflexivity|].
      replace (maxRetries - n) with 0 by lia. simpl. auto.
    + apply Nat.leb_gt in E. simpl in Hle. lia.
  - cbn [retryBuyNow]. destruct (maxRetries <=? n)%nat eqn:E.
    + apply Nat.leb_le in E. eexists. split; [reflexivity|].
      replace (maxRetries - n) with 0 by lia. simpl. auto.
    + apply Nat.leb_gt in E.
      rewrite run_act, run_bind, run_sleep, Hq.
      rewrite run_bind.
      destruct (pollForBuyNowButton_gone w Hq Hgone maxPollAttempts 0 None
                  (nextTurn (logged (Sleep (Some delay) false)
                               (logged (ConsoleRetry (S n) delay) c))))
        as (x & c1 & Hrun & Hx & Hst & Htr & Hsp); [lia | reflexivity |].
      rewrite Hrun, Hx.
      destruct (IH (S n) (nextDelay delay) c1) as (c' & Hrun' & Hst' & Htr' & Hsp'); [lia|].
      exists c'. rewrite Hrun'. repeat split.
      * rewrite Hst', Hst. reflexivity.
      * rewrite Htr', Htr, (retryTraceFrom_step n) by assumption.
        simpl. rewrite <- !app_assoc. reflexivity.
      * rewrite Hsp', Hsp. reflexivity.
Qed.

(** On every page, however it changes: the loop raises because a helper
    did, or gives up with its failure status without having touched
    [restart], or hands over to [restart] with the recovery flag down. *)
Lemma retryBuyNow_outcomes (w : nat -> Dom) (restart : Async unit) :
  forall allowance retryCount delay c,
    maxRetries <= allowance + retryCount ->
    (exists e c', run w (retryBuyNow restart allowance retryCount delay) c = (Raised e, c'))
    \/ (exists c',
           run w (retryBuyNow restart allowance retryCount delay) c = (Returned tt, c')
           /\ run w (retryBuyNow Stuck allowance retryCount delay) c = (Returned tt, c')
           /\ lastAction (trace c') = Some retryFailed)
    \/ (exists c',
           run w (retryBuyNow restart allowance retryCount delay) c = run w restart c'
           /\ inBuyNowErrorRecovery (cst c') = false).
Proof.
  induction allowance as [|allowance IH]; intros n delay c Hle.
  - right; left. cbn [retryBuyNow]. destruct (maxRetries <=? n)%nat eqn:E.
    + eexists. repeat split. apply lastAction_snoc.
    + apply Nat.leb_gt in E. simpl in Hle. lia.
  - cbn [retryBuyNow]. destruct (maxRetries <=? n)%nat eqn:E.
    + right; left. eexists. repeat split. apply lastAction_snoc.
    + rewrite !run_act, !run_bind, !run_sleep.
      destruct (fails _ CallSleep) as [e|]; [left; eauto|].
      rewrite !run_bind.
      pose proof (Unstuck_run w (pollForBuyNowButton maxPollAttempts 0 None)
                    (nextTurn (logged (Sleep (Some delay) false)
                                 (logged (ConsoleRetry (S n) delay) c)))
                    (pollForBuyNowButton_unstuck _ _ _ (Nat.le_add_r _ _))) as Hpoll.
      destruct (run w (pollForBuyNowButton maxPollAttempts 0 None) _) as [[x | e |] c1];
        [| left; eauto | exfalso; apply Hpoll; reflexivity].
      destruct (isVisible x).
      * rewrite !run_bind, !run_sleep.
        destruct (fails _ CallSleep) as [e|]; [left; eauto|].
        right; right. eexists. split; [reflexivity|]. reflexivity.
      * apply Nat.leb_gt in E. apply IH. lia.
Qed.

(** C9: one call of the Buy-Now flow makes at most [maxRetries] = 5 retry
    attempts, each polling at most [maxPollAttempts] = 10 times, and the loop
    always ends.  It ends in one of three ways: a helper raised; the attempts
    ran out, the failure status is the last thing done and the flow is not
    started again; or the button was found, the recovery flag is lowered and
    the flow is started afresh, with a counter of its own at 0.  When the
    button never comes back the loop does exactly five attempts of ten polls.
    The delay of the next attempt is the last one times 1.5, capped at 5000. *)
Theorem buy_now_retry_bounded :
  (forall restart r retryCount delay,
      AtMost isRetry r restart ->
      AtMost isRetry ((maxRetries - retryCount) + r)
        (retryBuyNow restart maxRetries retryCount delay))
  /\ (forall allowance pollAttempts buyNowButton,
         AtMost isPoll (maxPollAttempts - pollAttempts)
           (pollForBuyNowButton allowance pollAttempts buyNowButton))
  /\ (forall restart,
         Unstuck restart ->
         forall retryCount delay w c,
           fst (run w (retryBuyNow restart maxRetries retryCount delay) c) <> OutOfFuel)
  /\ (forall w restart retryCount delay c,
         (exists e c',
             run w (retryBuyNow restart maxRetries retryCount delay) c = (Raised e, c'))
         \/ (exists c',
                run w (retryBuyNow restart maxRetries retryCount delay) c = (Returned tt, c')
                /\ run w (retryBuyNow Stuck maxRetries retryCount delay) c = (Returned tt, c')
                /\ lastAction (trace c') = Some retryFailed)
         \/ (exists c',
                run w (retryBuyNow restart maxRetries retryCount delay) c = run w restart c'
                /\ inBuyNowErrorRecovery (cst c') = false))
  /\ (forall w restart delay c,
         (forall n, quiet (w n)) ->
         (forall n, isVisible (buyNowLookup (w n)) = false) ->
         exists c',
           run w (retryBuyNow restart maxRetries 0 delay) c = (Returned tt, c')
           /\ cst c' = cst c
           /\ trace c' = trace c ++ retryTraceFrom maxRetries 0 delay
           /\ countActions isRetry (retryTraceFrom maxRetries 0 delay) = 5
           /\ countActions isPoll (retryTraceFrom maxRetries 0 delay) = 50
           /\ lastAction (trace c') = Some retryFailed)
  /\ (forall restart,
         useBuyNowCheckoutWith restart
         = (modify (set_currentStep "buy-now-checkout") ;;
            updateStatus "Using Buy Now checkout..." StatusRunning ;;
            next <- tryCatch buyNowSequence (fun _ => Ret (Some 2500%Q)) ;;
            match next with
            | Some delay => retryBuyNow restart maxRetries 0 delay
            | None => Ret tt
            end))
  /\ (forall fuel,
         useBuyNowCheckout (S fuel) = useBuyNowCheckoutWith (useBuyNowCheckout fuel))
  /\ (forall delay,
         (nextDelay delay <= 5000)%Q
         /\ ((delay * 1.5 <= 5000)%Q -> (nextDelay delay == delay * 1.5)%Q)
         /\ ((0 <= delay)%Q -> (delay <= 5000)%Q -> (delay <= nextDelay delay)%Q)).
Proof.
  refine (conj _ (conj _ (conj _ (conj _ (conj _ (conj _ (conj _ _))))))).
  - intros restart r n delay Hr. now apply retryBuyNow_retries.
  - apply pollForBuyNowButton_polls.
  - intros restart Hr n delay w c.
    apply Unstuck_run, retryBuyNow_unstuck; [assumption | lia].
  - intros w restart n delay c. apply retryBuyNow_outcomes. lia.
  - intros w restart delay c Hq Hgone.
    destruct (retryBuyNow_gone w restart Hq Hgone maxRetries 0 delay c)
      as (c' & Hrun & Hst & Htr & Hsp); [lia|].
    exists c'. rewrite Nat.sub_0_r in Htr.
    refine (conj Hrun (conj Hst (conj Htr (conj eq_refl (conj eq_refl _))))).
    rewrite Htr. unfold lastAction. rewrite rev_app_distr. reflexivity.
  - reflexivity.
  - reflexivity.
  - intros delay. split; [apply nextDelay_capped|].
    split; [apply nextDelay_multiplies | apply nextDelay_grows].
Qed.

Lemma buy_now_retry_bounded_witness :
  (exists c',
      run (fun _ => buttonGonePage) (retryBuyNow Stuck maxRetries 0 2500)
        (initialConfig exampleState) = (Returned tt, c')
      /\ trace c' = retryTraceFrom maxRetries 0 2500)
  /\ sameDelays (retryDelays (retryTraceFrom maxRetries 0 2500))
       [2500; 3750; 5000; 5000; 5000]%Q = true
  /\ trace (snd (run (fun _ => buttonBackPage)
                   (retryBuyNow (act (Console "restarted")) maxRetries 0 2500)
                   (initialConfig exampleState)))
     = [ConsoleRetry 1 2500; Sleep (Some 2500%Q) false; ConsolePoll 1;
        Sleep (Some 500%Q) false; Console "restarted"].
Proof.
  refine (conj _ (conj _ _)).
  - destruct (proj1 (proj2 (proj2 (proj2 (proj2 buy_now_retry_bounded))))
                (fun _ => buttonGonePage) Stuck 2500%Q (initialConfig exampleState))
      as (c' & Hrun & _ & Htr & _).
    + intros n call. reflexivity.
    + intros n. reflexivity.
    + exists c'. split; [exact Hrun | exact Htr].
  - vm_compute. reflexivity.
  - vm_compute. reflexivity.
Defined.

(** * One turn of a chain *)

Lemma Turn_segmentFrom {A} (d : Dom) (t : Async A) :
  forall s acts sp Q E S,
    Turn d t s acts Q E S -> atEnd (segmentFrom d t s acts sp) Q E S.
Proof. induction t; intros s acts sp Q E S Ht; simpl in *; auto. Qed.

Lemma Turn_mono {A} (d : Dom) (t : Async A) :
  forall s acts (Q Q' : A -> RunState -> list Action -> Prop)
         (E E' : string -> RunState -> list Action -> Prop)
         (S S' : RunState -> list Action -> Prop),
    Turn d t s acts Q E S ->
    (forall a s' acts', Q a s' acts' -> Q' a s' acts') ->
    (forall e s' acts', E e s' acts' -> E' e s' acts') ->
    (forall s' acts', S s' acts' -> S' s' acts') ->
    Turn d t s acts Q' E' S'.
Proof. induction t; intros s acts Q Q' E E' S S' Ht HQ HE HS; simpl in *; eauto. Qed.

Lemma Turn_bind {A B} (d : Dom) (m : Async A) (f : A -> Async B) :
  forall s acts Q E S,
    Turn d m s acts (fun a s' acts' => Turn d (f a) s' acts' Q E S) E S ->
    Turn d (bind m f) s acts Q E S.
Proof. revert B f. induction m; intros B g s acts Q E S Hm; simpl in *; auto. Qed.

Lemma Turn_tryCatch {A} (d : Dom) (m : Async A) (h : string -> Async A) :
  forall s acts Q E S,
    Turn d m s acts Q (fun e s' acts' => Turn d (h e) s' acts' Q E S) S ->
    Turn d (tryCatch m h) s acts Q E S.
Proof. revert h. induction m; intros h s acts Q E S Hm; simpl in *; auto. Qed.

Lemma Turn_attempt {A} (d : Dom) (m : Async A) s acts
    (Q : string + A -> RunState -> list Action -> Prop) E S :
  Turn d m s acts (fun a => Q (inr a)) (fun e => Q (inl e)) S ->
  Turn d (attempt m) s acts Q E S.
Proof.
  intros H. unfold attempt. apply Turn_tryCatch, Turn_bind.
  eapply Turn_mono; [exact H | | |]; simpl; auto.
Qed.

(** [await m] never comes back within the turn. *)
Lemma Turn_await {A} (d : Dom) (m : Async A) s acts Q E S :
  TurnEnds d m s acts S -> Turn d (await m) s acts Q E S.
Proof.
  intros H. unfold await. apply Turn_bind, Turn_attempt.
  eapply Turn_mono; [exact H | | |]; simpl; auto.
Qed.

Lemma Turn_tryFinally {A} (d : Dom) (m : Async A) (f : Async unit) s acts Q E S :
  Turn d m s acts
    (fun a s' acts' => Turn d f s' acts' (fun _ => Q a) E S)
    (fun e s' acts' => Turn d f s' acts' (fun _ => E e) E S) S ->
  Turn d (tryFinally m f) s acts Q E S.
Proof.
  intros H. unfold tryFinally. apply Turn_bind, Turn_attempt.
  eapply Turn_mono; [exact H | | |]; simpl; auto.
  - intros a s' acts' Hf. apply Turn_bind.
    eapply Turn_mono; [exact Hf | | |]; simpl; auto.
  - intros e s' acts' Hf. apply Turn_bind.
    eapply Turn_mono; [exact Hf | | |]; simpl; auto.
Qed.

(** A call that is not awaited: its first stretch belongs to the caller's
    turn, and the caller goes on whatever became of it. *)
Lemma Turn_fireAndForget {A} (d : Dom) (m : Async A) :
  forall s acts Q E S,
    TurnEnds d m s acts (fun s' acts' => Q tt s' acts' /\ S s' acts') ->
    Turn d (fireAndForget m) s acts Q E S.
Proof.
  unfold fireAndForget, TurnEnds.
  induction m; intros s acts Q E S Hm; simpl in *; auto; tauto.
Qed.

(** A chain that does none of the counted actions and keeps a variable
    leaves both as they were, however its turn ends. *)
Lemma Turn_frame_from {A X} (p : Action -> bool) (proj : RunState -> X) (d : Dom)
    (t : Async A) (n0 : nat) (x0 : X) :
  forall s acts,
    AtMost p 0 t -> Preserves proj t ->
    countActions p acts = n0 -> proj s = x0 ->
    TurnEnds d t s acts (fun s' acts' => countActions p acts' = n0 /\ proj s' = x0).
Proof.
  unfold TurnEnds.
  induction t; intros s acts Hn Hp Hc Hx; simpl in *; auto.
  - destruct Hp as [Hf Hk]. apply IHt; auto. rewrite Hf. assumption.
  - destruct (p a) eqn:Ea; [contradiction|].
    apply IHt; auto. rewrite countActions_snoc, Ea. lia.
  - destruct Hn as (x & y & Hxy & Hx' & Hy).
    apply IHt2; auto. assert (y = 0) as <- by lia. assumption.
Qed.

Lemma Turn_frame {A X} (p : Action -> bool) (proj : RunState -> X) (d : Dom) (t : Async A) :
  forall s acts,
    AtMost p 0 t -> Preserves proj t ->
    TurnEnds d t s acts
      (fun s' acts' => countActions p acts' = countActions p acts /\ proj s' = proj s).
Proof. intros. now apply Turn_frame_from. Qed.

(** The same without a variable to keep. *)
Lemma Turn_quiet {A} (p : Action -> bool) (d : Dom) (t : Async A) :
  forall s acts,
    AtMost p 0 t ->
    TurnEnds d t s acts (fun _ acts' => countActions p acts' = countActions p acts).
Proof.
  intros s acts Hn. unfold TurnEnds. generalize (eq_refl (countActions p acts)).
  generalize (countActions p acts) at 1 3 4 5 as n0.
  revert s acts Hn.
  induction t; intros s acts Hn n0 Hc; simpl in *; auto.
  - destruct (p a) eqn:Ea; [contradiction|].
    apply IHt; auto. rewrite countActions_snoc, Ea. lia.
  - destruct Hn as (x & y & Hxy & Hx' & Hy).
    apply IHt2; auto. assert (y = 0) as <- by lia. assumption.
Qed.

Lemma Turn_bind_quiet {A B} (p : Action -> bool) (d : Dom) (m : Async A) (f : A -> Async B)
    s acts Q E S :
  AtMost p 0 m ->
  (forall a s' acts',
      countActions p acts' = countActions p acts -> Turn d (f a) s' acts' Q E S) ->
  (forall e s' acts', countActions p acts' = countActions p acts -> E e s' acts') ->
  (forall s' acts', countActions p acts' = countActions p acts -> S s' acts') ->
  Turn d (bind m f) s acts Q E S.
Proof.
  intros Hm Hf HE HS. apply Turn_bind.
  eapply Turn_mono; [apply (Turn_quiet p d m s acts Hm) | | |]; simpl; auto.
Qed.

Lemma Turn_bind_frame {A B X} (p : Action -> bool) (proj : RunState -> X) (d : Dom)
    (m : Async A) (f : A -> Async B) s acts Q E S :
  AtMost p 0 m -> Preserves proj m ->
  (forall a s' acts',
      countActions p acts' = countActions p acts -> proj s' = proj s ->
      Turn d (f a) s' acts' Q E S) ->
  (forall e s' acts',
      countActions p acts' = countActions p acts -> proj s' = proj s -> E e s' acts') ->
  (forall s' acts',
      countActions p acts' = countActions p acts -> proj s' = proj s -> S s' acts') ->
  Turn d (bind m f) s acts Q E S.
Proof.
  intros Hm Hp Hf HE HS. apply Turn_bind.
  eapply Turn_mono; [apply (Turn_frame p proj d m s acts Hm Hp) | | |]; simpl.
  - intros a s' acts' [? ?]; auto.
  - intros e s' acts' [? ?]; auto.
  - intros s' acts' [? ?]; auto.
Qed.

(** * The guard flags of the checkout page *)

Create HintDb never discriminated.

(** One step of a proof that a chain does none of the counted actions. *)
Ltac never_step :=
  match goal with
  | |- forall _, _ => intro
  | |- True => exact I
  | H : ?P |- ?P => exact H
  | |- AtMost _ 0 (bind _ _) => apply (AtMost_bind _ _ _ 0 0)
  | |- AtMost _ 0 (tryCatch _ _) => apply (AtMost_tryCatch _ _ _ 0 0)
  | |- AtMost _ 0 (tryFinally _ _) => apply (AtMost_tryFinally _ _ _ 0 0)
  | |- AtMost _ _ (await _) => apply AtMost_await
  | |- AtMost _ _ (attempt _) => apply AtMost_attempt
  | |- AtMost _ _ (settle _) => apply AtMost_settle
  | |- AtMost _ _ (fireAndForget _) => apply AtMost_fireAndForget
  | |- AtMost _ _ (ext _) => apply AtMost_ext
  | |- AtMost _ _ (if ?c then _ else _) => destruct c
  | |- AtMost _ _ (match ?x with _ => _ end) => destruct x
  | |- AtMost _ _ (let (_, _) := ?x in _) => destruct x
  | |- AtMost _ _ _ => solve [auto with never]
  | |- AtMost _ _ _ =>
      progress unfold get, modify, look, act, suspend, spawn, updateStatus, sleep,
        sleepMaybeRandom, find, clickElement, fillField, fillFieldBySelectors,
        waitForElement, getFromStorage, getProfiles, saveToStorage, updateSiteSettings,
        windowClose, requireProfile
  | |- AtMost _ _ _ => progress simpl
  end.

Ltac never := repeat never_step.

(** The same with an allowance of one: the first piece that needs it gets it. *)
Ltac at_most_once_step :=
  match goal with
  | |- forall _, _ => intro
  | |- True => exact I
  | |- AtMost _ 0 _ => solve [never]
  | |- AtMost ?p 1 (bind ?m ?f) =>
      first [ apply (AtMost_bind p m f 0 1); [solve [never]|]
            | apply (AtMost_bind p m f 1 0); [|solve [never]] ]
  | |- AtMost ?p 1 (tryCatch ?m ?h) => apply (AtMost_tryCatch p m h 1 0); [|solve [never]]
  | |- AtMost ?p 1 (tryFinally ?m ?f) => apply (AtMost_tryFinally p m f 1 0); [|solve [never]]
  | |- AtMost _ 1 (await _) => apply AtMost_await
  | |- AtMost _ 1 (if ?c then _ else _) => destruct c
  | |- AtMost _ 1 (match ?x with _ => _ end) => destruct x
  | |- AtMost _ 1 _ => progress unfold clickElement, act
  | |- AtMost _ 1 _ => progress simpl
  end.

Ltac at_most_once := repeat at_most_once_step.

Lemma loadSettingsAndProfile_no_click name : AtMost (clicks name) 0 loadSettingsAndProfile.
Proof. unfold loadSettingsAndProfile. never. Qed.
#[export] Hint Resolve loadSettingsAndProfile_no_click : never.

(** Each verification handler clicks its button at most once. *)
Lemma handleCVVConfirmation_once :
  AtMost (clicks "cvv-confirm") 1 handleCVVConfirmation.
Proof. unfold handleCVVConfirmation. at_most_once. Qed.

Lemma handleCreditCardConfirmation_once :
  AtMost (clicks "verify-card") 1 handleCreditCardConfirmation.
Proof. unfold handleCreditCardConfirmation. at_most_once. Qed.

Lemma handleCVVConfirmation_no_place_order :
  AtMost (clicks "place-order") 0 handleCVVConfirmation.
Proof. unfold handleCVVConfirmation. never. Qed.
#[export] Hint Resolve handleCVVConfirmation_no_place_order : never.

Lemma handleCreditCardConfirmation_no_place_order :
  AtMost (clicks "place-order") 0 handleCreditCardConfirmation.
Proof. unfold handleCreditCardConfirmation. never. Qed.
#[export] Hint Resolve handleCreditCardConfirmation_no_place_order : never.

Lemma checkForHighDemandMessage_no_click name : AtMost (clicks name) 0 checkForHighDemandMessage.
Proof. unfold checkForHighDemandMessage. never. Qed.
#[export] Hint Resolve checkForHighDemandMessage_no_click : never.

Lemma installHighDemandRetry_no_click name : AtMost (clicks name) 0 installHighDemandRetry.
Proof. unfold installHighDemandRetry. never. Qed.
#[export] Hint Resolve installHighDemandRetry_no_click : never.

Lemma find_no_click name t : AtMost (clicks name) 0 (find t).
Proof. apply AtMost_find. Qed.
#[export] Hint Resolve find_no_click : never.

Lemma segment_get {B} (d : Dom) (f : RunState -> Async B) (s : RunState) :
  segment d (bind get f) s = segment d (f s) s.
Proof. reflexivity. Qed.

Lemma handleCVVConfirmation_guarded (d : Dom) (s : RunState) :
  cvvGuard s = true -> segment d handleCVVConfirmation s = idleTurn s.
Proof.
  intros H. unfold handleCVVConfirmation. rewrite segment_get.
  unfold cvvGuard in H. rewrite H. reflexivity.
Qed.

Lemma handleCreditCardConfirmation_guarded (d : Dom) (s : RunState) :
  cardGuard s = true -> segment d handleCreditCardConfirmation s = idleTurn s.
Proof.
  intros H. unfold handleCreditCardConfirmation. rewrite segment_get.
  unfold cardGuard in H. rewrite H. reflexivity.
Qed.

(** The first turn of a handler that goes ahead: the filling flag is up
    when the handler first suspends (on its reload of the settings), and
    nothing has been clicked. *)
Lemma handleCVVConfirmation_first_turn (d : Dom) (s : RunState) :
  cvvGuard s = false ->
  seg_state (segment d handleCVVConfirmation s)
  = set_isFillingCvvInput true (set_currentStep "handle-cvv" s)
  /\ seg_actions (segment d handleCVVConfirmation s)
     = [Status "Confirming CVV..." StatusRunning; StorageGet settingsKeys]
  /\ suspended (segment d handleCVVConfirmation s) = true.
Proof.
  intros H. unfold handleCVVConfirmation. rewrite segment_get.
  unfold cvvGuard in H. rewrite H. repeat split.
Qed.

Lemma handleCreditCardConfirmation_first_turn (d : Dom) (s : RunState) :
  cardGuard s = false ->
  seg_state (segment d handleCreditCardConfirmation s)
  = set_isFillingCardInput true (set_currentStep "handle-card-verification" s)
  /\ seg_actions (segment d handleCreditCardConfirmation s)
     = [Status "Verifying card..." StatusRunning; StorageGet settingsKeys]
  /\ suspended (segment d handleCreditCardConfirmation s) = true.
Proof.
  intros H. unfold handleCreditCardConfirmation. rewrite segment_get.
  unfold cardGuard in H. rewrite H. repeat split.
Qed.

Lemma handleCVVConfirmation_raises_guard (d : Dom) (s : RunState) :
  cvvGuard (seg_state (segment d handleCVVConfirmation s)) = true.
Proof.
  destruct (cvvGuard s) eqn:G.
  - rewrite handleCVVConfirmation_guarded by assumption. exact G.
  - rewrite (proj1 (handleCVVConfirmation_first_turn d s G)). reflexivity.
Qed.

Lemma handleCreditCardConfirmation_raises_guard (d : Dom) (s : RunState) :
  cardGuard (seg_state (segment d handleCreditCardConfirmation s)) = true.
Proof.
  destruct (cardGuard s) eqn:G.
  - rewrite handleCreditCardConfirmation_guarded by assumption. exact G.
  - rewrite (proj1 (handleCreditCardConfirmation_first_turn d s G)). reflexivity.
Qed.

(** Two chains resumed back to back: the first may do one counted action in
    all, and leaves a state in which the second does nothing and returns.
    Then one counted action is all the pool ever does, and the second chain's
    turn adds nothing to the trace. *)
Lemma back_to_back (p : Action -> bool) (blocked : RunState -> bool)
    (first first' second : Async unit) (s : RunState) (d0 d1 : Dom) :
  segment d0 first s = segment d0 first' s ->
  AtMost p 1 first' ->
  blocked (seg_state (segment d0 first s)) = true ->
  (forall d s', blocked s' = true -> segment d second s' = idleTurn s') ->
  (forall rest,
      countActions p
        (pool_trace (runPool ((0, d0) :: (1, d1) :: rest) (startPool s [first; second])))
      <= 1)
  /\ pool_trace (runPool [(0, d0); (1, d1)] (startPool s [first; second]))
     = seg_actions (segment d0 first s).
Proof.
  intros Hsame Hbudget Hblocked Hidle.
  assert (Hstep :
    runPool [(0, d0); (1, d1)] (startPool s [first; second])
    = {| pool_state := seg_state (segment d0 first s);
         pool_trace := seg_actions (segment d0 first s);
         pool_chains := leftover (seg_end (segment d0 first s)) :: Ret tt
                          :: seg_spawned (segment d0 first s) |}).
  { unfold runPool, startPool, poolStep. simpl.
    rewrite (Hidle d1 _ Hblocked). simpl. rewrite !app_nil_r. reflexivity. }
  split; [|rewrite Hstep; reflexivity].
  intros rest.
  change ((0, d0) :: (1, d1) :: rest) with ([(0, d0); (1, d1)] ++ rest).
  unfold runPool. rewrite fold_left_app.
  fold (runPool [(0, d0); (1, d1)] (startPool s [first; second])).
  fold (runPool rest (runPool [(0, d0); (1, d1)] (startPool s [first; second]))).
  rewrite Hstep. rewrite Hsame.
  destruct (AtMost_segmentFrom p d0 first' 1 s [] [] 0 Hbudget I) as (a & b & Hab & Ha & Hb).
  fold (segment d0 first' s) in Hab, Ha, Hb.
  change (countActions p []) with 0 in Hab.
  etransitivity.
  - apply (PoolAtMost_runPool p rest _ (a + b)). simpl.
    exists a, b. split; [lia|]. split; [now apply AtMost_leftover|].
    exists 0, b. split; [lia|]. split; [exact I | assumption].
  - simpl. lia.
Qed.

Lemma Turn_bind_quiet_from {A B} (p : Action -> bool) (d : Dom) (m : Async A)
    (f : A -> Async B) s acts (n0 : nat) Q E S :
  AtMost p 0 m ->
  countActions p acts = n0 ->
  (forall a s' acts', countActions p acts' = n0 -> Turn d (f a) s' acts' Q E S) ->
  (forall e s' acts', countActions p acts' = n0 -> E e s' acts') ->
  (forall s' acts', countActions p acts' = n0 -> S s' acts') ->
  Turn d (bind m f) s acts Q E S.
Proof.
  intros Hm Hc Hf HE HS. subst n0. now apply (Turn_bind_quiet p).
Qed.

Lemma Turn_bind_frame_from {A B X} (p : Action -> bool) (proj : RunState -> X) (d : Dom)
    (m : Async A) (f : A -> Async B) s acts (n0 : nat) (x0 : X) Q E S :
  AtMost p 0 m -> Preserves proj m ->
  countActions p acts = n0 -> proj s = x0 ->
  (forall a s' acts', countActions p acts' = n0 -> proj s' = x0 -> Turn d (f a) s' acts' Q E S) ->
  (forall e s' acts', countActions p acts' = n0 -> proj s' = x0 -> E e s' acts') ->
  (forall s' acts', countActions p acts' = n0 -> proj s' = x0 -> S s' acts') ->
  Turn d (bind m f) s acts Q E S.
Proof.
  intros Hm Hp Hc Hx Hf HE HS. subst n0 x0. now apply (Turn_bind_frame p proj).
Qed.

Lemma Turn_quiet_from {A} (p : Action -> bool) (d : Dom) (t : Async A) s acts (n0 : nat) :
  AtMost p 0 t -> countActions p acts = n0 ->
  TurnEnds d t s acts (fun _ acts' => countActions p acts' = n0).
Proof. intros Ht <-. now apply Turn_quiet. Qed.

(** The guarded click itself: with the flag up nothing happens; with the
    flag down the flag is raised and the click made within the same turn. *)
Lemma submitOrder_guarded (d : Dom) (again : Async unit) (s : RunState) :
  placeOrderButtonClicked s = true -> segment d (submitOrder again) s = idleTurn s.
Proof. intros H. unfold submitOrder. rewrite segment_get, H. reflexivity. Qed.

Lemma submitOrder_first_turn (d : Dom) (again : Async unit) (s : RunState) :
  placeOrderButtonClicked s = false ->
  seg_state (segment d (submitOrder again) s) = set_placeOrderButtonClicked true s
  /\ seg_actions (segment d (submitOrder again) s)
     = [Status "Submitting order..." StatusRunning; Click "place-order"]
  /\ suspended (segment d (submitOrder again) s) = true.
Proof.
  intros H. unfold submitOrder. rewrite segment_get, H. repeat split.
Qed.

Lemma submitOrder_turn (d : Dom) (again : Async unit) (s : RunState) (acts : list Action)
    (n0 : nat) :
  placed acts = n0 ->
  TurnEnds d (submitOrder again) s acts
    (fun s' acts' =>
       placed acts' = n0 \/ (placed acts' = S n0 /\ placeOrderButtonClicked s' = true)).
Proof.
  intros Hc. unfold TurnEnds, submitOrder. apply Turn_bind. cbn [Turn get].
  destruct (placeOrderButtonClicked s); [left; assumption|].
  right. unfold placed in *. rewrite !countActions_snoc. simpl. split; [lia | reflexivity].
Qed.

Lemma submitOrder_turn_guarded (d : Dom) (again : Async unit) (s : RunState)
    (acts : list Action) (n0 : nat) :
  placed acts = n0 -> placeOrderButtonClicked s = true ->
  TurnEnds d (submitOrder again) s acts (fun _ acts' => placed acts' = n0).
Proof.
  intros Hc Hs. unfold TurnEnds, submitOrder. apply Turn_bind. cbn [Turn get].
  rewrite Hs. exact Hc.
Qed.

Lemma sleep_no_click name ms : AtMost (clicks name) 0 (sleep ms).
Proof. now apply AtMost_sleep. Qed.
#[export] Hint Resolve sleep_no_click : never.

(** One step along a stretch without a click on the place-order button. *)
Ltac quiet_bind x :=
  match goal with
  | Hc : countActions (clicks "place-order") ?acts = ?n
    |- Turn ?d (bind ?m ?f) ?s ?acts ?Q ?E ?S =>
      let Hq := fresh in
      assert (Hq : AtMost (clicks "place-order") 0 m) by never;
      apply (Turn_bind_quiet_from (clicks "place-order") d m f s acts n Q E S Hq Hc);
      clear Hq;
      [ intros x ? ? ?
      | intros; first [assumption | left; assumption]
      | intros; first [assumption | left; assumption] ]
  end.

Ltac quiet_end :=
  match goal with
  | Hc : countActions (clicks "place-order") ?acts = ?n |- Turn ?d ?t ?s ?acts _ _ _ =>
      let Hq := fresh in
      let Hz := fresh in
      assert (Hq : AtMost (clicks "place-order") 0 t) by never;
      pose proof (Turn_quiet_from (clicks "place-order") d t s acts n Hq Hc) as Hz;
      unfold TurnEnds in Hz;
      apply (Turn_mono d t s acts _ _ _ _ _ _ Hz);
      intros; first [assumption | left; assumption]
  end.

(** A turn of [placeOrder] submits the order at most once, and only with the
    flag up when the turn ends. *)
Lemma placeOrderWith_turn (d : Dom) (again : Async unit) (s : RunState)
    (acts : list Action) (n0 : nat) :
  placed acts = n0 ->
  TurnEnds d (placeOrderWith again) s acts
    (fun s' acts' =>
       placed acts' = n0 \/ (placed acts' = S n0 /\ placeOrderButtonClicked s' = true)).
Proof.
  intros Hc. unfold placed in *. unfold TurnEnds, placeOrderWith.
  quiet_bind u. quiet_bind s0.
  destruct (negb (autoSubmit (globalSettings s0))); cbv iota; [quiet_end|].
  quiet_bind u1. quiet_bind highDemand. quiet_bind u2. quiet_bind cvvInput.
  destruct (isSome cvvInput); cbv iota; [quiet_end|].
  quiet_bind cardInput.
  destruct (isSome cardInput); cbv iota; [quiet_end|].
  quiet_bind termsCheckbox. quiet_bind u3. quiet_bind placeOrderBtn.
  destruct placeOrderBtn as [btn|]; cbv iota; [|left; assumption].
  destruct (negb (visible btn)); cbv iota; [left; assumption|].
  destruct (disabled btn); cbv iota.
  - quiet_bind saveAndContinueBtn.
    destruct (isUsable saveAndContinueBtn); cbv iota; [quiet_end | left; assumption].
  - apply submitOrder_turn. assumption.
Qed.

(** One step along a stretch that neither clicks the place-order button nor
    touches its flag. *)
Ltac frame_bind x :=
  match goal with
  | Hc : countActions (clicks "place-order") ?acts = ?n,
    Hf : placeOrderButtonClicked ?s = true
    |- Turn ?d (bind ?m ?f) ?s ?acts ?Q ?E ?S =>
      let Hq := fresh in
      let Hp := fresh in
      assert (Hq : AtMost (clicks "place-order") 0 m) by never;
      assert (Hp : Preserves placeOrderButtonClicked m)
        by (unfold checkForHighDemandMessage, installHighDemandRetry; preserve);
      apply (Turn_bind_frame_from (clicks "place-order") placeOrderButtonClicked
               d m f s acts n true Q E S Hq Hp Hc Hf);
      clear Hq Hp;
      [ intros x ? ? ? ? | intros; assumption | intros; assumption ]
  end.

(** With the flag up, a turn of [placeOrder] does not submit the order. *)
Lemma placeOrderWith_turn_guarded (d : Dom) (again : Async unit) (s : RunState)
    (acts : list Action) (n0 : nat) :
  placed acts = n0 -> placeOrderButtonClicked s = true ->
  TurnEnds d (placeOrderWith again) s acts (fun _ acts' => placed acts' = n0).
Proof.
  intros Hc Hs. unfold placed in *. unfold TurnEnds, placeOrderWith.
  frame_bind u. frame_bind s0.
  destruct (negb (autoSubmit (globalSettings s0))); cbv iota; [quiet_end|].
  frame_bind u1. frame_bind highDemand. frame_bind u2. frame_bind cvvInput.
  destruct (isSome cvvInput); cbv iota; [quiet_end|].
  frame_bind cardInput.
  destruct (isSome cardInput); cbv iota; [quiet_end|].
  frame_bind termsCheckbox. frame_bind u3. frame_bind placeOrderBtn.
  destruct placeOrderBtn as [btn|]; cbv iota; [|assumption].
  destruct (negb (visible btn)); cbv iota; [assumption|].
  destruct (disabled btn); cbv iota.
  - quiet_bind saveAndContinueBtn.
    destruct (isUsable saveAndContinueBtn); cbv iota; [quiet_end | assumption].
  - apply submitOrder_turn_guarded; assumption.
Qed.

Lemma placeOrder_turn (d : Dom) (fuel : nat) (s : RunState) :
  placed (seg_actions (segment d (placeOrder fuel) s)) = 0
  \/ (placed (seg_actions (segment d (placeOrder fuel) s)) = 1
      /\ placeOrderButtonClicked (seg_state (segment d (placeOrder fuel) s)) = true).
Proof.
  assert (H : TurnEnds d (placeOrder fuel) s []
                (fun s' acts' =>
                   placed acts' = 0 \/ (placed acts' = 1 /\ placeOrderButtonClicked s' = true))).
  { destruct fuel; cbn [placeOrder]; exact (placeOrderWith_turn d _ s [] 0 eq_refl). }
  pose proof (Turn_segmentFrom d (placeOrder fuel) s [] [] _ _ _ H) as H'.
  unfold atEnd in H'. fold (segment d (placeOrder fuel) s) in H'.
  destruct (seg_end (segment d (placeOrder fuel) s)); exact H'.
Qed.

Lemma placeOrder_turn_guarded (d : Dom) (fuel : nat) (s : RunState) :
  placeOrderButtonClicked s = true ->
  placed (seg_actions (segment d (placeOrder fuel) s)) = 0.
Proof.
  intros Hs.
  assert (H : TurnEnds d (placeOrder fuel) s [] (fun _ acts' => placed acts' = 0)).
  { destruct fuel; cbn [placeOrder]; exact (placeOrderWith_turn_guarded d _ s [] 0 eq_refl Hs). }
  pose proof (Turn_segmentFrom d (placeOrder fuel) s [] [] _ _ _ H) as H'.
  unfold atEnd in H'. fold (segment d (placeOrder fuel) s) in H'.
  destruct (seg_end (segment d (placeOrder fuel) s)); exact H'.
Qed.

(** The trace of two turns, one of each of two chains. *)
Lemma two_turns (first second : Async unit) (s : RunState) (d0 d1 : Dom) :
  pool_trace (runPool [(0, d0); (1, d1)] (startPool s [first; second]))
  = seg_actions (segment d0 first s)
      ++ seg_actions (segment d1 second (seg_state (segment d0 first s))).
Proof. reflexivity. Qed.

(** Both channels, lines 2398-2427 and 2438-2470, in one turn each. *)
Lemma watcherChecks_turn (d : Dom) (fuel : nat) (s : RunState) (acts : list Action) (n0 : nat) :
  placed acts = n0 ->
  TurnEnds d (watcherChecks fuel) s acts
    (fun s' acts' =>
       placed acts' = n0 \/ (placed acts' = S n0 /\ placeOrderButtonClicked s' = true)).
Proof.
  intros Hc. unfold placed in *. unfold TurnEnds, watcherChecks.
  quiet_bind s0. quiet_bind cvvInput.
  destruct (isDisplayed cvvInput && negb (confirmButtonClicked s0)); cbv iota; [quiet_end|].
  quiet_bind cardInput.
  destruct (isDisplayed cardInput && negb (verifyCardButtonClicked s0)); cbv iota; [quiet_end|].
  quiet_bind placeOrderBtn.
  match goal with |- Turn _ (if ?c then _ else _) _ _ _ _ _ => destruct c end; cbv iota;
    [|left; assumption].
  apply Turn_fireAndForget.
  eapply Turn_mono;
    [ destruct fuel; cbn [placeOrder]; apply (placeOrderWith_turn d _ _ _ n0); assumption
    | | | ]; cbv beta; intros; tauto.
Qed.

Lemma watcherChecks_turn_guarded (d : Dom) (fuel : nat) (s : RunState) (acts : list Action)
    (n0 : nat) :
  placed acts = n0 -> placeOrderButtonClicked s = true ->
  TurnEnds d (watcherChecks fuel) s acts (fun _ acts' => placed acts' = n0).
Proof.
  intros Hc Hs. unfold placed in *. unfold TurnEnds, watcherChecks.
  apply Turn_bind. cbn [Turn get].
  quiet_bind cvvInput.
  destruct (isDisplayed cvvInput && negb (confirmButtonClicked s)); cbv iota; [quiet_end|].
  quiet_bind cardInput.
  destruct (isDisplayed cardInput && negb (verifyCardButtonClicked s)); cbv iota; [quiet_end|].
  quiet_bind placeOrderBtn.
  rewrite Hs, andb_false_r. assumption.
Qed.

Lemma channel_turn (d : Dom) (fuel : nat) (s : RunState) (t : Async unit) :
  In t (bothChannels fuel) ->
  (placed (seg_actions (segment d t s)) = 0
   \/ (placed (seg_actions (segment d t s)) = 1
       /\ placeOrderButtonClicked (seg_state (segment d t s)) = true))
  /\ (placeOrderButtonClicked s = true -> placed (seg_actions (segment d t s)) = 0).
Proof.
  intros Hin.
  assert (H : TurnEnds d t s []
                (fun s' acts' =>
                   placed acts' = 0 \/ (placed acts' = 1 /\ placeOrderButtonClicked s' = true))
              /\ (placeOrderButtonClicked s = true ->
                  TurnEnds d t s [] (fun _ acts' => placed acts' = 0))).
  { destruct Hin as [<- | [<- | []]].
    - unfold checkoutObserverCallback, TurnEnds. split; [|intros Hs].
      + apply Turn_bind. cbn [Turn get]. destruct (watcherIdle s); [left; reflexivity|].
        now apply watcherChecks_turn.
      + apply Turn_bind. cbn [Turn get]. destruct (watcherIdle s); [reflexivity|].
        now apply watcherChecks_turn_guarded.
    - unfold safetyIntervalCallback, TurnEnds. split; [|intros Hs].
      + apply Turn_bind. cbn [Turn get]. destruct (watcherIdle s); [left; reflexivity|].
        apply Turn_tryCatch.
        eapply Turn_mono; [now apply (watcherChecks_turn d fuel s [] 0) | | |];
          cbv beta; intros; assumption.
      + apply Turn_bind. cbn [Turn get]. destruct (watcherIdle s); [reflexivity|].
        apply Turn_tryCatch.
        eapply Turn_mono; [now apply (watcherChecks_turn_guarded d fuel s [] 0) | | |];
          cbv beta; intros; assumption. }
  destruct H as [H1 H2]. split; [|intros Hs; specialize (H2 Hs)].
  - pose proof (Turn_segmentFrom d t s [] [] _ _ _ H1) as H'.
    unfold atEnd in H'. fold (segment d t s) in H'.
    destruct (seg_end (segment d t s)); exact H'.
  - pose proof (Turn_segmentFrom d t s [] [] _ _ _ H2) as H'.
    unfold atEnd in H'. fold (segment d t s) in H'.
    destruct (seg_end (segment d t s)); exact H'.
Qed.

Lemma segment_find_ok {B} (d : Dom) (t : Target) (f : option Elem -> Async B) (s : RunState) :
  fails d (CallFind t) = None ->
  segment d (bind (find t) f) s = segment d (f (query d t)) s.
Proof. intros H. unfold find, ext, segment. cbn [bind segmentFrom look]. rewrite H. reflexivity. Qed.

Lemma segment_fireAndForget_get {B} (d : Dom) (f : RunState -> Async B) (s : RunState) :
  segment d (fireAndForget (bind get f)) s = segment d (fireAndForget (f s)) s.
Proof. reflexivity. Qed.

(** A handler started by a channel: its first stretch runs within the
    channel's turn and raises the filling flag. *)
Lemma started_handleCVVConfirmation (d : Dom) (s : RunState) :
  cvvGuard s = false ->
  seg_state (segment d (fireAndForget handleCVVConfirmation) s)
  = set_isFillingCvvInput true (set_currentStep "handle-cvv" s)
  /\ seg_actions (segment d (fireAndForget handleCVVConfirmation) s)
     = [Status "Confirming CVV..." StatusRunning; StorageGet settingsKeys].
Proof.
  intros H. unfold handleCVVConfirmation. rewrite segment_fireAndForget_get.
  unfold cvvGuard in H. rewrite H. split; reflexivity.
Qed.

Lemma started_handleCreditCardConfirmation (d : Dom) (s : RunState) :
  cardGuard s = false ->
  seg_state (segment d (fireAndForget handleCreditCardConfirmation) s)
  = set_isFillingCardInput true (set_currentStep "handle-card-verification" s)
  /\ seg_actions (segment d (fireAndForget handleCreditCardConfirmation) s)
     = [Status "Verifying card..." StatusRunning; StorageGet settingsKeys].
Proof.
  intros H. unfold handleCreditCardConfirmation. rewrite segment_fireAndForget_get.
  unfold cardGuard in H. rewrite H. split; reflexivity.
Qed.

Lemma checkoutObserverCallback_idle (d : Dom) (fuel : nat) (s : RunState) :
  watcherIdle s = true -> segment d (checkoutObserverCallback fuel) s = idleTurn s.
Proof. intros H. unfold checkoutObserverCallback. rewrite segment_get, H. reflexivity. Qed.

Lemma safetyIntervalCallback_idle (d : Dom) (fuel : nat) (s : RunState) :
  watcherIdle s = true -> segment d (safetyIntervalCallback fuel) s = idleTurn s.
Proof. intros H. unfold safetyIntervalCallback. rewrite segment_get, H. reflexivity. Qed.

Lemma watcherIdle_cvvGuard (s : RunState) :
  watcherIdle s = false -> confirmButtonClicked s = false -> cvvGuard s = false.
Proof.
  unfold watcherIdle, cvvGuard. intros H ->.
  destruct (isFillingCvvInput s); [|reflexivity].
  destruct (isEnabled s); discriminate.
Qed.

Lemma watcherIdle_cardGuard (s : RunState) :
  watcherIdle s = false -> verifyCardButtonClicked s = false -> cardGuard s = false.
Proof.
  unfold watcherIdle, cardGuard. intros H ->.
  destruct (isFillingCardInput s); [|reflexivity].
  destruct (isEnabled s), (isFillingCvvInput s); discriminate.
Qed.

Lemma checkoutObserverCallback_starts_cvv (d : Dom) (fuel : nat) (s : RunState) :
  cvvPrompted d s ->
  segment d (checkoutObserverCallback fuel) s
  = segment d (fireAndForget handleCVVConfirmation) s.
Proof.
  intros (Hidle & Hconf & Hfind & Hshown).
  unfold checkoutObserverCallback. rewrite segment_get, Hidle.
  unfold watcherChecks. rewrite segment_get, segment_find_ok by assumption.
  rewrite Hshown, Hconf. reflexivity.
Qed.

Lemma checkoutObserverCallback_starts_card (d : Dom) (fuel : nat) (s : RunState) :
  cardPrompted d s ->
  segment d (checkoutObserverCallback fuel) s
  = segment d (fireAndForget handleCreditCardConfirmation) s.
Proof.
  intros (Hidle & Hconf & Hfind & Hhidden & Hfind' & Hshown).
  unfold checkoutObserverCallback. rewrite segment_get, Hidle.
  unfold watcherChecks. rewrite segment_get, segment_find_ok by assumption.
  rewrite Hhidden. cbn [andb]. rewrite segment_find_ok by assumption.
  rewrite Hshown, Hconf. reflexivity.
Qed.

Lemma watcherIdle_filling_cvv (s : RunState) :
  watcherIdle (set_isFillingCvvInput true s) = true.
Proof. unfold watcherIdle. simpl. destruct (negb (isEnabled s)); reflexivity. Qed.

Lemma watcherIdle_filling_card (s : RunState) :
  watcherIdle (set_isFillingCardInput true s) = true.
Proof.
  unfold watcherIdle. simpl.
  destruct (negb (isEnabled s)), (isFillingCvvInput s); reflexivity.
Qed.

(** C1 (amended): a guard is tested and raised within one turn, so of two
    invocations made back to back the second finds it raised and does
    nothing.  For the CVV and the card handler this bounds the whole run: the
    confirm or verify button is clicked at most once, under every schedule,
    whether the handler is invoked directly or started by the two channels.
    For [placeOrder] it bounds the two turns: the order is submitted at most
    once in them (the flag is lowered again, on purpose, by the steps that
    follow a submission). *)
Theorem guard_flags_back_to_back :
  (forall s d0 d1,
      (forall rest,
          countActions (clicks "cvv-confirm")
            (pool_trace (runPool ((0, d0) :: (1, d1) :: rest)
                           (startPool s [handleCVVConfirmation; handleCVVConfirmation]))) <= 1)
      /\ segment d1 handleCVVConfirmation (seg_state (segment d0 handleCVVConfirmation s))
         = idleTurn (seg_state (segment d0 handleCVVConfirmation s)))
  /\ (forall s d0 d1,
         (forall rest,
             countActions (clicks "verify-card")
               (pool_trace (runPool ((0, d0) :: (1, d1) :: rest)
                              (startPool s [handleCreditCardConfirmation;
                                            handleCreditCardConfirmation]))) <= 1)
         /\ segment d1 handleCreditCardConfirmation
              (seg_state (segment d0 handleCreditCardConfirmation s))
            = idleTurn (seg_state (segment d0 handleCreditCardConfirmation s)))
  /\ (forall d s,
         cvvGuard s = false ->
         isFillingCvvInput (seg_state (segment d handleCVVConfirmation s)) = true
         /\ seg_actions (segment d handleCVVConfirmation s)
            = [Status "Confirming CVV..." StatusRunning; StorageGet settingsKeys]
         /\ suspended (segment d handleCVVConfirmation s) = true)
  /\ (forall d s,
         cardGuard s = false ->
         isFillingCardInput (seg_state (segment d handleCreditCardConfirmation s)) = true
         /\ seg_actions (segment d handleCreditCardConfirmation s)
            = [Status "Verifying card..." StatusRunning; StorageGet settingsKeys]
         /\ suspended (segment d handleCreditCardConfirmation s) = true)
  /\ (forall d again s,
         (placeOrderButtonClicked s = true -> segment d (submitOrder again) s = idleTurn s)
         /\ (placeOrderButtonClicked s = false ->
             seg_state (segment d (submitOrder again) s) = set_placeOrderButtonClicked true s
             /\ seg_actions (segment d (submitOrder again) s)
                = [Status "Submitting order..." StatusRunning; Click "place-order"]
             /\ suspended (segment d (submitOrder again) s) = true))
  /\ (forall fuel s d0 d1,
         placed (pool_trace (runPool [(0, d0); (1, d1)]
                               (startPool s [placeOrder fuel; placeOrder fuel]))) <= 1)
  /\ (forall fuel s d0 d1 first second,
         In first (bothChannels fuel) -> In second (bothChannels fuel) ->
         placed (pool_trace (runPool [(0, d0); (1, d1)] (startPool s [first; second]))) <= 1)
  /\ (forall fuel s d0 d1,
         cvvPrompted d0 s ->
         (forall rest,
             countActions (clicks "cvv-confirm")
               (pool_trace (runPool ((0, d0) :: (1, d1) :: rest)
                              (startPool s (bothChannels fuel)))) <= 1)
         /\ pool_trace (runPool [(0, d0); (1, d1)] (startPool s (bothChannels fuel)))
            = [Status "Confirming CVV..." StatusRunning; StorageGet settingsKeys])
  /\ (forall fuel s d0 d1,
         cardPrompted d0 s ->
         (forall rest,
             countActions (clicks "verify-card")
               (pool_trace (runPool ((0, d0) :: (1, d1) :: rest)
                              (startPool s (bothChannels fuel)))) <= 1)
         /\ pool_trace (runPool [(0, d0); (1, d1)] (startPool s (bothChannels fuel)))
            = [Status "Verifying card..." StatusRunning; StorageGet settingsKeys]).
Proof.
  refine (conj _ (conj _ (conj _ (conj _ (conj _ (conj _ (conj _ (conj _ _)))))))).
  - intros s d0 d1. split.
    + apply (back_to_back (clicks "cvv-confirm") cvvGuard
               handleCVVConfirmation handleCVVConfirmation handleCVVConfirmation s d0 d1).
      * reflexivity.
      * apply handleCVVConfirmation_once.
      * apply handleCVVConfirmation_raises_guard.
      * intros d s'. apply handleCVVConfirmation_guarded.
    + apply handleCVVConfirmation_guarded, handleCVVConfirmation_raises_guard.
  - intros s d0 d1. split.
    + apply (back_to_back (clicks "verify-card") cardGuard
               handleCreditCardConfirmation handleCreditCardConfirmation
               handleCreditCardConfirmation s d0 d1).
      * reflexivity.
      * apply handleCreditCardConfirmation_once.
      * apply handleCreditCardConfirmation_raises_guard.
      * intros d s'. apply handleCreditCardConfirmation_guarded.
    + apply handleCreditCardConfirmation_guarded, handleCreditCardConfirmation_raises_guard.
  - intros d s G. destruct (handleCVVConfirmation_first_turn d s G) as (E1 & E2 & E3).
    rewrite E1. auto.
  - intros d s G. destruct (handleCreditCardConfirmation_first_turn d s G) as (E1 & E2 & E3).
    rewrite E1. auto.
  - intros d again s. split.
    + apply submitOrder_guarded.
    + apply submitOrder_first_turn.
  - intros fuel s d0 d1. rewrite two_turns. unfold placed. rewrite countActions_app.
    fold (placed (seg_actions (segment d0 (placeOrder fuel) s))).
    fold (placed (seg_actions (segment d1 (placeOrder fuel)
                                 (seg_state (segment d0 (placeOrder fuel) s))))).
    destruct (placeOrder_turn d0 fuel s) as [H0 | [H1 Hs]].
    + destruct (placeOrder_turn d1 fuel (seg_state (segment d0 (placeOrder fuel) s)))
        as [H | [H _]]; lia.
    + pose proof (placeOrder_turn_guarded d1 fuel _ Hs). lia.
  - intros fuel s d0 d1 first second Hf Hs. rewrite two_turns. unfold placed.
    rewrite countActions_app.
    fold (placed (seg_actions (segment d0 first s))).
    fold (placed (seg_actions (segment d1 second (seg_state (segment d0 first s))))).
    destruct (proj1 (channel_turn d0 fuel s first Hf)) as [H0 | [H1 Hflag]].
    + destruct (proj1 (channel_turn d1 fuel (seg_state (segment d0 first s)) second Hs))
        as [H | [H _]]; lia.
    + pose proof (proj2 (channel_turn d1 fuel _ second Hs) Hflag). lia.
  - intros fuel s d0 d1 Hp.
    pose proof (checkoutObserverCallback_starts_cvv d0 fuel s Hp) as Hsame.
    destruct Hp as (Hidle & Hconf & _).
    destruct (started_handleCVVConfirmation d0 s (watcherIdle_cvvGuard s Hidle Hconf))
      as [Hst Hacts].
    destruct (back_to_back (clicks "cvv-confirm") watcherIdle
                (checkoutObserverCallback fuel) (fireAndForget handleCVVConfirmation)
                (safetyIntervalCallback fuel) s d0 d1) as [Hall Htwo].
    + exact Hsame.
    + apply AtMost_fireAndForget, handleCVVConfirmation_once.
    + rewrite Hsame, Hst. apply watcherIdle_filling_cvv.
    + intros d s'. apply safetyIntervalCallback_idle.
    + split; [exact Hall|]. unfold bothChannels. rewrite Htwo, Hsame. exact Hacts.
  - intros fuel s d0 d1 Hp.
    pose proof (checkoutObserverCallback_starts_card d0 fuel s Hp) as Hsame.
    destruct Hp as (Hidle & Hconf & _).
    destruct (started_handleCreditCardConfirmation d0 s (watcherIdle_cardGuard s Hidle Hconf))
      as [Hst Hacts].
    destruct (back_to_back (clicks "verify-card") watcherIdle
                (checkoutObserverCallback fuel) (fireAndForget handleCreditCardConfirmation)
                (safetyIntervalCallback fuel) s d0 d1) as [Hall Htwo].
    + exact Hsame.
    + apply AtMost_fireAndForget, handleCreditCardConfirmation_once.
    + rewrite Hsame, Hst. apply watcherIdle_filling_card.
    + intros d s'. apply safetyIntervalCallback_idle.
    + split; [exact Hall|]. unfold bothChannels. rewrite Htwo, Hsame. exact Hacts.
Qed.

Lemma guard_flags_back_to_back_witness :
  countActions (clicks "cvv-confirm")
    (pool_trace (runPool (cvvSchedule 12) (startPool exampleState (bothChannels 1)))) <= 1
  /\ clickNames (pool_trace (runPool (cvvSchedule 12) (startPool exampleState (bothChannels 1))))
     = ["cvv-confirm"]
  /\ countActions (clicks "verify-card")
       (pool_trace (runPool (cardSchedule 12) (startPool exampleState (bothChannels 1)))) <= 1
  /\ clickNames (pool_trace (runPool (cardSchedule 12) (startPool exampleState (bothChannels 1))))
     = ["verify-card"].
Proof.
  assert (Hp : cvvPrompted cvvPromptPage exampleState) by (repeat split).
  assert (Hq : cardPrompted cardPromptPage exampleState) by (repeat split).
  refine (conj _ (conj _ (conj _ _))).
  - exact (proj1
             (proj1 (proj2 (proj2 (proj2 (proj2 (proj2 (proj2 (proj2
                guard_flags_back_to_back)))))))
                1 exampleState cvvPromptPage cvvPromptPage Hp)
             (repeat (2, cvvPromptPage) 12)).
  - vm_compute. reflexivity.
  - exact (proj1
             (proj2 (proj2 (proj2 (proj2 (proj2 (proj2 (proj2 (proj2
                guard_flags_back_to_back)))))))
                1 exampleState cardPromptPage cardPromptPage Hq)
             (repeat (2, cardPromptPage) 12)).
  - vm_compute. reflexivity.
Defined.

(** C1 as stated fails for the place-order button: both channels fire back
    to back on the ready page and one click is made; the page then asks for
    the CVV, [placeOrder] lowers its flag, has the CVV confirmed, calls
    itself, and the button is clicked a second time in the same run. *)
Lemma place_order_clicked_twice :
  clickNames
    (pool_trace (runPool (resubmitSchedule 8) (startPool exampleState (bothChannels 1))))
  = ["place-order"; "cvv-confirm"; "place-order"]
  /\ placed (pool_trace (runPool (resubmitSchedule 8)
                           (startPool exampleState (bothChannels 1)))) = 2
  /\ placed (pool_trace (runPool (firstn 2 (resubmitSchedule 8))
                           (startPool exampleState (bothChannels 1)))) = 1.
Proof. vm_compute. repeat split. Qed.

(** * The life cycle of the engine *)

Lemma run_disconnectAll w l : forall c,
  run w (disconnectAll l) c = (Returned tt, withTrace (map Disconnect l) c).
Proof.
  induction l as [|h rest IH]; intros [s k tr sp]; cbn [disconnectAll map].
  - unfold withTrace; simpl. now rewrite app_nil_r.
  - rewrite run_act, IH. unfold withTrace, logged; simpl. now rewrite <- app_assoc.
Qed.

Lemma run_clearAll w l : forall c,
  run w (clearAll l) c = (Returned tt, withTrace (map ClearInterval l) c).
Proof.
  induction l as [|h rest IH]; intros [s k tr sp]; cbn [clearAll map].
  - unfold withTrace; simpl. now rewrite app_nil_r.
  - rewrite run_act, IH. unfold withTrace, logged; simpl. now rewrite <- app_assoc.
Qed.

Lemma run_cleanup w c :
  run w cleanup c
  = (Returned tt,
     withState (set_intervals [])
       (withTrace (map ClearInterval (intervals (cst c)))
          (withState (set_observers [])
             (withTrace (map Disconnect (observers (cst c)))
                (withState
                   (fun s => set_isFillingCvvInput false
                      (set_isFillingCardInput false
                         (set_verifyCardButtonClicked false
                            (set_confirmButtonClicked false
                               (set_placeOrderButtonClicked false
                                  (set_currentStep ""
                                     (set_checkoutInProgress false s))))))) c))))).
Proof.
  unfold cleanup.
  rewrite !run_modify, run_get, run_bind, run_disconnectAll, run_modify, run_bind,
    run_clearAll.
  reflexivity.
Qed.

(** X1: [cleanup] always returns, within the turn it is called in.  It
    leaves the pipeline flag and the five guard flags lowered, the step name
    empty and both registries empty; it disconnects every registered observer
    and then clears every registered interval, in registration order, and
    does nothing else; the settings, the profile, the enabled state, the
    recovery flag and the handle of the high-demand timer are kept. *)
Theorem cleanup_resets (w : nat -> Dom) (c : Config) :
  let c' := snd (run w cleanup c) in
  fst (run w cleanup c) = Returned tt
  /\ checkoutInProgress (cst c') = false
  /\ currentStep (cst c') = ""
  /\ guardsLowered (cst c') = true
  /\ observers (cst c') = []
  /\ intervals (cst c') = []
  /\ trace c' = trace c ++ map Disconnect (observers (cst c))
                        ++ map ClearInterval (intervals (cst c))
  /\ clock c' = clock c
  /\ spawned c' = spawned c
  /\ isEnabled (cst c') = isEnabled (cst c)
  /\ siteSettings (cst c') = siteSettings (cst c)
  /\ globalSettings (cst c') = globalSettings (cst c)
  /\ profile (cst c') = profile (cst c)
  /\ inBuyNowErrorRecovery (cst c') = inBuyNowErrorRecovery (cst c)
  /\ highDemandRetryInterval (cst c') = highDemandRetryInterval (cst c).
Proof.
  rewrite run_cleanup. cbn. rewrite <- app_assoc. repeat split; reflexivity.
Qed.





(** X3: [setupCheckoutPageObservers] always returns within its turn and
    leaves exactly one observer and one interval registered, both new: every
    observer registered before is disconnected and every interval registered
    before is cleared (the high-demand timer among them, whose handle is
    kept), and the five guard flags are lowered.  The pipeline flag, the
    enabled state and the profile are not touched. *)
Theorem setupCheckoutPageObservers_one_of_each (w : nat -> Dom) (c : Config) :
  let n := nextHandle (cst c) in
  let c' := snd (run w setupCheckoutPageObservers c) in
  fst (run w setupCheckoutPageObservers c) = Returned tt
  /\ observers (cst c') = [n]
  /\ intervals (cst c') = [S n]
  /\ nextHandle (cst c') = S (S n)
  /\ trace c' = trace c ++ map Disconnect (observers (cst c))
                        ++ map ClearInterval (intervals (cst c))
                        ++ [Observe n; SetInterval (S n) 5000]
  /\ guardsLowered (cst c') = true
  /\ clock c' = clock c
  /\ spawned c' = spawned c
  /\ checkoutInProgress (cst c') = checkoutInProgress (cst c)
  /\ isEnabled (cst c') = isEnabled (cst c)
  /\ profile (cst c') = profile (cst c)
  /\ highDemandRetryInterval (cst c') = highDemandRetryInterval (cst c).
Proof.
  unfold setupCheckoutPageObservers.
  rewrite run_get, run_bind, run_disconnectAll, run_modify, run_bind, run_clearAll,
    !run_modify, run_get, run_act, run_modify, run_act, run_modify.
  cbn. rewrite <- !app_assoc. repeat split; reflexivity.
Qed.

(** * Loading the settings and the profile *)

Lemma Unstuck_tryCatch {A} (m : Async A) (h : string -> Async A) :
  Unstuck m -> (forall e, Unstuck (h e)) -> Unstuck (tryCatch m h).
Proof. induction m; simpl; auto. Qed.

Lemma Unstuck_getFromStorage keys : Unstuck (getFromStorage keys).
Proof. unfold getFromStorage. simpl. intros d. now destruct (fails d CallStorageGet). Qed.

Lemma Unstuck_getProfiles : Unstuck getProfiles.
Proof. unfold getProfiles. simpl. intros d. now destruct (fails d CallGetProfiles). Qed.

Lemma Unstuck_saveToStorage key value : Unstuck (saveToStorage key value).
Proof. unfold saveToStorage. simpl. intros d. now destruct (fails d CallSaveToStorage). Qed.

Lemma Unstuck_updateSiteSettings site key value : Unstuck (updateSiteSettings site key value).
Proof.
  unfold updateSiteSettings. simpl. intros d. now destruct (fails d CallUpdateSiteSettings).
Qed.

Lemma Unstuck_loadSettingsAndProfile : Unstuck loadSettingsAndProfile.
Proof.
  unfold loadSettingsAndProfile.
  apply Unstuck_tryCatch; [|intros e; exact I].
  apply Unstuck_bind; [apply Unstuck_getFromStorage|intros data].
  repeat (apply Unstuck_bind; [exact I|intros _]).
  apply Unstuck_bind; [apply Unstuck_getProfiles|intros pd].
  apply Unstuck_bind; [intros s; exact I|intros s]. cbv zeta.
  apply Unstuck_bind; [exact I|intros _].
  apply Unstuck_bind; [destruct (nonEmpty _); exact I|intros _].
  apply Unstuck_bind; [intros s1; exact I|intros s1].
  apply Unstuck_bind; [destruct (_ && _); exact I|intros _].
  apply Unstuck_bind; [intros s2; exact I|intros s2].
  destruct (profile s2); [exact I|].
  destruct (pd_profiles pd) as [|first rest]; [exact I|].
  apply Unstuck_bind; [exact I|intros _].
  apply Unstuck_bind; [apply Unstuck_saveToStorage|intros _].
  apply Unstuck_bind; [exact I|intros _].
  apply Unstuck_updateSiteSettings.
Qed.

(** X4: [loadSettingsAndProfile] never rejects: whatever the storage
    helpers do, in whatever turn, the promise it returns is fulfilled. *)
Theorem loadSettingsAndProfile_never_raises (w : nat -> Dom) (c : Config) :
  fst (run w loadSettingsAndProfile c) = Returned tt.
Proof.
  pose proof (Unstuck_run w loadSettingsAndProfile c Unstuck_loadSettingsAndProfile) as Hfuel.
  unfold loadSettingsAndProfile in *.
  rewrite run_tryCatch in *.
  destruct (run w _ c) as [[[]|e|] c1]; simpl in *; try reflexivity.
  now contradiction Hfuel.
Qed.

Lemma run_getProfiles {B} w (f : ProfileData -> Async B) c :
  run w (bind getProfiles f) c
  = match fails (w (S (clock c))) CallGetProfiles with
    | Some e => (Raised e, nextTurn (logged GetProfiles c))
    | None => run w (f (profileData (w (S (clock c))))) (nextTurn (logged GetProfiles c))
    end.
Proof.
  unfold getProfiles, ext. simpl.
  destruct (fails (w (S (clock c))) CallGetProfiles); reflexivity.
Qed.

Lemma run_saveToStorage {B} w key value (f : unit -> Async B) c :
  run w (bind (saveToStorage key value) f) c
  = match fails (w (S (clock c))) CallSaveToStorage with
    | Some e => (Raised e, nextTurn (logged (SaveToStorage key value) c))
    | None => run w (f tt) (nextTurn (logged (SaveToStorage key value) c))
    end.
Proof.
  unfold saveToStorage, ext. simpl.
  destruct (fails (w (S (clock c))) CallSaveToStorage); reflexivity.
Qed.

Lemma run_updateSiteSettings_end w site key value c :
  run w (updateSiteSettings site key value) c
  = (match fails (w (S (clock c))) CallUpdateSiteSettings with
     | Some e => Raised e
     | None => Returned tt
     end, nextTurn (logged (UpdateSiteSettings site key value) c)).
Proof.
  unfold updateSiteSettings, ext. simpl.
  destruct (fails (w (S (clock c))) CallUpdateSiteSettings); reflexivity.
Qed.

(** What [loadSettingsAndProfile] does once the settings are in: it reads
    the profiles and chooses one. *)
Lemma profileSelection_keeps_isEnabled :
  Preserves isEnabled
    (pd <- getProfiles ;;
     s <- get ;;
     let profiles := pd_profiles pd in
     let siteProfileId := ss_profileId (siteSettings s) in
     let globalProfileId := pd_selectedProfileId pd in
     modify (set_profile None) ;;
     (if nonEmpty siteProfileId
      then modify (set_profile (findProfile siteProfileId profiles))
      else Ret tt) ;;
     s1 <- get ;;
     (if negb (isSome (profile s1)) && nonEmpty globalProfileId
      then modify (set_profile (findProfile globalProfileId profiles))
      else Ret tt) ;;
     s2 <- get ;;
     match profile s2, profiles with
     | None, first :: _ =>
         modify (set_profile (Some first)) ;;
         saveToStorage "selectedProfile" (p_id first) ;;
         modify (fun s => set_siteSettings (withProfileId (p_id first) (siteSettings s)) s) ;;
         updateSiteSettings "target" "profileId" (p_id first)
     | _, _ => Ret tt
     end).
Proof. preserve. Qed.

(** X5: loading the settings fails closed.  After [loadSettingsAndProfile]
    the engine is enabled only if the read of the settings succeeded and the
    stored settings of this site have [enabled] set: a failing storage helper,
    missing site settings and a cleared flag all leave the engine disabled. *)
Theorem loadSettingsAndProfile_fails_closed (w : nat -> Dom) (c : Config) :
  isEnabled (cst (snd (run w loadSettingsAndProfile c))) = true ->
  fails (w (S (clock c))) CallStorageGet = None
  /\ exists ss, st_siteSettingsTarget (stored (w (S (clock c)))) = Some ss
                /\ ss_enabled ss = true.
Proof.
  unfold loadSettingsAndProfile.
  rewrite run_tryCatch, run_getFromStorage.
  destruct (fails (w (S (clock c))) CallStorageGet) as [e|]; [discriminate|].
  rewrite !run_modify.
  match goal with
  | |- context [run w ?t ?c3] =>
      destruct (run w t c3) as [r c4] eqn:Hrun;
      pose proof (keeps_run isEnabled w t c3 r c4 profileSelection_keeps_isEnabled Hrun) as Hkeep
  end.
  destruct r as [[]|e|]; cbn -[settingsKeys] in *.
  - intros H. split; [reflexivity|]. rewrite Hkeep in H.
    destruct (st_siteSettingsTarget _) as [ss|]; [now exists ss|discriminate].
  - discriminate.
  - intros H. split; [reflexivity|]. rewrite Hkeep in H.
    destruct (st_siteSettingsTarget _) as [ss|]; [now exists ss|discriminate].
Qed.

Lemma loadSettingsAndProfile_fails_closed_witness :
  isEnabled (cst (snd (run (fun _ => checkoutPage) loadSettingsAndProfile
                         (initialConfig exampleState)))) = true
  /\ fails checkoutPage CallStorageGet = None
  /\ exists ss, st_siteSettingsTarget (stored checkoutPage) = Some ss /\ ss_enabled ss = true.
Proof.
  split; [reflexivity|].
  exact (loadSettingsAndProfile_fails_closed (fun _ => checkoutPage)
           (initialConfig exampleState) eq_refl).
Defined.

Lemma run_ret {A B} w (a : A) (f : A -> Async B) c :
  run w (bind (Ret a) f) c = run w (f a) c.
Proof. reflexivity. Qed.

Lemma run_ret_end {A} w (a : A) c : run w (Ret a) c = (Returned a, c).
Proof. reflexivity. Qed.

Lemma trace_two (l : list Action) (a b : Action) : (l ++ [a]) ++ [b] = l ++ [a; b] ++ [].
Proof. now rewrite <- app_assoc. Qed.

Lemma trace_four (l : list Action) (a b x y : Action) :
  (((l ++ [a]) ++ [b]) ++ [x]) ++ [y] = l ++ [a; b] ++ [x; y].
Proof. now rewrite <- !app_assoc. Qed.

(** The last step of the selection: no profile by id. *)
Lemma run_selectFirst w (profiles : list Profile) c :
  quietWorld w ->
  run w
    (match profile (cst c), profiles with
     | None, first :: _ =>
         modify (set_profile (Some first)) ;;
         saveToStorage "selectedProfile" (p_id first) ;;
         modify (fun s => set_siteSettings (withProfileId (p_id first) (siteSettings s)) s) ;;
         updateSiteSettings "target" "profileId" (p_id first)
     | _, _ => Ret tt
     end) c
  = (Returned tt,
     match profile (cst c), profiles with
     | None, first :: _ =>
         nextTurn (logged (UpdateSiteSettings "target" "profileId" (p_id first))
           (withState (fun s => set_siteSettings (withProfileId (p_id first) (siteSettings s)) s)
              (nextTurn (logged (SaveToStorage "selectedProfile" (p_id first))
                 (withState (set_profile (Some first)) c)))))
     | _, _ => c
     end).
Proof.
  intros Hq.
  destruct (profile (cst c)); [reflexivity|].
  destruct profiles as [|first rest]; [reflexivity|].
  rewrite run_modify, run_saveToStorage, Hq, run_modify, run_updateSiteSettings_end, Hq.
  reflexivity.
Qed.

(** The two look-ups by id that come before. *)
Lemma run_selectById w (sid gid : string) (profiles : list Profile) c :
  quietWorld w ->
  run w
    (modify (set_profile None) ;;
     (if nonEmpty sid
      then modify (set_profile (findProfile sid profiles))
      else Ret tt) ;;
     s1 <- get ;;
     (if negb (isSome (profile s1)) && nonEmpty gid
      then modify (set_profile (findProfile gid profiles))
      else Ret tt) ;;
     s2 <- get ;;
     match profile s2, profiles with
     | None, first :: _ =>
         modify (set_profile (Some first)) ;;
         saveToStorage "selectedProfile" (p_id first) ;;
         modify (fun s => set_siteSettings (withProfileId (p_id first) (siteSettings s)) s) ;;
         updateSiteSettings "target" "profileId" (p_id first)
     | _, _ => Ret tt
     end) c
  = (Returned tt,
     match chosenById sid gid profiles, profiles with
     | None, first :: _ =>
         nextTurn (logged (UpdateSiteSettings "target" "profileId" (p_id first))
           (withState (fun s => set_siteSettings (withProfileId (p_id first) (siteSettings s)) s)
              (nextTurn (logged (SaveToStorage "selectedProfile" (p_id first))
                 (withState (set_profile (Some first)) (withState (set_profile None) c))))))
     | chosen, _ => withState (set_profile chosen) c
     end).
Proof.
  intros Hq. unfold chosenById, lookupProfile.
  rewrite run_modify.
  destruct (nonEmpty sid).
  - rewrite run_modify, run_get.
    destruct (findProfile sid profiles) as [p|].
    + change (negb (isSome (profile (cst (withState (set_profile (Some p))
                 (withState (set_profile None) c))))) && nonEmpty gid) with false.
      cbv iota. rewrite run_ret, run_get, (run_selectFirst w profiles _ Hq).
      destruct c; reflexivity.
    + change (negb (isSome (profile (cst (withState (set_profile None)
                 (withState (set_profile None) c))))) && nonEmpty gid) with (nonEmpty gid).
      destruct (nonEmpty gid).
      * rewrite run_modify, run_get, (run_selectFirst w profiles _ Hq).
        destruct (findProfile gid profiles) as [p|]; [destruct c; reflexivity|].
        destruct profiles; destruct c; reflexivity.
      * rewrite run_ret, run_get, (run_selectFirst w profiles _ Hq).
        destruct profiles; destruct c; reflexivity.
  - rewrite run_ret, run_get.
    change (negb (isSome (profile (cst (withState (set_profile None) c)))) && nonEmpty gid)
      with (nonEmpty gid).
    destruct (nonEmpty gid).
    + rewrite run_modify, run_get, (run_selectFirst w profiles _ Hq).
      destruct (findProfile gid profiles) as [p|]; [destruct c; reflexivity|].
      destruct profiles; destruct c; reflexivity.
    + rewrite run_ret, run_get, (run_selectFirst w profiles _ Hq).
      destruct profiles; destruct c; reflexivity.
Qed.

(** X6: the profile is chosen in a fixed order.  When no storage helper
    fails, [loadSettingsAndProfile] leaves as profile the one whose id is the
    site's [profileId], else the one whose id is the globally selected id,
    else the first stored profile, else none; an empty id names no profile.
    Only the fall-back to the first profile is written back ([selectedProfile]
    and the site's [profileId]); the enabled state is the stored [enabled] of
    the site, [false] without stored site settings. *)
Theorem loadSettingsAndProfile_selects_profile (w : nat -> Dom) (c : Config) :
  quietWorld w ->
  let data := stored (w (S (clock c))) in
  let pd := profileData (w (S (S (clock c)))) in
  let ss := match st_siteSettingsTarget data with
            | Some ss => ss
            | None => defaultSiteSettings
            end in
  let c' := snd (run w loadSettingsAndProfile c) in
  profile (cst c') = selectProfile (ss_profileId ss) (pd_selectedProfileId pd) (pd_profiles pd)
  /\ isEnabled (cst c') = ss_enabled ss
  /\ trace c' = trace c ++ [StorageGet settingsKeys; GetProfiles]
                        ++ savedSelection (ss_profileId ss) (pd_selectedProfileId pd)
                             (pd_profiles pd).
Proof.
  intros Hq. cbv zeta.
  unfold loadSettingsAndProfile.
  rewrite run_tryCatch, run_getFromStorage, Hq, !run_modify, run_getProfiles, Hq, run_get.
  cbv zeta. rewrite (run_selectById w _ _ _ _ Hq).
  unfold selectProfile, savedSelection.
  cbn [clock cst withState nextTurn logged siteSettings set_isEnabled set_globalSettings
       set_siteSettings].
  destruct (chosenById _ _ _) as [p|].
  - cbn [snd cst trace withState nextTurn logged profile set_profile isEnabled set_isEnabled
         set_globalSettings set_siteSettings siteSettings].
    rewrite trace_two. split; [reflexivity|split; reflexivity].
  - destruct (pd_profiles _) as [|first rest].
    + cbn [snd cst trace withState nextTurn logged profile set_profile isEnabled set_isEnabled
           set_globalSettings set_siteSettings siteSettings hd_error].
      rewrite trace_two. split; [reflexivity|split; reflexivity].
    + cbn [snd cst trace withState nextTurn logged profile set_profile isEnabled set_isEnabled
           set_globalSettings set_siteSettings siteSettings hd_error].
      rewrite trace_four. split; [reflexivity|split; reflexivity].
Qed.

Lemma loadSettingsAndProfile_selects_profile_witness :
  quietWorld (fun _ => checkoutPage)
  /\ profile (cst (snd (run (fun _ => checkoutPage) loadSettingsAndProfile
                          (initialConfig (set_profile None exampleState)))))
     = Some exampleProfile.
Proof.
  assert (Hq : quietWorld (fun _ => checkoutPage)) by (intros k call; reflexivity).
  split; [exact Hq|].
  exact (proj1 (loadSettingsAndProfile_selects_profile (fun _ => checkoutPage)
                  (initialConfig (set_profile None exampleState)) Hq)).
Defined.

(** * The in-progress flag from start to exit *)

Lemma run_await_loadSettingsAndProfile (w : nat -> Dom) (c : Config) :
  exists c1,
    run w (await loadSettingsAndProfile) c = (Returned tt, c1)
    /\ checkoutInProgress (cst c1) = checkoutInProgress (cst c).
Proof.
  pose proof (Unstuck_run w loadSettingsAndProfile c Unstuck_loadSettingsAndProfile) as Hfuel.
  assert (Hkeep : Preserves checkoutInProgress (await loadSettingsAndProfile)) by preserve.
  destruct (run w (await loadSettingsAndProfile) c) as [r c1] eqn:E.
  pose proof (keeps_run _ _ _ _ _ _ Hkeep E) as Hflag.
  rewrite run_await in E. unfold loadSettingsAndProfile in E, Hfuel.
  rewrite run_tryCatch in E, Hfuel.
  destruct (run w _ c) as [[[] | e |] c0]; simpl in E, Hfuel;
    try (now contradiction Hfuel); inversion E; subst;
    eexists; (split; [reflexivity | exact Hflag]).
Qed.

(** [continueCheckoutProcess] asks for the settings and suspends before it
    has written any variable. *)
Lemma continueCheckoutProcess_first_turn (fuel : nat) (s : RunState) (d : Dom) :
  checkoutInProgress s = false ->
  exists rest,
    segment d (continueCheckoutProcess fuel) s
    = {| seg_state := s; seg_actions := [StorageGet settingsKeys];
         seg_spawned := []; seg_end := SegSuspended rest |}.
Proof.
  intros Hs. destruct fuel; unfold segment; cbn [continueCheckoutProcess];
    unfold continueCheckoutProcessWith; cbn [bind get segmentFrom]; rewrite Hs;
    unfold loadSettingsAndProfile, getFromStorage;
    cbn -[settingsKeys continueCheckoutAttempt]; eexists; reflexivity.
Qed.

(** What [continueCheckoutProcess] does once the settings have arrived. *)
Lemma continueCheckoutProcess_after_load (w : nat -> Dom) (fuel : nat) (c : Config) :
  checkoutInProgress (cst c) = false ->
  run w (continueCheckoutProcess fuel) c
  = match profile (cst (settingsLoaded w c)) with
    | None =>
        (Raised "Cannot continue checkout: No profile selected.",
         logged (Status "Error: No profile for checkout" StatusWaiting) (settingsLoaded w c))
    | Some _ =>
        if isEnabled (cst (settingsLoaded w c)) then
          run w (continueCheckoutAttempt fuel (reentry fuel))
            (withState (set_currentStep "continue-checkout")
               (logged (Status "Continuing checkout..." StatusRunning)
                  (withState (set_checkoutInProgress true) (settingsLoaded w c))))
        else
          (Returned tt,
           logged (Console "Continue checkout aborted: Extension disabled.")
             (settingsLoaded w c))
    end.
Proof.
  intros Hc.
  assert (E : run w (continueCheckoutProcess fuel) c
              = run w (continueCheckoutProcessWith fuel (reentry fuel)) c)
    by (destruct fuel; reflexivity).
  rewrite E. unfold continueCheckoutProcessWith, settingsLoaded.
  rewrite run_get, Hc, run_bind.
  destruct (run_await_loadSettingsAndProfile w c) as (c1 & -> & _).
  cbn [snd]. rewrite run_get.
  destruct (profile (cst c1)); cbn [isSome negb].
  - destruct (isEnabled (cst c1)); cbn [negb]; [|reflexivity].
    unfold updateStatus. rewrite run_modify, run_act, run_modify. reflexivity.
  - reflexivity.
Qed.

(** C2 (amended): where [checkoutInProgress] is raised and where it is
    lowered.  [startCheckoutProcess] raises it before anything else, in its
    first turn; it always returns normally and leaves the flag [false] on
    every exit but one: when the go-to-checkout step has completed
    (navigation issued, or skipped for the Buy-Now panel) the flag stays
    [true], to be reset by [cleanup] on the next page.
    [continueCheckoutProcess] does not raise it at its start: it suspends on
    the settings read with the flag still down, and raises it only when the
    settings have arrived with a profile and the engine enabled; without a
    profile it throws and with the engine disabled it returns, the flag
    never written.  It leaves the flag [false] on every exit. *)
Theorem checkoutInProgress_on_exit :
  forall (w : nat -> Dom) (fuel : nat) (skip : bool) (c : Config),
    checkoutInProgress (cst c) = false ->
    run w (startCheckoutProcess fuel skip) c
    = run w (tryCatch (startCheckoutBody fuel skip) reportSetupError)
        (withState (set_currentStep "start")
           (logged (Status "Starting checkout..." StatusRunning)
              (withState (set_checkoutInProgress true) c)))
    /\ (fst (run w (startCheckoutProcess fuel skip) c) <> OutOfFuel ->
        fst (run w (startCheckoutProcess fuel skip) c) = Returned tt
        /\ checkoutInProgress (cst (snd (run w (startCheckoutProcess fuel skip) c)))
           = checkoutNavigationDone (trace (snd (run w (startCheckoutProcess fuel skip) c))))
    /\ (fst (run w (continueCheckoutProcess fuel) c) <> OutOfFuel ->
        checkoutInProgress (cst (snd (run w (continueCheckoutProcess fuel) c))) = false)
    /\ (forall d : Dom,
           suspended (segment d (continueCheckoutProcess fuel) (cst c)) = true
           /\ seg_state (segment d (continueCheckoutProcess fuel) (cst c)) = cst c)
    /\ checkoutInProgress (cst (settingsLoaded w c)) = false
    /\ run w (continueCheckoutProcess fuel) c
       = match profile (cst (settingsLoaded w c)) with
         | None =>
             (Raised "Cannot continue checkout: No profile selected.",
              logged (Status "Error: No profile for checkout" StatusWaiting)
                (settingsLoaded w c))
         | Some _ =>
             if isEnabled (cst (settingsLoaded w c)) then
               run w (continueCheckoutAttempt fuel (reentry fuel))
                 (withState (set_currentStep "continue-checkout")
                    (logged (Status "Continuing checkout..." StatusRunning)
                       (withState (set_checkoutInProgress true) (settingsLoaded w c))))
             else
               (Returned tt,
                logged (Console "Continue checkout aborted: Extension disabled.")
                  (settingsLoaded w c))
         end.
Proof.
  intros w fuel skip c Hc.
  split; [now apply startCheckoutProcess_starts|].
  split; [now apply startCheckoutProcess_exit|].
  split; [now apply continueCheckoutProcess_exit|].
  split.
  { intros d. destruct (continueCheckoutProcess_first_turn fuel (cst c) d Hc) as [rest ->].
    split; reflexivity. }
  split.
  { unfold settingsLoaded.
    destruct (run_await_loadSettingsAndProfile w c) as (c1 & -> & Hflag).
    cbn [snd]. now rewrite Hflag. }
  now apply continueCheckoutProcess_after_load.
Qed.

(** The theorem at work: on the checkout page the attempt ends with the flag
    down, on the product page the same start state ends with it up; started
    without a profile in storage, the checkout-page attempt throws and the
    flag has stayed down. *)
Lemma checkoutInProgress_on_exit_witness :
  checkoutInProgress (cst (initialConfig exampleState)) = false
  /\ checkoutInProgress
       (cst (snd (run (fun _ => checkoutPage) (continueCheckoutProcess 1)
                    (initialConfig exampleState)))) = false
  /\ checkoutNavigationDone
       (trace (snd (run (fun _ => checkoutPage) (startCheckoutProcess 1 true)
                      (initialConfig exampleState)))) = false
  /\ run (fun _ => barePage) (continueCheckoutProcess 1) (initialConfig exampleState)
     = (Raised "Cannot continue checkout: No profile selected.",
        logged (Status "Error: No profile for checkout" StatusWaiting)
          (settingsLoaded (fun _ => barePage) (initialConfig exampleState))).
Proof.
  destruct (checkoutInProgress_on_exit (fun _ => checkoutPage) 1 true
              (initialConfig exampleState) eq_refl) as (_ & Hstart & Hcontinue & _).
  split; [reflexivity|]. split; [|split].
  - apply Hcontinue. vm_compute. discriminate.
  - destruct Hstart as [_ Hflag]; [vm_compute; discriminate|].
    rewrite <- Hflag. vm_compute. reflexivity.
  - destruct (checkoutInProgress_on_exit (fun _ => barePage) 1 true
                (initialConfig exampleState) eq_refl) as (_ & _ & _ & _ & _ & Hrun).
    rewrite Hrun. reflexivity.
Defined.

(** C2 as stated fails on the success path: the product-page pipeline runs
    to its navigation, returns normally, and [checkoutInProgress] is still
    [true]. *)
Lemma checkoutInProgress_stays_set_after_navigation :
  fst (run (fun _ => productPage) (startCheckoutProcess 0 true) (initialConfig exampleState))
  = Returned tt
  /\ lastAction (trace (snd (run (fun _ => productPage) (startCheckoutProcess 0 true)
                                (initialConfig exampleState))))
     = Some (Navigate "https://www.target.com/checkout")
  /\ checkoutInProgress
       (cst (snd (run (fun _ => productPage) (startCheckoutProcess 0 true)
                    (initialConfig exampleState)))) = true.
Proof. vm_compute. repeat split. Qed.

(** * Chains that never raise, chains that always end *)

Lemma NoThrow_run {A} (w : nat -> Dom) (t : Async A) :
  forall c, NoThrow t -> forall e, fst (run w t c) <> Raised e.
Proof. induction t; intros c Ht e'; simpl in *; auto; discriminate. Qed.

Lemma NoThrow_bind {A B} (m : Async A) (f : A -> Async B) :
  NoThrow m -> (forall a, NoThrow (f a)) -> NoThrow (bind m f).
Proof. induction m; simpl; auto. Qed.

Lemma NoThrow_tryCatch {A} (m : Async A) (h : string -> Async A) :
  (forall e, NoThrow (h e)) -> NoThrow (tryCatch m h).
Proof. induction m; simpl; auto. Qed.

Lemma NoThrow_attempt {A} (m : Async A) : NoThrow (attempt m).
Proof. unfold attempt. apply NoThrow_tryCatch. intros e. exact I. Qed.

Lemma NoThrow_await {A} (m : Async A) : NoThrow m -> NoThrow (await m).
Proof. unfold await, attempt. induction m; simpl; auto. Qed.

Lemma NoThrow_tryFinally {A} (m : Async A) (f : Async unit) :
  NoThrow m -> NoThrow f -> NoThrow (tryFinally m f).
Proof.
  unfold tryFinally, attempt. intros Hm Hf.
  induction m; simpl in *; auto; try contradiction.
  apply NoThrow_bind; [assumption|]. intros _. exact I.
Qed.

Lemma NoThrow_fireAndForget {A} (m : Async A) : NoThrow (fireAndForget m).
Proof. unfold fireAndForget. induction m; simpl; auto. Qed.

Lemma Unstuck_attempt {A} (m : Async A) : Unstuck m -> Unstuck (attempt m).
Proof.
  intros H. unfold attempt. apply Unstuck_tryCatch; [|intros e; exact I].
  apply Unstuck_bind; [assumption|]. intros a. exact I.
Qed.

Lemma Unstuck_await {A} (m : Async A) : Unstuck m -> Unstuck (await m).
Proof.
  intros H. unfold await. apply Unstuck_bind; [now apply Unstuck_attempt|].
  intros [e|a]; exact I.
Qed.

Lemma Unstuck_tryFinally {A} (m : Async A) (f : Async unit) :
  Unstuck m -> Unstuck f -> Unstuck (tryFinally m f).
Proof.
  intros Hm Hf. unfold tryFinally. apply Unstuck_bind; [now apply Unstuck_attempt|].
  intros r. apply Unstuck_bind; [assumption|]. intros _. destruct r; exact I.
Qed.

Lemma Unstuck_fireAndForget {A} (m : Async A) : Unstuck m -> Unstuck (fireAndForget m).
Proof. unfold fireAndForget. induction m; simpl; auto. Qed.

(** A chain that neither raises nor gets stuck returns. *)
Lemma returns_of_NoThrow_Unstuck {A} (w : nat -> Dom) (t : Async A) (c : Config) :
  NoThrow t -> Unstuck t -> exists a, fst (run w t c) = Returned a.
Proof.
  intros Hn Hu.
  pose proof (NoThrow_run w t c Hn) as H1.
  pose proof (Unstuck_run w t c Hu) as H2.
  destruct (fst (run w t c)) as [a|e|];
    [now exists a | now contradiction (H1 e) | now contradiction H2].
Qed.

Create HintDb unstuck discriminated.
Create HintDb nothrow discriminated.

#[export] Hint Resolve Unstuck_ext Unstuck_find Unstuck_sleep Unstuck_lookForBuyNowButton
  Unstuck_getFromStorage Unstuck_getProfiles Unstuck_saveToStorage Unstuck_updateSiteSettings
  Unstuck_loadSettingsAndProfile : unstuck.

(** One step of a proof that a chain cannot get stuck. *)
Ltac unstuck_step :=
  match goal with
  | |- forall _, _ => intro
  | |- True => exact I
  | H : ?P |- ?P => exact H
  | |- Unstuck (bind _ _) => apply Unstuck_bind
  | |- Unstuck (tryCatch _ _) => apply Unstuck_tryCatch
  | |- Unstuck (tryFinally _ _) => apply Unstuck_tryFinally
  | |- Unstuck (await _) => apply Unstuck_await
  | |- Unstuck (attempt _) => apply Unstuck_attempt
  | |- Unstuck (fireAndForget _) => apply Unstuck_fireAndForget
  | |- Unstuck (if ?c then _ else _) => destruct c
  | |- Unstuck (match ?x with _ => _ end) => destruct x
  | |- Unstuck _ => solve [auto with unstuck]
  | |- Unstuck _ =>
      progress unfold get, modify, look, act, suspend, spawn, updateStatus, sleep,
        sleepMaybeRandom, find, clickElement, fillField, fillFieldBySelectors,
        waitForElement, getFromStorage, getProfiles, saveToStorage, updateSiteSettings,
        windowClose, requireProfile, ext
  | |- Unstuck _ => progress simpl
  end.

Ltac unstuck := repeat unstuck_step.

(** One step of a proof that a chain never raises. *)
Ltac nothrow_step :=
  match goal with
  | |- forall _, _ => intro
  | |- True => exact I
  | H : ?P |- ?P => exact H
  | |- NoThrow (tryCatch _ _) => apply NoThrow_tryCatch
  | |- NoThrow (attempt _) => apply NoThrow_attempt
  | |- NoThrow (fireAndForget _) => apply NoThrow_fireAndForget
  | |- NoThrow (bind _ _) => apply NoThrow_bind
  | |- NoThrow (tryFinally _ _) => apply NoThrow_tryFinally
  | |- NoThrow (await _) => apply NoThrow_await
  | |- NoThrow (if ?c then _ else _) => destruct c
  | |- NoThrow (match ?x with _ => _ end) => destruct x
  | |- NoThrow _ => solve [auto with nothrow]
  | |- NoThrow _ =>
      progress unfold get, modify, look, act, suspend, spawn, updateStatus
  | |- NoThrow _ => progress simpl
  end.

Ltac nothrow := repeat nothrow_step.

(** * Chains that stay silent *)

(** One step of a proof that a chain, and the chains it starts, do none of
    the counted actions. *)
Ltac silent_step :=
  match goal with
  | |- exists a b, a + b <= 0 /\ _ /\ _ => exists 0, 0; split; [apply Nat.le_refl|split]
  | _ => never_step
  end.

Ltac silent := repeat silent_step.

Lemma loadSettingsAndProfile_no_engineStep : AtMost engineStep 0 loadSettingsAndProfile.
Proof. unfold loadSettingsAndProfile. silent. Qed.

Lemma autoCloseCartPage_no_engineStep : AtMost engineStep 0 autoCloseCartPage.
Proof. unfold autoCloseCartPage. silent. Qed.

Lemma contentScript_no_engineStep : AtMost engineStep 0 contentScript.
Proof.
  unfold contentScript, cartBranch, engineBranch, initializeTargetCheckout, init, setupListeners.
  pose proof loadSettingsAndProfile_no_engineStep.
  pose proof autoCloseCartPage_no_engineStep.
  silent.
Qed.

(** * Starting the product pipeline *)

Lemma Turn_keeps {A X} (proj : RunState -> X) (d : Dom) (t : Async A) (x0 : X) :
  forall s acts,
    Preserves proj t -> proj s = x0 ->
    TurnEnds d t s acts (fun s' _ => proj s' = x0).
Proof.
  unfold TurnEnds.
  induction t; intros s acts Hp Hx; simpl in *; auto.
  destruct Hp as [Hf Hk]. apply IHt; auto. rewrite Hf. assumption.
Qed.

Lemma Turn_callAsync {A B} (d : Dom) (m : Async A) (k : Promise A -> Async B) :
  forall s acts Q E S,
    Turn d m s acts
      (fun a s' acts' => Turn d (k (Settled (inr a))) s' acts' Q E S)
      (fun e s' acts' => Turn d (k (Settled (inl e))) s' acts' Q E S)
      (fun s' acts' => S s' acts' /\ forall rest, Turn d (k (Pending rest)) s' acts' Q E S) ->
    Turn d (callAsync m k) s acts Q E S.
Proof.
  induction m; intros s acts Q E S Hm; simpl in *; auto.
  - tauto.
  - destruct Hm as [_ Hm]. apply Hm.
Qed.

(** Once the flag is up, the first turn of the outer [try] block either
    suspends with the flag up or ends with the flag down; what it raises is
    left to the outer [catch]. *)
Lemma startCheckoutBody_first_turn (fuel : nat) (skip : bool) (d : Dom) (s : RunState)
    (acts : list Action) :
  checkoutInProgress s = true ->
  Turn d (startCheckoutBody fuel skip) s acts
    (fun _ s' _ => checkoutInProgress s' = false)
    (fun _ _ _ => True)
    (fun s' _ => checkoutInProgress s' = true).
Proof.
  intros Hs. unfold startCheckoutBody.
  apply Turn_bind.
  assert (Hrest : forall s1 acts1,
             checkoutInProgress s1 = true ->
             Turn d
               (s0 <- get ;;
                if negb (isSome (profile s0)) then
                  updateStatus "Error: No profile selected" StatusWaiting ;;
                  Throw "Cannot start checkout: No profile selected."
                else if negb (isEnabled s0) then
                  act (Console "Checkout start aborted: Extension disabled.") ;;
                  modify (set_checkoutInProgress false)
                else
                  callAsync checkProductPrice
                    (fun priceCheckPromise =>
                       stock <- stockCheck ;;
                       priceCheckPassed <- awaitPriceAndStock priceCheckPromise stock ;;
                       if negb priceCheckPassed then
                         act (Console "Checkout aborted due to price check failure") ;;
                         modify (set_checkoutInProgress false)
                       else
                         tryCatch (productSteps fuel) handleCheckoutError))
               s1 acts1
               (fun _ s' _ => checkoutInProgress s' = false)
               (fun _ _ _ => True)
               (fun s' _ => checkoutInProgress s' = true)).
  { intros s1 acts1 Hs1. cbn [bind get Turn].
    destruct (profile s1); cbn [isSome negb]; [|exact I].
    destruct (isEnabled s1); cbn [negb]; [|reflexivity].
    apply Turn_callAsync.
    assert (Hk : forall pr s2 acts2,
               checkoutInProgress s2 = true ->
               Turn d
                 (stock <- stockCheck ;;
                  priceCheckPassed <- awaitPriceAndStock pr stock ;;
                  if negb priceCheckPassed then
                    act (Console "Checkout aborted due to price check failure") ;;
                    modify (set_checkoutInProgress false)
                  else
                    tryCatch (productSteps fuel) handleCheckoutError)
                 s2 acts2
                 (fun _ s' _ => checkoutInProgress s' = false)
                 (fun _ _ _ => True)
                 (fun s' _ => checkoutInProgress s' = true)).
    { intros pr s2 acts2 Hs2. apply Turn_bind.
      apply (Turn_mono d stockCheck s2 acts2
               (fun _ s' _ => checkoutInProgress s' = true)
               _ (fun _ s' _ => checkoutInProgress s' = true) _
               (fun s' _ => checkoutInProgress s' = true) _
               (Turn_keeps checkoutInProgress d stockCheck true s2 acts2 stockCheck_keeps Hs2)).
      - intros [e|[]] s3 acts3 Hs3; [exact Hs3|].
        destruct pr as [r|rest]; exact Hs3.
      - intros; exact I.
      - intros; assumption. }
    apply (Turn_mono d checkProductPrice s1 acts1
             (fun _ s' _ => checkoutInProgress s' = true)
             _ (fun _ s' _ => checkoutInProgress s' = true) _
             (fun s' _ => checkoutInProgress s' = true) _
             (Turn_keeps checkoutInProgress d checkProductPrice true s1 acts1
                checkProductPrice_keeps Hs1)).
    - intros a s2 acts2 Hs2. now apply Hk.
    - intros e s2 acts2 Hs2. now apply Hk.
    - intros s2 acts2 Hs2. split; [assumption|]. intros rest. now apply Hk. }
  destruct skip.
  - cbn [Turn]. now apply Hrest.
  - apply Turn_await.
    exact (Turn_keeps checkoutInProgress d loadSettingsAndProfile true s acts
             loadSettingsAndProfile_keeps Hs).
Qed.

(** X8: the start guard of the product pipeline holds from the first turn.
    Started with the flag down, [startCheckoutProcess] raises the flag before
    anything else: its first turn never raises, it ends suspended only with
    [checkoutInProgress] up and returns only with it down.  Started with the
    flag up, the function writes one console line and returns: it changes no
    variable, starts nothing and suspends nowhere.  So a second start in the
    turn after the first one is suspended does nothing. *)
Theorem startCheckoutProcess_guards_from_first_turn (fuel : nat) (skip : bool) :
  (forall (d : Dom) (s : RunState),
      checkoutInProgress s = false ->
      atEnd (segment d (startCheckoutProcess fuel skip) s)
        (fun _ s' _ => checkoutInProgress s' = false)
        (fun _ _ _ => False)
        (fun s' _ => checkoutInProgress s' = true))
  /\ (forall (d : Dom) (s : RunState),
         checkoutInProgress s = true ->
         segment d (startCheckoutProcess fuel skip) s = alreadyRunningTurn s).
Proof.
  split; intros d s Hs.
  - apply Turn_segmentFrom.
    unfold startCheckoutProcess. cbn [bind get Turn]. rewrite Hs.
    cbn [bind modify updateStatus act Turn].
    apply Turn_tryCatch.
    match goal with
    | |- Turn d _ ?s1 ?acts1 _ _ _ =>
        apply (Turn_mono d (startCheckoutBody fuel skip) s1 acts1 _ _ _ _ _ _
                 (startCheckoutBody_first_turn fuel skip d s1 acts1 eq_refl))
    end.
    + intros; assumption.
    + intros e s' acts' _. reflexivity.
    + intros; assumption.
  - unfold segment, startCheckoutProcess. cbn [bind get segmentFrom]. rewrite Hs.
    reflexivity.
Qed.

Lemma startCheckoutProcess_guards_from_first_turn_witness :
  checkoutInProgress exampleState = false
  /\ suspended (segment productPage (startCheckoutProcess 3 true) exampleState) = true
  /\ checkoutInProgress
       (seg_state (segment productPage (startCheckoutProcess 3 true) exampleState)) = true
  /\ segment productPage (startCheckoutProcess 3 true)
       (seg_state (segment productPage (startCheckoutProcess 3 true) exampleState))
     = alreadyRunningTurn
         (seg_state (segment productPage (startCheckoutProcess 3 true) exampleState)).
Proof.
  pose proof (proj1 (startCheckoutProcess_guards_from_first_turn 3 true)
                productPage exampleState eq_refl) as H1.
  assert (Hsusp : suspended (segment productPage (startCheckoutProcess 3 true) exampleState)
                  = true) by reflexivity.
  split; [reflexivity|]. split; [exact Hsusp|].
  assert (Hup : checkoutInProgress
                  (seg_state (segment productPage (startCheckoutProcess 3 true) exampleState))
                = true).
  { unfold atEnd in H1. unfold suspended in Hsusp.
    destruct (seg_end (segment productPage (startCheckoutProcess 3 true) exampleState));
      [discriminate | discriminate | discriminate | exact H1]. }
  split; [exact Hup|].
  exact (proj2 (startCheckoutProcess_guards_from_first_turn 3 true) productPage _ Hup).
Defined.

Lemma run_trace_extends {A} (w : nat -> Dom) (t : Async A) :
  forall c, exists l, trace (snd (run w t c)) = trace c ++ l.
Proof.
  induction t; intros c; simpl; try (exists []; now rewrite app_nil_r); auto.
  - exact (IHt (withState f c)).
  - destruct (IHt (logged a c)) as [l Hl]. exists (a :: l).
    rewrite Hl. simpl. now rewrite <- app_assoc.
  - exact (IHt (nextTurn c)).
  - exact (IHt2 (withSpawned t1 c)).
Qed.

(** A chain that does none of the counted actions leaves their number as
    it was. *)
Lemma AtMost_run_none {A} (p : Action -> bool) (w : nat -> Dom) (t : Async A) (c : Config) :
  AtMost p 0 t ->
  countActions p (trace (snd (run w t c))) = countActions p (trace c).
Proof.
  intros H. pose proof (AtMost_run p w t 0 c H) as Hle.
  destruct (run_trace_extends w t c) as [l Hl].
  rewrite Hl in *. rewrite countActions_app in *. lia.
Qed.










(** * The continuation guard *)

Lemma poolStep_at (P : Pool) (i : nat) (d : Dom) (t : Async unit) :
  nth_error (pool_chains P) i = Some t ->
  poolStep P (i, d)
  = {| pool_state := seg_state (segment d t (pool_state P));
       pool_trace := pool_trace P ++ seg_actions (segment d t (pool_state P));
       pool_chains := replaceNth i (leftover (seg_end (segment d t (pool_state P))))
                        (pool_chains P)
                      ++ seg_spawned (segment d t (pool_state P)) |}.
Proof. intros H. unfold poolStep. cbn [fst snd]. now rewrite H. Qed.

(** X10: the guard of [continueCheckoutProcess] is raised late.  Started
    with [checkoutInProgress] down, the function asks for the settings and
    suspends without having written any variable, so a second invocation in
    the next turn finds the flag down as well: of two invocations started
    back to back neither is turned away, both go on to load the settings. *)
Theorem continueCheckoutProcess_guard_is_late (fuel : nat) (s : RunState) :
  checkoutInProgress s = false ->
  (forall d : Dom,
      let first := segment d (continueCheckoutProcess fuel) s in
      suspended first = true
      /\ seg_state first = s
      /\ seg_actions first = [StorageGet settingsKeys]
      /\ seg_spawned first = [])
  /\ (forall d0 d1 : Dom,
         let P := runPool [(0, d0); (1, d1)]
                    (startPool s [continueCheckoutProcess fuel; continueCheckoutProcess fuel]) in
         pool_trace P = [StorageGet settingsKeys; StorageGet settingsKeys]
         /\ pool_state P = s).
Proof.
  intros Hs.
  assert (Hfirst : forall d,
             exists rest,
               segment d (continueCheckoutProcess fuel) s
               = {| seg_state := s; seg_actions := [StorageGet settingsKeys];
                    seg_spawned := []; seg_end := SegSuspended rest |}).
  { intros d. destruct fuel; unfold segment; cbn [continueCheckoutProcess];
      unfold continueCheckoutProcessWith; cbn [bind get segmentFrom]; rewrite Hs;
      unfold loadSettingsAndProfile, getFromStorage;
      cbn -[settingsKeys]; eexists; reflexivity. }
  split.
  - intros d. cbv zeta. destruct (Hfirst d) as [rest ->]. repeat split.
  - intros d0 d1. cbv zeta.
    change (runPool [(0, d0); (1, d1)]
              (startPool s [continueCheckoutProcess fuel; continueCheckoutProcess fuel]))
      with (poolStep
              (poolStep
                 (startPool s [continueCheckoutProcess fuel; continueCheckoutProcess fuel])
                 (0, d0)) (1, d1)).
    rewrite (poolStep_at
               (startPool s [continueCheckoutProcess fuel; continueCheckoutProcess fuel])
               0 d0 (continueCheckoutProcess fuel) eq_refl).
    cbn [startPool pool_state pool_trace pool_chains].
    destruct (Hfirst d0) as [rest0 ->].
    cbn [seg_state seg_actions seg_end seg_spawned leftover replaceNth app].
    match goal with
    | |- context [poolStep ?P (1, d1)] =>
        rewrite (poolStep_at P 1 d1 (continueCheckoutProcess fuel) eq_refl)
    end.
    cbn [pool_state pool_trace pool_chains].
    destruct (Hfirst d1) as [rest1 ->].
    split; reflexivity.
Qed.

Lemma continueCheckoutProcess_guard_is_late_witness :
  checkoutInProgress exampleState = false
  /\ pool_trace (runPool [(0, checkoutPage); (1, checkoutPage)]
                   (startPool exampleState
                      [continueCheckoutProcess 2; continueCheckoutProcess 2]))
     = [StorageGet settingsKeys; StorageGet settingsKeys].
Proof.
  split; [reflexivity|].
  exact (proj1 (proj2 (continueCheckoutProcess_guard_is_late 2 exampleState eq_refl)
                  checkoutPage checkoutPage)).
Defined.

(** * Pages the engine is disabled on *)

Lemma disconnectAll_keeps {X} (proj : RunState -> X) (l : list nat) :
  Preserves proj (disconnectAll l).
Proof. induction l; simpl; auto. Qed.

Lemma clearAll_keeps {X} (proj : RunState -> X) (l : list nat) :
  Preserves proj (clearAll l).
Proof. induction l; simpl; auto. Qed.

Lemma cleanup_keeps_isEnabled : Preserves isEnabled cleanup.
Proof.
  unfold cleanup.
  repeat (apply Preserves_bind; [split; [reflexivity|exact I]|intros _]).
  apply Preserves_bind; [intros s; exact I|intros s].
  apply Preserves_bind; [apply disconnectAll_keeps|intros _].
  apply Preserves_bind; [split; [reflexivity|exact I]|intros _].
  apply Preserves_bind; [apply clearAll_keeps|intros _].
  split; [reflexivity|exact I].
Qed.

(** X11: a disabled engine starts nothing on a detected page.  With
    [isEnabled] down, [handlePageDetection] for any page type but the cart
    runs [cleanup], writes the status line of the page type and returns: no
    settings are loaded, no pipeline and no watcher is started, nothing is
    left to run later. *)
Theorem handlePageDetection_disabled (w : nat -> Dom) (fuel : nat) (pageType : PageType)
    (c : Config) :
  isEnabled (cst c) = false ->
  pageType <> PageCart ->
  run w (handlePageDetection fuel pageType) c
  = (Returned tt,
     logged (Status (disabledMessage pageType) StatusWaiting) (snd (run w cleanup c)))
  /\ spawned (snd (run w (handlePageDetection fuel pageType) c)) = spawned c.
Proof.
  intros Hoff Hcart.
  assert (Hrun : run w (handlePageDetection fuel pageType) c
                 = (Returned tt,
                    logged (Status (disabledMessage pageType) StatusWaiting)
                      (snd (run w cleanup c)))).
  { unfold handlePageDetection. rewrite run_bind.
    pose proof (Preserves_run isEnabled w cleanup c cleanup_keeps_isEnabled) as Hkeep.
    rewrite run_cleanup in *. cbn [snd] in *.
    destruct pageType; try (now contradiction Hcart);
      (rewrite run_tryCatch, run_get, Hkeep, Hoff; reflexivity). }
  split; [exact Hrun|].
  rewrite Hrun, run_cleanup. reflexivity.
Qed.

Lemma handlePageDetection_disabled_witness :
  isEnabled (cst (initialConfig (set_isEnabled false timerRunningState))) = false
  /\ PageCheckout <> PageCart
  /\ trace (snd (run (fun _ => checkoutPage) (handlePageDetection 2 PageCheckout)
                   (initialConfig (set_isEnabled false timerRunningState))))
     = [ClearInterval 7; Status "Checkout page detected (Disabled)" StatusWaiting].
Proof.
  split; [reflexivity|]. split; [discriminate|].
  rewrite (proj1 (handlePageDetection_disabled (fun _ => checkoutPage) 2 PageCheckout
                    (initialConfig (set_isEnabled false timerRunningState)) eq_refl
                    ltac:(discriminate))).
  reflexivity.
Defined.

(** * The high-demand retry timer *)

(** X12: a tick of the high-demand retry timer passes the submit guard and
    puts it back.  Run with [placeOrderButtonClicked] up, the callback always
    returns within its turn (what it raises it catches, and it awaits
    nothing); it starts at most one click, on the visible place-order button,
    whatever the flag says; and it ends with the flag up again. *)
Theorem highDemandRetryTick_turn (d : Dom) (s : RunState) :
  placeOrderButtonClicked s = true ->
  let r := segment d highDemandRetryTick s in
  seg_end r = SegReturned tt
  /\ placeOrderButtonClicked (seg_state r) = true
  /\ countActions (clicks "high-demand-retry") (seg_actions r)
     = (if isVisible (query d (Sel "checkoutPageSelectors.placeOrderButton"))
           && negb (isSome (fails d (CallFind (Sel "checkoutPageSelectors.placeOrderButton"))))
        then 1 else 0)
  /\ countActions actsOnPage (seg_actions r)
     = countActions (clicks "high-demand-retry") (seg_actions r).
Proof.
  intros Hs. cbv zeta.
  unfold highDemandRetryTick, checkForHighDemandMessage, find, clickElement, segment, ext.
  cbn [bind tryCatch segmentFrom look].
  destruct (fails d (CallFind (Sel "checkoutPageSelectors.placeOrderButton"))) as [e|];
    cbn [bind tryCatch segmentFrom isSome negb andb].
  { rewrite Bool.andb_false_r. repeat split; assumption. }
  rewrite Bool.andb_true_r.
  destruct (isVisible (query d (Sel "checkoutPageSelectors.placeOrderButton")));
    cbn; repeat (break_match; cbn);
    (split; [reflexivity|split; [first [reflexivity|assumption]|split; reflexivity]]).
Qed.

Lemma highDemandRetryTick_turn_witness :
  placeOrderButtonClicked (set_placeOrderButtonClicked true timerRunningState) = true
  /\ seg_actions (segment readyToSubmitPage highDemandRetryTick
                    (set_placeOrderButtonClicked true timerRunningState))
     = [Click "high-demand-retry"; ClearInterval 7]
  /\ placeOrderButtonClicked
       (seg_state (segment readyToSubmitPage highDemandRetryTick
                     (set_placeOrderButtonClicked true timerRunningState))) = true.
Proof.
  split; [reflexivity|]. split; [reflexivity|].
  exact (proj1 (proj2 (highDemandRetryTick_turn readyToSubmitPage
                         (set_placeOrderButtonClicked true timerRunningState) eq_refl))).
Defined.

(** * Chains that stay quiet under an invariant *)

Section UnderFacts.
Context (Inv : RunState -> Prop) (p : Action -> bool).

Lemma Under_run {A} (w : nat -> Dom) (t : Async A) :
  forall c,
    Under Inv p t -> Inv (cst c) ->
    Inv (cst (snd (run w t c)))
    /\ countActions p (trace (snd (run w t c))) = countActions p (trace c).
Proof.
  induction t; intros c Ht Hc; simpl in *; auto.
  - destruct Ht as [Hf Hk]. apply (IHt (withState f c) Hk). simpl. auto.
  - destruct Ht as [Ha Hk]. destruct (IHt (logged a c) Hk Hc) as [H1 H2].
    split; [exact H1|]. rewrite H2. simpl. now rewrite countActions_snoc, Ha, Nat.add_0_r.
  - exact (IHt (nextTurn c) Ht Hc).
  - exact (IHt2 (withSpawned t1 c) Ht Hc).
Qed.

Lemma Under_bind {A B} (m : Async A) (f : A -> Async B) :
  Under Inv p m -> (forall a, Under Inv p (f a)) -> Under Inv p (bind m f).
Proof. induction m; simpl; intuition auto. Qed.

Lemma Under_bind_assoc {A B C} (m : Async A) (g : A -> Async B) (f : B -> Async C) :
  Under Inv p (bind m (fun a => bind (g a) f)) -> Under Inv p (bind (bind m g) f).
Proof. induction m; simpl; intuition auto. Qed.

Lemma Under_tryCatch {A} (m : Async A) (h : string -> Async A) :
  Under Inv p m -> (forall e, Under Inv p (h e)) -> Under Inv p (tryCatch m h).
Proof. induction m; simpl; intuition auto. Qed.

Lemma Under_attempt {A} (m : Async A) : Under Inv p m -> Under Inv p (attempt m).
Proof.
  intros H. unfold attempt. apply Under_tryCatch; [|intros e; exact I].
  apply Under_bind; [assumption|]. intros a. exact I.
Qed.

Lemma Under_await {A} (m : Async A) : Under Inv p m -> Under Inv p (await m).
Proof.
  intros H. unfold await. apply Under_bind; [now apply Under_attempt|].
  intros [e|a]; exact I.
Qed.

Lemma Under_tryFinally {A} (m : Async A) (f : Async unit) :
  Under Inv p m -> Under Inv p f -> Under Inv p (tryFinally m f).
Proof.
  intros Hm Hf. unfold tryFinally. apply Under_bind; [now apply Under_attempt|].
  intros r. apply Under_bind; [assumption|]. intros _. destruct r; exact I.
Qed.

Lemma Under_ext (c : Call) : Under Inv p (ext c).
Proof. intros d. simpl. destruct (fails d c); exact I. Qed.

Lemma Under_find (t : Target) : Under Inv p (find t).
Proof. unfold find. apply Under_bind; [apply Under_ext|]. intros _ d. exact I. Qed.

End UnderFacts.

Create HintDb under discriminated.

(** One step of a proof that a chain stays silent under an invariant: known
    conditions are rewritten, the chain is followed along its shape. *)
Ltac under_step :=
  match goal with
  | |- forall _, _ => intro
  | |- True => exact I
  | |- _ /\ _ => split
  | H : ?P |- ?P => exact H
  | |- _ = _ => solve [reflexivity | assumption | simpl; assumption | simpl; congruence]
  | H : ?x = _ |- context [if ?x then _ else _] => rewrite H
  | |- Under _ _ (await _) => apply Under_await
  | |- Under _ _ (attempt _) => apply Under_attempt
  | |- Under _ _ (tryFinally _ _) => apply Under_tryFinally
  | |- Under _ _ (ext _) => apply Under_ext
  | |- Under _ _ (find _) => apply Under_find
  | |- Under _ _ _ => solve [auto with under]
  | |- Under _ _ _ =>
      progress unfold get, modify, look, act, suspend, spawn, updateStatus, sleep,
        sleepMaybeRandom, clickElement, fillField, fillFieldBySelectors,
        waitForElement, getFromStorage, getProfiles, saveToStorage, updateSiteSettings,
        windowClose, requireProfile
  | |- Under _ _ _ => progress cbn [bind tryCatch Under]
  | |- Under _ _ (if ?c then _ else _) => destruct c eqn:?
  | |- Under _ _ (match ?x with _ => _ end) => destruct x eqn:?
  | |- Under _ _ (bind (if ?c then _ else _) _) => destruct c eqn:?
  | |- Under _ _ (bind (match ?x with _ => _ end) _) => destruct x eqn:?
  | |- Under _ _ (bind (bind _ _) _) => apply Under_bind_assoc
  | |- Under _ _ (bind _ _) => apply Under_bind
  | |- Under _ _ (tryCatch _ _) => apply Under_tryCatch
  | |- ?G => lazymatch G with Under _ _ _ => fail | _ => solve [eauto] end
  end.

Ltac under := repeat under_step.

(** * Buy-Now error recovery *)

Lemma handlePopups_in_recovery (fuel : nat) :
  Under (fun s => inBuyNowErrorRecovery s = true) actsOnPage (handlePopups fuel).
Proof.
  induction fuel as [|fuel IH]; cbn [handlePopups]; unfold handlePopupsWith; under.
Qed.

Lemma stepsFromPopups_in_recovery (fuel : nat) :
  Under (fun s => inBuyNowErrorRecovery s = true) actsOnPage (stepsFromPopups fuel).
Proof.
  pose proof (handlePopups_in_recovery fuel).
  unfold stepsFromPopups, stepHandlePopups, stepGoToCheckout, goDirectlyToCheckout, warnPopups.
  under.
Qed.

(** X13: in Buy-Now error recovery the pipeline leaves the page alone.
    Run from a state with [inBuyNowErrorRecovery] up (and with no other
    chain lowering the flag in between), the last two steps of the product
    pipeline, the popups and then the navigation, perform no click, no fill
    and no navigation, whatever the page shows and whatever fails: a popup
    that is shown is not dismissed and the checkout page is not opened. *)
Theorem recovery_skips_popups_and_navigation (w : nat -> Dom) (fuel : nat) (c : Config) :
  inBuyNowErrorRecovery (cst c) = true ->
  let c' := snd (run w (stepsFromPopups fuel) c) in
  countActions actsOnPage (trace c') = countActions actsOnPage (trace c)
  /\ inBuyNowErrorRecovery (cst c') = true.
Proof.
  intros H. cbv zeta.
  destruct (Under_run (fun s => inBuyNowErrorRecovery s = true) actsOnPage w
              (stepsFromPopups fuel) c (stepsFromPopups_in_recovery fuel) H) as [H1 H2].
  split; assumption.
Qed.

Lemma recovery_skips_popups_and_navigation_witness :
  inBuyNowErrorRecovery (cst (initialConfig (set_inBuyNowErrorRecovery true exampleState)))
  = true
  /\ countActions actsOnPage
       (trace (snd (run (fun _ => popupPage) (stepsFromPopups 2)
                      (initialConfig (set_inBuyNowErrorRecovery true exampleState))))) = 0
  /\ countActions actsOnPage
       (trace (snd (run (fun _ => popupPage) (stepsFromPopups 2)
                      (initialConfig exampleState)))) <> 0.
Proof.
  split; [reflexivity|]. split; [|discriminate].
  exact (proj1 (recovery_skips_popups_and_navigation (fun _ => popupPage) 2
                  (initialConfig (set_inBuyNowErrorRecovery true exampleState)) eq_refl)).
Defined.

(** * Adding to the cart *)

Lemma stepperClicks_no_buyNowStep (Inv : RunState -> Prop) (n : nat) (button : Target)
    (name : string) :
  buyNowStep (Click name) = false ->
  Under Inv buyNowStep (stepperClicks n button name).
Proof.
  intros Hname. induction n as [|n IH]; cbn [stepperClicks]; under.
Qed.

Lemma setQuantity_no_buyNowStep (Inv : RunState -> Prop) :
  (forall v s, Inv s -> Inv (set_currentStep v s)) ->
  Under Inv buyNowStep setQuantity.
Proof.
  intros Hstep.
  pose proof (fun n b => stepperClicks_no_buyNowStep Inv n b "qty-inc" eq_refl) as Hinc.
  pose proof (fun n b => stepperClicks_no_buyNowStep Inv n b "qty-dec" eq_refl) as Hdec.
  unfold setQuantity. under.
Qed.

Lemma addToCart_without_buy_now (fuel : nat) :
  Under (fun s => useBuyNowWhenAvailable (globalSettings s) = false) buyNowStep
    (addToCart fuel).
Proof.
  pose proof (setQuantity_no_buyNowStep
                (fun s => useBuyNowWhenAvailable (globalSettings s) = false)
                (fun v s H => H)) as Hqty.
  unfold addToCart. under.
  match goal with |- context [isSome ?x] => destruct x end; reflexivity.
Qed.

(** X14: without the Buy-Now option the Buy-Now flow is never entered.
    With [useBuyNowWhenAvailable] off, [addToCart] performs no click on the
    Buy-Now button and nothing inside the Buy-Now sub-document, whatever the
    page shows; the option is still off afterwards. *)
Theorem addToCart_buy_now_only_on_request (w : nat -> Dom) (fuel : nat) (c : Config) :
  useBuyNowWhenAvailable (globalSettings (cst c)) = false ->
  let c' := snd (run w (addToCart fuel) c) in
  countActions buyNowStep (trace c') = countActions buyNowStep (trace c)
  /\ useBuyNowWhenAvailable (globalSettings (cst c')) = false.
Proof.
  intros H. cbv zeta.
  destruct (Under_run (fun s => useBuyNowWhenAvailable (globalSettings s) = false) buyNowStep
              w (addToCart fuel) c (addToCart_without_buy_now fuel) H) as [H1 H2].
  split; assumption.
Qed.

Lemma addToCart_buy_now_only_on_request_witness :
  useBuyNowWhenAvailable (globalSettings (cst (initialConfig exampleState))) = false
  /\ countActions buyNowStep
       (trace (snd (run (fun _ => productPage) (addToCart 2) (initialConfig exampleState))))
     = 0.
Proof.
  split; [reflexivity|].
  exact (proj1 (addToCart_buy_now_only_on_request (fun _ => productPage) 2
                  (initialConfig exampleState) eq_refl)).
Defined.

(** * The verification handlers always finish *)

Lemma NoThrow_handleCVVConfirmation : NoThrow handleCVVConfirmation.
Proof. unfold handleCVVConfirmation. nothrow. Qed.

Lemma NoThrow_handleCreditCardConfirmation : NoThrow handleCreditCardConfirmation.
Proof. unfold handleCreditCardConfirmation. nothrow. Qed.

Lemma Unstuck_handleCVVConfirmation : Unstuck handleCVVConfirmation.
Proof. unfold handleCVVConfirmation. unstuck. Qed.

Lemma Unstuck_handleCreditCardConfirmation : Unstuck handleCreditCardConfirmation.
Proof. unfold handleCreditCardConfirmation. unstuck. Qed.

(** What a [finally] block assigns holds when the statement has run, if the
    block assigns it last and the body cannot get stuck. *)
Lemma run_tryFinally_sets {A X} (proj : RunState -> X) (v : X) (w : nat -> Dom)
    (m : Async A) (f : RunState -> RunState) (c : Config) :
  Unstuck m ->
  (forall s, proj (f s) = v) ->
  proj (cst (snd (run w (tryFinally m (modify f)) c))) = v.
Proof.
  intros Hm Hf. rewrite run_tryFinally.
  pose proof (Unstuck_run w m c Hm) as Hfuel.
  destruct (run w m c) as [[a|e|] c1]; cbn [fst] in Hfuel.
  - cbn [run modify snd withState cst]. apply Hf.
  - cbn [run modify snd withState cst]. apply Hf.
  - now contradiction Hfuel.
Qed.

(** X15: the verification handlers always finish and never leave their
    flag up.  [handleCVVConfirmation] and [handleCreditCardConfirmation]
    never reject, whatever the page and the helpers do; and the flag each one
    raises while it fills its field ([isFillingCvvInput], [isFillingCardInput])
    is, when the handler has finished, what it was when the handler was
    called, so a watcher is never left idle by a handler that failed. *)
Theorem verification_handlers_always_finish (w : nat -> Dom) (c : Config) :
  fst (run w handleCVVConfirmation c) = Returned tt
  /\ isFillingCvvInput (cst (snd (run w handleCVVConfirmation c))) = isFillingCvvInput (cst c)
  /\ fst (run w handleCreditCardConfirmation c) = Returned tt
  /\ isFillingCardInput (cst (snd (run w handleCreditCardConfirmation c)))
     = isFillingCardInput (cst c).
Proof.
  refine (conj _ (conj _ (conj _ _))).
  - destruct (returns_of_NoThrow_Unstuck w handleCVVConfirmation c
                NoThrow_handleCVVConfirmation Unstuck_handleCVVConfirmation) as [[] H].
    exact H.
  - unfold handleCVVConfirmation. rewrite run_get.
    destruct (isFillingCvvInput (cst c)) eqn:Hfill; cbn [orb]; [exact Hfill|].
    destruct (confirmButtonClicked (cst c)); [exact Hfill|].
    unfold updateStatus. rewrite run_modify, run_act, run_modify.
    apply run_tryFinally_sets; [unstuck | reflexivity].
  - destruct (returns_of_NoThrow_Unstuck w handleCreditCardConfirmation c
                NoThrow_handleCreditCardConfirmation Unstuck_handleCreditCardConfirmation)
      as [[] H].
    exact H.
  - unfold handleCreditCardConfirmation. rewrite run_get.
    destruct (isFillingCardInput (cst c)) eqn:Hfill; cbn [orb]; [exact Hfill|].
    destruct (verifyCardButtonClicked (cst c)); [exact Hfill|].
    unfold updateStatus. rewrite run_modify, run_act, run_modify.
    apply run_tryFinally_sets; [unstuck | reflexivity].
Qed.

(** * The Buy-Now sub-document *)

Lemma Unstuck_probeIframes (frames : list Iframe) : forall i, Unstuck (probeIframes frames i).
Proof. induction frames as [|f rest IH]; intros i; cbn [probeIframes]; unstuck. Qed.

Lemma Unstuck_findBuyNowIframe : Unstuck findBuyNowIframe.
Proof. pose proof Unstuck_probeIframes. unfold findBuyNowIframe. unstuck. Qed.

Lemma Unstuck_withBuyNowIframe {A} (callback : IframeDoc -> Async A) :
  (forall doc, Unstuck (callback doc)) -> Unstuck (withBuyNowIframe callback).
Proof. intros H. pose proof Unstuck_findBuyNowIframe. unfold withBuyNowIframe. unstuck. Qed.

Lemma Unstuck_findInBuyNowIframe (selector : string) : Unstuck (findInBuyNowIframe selector).
Proof.
  unfold findInBuyNowIframe.
  apply Unstuck_bind; [|intros r; exact I].
  apply Unstuck_await, Unstuck_withBuyNowIframe. intros doc. unstuck.
Qed.

Lemma NoThrow_withBuyNowIframe {A} (callback : IframeDoc -> Async A) :
  NoThrow (withBuyNowIframe callback).
Proof. unfold withBuyNowIframe. apply NoThrow_tryCatch. intros e. exact I. Qed.

Lemma NoThrow_findInBuyNowIframe (selector : string) : NoThrow (findInBuyNowIframe selector).
Proof.
  unfold findInBuyNowIframe.
  apply NoThrow_bind; [|intros r; exact I].
  apply NoThrow_await, NoThrow_withBuyNowIframe.
Qed.

Lemma probeIframes_silent (p : Action -> bool) (frames : list Iframe) :
  forall i, AtMost p 0 (probeIframes frames i).
Proof. induction frames as [|f rest IH]; intros i; cbn [probeIframes]; never. Qed.

Lemma findInBuyNowIframe_silent (p : Action -> bool) (selector : string) :
  AtMost p 0 (findInBuyNowIframe selector).
Proof.
  pose proof (probeIframes_silent p).
  unfold findInBuyNowIframe, withBuyNowIframe, findBuyNowIframe. never.
Qed.

(** The guarded event sequence of lines 1429-1441 and 1462-1475: it answers
    [true] exactly when it got as far as the action. *)
Lemma run_iframe_action (w : nat -> Dom) (name : string) (a : Action) (c : Config) :
  inIframe a = true ->
  exists b,
    fst (run w (tryCatch
                  (ext (CallIframeEvent name) ;;
                   sleep 300 ;;
                   ext (CallIframeEvent name) ;;
                   act a ;;
                   Ret true)
                  (fun _ => Ret false)) c) = Returned b
    /\ countActions inIframe
         (trace (snd (run w (tryCatch
                               (ext (CallIframeEvent name) ;;
                                sleep 300 ;;
                                ext (CallIframeEvent name) ;;
                                act a ;;
                                Ret true)
                               (fun _ => Ret false)) c)))
       = countActions inIframe (trace c) + (if b then 1 else 0).
Proof.
  intros Ha. rewrite run_tryCatch.
  destruct (fails (w (clock c)) (CallIframeEvent name)) as [e|] eqn:E1.
  { rewrite (run_ext_fail w _ _ c e E1). exists false. cbn [run fst snd]. split;
    [reflexivity|lia]. }
  rewrite (run_ext_ok w _ _ c E1), run_bind, run_sleep.
  destruct (fails (w (S (clock c))) CallSleep) as [e|].
  { exists false. cbn [run fst snd trace nextTurn logged].
    rewrite countActions_snoc. cbn [inIframe]. split; [reflexivity|lia]. }
  destruct (fails (w (S (clock c))) (CallIframeEvent name)) as [e|] eqn:E2.
  { match goal with
    | |- context [run w (bind (ext _) _) ?c2] => rewrite (run_ext_fail w _ _ c2 e E2)
    end. exists false.
    cbn [run fst snd trace nextTurn logged].
    rewrite countActions_snoc. cbn [inIframe]. split; [reflexivity|lia]. }
  match goal with
  | |- context [run w (bind (ext _) _) ?c2] => rewrite (run_ext_ok w _ _ c2 E2)
  end. rewrite run_act. exists true.
  cbn [run fst snd trace nextTurn logged].
  rewrite !countActions_snoc, Ha. cbn [inIframe]. split; [reflexivity|lia].
Qed.

(** X16: the click and fill helpers of the Buy-Now sub-document report
    truthfully.  [clickInBuyNowIframe] and [fillInBuyNowIframe] never reject,
    whatever is missing or fails; each performs at most one action inside
    the sub-document (the click, the fill), and answers [true] exactly when
    it performed it. *)
Theorem iframe_click_and_fill_report_truthfully (w : nat -> Dom)
    (selector value actionName : string) (c : Config) :
  (exists clicked,
      fst (run w (clickInBuyNowIframe selector actionName) c) = Returned clicked
      /\ countActions inIframe (trace (snd (run w (clickInBuyNowIframe selector actionName) c)))
         = countActions inIframe (trace c) + (if clicked then 1 else 0))
  /\ (exists filled,
         fst (run w (fillInBuyNowIframe selector value actionName) c) = Returned filled
         /\ countActions inIframe
              (trace (snd (run w (fillInBuyNowIframe selector value actionName) c)))
            = countActions inIframe (trace c) + (if filled then 1 else 0)).
Proof.
  pose proof (AtMost_run_none inIframe w (await (findInBuyNowIframe selector)) c
                (AtMost_await inIframe _ 0 (findInBuyNowIframe_silent inIframe selector)))
    as Hquiet.
  destruct (returns_of_NoThrow_Unstuck w (await (findInBuyNowIframe selector)) c
              (NoThrow_await _ (NoThrow_findInBuyNowIframe selector))
              (Unstuck_await _ (Unstuck_findInBuyNowIframe selector))) as [element Hel].
  split.
  - unfold clickInBuyNowIframe. rewrite run_bind.
    destruct (run w (await (findInBuyNowIframe selector)) c) as [r c1].
    cbn [fst snd] in *. subst r.
    destruct element as [el|].
    + destruct (run_iframe_action w actionName (IframeClick actionName) c1 eq_refl)
        as (b & Hb & Hcount).
      exists b. split; [exact Hb|]. now rewrite Hcount, Hquiet.
    + exists false. cbn [run fst snd]. split; [reflexivity|lia].
  - unfold fillInBuyNowIframe. rewrite run_bind.
    destruct (run w (await (findInBuyNowIframe selector)) c) as [r c1].
    cbn [fst snd] in *. subst r.
    destruct element as [el|].
    + destruct (run_iframe_action w actionName (IframeFill actionName value) c1 eq_refl)
        as (b & Hb & Hcount).
      exists b. split; [exact Hb|]. now rewrite Hcount, Hquiet.
    + exists false. cbn [run fst snd]. split; [reflexivity|lia].
Qed.

(** * Closing the cart page *)

(** X17: the cart tab is closed only on request.  [autoCloseCartPage] never
    rejects, and it calls [window.close()] exactly when the stored global
    settings were read without failure and have [autoCloseCartPage] set (once
    in the run; the second attempt is left to a timer).  Without the setting,
    without stored settings or with a failing read the tab stays open. *)
Theorem autoCloseCartPage_only_on_request (w : nat -> Dom) (c : Config) :
  let c' := snd (run w autoCloseCartPage c) in
  let closes :=
    match fails (w (S (clock c))) CallChromeStorageGet,
          st_globalSettings (stored (w (S (clock c)))),
          fails (w (S (clock c))) CallWindowClose with
    | None, Some g, None => autoCloseCart g
    | _, _, _ => false
    end in
  fst (run w autoCloseCartPage c) = Returned tt
  /\ countActions isCloseTab (trace c')
     = countActions isCloseTab (trace c) + (if closes then 1 else 0).
Proof.
  cbv zeta. unfold autoCloseCartPage, windowClose, updateStatus.
  rewrite run_tryCatch, run_act, run_suspend.
  destruct (fails (w (S (clock c))) CallChromeStorageGet) as [e|] eqn:E1.
  { match goal with
    | |- context [run w (bind (ext _) _) ?c2] => rewrite (run_ext_fail w _ _ c2 e E1)
    end.
    cbn [run fst snd trace nextTurn logged].
    rewrite countActions_snoc. cbn [isCloseTab]. split; [reflexivity|lia]. }
  match goal with
  | |- context [run w (bind (ext _) _) ?c2] => rewrite (run_ext_ok w _ _ c2 E1)
  end.
  rewrite run_look. cbn [clock nextTurn logged].
  destruct (st_globalSettings (stored (w (S (clock c))))) as [g|].
  2:{ cbn [run fst snd trace nextTurn logged act].
      rewrite !countActions_snoc. cbn [isCloseTab]. split; [reflexivity|lia]. }
  destruct (autoCloseCart g).
  2:{ cbn [run fst snd trace nextTurn logged act].
      rewrite !countActions_snoc. cbn [isCloseTab].
      destruct (fails (w (S (clock c))) CallWindowClose); split; try reflexivity; lia. }
  rewrite run_act, run_bind.
  destruct (fails (w (S (clock c))) CallWindowClose) as [e|] eqn:E2.
  { match goal with
    | |- context [run w (bind (ext _) _) ?c2] => rewrite (run_ext_fail w _ _ c2 e E2)
    end.
    cbn [run fst snd trace nextTurn logged].
    rewrite !countActions_snoc. cbn [isCloseTab]. split; [reflexivity|lia]. }
  match goal with
  | |- context [run w (bind (ext _) _) ?c2] => rewrite (run_ext_ok w _ _ c2 E2)
  end.
  cbn [run fst snd trace nextTurn logged act spawn spawned withSpawned].
  rewrite !countActions_snoc. cbn [isCloseTab]. split; [reflexivity|lia].
Qed.

(** * The product pipeline never rejects *)

Lemma AtMost_attempt_NoThrow {A B} (p : Action -> bool) (m : Async A)
    (f : string + A -> Async B) :
  forall n b,
    NoThrow m -> AtMost p n m -> (forall a, AtMost p b (f (inr a))) ->
    AtMost p (n + b) (bind (attempt m) f).
Proof.
  unfold attempt.
  induction m; intros n b Hn Hm Hf; simpl in *; eauto; try contradiction.
  - apply AtMost_mono with (n := b); [lia | apply Hf].
  - destruct (p a); eauto.
    destruct n as [|n]; [contradiction|]. simpl. eauto.
  - destruct Hm as (x & y & Hxy & Hx & Hy).
    exists x, (y + b). split; [lia|]. split; [assumption|]. eauto.
Qed.

Lemma NoThrow_startCheckoutProcess (fuel : nat) (skip : bool) :
  NoThrow (startCheckoutProcess fuel skip).
Proof. unfold startCheckoutProcess, reportSetupError. nothrow. Qed.

Lemma loadSettingsAndProfile_no_workaround : AtMost isRouteWorkaround 0 loadSettingsAndProfile.
Proof. unfold loadSettingsAndProfile. silent. Qed.

Lemma checkProductPrice_no_workaround : AtMost isRouteWorkaround 0 checkProductPrice.
Proof.
  unfold checkProductPrice, priceCheckBody, judgePrice, compareWithCeiling, priceCheckFailed,
    extractTCIN, extractPrice, alertOnce.
  silent.
Qed.

Lemma stepperClicks_no_workaround n b name : AtMost isRouteWorkaround 0 (stepperClicks n b name).
Proof. induction n as [|n IH]; cbn [stepperClicks]; silent. Qed.

Lemma setQuantity_no_workaround : AtMost isRouteWorkaround 0 setQuantity.
Proof. pose proof stepperClicks_no_workaround. unfold setQuantity. silent. Qed.

Lemma iframe_helpers_no_workaround :
  (forall sel, AtMost isRouteWorkaround 0 (elementExistsInBuyNowIframe sel))
  /\ (forall sel name, AtMost isRouteWorkaround 0 (clickInBuyNowIframe sel name))
  /\ (forall sel value name, AtMost isRouteWorkaround 0 (fillInBuyNowIframe sel value name))
  /\ AtMost isRouteWorkaround 0 hasErrorInBuyNowIframe.
Proof.
  pose proof (probeIframes_silent isRouteWorkaround).
  pose proof (findInBuyNowIframe_silent isRouteWorkaround).
  refine (conj _ (conj _ (conj _ _))); intros;
    unfold elementExistsInBuyNowIframe, clickInBuyNowIframe, fillInBuyNowIframe,
      hasErrorInBuyNowIframe, withBuyNowIframe, findBuyNowIframe;
    silent.
Qed.

Lemma waitForPlaceOrderInIframe_no_workaround n :
  AtMost isRouteWorkaround 0 (waitForPlaceOrderInIframe n).
Proof.
  destruct iframe_helpers_no_workaround as (He & _).
  induction n as [|n IH]; cbn [waitForPlaceOrderInIframe]; silent.
Qed.

Lemma buyNowSequence_no_workaround : AtMost isRouteWorkaround 0 buyNowSequence.
Proof.
  destruct iframe_helpers_no_workaround as (He & Hc & Hf & Hh).
  pose proof waitForPlaceOrderInIframe_no_workaround.
  unfold buyNowSequence. silent.
Qed.

Lemma pollForBuyNowButton_no_workaround :
  forall allowance pollAttempts buyNowButton,
    AtMost isRouteWorkaround 0 (pollForBuyNowButton allowance pollAttempts buyNowButton).
Proof.
  pose proof (AtMost_lookForBuyNowButton isRouteWorkaround).
  induction allowance as [|allowance IH]; intros n b; cbn [pollForBuyNowButton];
    destruct (n <? maxPollAttempts)%nat; try exact I.
  silent.
Qed.

Lemma retryBuyNow_no_workaround (restart : Async unit) :
  AtMost isRouteWorkaround 0 restart ->
  forall allowance retryCount delay,
    AtMost isRouteWorkaround 0 (retryBuyNow restart allowance retryCount delay).
Proof.
  intros Hr. pose proof pollForBuyNowButton_no_workaround.
  induction allowance as [|allowance IH]; intros n delay; cbn [retryBuyNow];
    destruct (maxRetries <=? n)%nat; try exact I; silent.
Qed.

Lemma useBuyNowCheckout_no_workaround fuel : AtMost isRouteWorkaround 0 (useBuyNowCheckout fuel).
Proof.
  pose proof buyNowSequence_no_workaround.
  induction fuel as [|fuel IH]; cbn [useBuyNowCheckout]; unfold useBuyNowCheckoutWith.
  - pose proof (retryBuyNow_no_workaround Stuck I). silent.
  - pose proof (retryBuyNow_no_workaround (useBuyNowCheckout fuel) IH). silent.
Qed.

Lemma addToCart_no_workaround fuel : AtMost isRouteWorkaround 0 (addToCart fuel).
Proof.
  pose proof setQuantity_no_workaround. pose proof (useBuyNowCheckout_no_workaround fuel).
  unfold addToCart. silent.
Qed.

Lemma handlePopups_no_workaround fuel : AtMost isRouteWorkaround 0 (handlePopups fuel).
Proof. induction fuel as [|fuel IH]; cbn [handlePopups]; unfold handlePopupsWith; silent. Qed.

Lemma productSteps_no_workaround fuel :
  AtMost isRouteWorkaround 0 (tryCatch (productSteps fuel) handleCheckoutError).
Proof.
  pose proof (addToCart_no_workaround fuel).
  pose proof (handlePopups_no_workaround fuel).
  unfold productSteps, stepsFromAddToCart, stepsFromPopups, stepSelectDelivery, stepAddToCart,
    stepHandlePopups, stepGoToCheckout, selectDeliveryMethod, goDirectlyToCheckout,
    warnSelectDelivery, rethrowAddToCart, warnPopups, handleCheckoutError.
  silent.
Qed.

Lemma startCheckoutProcess_no_workaround fuel skip :
  AtMost isRouteWorkaround 0 (startCheckoutProcess fuel skip).
Proof.
  pose proof loadSettingsAndProfile_no_workaround.
  pose proof (productSteps_no_workaround fuel).
  unfold startCheckoutProcess, startCheckoutBody, reportSetupError.
  apply (AtMost_bind isRouteWorkaround get _ 0 0); [intros s; exact I|]. intros s.
  destruct (checkoutInProgress s); [silent|].
  apply (AtMost_bind isRouteWorkaround _ _ 0 0); [exact I|]. intros _.
  apply (AtMost_bind isRouteWorkaround _ _ 0 0); [silent|]. intros _.
  apply (AtMost_bind isRouteWorkaround _ _ 0 0); [exact I|]. intros _.
  apply (AtMost_tryCatch isRouteWorkaround _ _ 0 0); [|silent].
  apply (AtMost_bind isRouteWorkaround _ _ 0 0); [silent|]. intros _.
  apply (AtMost_bind isRouteWorkaround get _ 0 0); [intros s1; exact I|]. intros s1.
  destruct (negb (isSome (profile s1))); [silent|].
  destruct (negb (isEnabled s1)); [silent|].
  apply (AtMost_callAsync isRouteWorkaround checkProductPrice _ 0 0);
    [apply checkProductPrice_no_workaround|].
  intros n pr Hpr.
  apply (AtMost_bind isRouteWorkaround _ _ 0 (n + 0)); [unfold stockCheck; silent|].
  intros stock.
  apply (AtMost_bind isRouteWorkaround _ _ n 0).
  - destruct stock as [e|[]]; cbn [awaitPriceAndStock].
    + exists n, 0. split; [lia|]. split; [now apply AtMost_detached | exact I].
    + now apply AtMost_awaitPromise.
  - intros passed. destruct (negb passed); [silent|assumption].
Qed.

Lemma initiateCheckout_no_workaround (fuel : nat) :
  AtMost isRouteWorkaround 0 (initiateCheckout fuel).
Proof.
  unfold initiateCheckout.
  apply (AtMost_tryCatch isRouteWorkaround _ _ 0 0);
    [|intros e; unfold handleCheckoutError; silent].
  apply AtMost_fireAndForget.
  apply (AtMost_attempt_NoThrow isRouteWorkaround (startCheckoutProcess fuel true) _ 0 0).
  - apply NoThrow_startCheckoutProcess.
  - apply startCheckoutProcess_no_workaround.
  - intros a. exact I.
Qed.

(** X18: the product pipeline never rejects, so the route-error workaround
    never runs.  Whatever goes wrong inside it, [startCheckoutProcess] ends
    its promise fulfilled (its outer [catch] reports and swallows); hence,
    under every schedule and from every state, [initiateCheckout] and the
    chains it starts never write the status line of the workaround, whose
    branch is the only place that would start the pipeline a second time. *)
Theorem route_error_workaround_never_runs (fuel : nat) :
  (forall (w : nat -> Dom) (skip : bool) (c : Config) (e : string),
      fst (run w (startCheckoutProcess fuel skip) c) <> Raised e)
  /\ (forall (s : RunState) (schedule : list (nat * Dom)),
         countActions isRouteWorkaround
           (pool_trace (runPool schedule (startPool s [initiateCheckout fuel]))) = 0).
Proof.
  split.
  - intros w skip c e. apply NoThrow_run, NoThrow_startCheckoutProcess.
  - intros s schedule. apply Nat.le_0_r.
    apply (PoolAtMost_runPool isRouteWorkaround schedule
             (startPool s [initiateCheckout fuel]) 0).
    exists 0, 0.
    split; [apply Nat.le_refl | split; [apply initiateCheckout_no_workaround | exact I]].
Qed.

(** * Submitting through the Buy-Now panel *)

Lemma iframe_helpers_no_submit :
  (forall sel, AtMost (iframeClicks "place-order") 0 (elementExistsInBuyNowIframe sel))
  /\ (forall sel value name,
        AtMost (iframeClicks "place-order") 0 (fillInBuyNowIframe sel value name))
  /\ AtMost (iframeClicks "place-order") 0 hasErrorInBuyNowIframe.
Proof.
  pose proof (probeIframes_silent (iframeClicks "place-order")).
  pose proof (findInBuyNowIframe_silent (iframeClicks "place-order")).
  refine (conj _ (conj _ _)); intros;
    unfold elementExistsInBuyNowIframe, fillInBuyNowIframe,
      hasErrorInBuyNowIframe, withBuyNowIframe, findBuyNowIframe;
    silent.
Qed.

Lemma clickInBuyNowIframe_other (sel name : string) :
  String.eqb name "place-order" = false ->
  AtMost (iframeClicks "place-order") 0 (clickInBuyNowIframe sel name).
Proof.
  intros Hname. pose proof (findInBuyNowIframe_silent (iframeClicks "place-order")).
  unfold clickInBuyNowIframe. silent.
  cbn [AtMost iframeClicks]. rewrite Hname. silent.
Qed.

Lemma clickInBuyNowIframe_once (sel name : string) :
  AtMost (iframeClicks "place-order") 1 (clickInBuyNowIframe sel name).
Proof.
  pose proof (findInBuyNowIframe_silent (iframeClicks "place-order")) as Hfind.
  unfold clickInBuyNowIframe.
  apply (AtMost_bind (iframeClicks "place-order") _ _ 0 1);
    [apply AtMost_await, Hfind|]. intros [el|]; [|exact I].
  apply (AtMost_tryCatch (iframeClicks "place-order") _ _ 1 0); [|intros e; exact I].
  apply (AtMost_bind (iframeClicks "place-order") _ _ 0 1); [apply AtMost_ext|]. intros _.
  apply (AtMost_bind (iframeClicks "place-order") _ _ 0 1); [now apply AtMost_sleep|]. intros _.
  apply (AtMost_bind (iframeClicks "place-order") _ _ 0 1); [apply AtMost_ext|]. intros _.
  cbn [bind act AtMost]. destruct ((iframeClicks "place-order") (IframeClick name)); exact I.
Qed.

Lemma waitForPlaceOrderInIframe_no_submit n :
  AtMost (iframeClicks "place-order") 0 (waitForPlaceOrderInIframe n).
Proof.
  destruct iframe_helpers_no_submit as (He & _).
  induction n as [|n IH]; cbn [waitForPlaceOrderInIframe]; silent.
Qed.

Lemma buyNowSequence_once : AtMost (iframeClicks "place-order") 1 buyNowSequence.
Proof.
  destruct iframe_helpers_no_submit as (He & Hf & Hh).
  pose proof waitForPlaceOrderInIframe_no_submit as Hw.
  pose proof (fun sel => clickInBuyNowIframe_other sel "confirm-cvv" eq_refl) as Hc1.
  pose proof (fun sel => clickInBuyNowIframe_other sel "close-error" eq_refl) as Hc2.
  pose proof (fun sel => clickInBuyNowIframe_other sel "close-error-alt" eq_refl) as Hc3.
  pose proof (fun sel => clickInBuyNowIframe_other sel "final-confirm" eq_refl) as Hc4.
  unfold buyNowSequence.
  apply (AtMost_bind (iframeClicks "place-order") _ _ 0 1); [silent|]. intros clicked.
  destruct (negb clicked); [exact I|].
  apply (AtMost_bind (iframeClicks "place-order") _ _ 0 1); [silent|]. intros _.
  apply (AtMost_bind (iframeClicks "place-order") _ _ 0 1); [apply Hw|]. intros found.
  destruct (negb found); [exact I|].
  apply (AtMost_bind (iframeClicks "place-order") _ _ 1 0);
    [apply AtMost_await, clickInBuyNowIframe_once|].
  intros placed. silent.
Qed.

Lemma pollForBuyNowButton_no_submit :
  forall allowance pollAttempts buyNowButton,
    AtMost (iframeClicks "place-order") 0 (pollForBuyNowButton allowance pollAttempts buyNowButton).
Proof.
  pose proof (AtMost_lookForBuyNowButton (iframeClicks "place-order")).
  induction allowance as [|allowance IH]; intros n b; cbn [pollForBuyNowButton];
    destruct (n <? maxPollAttempts)%nat; try exact I.
  silent.
Qed.

Lemma retryBuyNow_submits (restart : Async unit) (r : nat) :
  AtMost (iframeClicks "place-order") r restart ->
  forall allowance retryCount delay,
    AtMost (iframeClicks "place-order") r (retryBuyNow restart allowance retryCount delay).
Proof.
  intros Hr. pose proof pollForBuyNowButton_no_submit as Hpoll.
  induction allowance as [|allowance IH]; intros n delay; cbn [retryBuyNow];
    destruct (maxRetries <=? n)%nat; try exact I; try (now unfold updateStatus).
  apply (AtMost_bind (iframeClicks "place-order") _ _ 0 r); [exact I|]. intros _.
  apply (AtMost_bind (iframeClicks "place-order") _ _ 0 r); [now apply AtMost_sleep|]. intros _.
  apply (AtMost_bind (iframeClicks "place-order") _ _ 0 r); [apply Hpoll|]. intros button.
  destruct (isVisible button); [|apply IH].
  apply (AtMost_bind (iframeClicks "place-order") _ _ 0 r); [now apply AtMost_sleep|]. intros _.
  apply (AtMost_bind (iframeClicks "place-order") _ _ 0 r); [exact I|]. intros _. exact Hr.
Qed.

Lemma useBuyNowCheckout_submits (fuel : nat) :
  AtMost (iframeClicks "place-order") (S fuel) (useBuyNowCheckout fuel).
Proof.
  induction fuel as [|fuel IH]; cbn [useBuyNowCheckout]; unfold useBuyNowCheckoutWith.
  - apply (AtMost_bind (iframeClicks "place-order") _ _ 0 1); [exact I|]. intros _.
    apply (AtMost_bind (iframeClicks "place-order") _ _ 0 1); [exact I|]. intros _.
    apply (AtMost_bind (iframeClicks "place-order") _ _ 1 0);
      [apply (AtMost_tryCatch (iframeClicks "place-order") _ _ 1 0);
        [apply buyNowSequence_once|intros e; exact I]|].
    intros [delay|]; [|exact I]. now apply retryBuyNow_submits.
  - apply (AtMost_bind (iframeClicks "place-order") _ _ 0 (S (S fuel))); [exact I|]. intros _.
    apply (AtMost_bind (iframeClicks "place-order") _ _ 0 (S (S fuel))); [exact I|]. intros _.
    apply (AtMost_bind (iframeClicks "place-order") _ _ 1 (S fuel));
      [apply (AtMost_tryCatch (iframeClicks "place-order") _ _ 1 0);
        [apply buyNowSequence_once|intros e; exact I]|].
    intros [delay|]; [|exact I]. now apply retryBuyNow_submits.
Qed.


(** ** Every click inside the panel *)

Section SpendsFacts.
Variable p : Action -> bool.

Lemma Spends_mono {A} (t : Async A) (left : A -> nat) (thrown : nat) :
  forall n m, n <= m -> Spends p n left thrown t -> Spends p m left thrown t.
Proof.
  induction t; intros n m Hle Ht; simpl in *; eauto; try lia.
  - destruct (p a); eauto.
    destruct n as [|n]; [contradiction|].
    destruct m as [|m]; [lia|]. apply (IHt _ n); [lia | assumption].
  - destruct Ht as (a & b & Hab & Ha & Hb). exists a, (b + (m - n)).
    split; [lia|]. split; [assumption|]. apply (IHt2 _ b); [lia | assumption].
Qed.

Lemma Spends_bind {A B} (m : Async A) (f : A -> Async B)
    (left : A -> nat) (left' : B -> nat) (thrown thrown' : nat) :
  thrown' <= thrown ->
  (forall x, Spends p (left x) left' thrown' (f x)) ->
  forall n, Spends p n left thrown m -> Spends p n left' thrown' (bind m f).
Proof.
  intros Hthr Hf. induction m; intros n Hm; simpl in *; eauto; try lia.
  - apply Spends_mono with (n := left a); [assumption | apply Hf].
  - destruct (p a); eauto.
    destruct n as [|n]; [contradiction|]. eauto.
  - destruct Hm as (x & y & Hxy & Hx & Hy). exists x, y. eauto.
Qed.

Lemma Spends_tryCatch {A} (m : Async A) (h : string -> Async A)
    (left : A -> nat) (thrown thrown' : nat) :
  (forall e, Spends p thrown left thrown' (h e)) ->
  forall n, Spends p n left thrown m -> Spends p n left thrown' (tryCatch m h).
Proof.
  intros Hh. induction m; intros n Hm; simpl in *; eauto.
  - apply Spends_mono with (n := thrown); [assumption | apply Hh].
  - destruct (p a); eauto.
    destruct n as [|n]; [contradiction|]. eauto.
  - destruct Hm as (x & y & Hxy & Hx & Hy). exists x, y. eauto.
Qed.

Lemma Spends_await {A} (m : Async A) (left : A -> nat) (thrown : nat) (n : nat) :
  Spends p n left thrown m -> Spends p n left thrown (await m).
Proof.
  intros H. unfold await, attempt.
  apply (Spends_bind _ _ (fun r => match r with inl _ => thrown | inr a => left a end)
           left thrown thrown (Nat.le_refl _)).
  - intros [e|a]; simpl; lia.
  - apply (Spends_tryCatch _ _ _ thrown thrown); [intros e; simpl; lia|].
    apply (Spends_bind _ _ left _ thrown thrown (Nat.le_refl _)); [|exact H].
    intros a; simpl; lia.
Qed.

(** A chain that does none of the counted actions leaves the allowance as
    it was. *)
Lemma Spends_silent {A} (t : Async A) (n : nat) :
  AtMost p 0 t -> Spends p n (fun _ => n) n t.
Proof.
  revert n. induction t; intros n Ht; simpl in *; eauto.
  - destruct (p a); [contradiction|]. eauto.
  - destruct Ht as (x & y & Hxy & Hx & Hy).
    assert (x = 0) as -> by lia. assert (y = 0) as -> by lia.
    exists 0, n. split; [lia|]. split; [assumption|]. eauto.
Qed.

Lemma Spends_of_AtMost {A} (t : Async A) (n : nat) :
  AtMost p n t -> Spends p n (fun _ => 0) 0 t.
Proof.
  revert n. induction t; intros n Ht; simpl in *; eauto; try lia.
  - destruct (p a); eauto. destruct n as [|n]; [contradiction|]. eauto.
  - destruct Ht as (x & y & Hxy & Hx & Hy). exists x, y. eauto.
Qed.

Lemma AtMost_of_Spends {A} (t : Async A) (left : A -> nat) (thrown : nat) (n : nat) :
  Spends p n left thrown t -> AtMost p n t.
Proof.
  revert n. induction t; intros n Ht; simpl in *; eauto.
  - destruct (p a); eauto. destruct n as [|n]; [contradiction|]. eauto.
  - destruct Ht as (x & y & Hxy & Hx & Hy). exists x, y. eauto.
Qed.

End SpendsFacts.

Lemma iframe_helpers_no_click :
  (forall sel, AtMost panelClick 0 (elementExistsInBuyNowIframe sel))
  /\ (forall sel value name, AtMost panelClick 0 (fillInBuyNowIframe sel value name))
  /\ AtMost panelClick 0 hasErrorInBuyNowIframe.
Proof.
  pose proof (probeIframes_silent panelClick).
  pose proof (findInBuyNowIframe_silent panelClick).
  refine (conj _ (conj _ _)); intros;
    unfold elementExistsInBuyNowIframe, fillInBuyNowIframe,
      hasErrorInBuyNowIframe, withBuyNowIframe, findBuyNowIframe;
    silent.
Qed.

(** A click in the panel uses up the allowance exactly when it answers
    [true]. *)
Lemma clickInBuyNowIframe_spends (sel name : string) :
  Spends panelClick 1 (fun clicked : bool => if clicked then 0 else 1) 1
    (clickInBuyNowIframe sel name).
Proof.
  unfold clickInBuyNowIframe.
  apply (Spends_bind panelClick _ _ (fun _ => 1) _ 1 1 (Nat.le_refl _));
    [|apply Spends_await, Spends_silent, findInBuyNowIframe_silent].
  intros [el|]; [|simpl; lia].
  apply (Spends_tryCatch panelClick _ _ _ 1 1); [intros e; simpl; lia|].
  apply (Spends_bind panelClick _ _ (fun _ => 1) _ 1 1 (Nat.le_refl _));
    [intros _|apply Spends_silent, AtMost_ext].
  apply (Spends_bind panelClick _ _ (fun _ => 1) _ 1 1 (Nat.le_refl _));
    [intros _|apply Spends_silent, AtMost_sleep; reflexivity].
  apply (Spends_bind panelClick _ _ (fun _ => 1) _ 1 1 (Nat.le_refl _));
    [intros _|apply Spends_silent, AtMost_ext].
  cbn [bind act Spends panelClick]. lia.
Qed.

Lemma clickInBuyNowIframe_one_click (sel name : string) :
  AtMost panelClick 1 (await (clickInBuyNowIframe sel name)).
Proof.
  apply AtMost_await.
  exact (AtMost_of_Spends panelClick _ _ _ _ (clickInBuyNowIframe_spends sel name)).
Qed.

Lemma waitForPlaceOrderInIframe_no_click n :
  AtMost panelClick 0 (waitForPlaceOrderInIframe n).
Proof.
  destruct iframe_helpers_no_click as (He & _).
  induction n as [|n IH]; cbn [waitForPlaceOrderInIframe]; silent.
Qed.

Lemma buyNowSequence_clicks : AtMost panelClick 3 buyNowSequence.
Proof.
  destruct iframe_helpers_no_click as (He & Hf & Hh).
  pose proof waitForPlaceOrderInIframe_no_click as Hw.
  pose proof clickInBuyNowIframe_one_click as Hclick.
  unfold buyNowSequence.
  apply (AtMost_bind panelClick _ _ 0 3); [silent|]. intros clicked.
  destruct (negb clicked); [exact I|].
  apply (AtMost_bind panelClick _ _ 0 3); [silent|]. intros _.
  apply (AtMost_bind panelClick _ _ 0 3); [apply Hw|]. intros found.
  destruct (negb found); [exact I|].
  apply (AtMost_bind panelClick _ _ 1 2); [apply Hclick|]. intros placed.
  destruct (negb placed); [exact I|].
  apply (AtMost_bind panelClick _ _ 0 2); [silent|]. intros _.
  apply (AtMost_bind panelClick _ _ 0 2); [silent|]. intros cvvExists.
  destruct (negb cvvExists); [exact I|].
  apply (AtMost_bind panelClick _ _ 0 2); [intros s; exact I|]. intros s.
  destruct (useBuyNowCheckout_cvv (profile s)) as [[|ch rest]|]; try exact I.
  apply (AtMost_bind panelClick _ _ 0 2); [silent|]. intros filled.
  destruct (negb filled); [exact I|].
  apply (AtMost_bind panelClick _ _ 0 2); [silent|]. intros _.
  apply (AtMost_bind panelClick _ _ 1 1); [apply Hclick|]. intros confirmed.
  destruct (negb confirmed); [exact I|].
  apply (AtMost_bind panelClick _ _ 0 1); [silent|]. intros _.
  apply (AtMost_bind panelClick _ _ 0 1); [silent|]. intros [|].
  - apply (AtMost_bind panelClick _ _ 0 1); [exact I|]. intros _.
    apply (AtMost_of_Spends panelClick _ (fun _ => 0) 0 1).
    apply (Spends_bind panelClick _ _ (fun b : bool => if b then 0 else 1) (fun _ => 0)
             1 0 (Nat.le_0_l _));
      [|apply Spends_await, clickInBuyNowIframe_spends].
    intros [|]; apply Spends_of_AtMost.
    + silent.
    + apply (AtMost_bind panelClick _ _ 1 0); [|silent].
      apply (AtMost_bind panelClick _ _ 1 0); [apply Hclick|intros _; exact I].
  - apply (AtMost_bind panelClick _ _ 0 1); [silent|]. intros finalButtonExists.
    apply (AtMost_bind panelClick _ _ 1 0); [|silent].
    destruct finalButtonExists; [|exact I].
    apply (AtMost_bind panelClick _ _ 1 0); [apply Hclick|intros _; exact I].
Qed.

Lemma pollForBuyNowButton_no_click :
  forall allowance pollAttempts buyNowButton,
    AtMost panelClick 0 (pollForBuyNowButton allowance pollAttempts buyNowButton).
Proof.
  pose proof (AtMost_lookForBuyNowButton panelClick).
  induction allowance as [|allowance IH]; intros n b; cbn [pollForBuyNowButton];
    destruct (n <? maxPollAttempts)%nat; try exact I.
  silent.
Qed.

Lemma retryBuyNow_clicks (restart : Async unit) (r : nat) :
  AtMost panelClick r restart ->
  forall allowance retryCount delay,
    AtMost panelClick r (retryBuyNow restart allowance retryCount delay).
Proof.
  intros Hr. pose proof pollForBuyNowButton_no_click as Hpoll.
  induction allowance as [|allowance IH]; intros n delay; cbn [retryBuyNow];
    destruct (maxRetries <=? n)%nat; try exact I; try (now unfold updateStatus).
  apply (AtMost_bind panelClick _ _ 0 r); [exact I|]. intros _.
  apply (AtMost_bind panelClick _ _ 0 r); [now apply AtMost_sleep|]. intros _.
  apply (AtMost_bind panelClick _ _ 0 r); [apply Hpoll|]. intros button.
  destruct (isVisible button); [|apply IH].
  apply (AtMost_bind panelClick _ _ 0 r); [now apply AtMost_sleep|]. intros _.
  apply (AtMost_bind panelClick _ _ 0 r); [exact I|]. intros _. exact Hr.
Qed.

Lemma useBuyNowCheckout_clicks (fuel : nat) :
  AtMost panelClick (3 * S fuel) (useBuyNowCheckout fuel).
Proof.
  assert (Hwith : forall restart r,
             AtMost panelClick r restart ->
             AtMost panelClick (3 + r) (useBuyNowCheckoutWith restart)).
  { intros restart r Hr. unfold useBuyNowCheckoutWith.
    apply (AtMost_bind panelClick _ _ 0 (3 + r)); [exact I|]. intros _.
    apply (AtMost_bind panelClick _ _ 0 (3 + r)); [exact I|]. intros _.
    apply (AtMost_bind panelClick _ _ 3 r);
      [apply (AtMost_mono panelClick _ (3 + 0) 3 (Nat.eq_le_incl _ _ eq_refl)),
         (AtMost_tryCatch panelClick _ _ 3 0);
        [apply buyNowSequence_clicks|intros e; exact I]|].
    intros [delay|]; [|exact I]. now apply retryBuyNow_clicks. }
  induction fuel as [|fuel IH]; cbn [useBuyNowCheckout].
  - apply (Hwith Stuck 0). exact I.
  - apply AtMost_mono with (n := 3 + 3 * S fuel); [lia|]. now apply Hwith.
Qed.

(** X19: how often one pass of the Buy-Now flow clicks inside the panel.
    Clicks are counted by the lookup that led to them, not by the element
    they land on.  The sequence of [useBuyNowCheckout] (Buy-Now click,
    place-order in the panel, CVV, confirmation) makes at most one click
    through the place-order lookup of line 1655, and at most three clicks
    inside the panel in all: besides that one, the confirm click and one of
    the close and final-confirm clicks.  The retry loop around it makes no
    click inside the panel; only a restart of the flow, after a retry has
    found the Buy-Now button again, can: a run with at most [n] restarts
    makes at most [n + 1] clicks through the place-order lookup and at most
    [3 * (n + 1)] clicks inside the panel. *)
Theorem buy_now_pass_submits_at_most_once (w : nat -> Dom) (c : Config) :
  countActions (iframeClicks "place-order") (trace (snd (run w buyNowSequence c)))
  <= countActions (iframeClicks "place-order") (trace c) + 1
  /\ countActions panelClick (trace (snd (run w buyNowSequence c)))
     <= countActions panelClick (trace c) + 3
  /\ (forall restart allowance retryCount delay,
         AtMost panelClick 0 restart ->
         countActions panelClick
           (trace (snd (run w (retryBuyNow restart allowance retryCount delay) c)))
         = countActions panelClick (trace c))
  /\ (forall n,
         countActions (iframeClicks "place-order")
           (trace (snd (run w (useBuyNowCheckout n) c)))
         <= countActions (iframeClicks "place-order") (trace c) + S n
         /\ countActions panelClick (trace (snd (run w (useBuyNowCheckout n) c)))
            <= countActions panelClick (trace c) + 3 * S n).
Proof.
  refine (conj _ (conj _ (conj _ _))).
  - apply AtMost_run, buyNowSequence_once.
  - apply AtMost_run, buyNowSequence_clicks.
  - intros restart allowance retryCount delay Hr.
    apply AtMost_run_none. now apply retryBuyNow_clicks.
  - intros n. split.
    + apply AtMost_run, useBuyNowCheckout_submits.
    + apply AtMost_run, useBuyNowCheckout_clicks.
Qed.

(** * The command channel *)

(** A call of [loadSettingsAndProfile] that is not awaited asks for the
    settings and leaves the rest to a chain of its own. *)
Lemma run_fireAndForget_load {B} (w : nat -> Dom) (k : unit -> Async B)
    (h : string -> Async B) (c : Config) :
  exists rest,
    run w (fireAndForget (tryCatch (bind loadSettingsAndProfile k) h)) c
    = (Returned tt, withSpawned rest (logged (StorageGet settingsKeys) c)).
Proof.
  unfold loadSettingsAndProfile, getFromStorage, fireAndForget.
  cbn -[settingsKeys]. eexists. reflexivity.
Qed.

Lemma run_fireAndForget_load_only (w : nat -> Dom) (c : Config) :
  exists rest,
    run w (fireAndForget loadSettingsAndProfile) c
    = (Returned tt, withSpawned rest (logged (StorageGet settingsKeys) c)).
Proof.
  unfold loadSettingsAndProfile, getFromStorage, fireAndForget.
  cbn -[settingsKeys]. eexists. reflexivity.
Qed.

Lemma run_onActivate (w : nat -> Dom) (fuel : nat) (c : Config) :
  exists c', run w (onActivate fuel) c = (Returned tt, c')
             /\ cst c' = cst c /\ clock c' = clock c.
Proof.
  unfold onActivate. rewrite run_look.
  destruct (String.eqb (pathname (w (clock c))) "/cart").
  - eexists. split; [reflexivity|]. split; reflexivity.
  - unfold loadSettingsAndProfile, getFromStorage, fireAndForget.
    cbn -[settingsKeys]. eexists. split; [reflexivity|]. split; reflexivity.
Qed.

Lemma run_enabledChanged (w : nat -> Dom) (fuel : nat) (was : bool) (c : Config) :
  exists c', run w (enabledChanged fuel was) c = (Returned tt, c')
             /\ isEnabled (cst c') = isEnabled (cst c)
             /\ clock c' = clock c
             /\ (was = true -> isEnabled (cst c) = false ->
                 c' = snd (run w cleanup c)).
Proof.
  unfold enabledChanged. rewrite run_get.
  destruct was, (isEnabled (cst c)) eqn:E; cbn [negb andb].
  - exists c. repeat split; try reflexivity; try assumption. discriminate.
  - rewrite run_cleanup. eexists. split; [reflexivity|].
    split; [exact E|]. split; [reflexivity|]. reflexivity.
  - destruct (run_onActivate w fuel c) as (c' & Hrun & Hst & Hcl).
    exists c'. rewrite Hrun, Hst. repeat split; try assumption. discriminate.
  - exists c. repeat split; try reflexivity; try assumption. discriminate.
Qed.

(** What is true of a configuration [cleanup] has just left. *)
Lemma cleaned_after_cleanup (w : nat -> Dom) (c : Config) :
  checkoutInProgress (cst (snd (run w cleanup c))) = false
  /\ guardsLowered (cst (snd (run w cleanup c))) = true
  /\ observers (cst (snd (run w cleanup c))) = []
  /\ intervals (cst (snd (run w cleanup c))) = [].
Proof. rewrite run_cleanup. repeat split. Qed.

Lemma channelOutcome_unchanged (message : Message) (c c' : Config) :
  enabledAfter message (cst c) = isEnabled (cst c) ->
  isEnabled (cst c') = isEnabled (cst c) ->
  clock c' = clock c ->
  channelOutcome message c c'.
Proof.
  intros He Hs Hc. unfold channelOutcome. rewrite He.
  split; [exact Hs|]. split; [exact Hc|]. intros H1 H2. congruence.
Qed.

(** X20: the enabled state after a command, and what switching off does.
    After any message but a page detection the listener has returned within
    its turn and the engine's enabled state is [enabledAfter]: after
    [activateSite] for this site the [enabled] switch of the site settings
    then in force; after [toggleStatus] the toggle and that switch; after
    [updateSiteSetting] for this site the new [enabled] value when the
    update carries one, and the state as it was when it does not (so an
    engine turned off by the toggle stays off through a quantity update,
    with the site's switch on); after a message for another site, a
    global-setting or a profile message the state as it was.  A message that
    turns the engine off runs [cleanup]: the pipeline flag and the guard
    flags are down and no observer or interval is registered. *)
Theorem command_channel_enabled_state (w : nat -> Dom) (fuel : nat) (message : Message)
    (c : Config) :
  isDetectPage message = false ->
  fst (run w (onMessage fuel message) c) = Returned tt
  /\ channelOutcome message c (snd (run w (onMessage fuel message) c)).
Proof.
  intros Hmsg.
  destruct message as [site type|site settings|globalEnabled|site update|update| |];
    try discriminate; cbn [onMessage].
  - (* activateSite *)
    destruct (String.eqb site "target") eqn:Es.
    2:{ split; [reflexivity|]. apply channelOutcome_unchanged; cbn [enabledAfter];
          try rewrite Es; reflexivity. }
    rewrite run_get, !run_modify.
    match goal with
    | |- context [run w (enabledChanged fuel ?was) ?c2] =>
        destruct (run_enabledChanged w fuel was c2) as (c' & Hrun & Hen & Hcl & Hoff)
    end.
    rewrite Hrun. cbn [fst snd]. split; [reflexivity|].
    unfold channelOutcome. cbn [enabledAfter]. rewrite Es.
    split; [exact Hen|]. split; [exact Hcl|].
    intros Hwas Hnow. rewrite (Hoff Hwas Hnow). apply cleaned_after_cleanup.
  - (* toggleStatus *)
    rewrite run_get, run_modify. unfold channelOutcome. cbn [enabledAfter].
    destruct (isEnabled (cst c)) eqn:Ewas, globalEnabled,
      (ss_enabled (siteSettings (cst c))) eqn:Esite;
      cbn [negb andb];
      try (split; [reflexivity|]; split; [cbn; try rewrite Esite; reflexivity|];
           split; [reflexivity|]; intros; discriminate);
      try (rewrite run_cleanup; split; [reflexivity|]; split; [reflexivity|];
           split; [reflexivity|]; intros _ _; repeat split);
      try (match goal with
           | |- context [run w (onActivate fuel) ?c2] =>
               destruct (run_onActivate w fuel c2) as (c' & Hrun & Hst & Hcl)
           end;
           rewrite Hrun; cbn [fst snd]; rewrite Hst, Hcl;
           split; [reflexivity|]; split; [reflexivity|]; split; [reflexivity|];
           intros; discriminate).
  - (* updateSiteSetting *)
    destruct (String.eqb site "target") eqn:Es.
    2:{ split; [reflexivity|]. apply channelOutcome_unchanged; cbn [enabledAfter];
          try rewrite Es; reflexivity. }
    rewrite run_modify. unfold channelOutcome. cbn [enabledAfter]. rewrite Es.
    rewrite run_bind.
    assert (Hfirst : exists c1,
               run w (if isSome (u_enabled update) then
                        s <- get ;;
                        modify (fun s => set_isEnabled (ss_enabled (siteSettings s)) s) ;;
                        s' <- get ;;
                        if isEnabled s && negb (isEnabled s') then cleanup
                        else if negb (isEnabled s) && isEnabled s' then onActivate fuel
                        else Ret tt
                      else Ret tt)
                 (withState
                    (fun s => set_siteSettings (mergeSiteSettings update (siteSettings s)) s) c)
               = (Returned tt, c1)
               /\ isEnabled (cst c1) = orKeep (u_enabled update) (isEnabled (cst c))
               /\ clock c1 = clock c
               /\ (isEnabled (cst c) = true ->
                   orKeep (u_enabled update) (isEnabled (cst c)) = false ->
                   checkoutInProgress (cst c1) = false
                   /\ guardsLowered (cst c1) = true
                   /\ observers (cst c1) = []
                   /\ intervals (cst c1) = [])).
    { destruct update as [ue uq up]. cbn [u_enabled].
      destruct ue as [b|]; cbn [isSome orKeep].
      2:{ eexists. split; [reflexivity|]. split; [reflexivity|]. split; [reflexivity|].
          intros; congruence. }
      rewrite run_get, run_modify, run_get.
      cbn [cst withState isEnabled set_isEnabled set_siteSettings siteSettings
           mergeSiteSettings ss_enabled].
      cbn [u_enabled orKeep].
      destruct (isEnabled (cst c)) eqn:Ewas, b; cbn [negb andb].
      - eexists. split; [reflexivity|]. split; [reflexivity|]. split; [reflexivity|].
        intros; discriminate.
      - rewrite run_cleanup. eexists. split; [reflexivity|]. split; [reflexivity|].
        split; [reflexivity|]. intros _ _. repeat split.
      - match goal with
        | |- context [run w (onActivate fuel) ?c2] =>
            destruct (run_onActivate w fuel c2) as (c' & Hrun & Hst & Hcl)
        end.
        exists c'. rewrite Hrun, Hst, Hcl. split; [reflexivity|]. split; [reflexivity|].
        split; [reflexivity|]. intros; discriminate.
      - eexists. split; [reflexivity|]. split; [reflexivity|]. split; [reflexivity|].
        intros; discriminate. }
    destruct Hfirst as (c1 & Hrun & Hen & Hcl & Hoff). rewrite Hrun.
    rewrite run_bind.
    destruct (isSome (u_profileId update)).
    + destruct (run_fireAndForget_load_only w c1) as (rest & Hload). rewrite Hload.
      cbn [run act fst snd cst clock logged withSpawned].
      split; [reflexivity|]. split; [exact Hen|]. split; [exact Hcl|]. exact Hoff.
    + cbn [run act fst snd cst clock logged withSpawned].
      split; [reflexivity|]. split; [exact Hen|]. split; [exact Hcl|]. exact Hoff.
  - (* updateGlobalSetting *)
    split; [reflexivity|]. apply channelOutcome_unchanged; reflexivity.
  - (* profileUpdated *)
    destruct (run_fireAndForget_load_only w c) as (rest & Hload). rewrite Hload.
    split; [reflexivity|]. apply channelOutcome_unchanged; reflexivity.
  - (* profileSelected *)
    destruct (run_fireAndForget_load_only w c) as (rest & Hload). rewrite Hload.
    split; [reflexivity|]. apply channelOutcome_unchanged; reflexivity.
Qed.

(** The toggle turns a running engine off and cleans up; a quantity update
    that follows leaves it off, although the site's switch is on. *)
Lemma command_channel_enabled_state_witness :
  isDetectPage (ToggleStatus false) = false
  /\ isEnabled (cst (snd (run (fun _ => checkoutPage) (onMessage 2 (ToggleStatus false))
                            (initialConfig timerRunningState)))) = false
  /\ intervals (cst (snd (run (fun _ => checkoutPage) (onMessage 2 (ToggleStatus false))
                            (initialConfig timerRunningState)))) = []
  /\ ss_enabled (siteSettings (set_isEnabled false exampleState)) = true
  /\ isEnabled (cst (snd (run (fun _ => checkoutPage)
                            (onMessage 2 (UpdateSiteSetting "target" quantityUpdate))
                            (initialConfig (set_isEnabled false exampleState))))) = false.
Proof.
  split; [reflexivity|].
  destruct (command_channel_enabled_state (fun _ => checkoutPage) 2 (ToggleStatus false)
              (initialConfig timerRunningState) eq_refl) as (_ & Hen & _ & Hoff).
  split; [exact Hen|].
  split; [exact (proj2 (proj2 (proj2 (Hoff eq_refl eq_refl))))|].
  split; [reflexivity|].
  exact (proj1 (proj2 (command_channel_enabled_state (fun _ => checkoutPage) 2
                         (UpdateSiteSetting "target" quantityUpdate)
                         (initialConfig (set_isEnabled false exampleState)) eq_refl))).
Defined.

(** * Submitting only through a usable button *)

Section WithinFacts.
Context (Wd : Dom -> Prop) (p : Action -> bool).

Lemma Within_run {A} (w : nat -> Dom) (t : Async A) :
  (forall k, Wd (w k)) ->
  forall c,
    Within Wd p t ->
    countActions p (trace (snd (run w t c))) = countActions p (trace c).
Proof.
  intros Hw. induction t; intros c Ht; simpl in *; auto.
  - exact (IHt (withState f c) Ht).
  - destruct Ht as [Ha Hk]. rewrite (IHt (logged a c) Hk). simpl.
    now rewrite countActions_snoc, Ha, Nat.add_0_r.
  - exact (IHt (nextTurn c) Ht).
  - exact (IHt2 (withSpawned t1 c) (proj2 Ht)).
Qed.

Lemma Within_of_AtMost {A} (t : Async A) : AtMost p 0 t -> Within Wd p t.
Proof.
  induction t; simpl; auto.
  - destruct (p a); [contradiction|]. auto.
  - intros (x & y & Hxy & Hx & Hy).
    assert (x = 0) as -> by lia. assert (y = 0) as -> by lia. auto.
Qed.

Lemma Within_bind {A B} (m : Async A) (f : A -> Async B) :
  Within Wd p m -> (forall a, Within Wd p (f a)) -> Within Wd p (bind m f).
Proof. induction m; simpl; intuition auto. Qed.

Lemma Within_tryCatch {A} (m : Async A) (h : string -> Async A) :
  Within Wd p m -> (forall e, Within Wd p (h e)) -> Within Wd p (tryCatch m h).
Proof. induction m; simpl; intuition auto. Qed.

Lemma Within_attempt {A} (m : Async A) : Within Wd p m -> Within Wd p (attempt m).
Proof.
  intros H. unfold attempt. apply Within_tryCatch; [|intros e; exact I].
  apply Within_bind; [assumption|]. intros a. exact I.
Qed.

Lemma Within_await {A} (m : Async A) : Within Wd p m -> Within Wd p (await m).
Proof.
  intros H. unfold await. apply Within_bind; [now apply Within_attempt|].
  intros [e|a]; exact I.
Qed.

Lemma Within_tryFinally {A} (m : Async A) (f : Async unit) :
  Within Wd p m -> Within Wd p f -> Within Wd p (tryFinally m f).
Proof.
  intros Hm Hf. unfold tryFinally. apply Within_bind; [now apply Within_attempt|].
  intros r. apply Within_bind; [assumption|]. intros _. destruct r; exact I.
Qed.

Lemma Within_callAsync {A B} (m : Async A) (k : Promise A -> Async B) :
  Within Wd p m -> (forall pr, WithinPromise Wd p pr -> Within Wd p (k pr)) ->
  Within Wd p (callAsync m k).
Proof.
  revert k. induction m; intros k' Hm Hk; simpl in *;
    try (apply Hk; simpl; solve [exact I | assumption]); intuition auto.
Qed.

Lemma Within_detached {A} (pr : Promise A) :
  WithinPromise Wd p pr -> Within Wd p (detached pr).
Proof.
  destruct pr as [r|rest]; simpl; intros H; [exact I|].
  apply Within_bind; [now apply Within_attempt|]. intros; exact I.
Qed.

Lemma Within_fireAndForget {A} (m : Async A) : Within Wd p m -> Within Wd p (fireAndForget m).
Proof.
  intros H. unfold fireAndForget. apply Within_callAsync; [assumption|].
  intros pr Hpr. split; [now apply Within_detached | exact I].
Qed.

Lemma Within_segmentFrom {A} (d : Dom) (t : Async A) :
  Wd d ->
  forall s acts sp,
    Within Wd p t -> Forall (Within Wd p) sp ->
    countActions p (seg_actions (segmentFrom d t s acts sp)) = countActions p acts
    /\ WithinEnd Wd p (seg_end (segmentFrom d t s acts sp))
    /\ Forall (Within Wd p) (seg_spawned (segmentFrom d t s acts sp)).
Proof.
  intros Hd. induction t; intros s acts sp Ht Hsp; simpl in *; auto.
  - destruct Ht as [Ha Hk]. destruct (IHt s (acts ++ [a]) sp Hk Hsp) as (H1 & H2 & H3).
    split; [|split; assumption]. now rewrite H1, countActions_snoc, Ha, Nat.add_0_r.
  - destruct Ht as [Ht1 Ht2]. apply IHt2; [assumption|].
    apply Forall_app. split; [assumption|]. constructor; [assumption|constructor].
Qed.

Lemma Forall_replaceNth {X} (P : X -> Prop) (i : nat) (x : X) (l : list X) :
  P x -> Forall P l -> Forall P (replaceNth i x l).
Proof.
  intros Hx Hl. revert i. induction Hl as [|y l Hy Hl IH]; intros i; simpl.
  - destruct i; constructor.
  - destruct i; constructor; auto.
Qed.

Lemma Within_poolStep (P : Pool) (turn : nat * Dom) :
  Wd (snd turn) ->
  Forall (Within Wd p) (pool_chains P) ->
  Forall (Within Wd p) (pool_chains (poolStep P turn))
  /\ countActions p (pool_trace (poolStep P turn)) = countActions p (pool_trace P).
Proof.
  intros Hd HP. unfold poolStep.
  destruct (nth_error (pool_chains P) (fst turn)) as [t|] eqn:E; [|split; [assumption|reflexivity]].
  assert (Ht : Within Wd p t).
  { apply nth_error_In in E. rewrite Forall_forall in HP. now apply HP. }
  destruct (Within_segmentFrom (snd turn) t Hd (pool_state P) [] [] Ht (Forall_nil _))
    as (H1 & H2 & H3).
  cbn [pool_chains pool_trace]. fold (segment (snd turn) t (pool_state P)) in *.
  split.
  - apply Forall_app. split; [|assumption].
    apply Forall_replaceNth; [|assumption].
    destruct (seg_end (segment (snd turn) t (pool_state P))); simpl in *; auto.
  - rewrite countActions_app, H1. cbn. lia.
Qed.

Lemma Within_runPool (schedule : list (nat * Dom)) :
  Forall (fun turn => Wd (snd turn)) schedule ->
  forall P,
    Forall (Within Wd p) (pool_chains P) ->
    countActions p (pool_trace (runPool schedule P)) = countActions p (pool_trace P).
Proof.
  induction 1 as [|turn rest Hturn Hrest IH]; intros P HP; [reflexivity|].
  cbn [runPool fold_left]. destruct (Within_poolStep P turn Hturn HP) as [H1 H2].
  change (fold_left poolStep rest (poolStep P turn)) with (runPool rest (poolStep P turn)).
  now rewrite (IH _ H1).
Qed.

End WithinFacts.

Ltac within_side :=
  solve [ exact I
        | apply Within_of_AtMost; solve [auto with never | never]
        | split; [reflexivity | exact I] ].

Lemma placeOrderWith_needs_usable_button (again : Async unit) :
  Within submitUnusable (clicks "place-order") (placeOrderWith again).
Proof.
  unfold placeOrderWith.
  apply Within_bind; [exact I|]. intros _.
  apply Within_bind; [intros s; exact I|]. intros s.
  destruct (negb (autoSubmit (globalSettings s))); [split; [reflexivity|exact I]|].
  apply Within_bind; [split; [reflexivity|exact I]|]. intros _.
  apply Within_bind; [within_side|]. intros highDemand.
  apply Within_bind; [within_side|]. intros _.
  apply Within_bind; [within_side|]. intros cvvInput.
  destruct (isSome cvvInput); [within_side|].
  apply Within_bind; [within_side|]. intros cardInput.
  destruct (isSome cardInput); [within_side|].
  apply Within_bind; [within_side|]. intros termsCheckbox.
  apply Within_bind; [within_side|]. intros _.
  unfold find at 1, ext, look. cbn [bind Within].
  intros d _. destruct (fails d (CallFind (Sel "checkoutPageSelectors.placeOrderButton")));
    cbn [bind Within]; [exact I|].
  intros d0 Hd0. unfold submitUnusable, isUsable in Hd0.
  destruct (query d0 (Sel "checkoutPageSelectors.placeOrderButton")) as [btn|]; [|exact I].
  destruct (visible btn); cbn [negb]; [|exact I].
  destruct (disabled btn); [|discriminate].
  within_side.
Qed.

Lemma placeOrder_needs_usable_button (fuel : nat) :
  Within submitUnusable (clicks "place-order") (placeOrder fuel).
Proof. destruct fuel; cbn [placeOrder]; apply placeOrderWith_needs_usable_button. Qed.

Lemma fillShippingInfo_no_place_order : AtMost (clicks "place-order") 0 fillShippingInfo.
Proof. unfold fillShippingInfo. never. Qed.

Lemma fillPaymentInfo_no_place_order : AtMost (clicks "place-order") 0 fillPaymentInfo.
Proof. unfold fillPaymentInfo. never. Qed.

(** One step of a proof that a chain submits nothing while the button is
    unusable: the pieces that never submit are counted out, the calls of
    [placeOrder] are referred to the lemma above. *)
Ltac within_step :=
  match goal with
  | |- forall _, _ => intro
  | |- True => exact I
  | |- _ /\ _ => split
  | H : ?P |- ?P => exact H
  | |- Within _ _ (placeOrder _) => apply placeOrder_needs_usable_button
  | |- Within _ _ (await _) => apply Within_await
  | |- Within _ _ (attempt _) => apply Within_attempt
  | |- Within _ _ (tryFinally _ _) => apply Within_tryFinally
  | |- Within _ _ (tryCatch _ _) => apply Within_tryCatch
  | |- Within _ _ (fireAndForget _) => apply Within_fireAndForget
  | |- Within _ _ (bind _ _) => apply Within_bind
  | |- Within _ _ (if ?c then _ else _) => destruct c
  | |- Within _ _ (match ?x with _ => _ end) => destruct x
  | |- Within _ _ _ => within_side
  end.

Ltac within := repeat within_step.

Lemma checkoutStepDispatch_needs_usable_button (fuel : nat) :
  Within submitUnusable (clicks "place-order") (checkoutStepDispatch fuel).
Proof.
  pose proof fillShippingInfo_no_place_order.
  pose proof fillPaymentInfo_no_place_order.
  unfold checkoutStepDispatch. within.
Qed.

Lemma continueCheckoutProcess_needs_usable_button (fuel : nat) :
  Within submitUnusable (clicks "place-order") (continueCheckoutProcess fuel).
Proof.
  assert (Hwith : forall n again,
             Within submitUnusable (clicks "place-order") again ->
             Within submitUnusable (clicks "place-order") (continueCheckoutProcessWith n again)).
  { intros n again Hagain.
    pose proof (checkoutStepDispatch_needs_usable_button n).
    unfold continueCheckoutProcessWith, continueCheckoutAttempt, handleCheckoutError.
    within. }
  induction fuel as [|fuel IH]; cbn [continueCheckoutProcess]; apply Hwith; [exact I|exact IH].
Qed.

Lemma watcherChecks_needs_usable_button (fuel : nat) :
  Within submitUnusable (clicks "place-order") (watcherChecks fuel).
Proof. unfold watcherChecks. within. Qed.

Lemma checkoutPageChain_needs_usable_button (fuel : nat) (t : Async unit) :
  checkoutPageChain fuel t -> Within submitUnusable (clicks "place-order") t.
Proof.
  pose proof (watcherChecks_needs_usable_button fuel).
  intros [-> | [-> | [-> | ->]]].
  - apply continueCheckoutProcess_needs_usable_button.
  - unfold checkoutObserverCallback. within.
  - unfold safetyIntervalCallback. within.
  - apply placeOrder_needs_usable_button.
Qed.

(** X21: the order is submitted only through a usable button.  Take any
    number of invocations of the checkout pipeline, of the two watcher
    callbacks and of [placeOrder], interleaved in any order: as long as every
    snapshot they see shows the place-order button missing, hidden or
    disabled, none of them, and no chain they start, makes the submitting
    click.  (The retry timer of the high-demand message is not one of these
    chains: its click only asks for a visible button.) *)
Theorem no_submit_through_unusable_button (fuel : nat) (s : RunState)
    (chains : list (Async unit)) (schedule : list (nat * Dom)) :
  Forall (checkoutPageChain fuel) chains ->
  Forall (fun turn => submitUnusable (snd turn)) schedule ->
  countActions (clicks "place-order") (pool_trace (runPool schedule (startPool s chains))) = 0.
Proof.
  intros Hchains Hschedule.
  apply (Within_runPool submitUnusable (clicks "place-order") schedule Hschedule
           (startPool s chains)).
  cbn [startPool pool_chains].
  apply Forall_impl with (P := checkoutPageChain fuel); [|assumption].
  intros t. apply checkoutPageChain_needs_usable_button.
Qed.

Lemma no_submit_through_unusable_button_witness :
  Forall (checkoutPageChain 2)
    [continueCheckoutProcess 2; checkoutObserverCallback 2; safetyIntervalCallback 2]
  /\ Forall (fun turn => submitUnusable (snd turn))
       [(0, disabledSubmitPage); (1, disabledSubmitPage); (0, disabledSubmitPage);
        (2, disabledSubmitPage); (0, disabledSubmitPage); (0, disabledSubmitPage)]
  /\ countActions (clicks "place-order")
       (pool_trace
          (runPool
             [(0, disabledSubmitPage); (1, disabledSubmitPage); (0, disabledSubmitPage);
              (2, disabledSubmitPage); (0, disabledSubmitPage); (0, disabledSubmitPage)]
             (startPool exampleState
                [continueCheckoutProcess 2; checkoutObserverCallback 2;
                 safetyIntervalCallback 2]))) = 0.
Proof.
  assert (H1 : Forall (checkoutPageChain 2)
                 [continueCheckoutProcess 2; checkoutObserverCallback 2;
                  safetyIntervalCallback 2]).
  { repeat constructor; unfold checkoutPageChain; tauto. }
  assert (H2 : Forall (fun turn => submitUnusable (snd turn))
                 [(0, disabledSubmitPage); (1, disabledSubmitPage); (0, disabledSubmitPage);
                  (2, disabledSubmitPage); (0, disabledSubmitPage); (0, disabledSubmitPage)]).
  { repeat constructor. }
  split; [exact H1|]. split; [exact H2|].
  exact (no_submit_through_unusable_button 2 exampleState _ _ H1 H2).
Defined.

(** * What injecting the script does *)

Lemma loadSettingsAndProfile_no_closeTab : AtMost isCloseTab 0 loadSettingsAndProfile.
Proof. unfold loadSettingsAndProfile. silent. Qed.

Lemma engineBranch_no_closeTab : AtMost isCloseTab 0 engineBranch.
Proof.
  unfold engineBranch, initializeTargetCheckout, init, setupListeners.
  pose proof loadSettingsAndProfile_no_closeTab.
  silent.
Qed.

(** Off the cart page the script closes nothing. *)
Lemma contentScript_closes_on_cart_only : Within notCartPage isCloseTab contentScript.
Proof.
  unfold contentScript, look. cbn [bind Within]. intros d Hd.
  unfold notCartPage in Hd. rewrite Hd.
  apply Within_of_AtMost, engineBranch_no_closeTab.
Qed.

(** Without the stored setting the script closes nothing. *)
Lemma contentScript_closes_on_request_only : Within autoCloseOff isCloseTab contentScript.
Proof.
  unfold contentScript, look. cbn [bind Within]. intros d _.
  destruct (String.eqb (pathname d) "/cart");
    [|apply Within_of_AtMost, engineBranch_no_closeTab].
  unfold cartBranch.
  apply Within_bind; [split; [reflexivity|exact I]|]. intros _.
  apply Within_bind; [|intros _; exact I].
  apply Within_fireAndForget. unfold autoCloseCartPage.
  apply Within_tryCatch; [|intros e; exact I].
  apply Within_bind; [split; [reflexivity|exact I]|]. intros _.
  apply Within_bind; [exact I|]. intros _.
  apply Within_bind; [intros d0 _; destruct (fails d0 CallChromeStorageGet); exact I|].
  intros _. unfold look. cbn [bind Within]. intros d0 Hd0.
  unfold autoCloseOff in Hd0. rewrite Hd0.
  split; [reflexivity|exact I].
Qed.

(** X7: what injecting the script does to the page.  Under every schedule
    and from every state, the injected script and the chains it starts
    perform no click, no fill, no write to a page element and no navigation,
    and register no observer and no interval: besides its status lines,
    [init] only loads the settings and installs the message listener (the
    page type it computes is dropped).  The one thing they can do to the
    page is close it, with [window.close()] at once and again from a 100 ms
    timer: never under a schedule none of whose snapshots is the cart page,
    and never under a schedule none of whose snapshots has the auto-close
    setting stored.  A second injection on a page other than the cart page
    does nothing at all. *)
Theorem script_injection_is_passive :
  (forall (s : RunState) (schedule : list (nat * Dom)),
      countActions engineStep
        (pool_trace (runPool schedule (startPool s [contentScript]))) = 0)
  /\ (forall (s : RunState) (schedule : list (nat * Dom)),
         Forall (fun turn => notCartPage (snd turn)) schedule ->
         countActions isCloseTab
           (pool_trace (runPool schedule (startPool s [contentScript]))) = 0)
  /\ (forall (s : RunState) (schedule : list (nat * Dom)),
         Forall (fun turn => autoCloseOff (snd turn)) schedule ->
         countActions isCloseTab
           (pool_trace (runPool schedule (startPool s [contentScript]))) = 0)
  /\ (forall (d : Dom) (s : RunState),
         String.eqb (pathname d) "/cart" = false ->
         targetContentScriptExecuted s = true ->
         segment d contentScript s = idleTurn s).
Proof.
  split; [|split; [|split]].
  - intros s schedule. apply Nat.le_0_r.
    apply (PoolAtMost_runPool engineStep schedule (startPool s [contentScript]) 0).
    exists 0, 0. split; [apply Nat.le_refl | split; [apply contentScript_no_engineStep | exact I]].
  - intros s schedule Hsched.
    rewrite (Within_runPool notCartPage isCloseTab schedule Hsched
               (startPool s [contentScript])); [reflexivity|].
    constructor; [apply contentScript_closes_on_cart_only | constructor].
  - intros s schedule Hsched.
    rewrite (Within_runPool autoCloseOff isCloseTab schedule Hsched
               (startPool s [contentScript])); [reflexivity|].
    constructor; [apply contentScript_closes_on_request_only | constructor].
  - intros d s Hd Hs. unfold segment, contentScript, engineBranch.
    cbn [bind look get segmentFrom]. rewrite Hd. cbn [bind get segmentFrom]. rewrite Hs.
    reflexivity.
Qed.

(** On a product page nothing is closed and a second injection is idle; on
    a cart page whose settings ask for it the tab is closed, at once and from
    the timer. *)
Lemma script_injection_is_passive_witness :
  Forall (fun turn => notCartPage (snd turn))
    [(0, productPage); (1, productPage); (1, productPage)]
  /\ countActions isCloseTab
       (pool_trace (runPool [(0, productPage); (1, productPage); (1, productPage)]
                      (startPool (set_targetContentScriptExecuted false exampleState)
                         [contentScript]))) = 0
  /\ segment productPage contentScript exampleState = idleTurn exampleState
  /\ countActions isCloseTab
       (pool_trace (runPool [(0, closingCartPage); (1, closingCartPage); (2, closingCartPage)]
                      (startPool (set_targetContentScriptExecuted false exampleState)
                         [contentScript]))) = 2.
Proof.
  assert (H : Forall (fun turn => notCartPage (snd turn))
                [(0, productPage); (1, productPage); (1, productPage)])
    by (repeat constructor).
  split; [exact H|]. split; [|split].
  - exact (proj1 (proj2 script_injection_is_passive) _ _ H).
  - exact (proj2 (proj2 (proj2 script_injection_is_passive)) productPage exampleState
             eq_refl eq_refl).
  - vm_compute. reflexivity.
Defined.

(** * The quantity stepper *)

Lemma clickElement_once (p : Action -> bool) (name : string) : AtMost p 1 (clickElement name).
Proof.
  unfold clickElement, ext. cbn [bind act suspend look AtMost].
  destruct (p (Click name)); intros d; destruct (fails d (CallClick name));
    cbn [bind AtMost]; auto.
Qed.

Lemma sleepMaybeRandom_silent (p : Action -> bool) (ms : Q) :
  (forall ms r, p (Sleep ms r) = false) -> AtMost p 0 (sleepMaybeRandom ms).
Proof.
  intros Hsleep. unfold sleepMaybeRandom, ext. cbn [bind get act suspend AtMost].
  intros s. destruct (randomizeDelay (globalSettings s)); cbn [bind act AtMost];
    rewrite ?Hsleep; intros d; destruct (fails d CallSleep); exact I.
Qed.

Lemma stepperClicks_bounded (p : Action -> bool) (n : nat) (button : Target) (name : string) :
  (forall ms r, p (Sleep ms r) = false) ->
  AtMost p n (stepperClicks n button name).
Proof.
  intros Hsleep. induction n as [|n IH]; cbn [stepperClicks]; [exact I|].
  apply (AtMost_bind p look _ 0 (S n)); [intros d; exact I|]. intros d.
  destruct (match query d button with Some el => disabled el | None => true end);
    [exact I|].
  apply (AtMost_bind p (clickElement name) _ 1 n); [apply clickElement_once|]. intros _.
  apply (AtMost_bind p (sleepMaybeRandom 150) _ 0 n); [now apply sleepMaybeRandom_silent|].
  intros _. exact IH.
Qed.

(** X22: the quantity stepper is clicked no more often than units are
    missing, and a missing quantity is not the quantity 1.  With a quantity
    that is a number of 1 or less [setQuantity] only names its step.  With
    the quantity missing ([undefined <= 1] is false) it goes on: it reports
    the quantity and looks for the selectors, and on a page without the
    stepper's increment button and with a custom dropdown it clicks the
    dropdown trigger.  When the page shows the stepper with the value
    [shown] and the three lookups do not fail, the stepper buttons are
    clicked at most [|quantity - shown|] times, whatever happens afterwards
    (the loop also stops at a disabled button), and not at all when the
    quantity is missing. *)
Theorem setQuantity_clicks_bounded (w : nat -> Dom) (c : Config) :
  (forall qty,
      ss_quantity (siteSettings (cst c)) = Some qty -> (qty <= 1)%Z ->
      run w setQuantity c = (Returned tt, withState (set_currentStep "set-quantity") c))
  /\ (ss_quantity (siteSettings (cst c)) = None ->
      (exists rest,
          trace (snd (run w setQuantity c)) = trace c ++ StatusQuantity None :: rest)
      /\ (forall trigger,
             (forall t, fails (w (clock c)) (CallFind t) = None) ->
             query (w (clock c)) (Sel "productPageSelectors.quantity.stepper.increment")
             = None ->
             query (w (clock c)) (Sel "productPageSelectors.quantity.dropdown")
             = Some trigger ->
             isSelect trigger = false ->
             countActions (clicks "qty-dd-trigger") (trace c)
             < countActions (clicks "qty-dd-trigger") (trace (snd (run w setQuantity c)))))
  /\ (forall inc val shown,
         fails (w (clock c)) (CallFind (Sel "productPageSelectors.quantity.stepper.increment"))
         = None ->
         fails (w (clock c)) (CallFind (Sel "productPageSelectors.quantity.stepper.decrement"))
         = None ->
         fails (w (clock c)) (CallFind (Sel "productPageSelectors.quantity.stepper.value"))
         = None ->
         query (w (clock c)) (Sel "productPageSelectors.quantity.stepper.increment") = Some inc ->
         query (w (clock c)) (Sel "productPageSelectors.quantity.stepper.value") = Some val ->
         parsedInt val = Some shown ->
         countActions stepperClick (trace (snd (run w setQuantity c)))
         <= countActions stepperClick (trace c)
            + unitsMissing (ss_quantity (siteSettings (cst c))) shown).
Proof.
  refine (conj _ (conj _ _)).
  - intros qty Hq Hle. unfold setQuantity. rewrite run_modify, run_get. cbv zeta.
    cbn [cst withState siteSettings set_currentStep].
    rewrite Hq. cbn [atMostOne]. apply Z.leb_le in Hle. rewrite Hle. reflexivity.
  - intros Hq. split.
    + unfold setQuantity. rewrite run_modify, run_get. cbv zeta.
      cbn [cst withState siteSettings set_currentStep].
      rewrite Hq. cbn [atMostOne]. rewrite run_act.
      match goal with
      | |- context [run w ?t ?c1] => destruct (run_trace_extends w t c1) as [rest Hrest]
      end.
      exists rest. rewrite Hrest. cbn [trace logged withState].
      rewrite <- app_assoc. reflexivity.
    + intros trigger Hfails Hinc Hdd Hsel.
      unfold setQuantity. rewrite run_modify, run_get. cbv zeta.
      cbn [cst withState siteSettings set_currentStep].
      rewrite Hq. cbn [atMostOne]. rewrite run_act.
      match goal with
      | |- context [run w _ ?c1] =>
          rewrite (run_find_ok w _ _ c1 (Hfails _)), (run_find_ok w _ _ c1 (Hfails _)),
            (run_find_ok w _ _ c1 (Hfails _))
      end.
      cbn [clock logged withState]. rewrite Hinc.
      match goal with
      | |- context [run w _ ?c1] => rewrite (run_find_ok w _ _ c1 (Hfails _))
      end.
      cbn [clock logged withState]. rewrite Hdd, Hsel.
      rewrite run_bind. unfold clickElement at 1. rewrite run_act.
      match goal with
      | |- context [run w ?t ?c2] =>
          destruct (run_trace_extends w t c2) as [l1 Hl1];
          destruct (run w t c2) as [[b | e |] c3]
      end; cbn [snd trace logged withState] in Hl1.
      * match goal with
        | |- context [run w ?t c3] => destruct (run_trace_extends w t c3) as [l2 Hl2]
        end.
        rewrite Hl2, Hl1, !countActions_app. cbn. lia.
      * cbn [snd]. rewrite Hl1, !countActions_app. cbn. lia.
      * cbn [snd]. rewrite Hl1, !countActions_app. cbn. lia.
  - intros inc val shown Hf1 Hf2 Hf3 Hinc Hval Hshown.
    unfold setQuantity. rewrite run_modify, run_get. cbv zeta.
    cbn [cst withState siteSettings set_currentStep].
    destruct (atMostOne (ss_quantity (siteSettings (cst c)))).
    { cbn [run snd trace withState]. lia. }
    rewrite run_act.
    match goal with
    | |- context [run w _ ?c1] =>
        rewrite (run_find_ok w _ _ c1 Hf1), (run_find_ok w _ _ c1 Hf2),
          (run_find_ok w _ _ c1 Hf3)
    end.
    cbn [clock logged withState]. rewrite Hinc, Hval, Hshown.
    set (n := unitsMissing (ss_quantity (siteSettings (cst c))) shown).
    assert (Hsleep : forall ms r, stepperClick (Sleep ms r) = false) by reflexivity.
    match goal with
    | |- context [run w ?t ?c1] =>
        assert (Ht : AtMost stepperClick n t);
        [|pose proof (AtMost_run stepperClick w t n c1 Ht) as Hrun]
    end.
    { apply AtMost_mono with (n := n + 0); [lia|].
      apply (AtMost_bind stepperClick _ _ n 0); [|intros _; now apply AtMost_sleep].
      subst n. destruct (ss_quantity (siteSettings (cst c))) as [qty|]; [|exact I].
      cbn [unitsMissing].
      destruct (0 <? qty - shown)%Z; [now apply stepperClicks_bounded|].
      destruct (qty - shown <? 0)%Z; [|exact I].
      destruct (query (w (clock c)) (Sel "productPageSelectors.quantity.stepper.decrement"));
        [now apply stepperClicks_bounded|exact I]. }
    etransitivity; [exact Hrun|].
    cbn [trace logged withState]. rewrite countActions_snoc. cbn. lia.
Qed.

(** On a stepper that shows 1, three units wanted: at most two clicks.  With
    the quantity missing and a custom dropdown on the page, the trigger is
    clicked. *)
Lemma setQuantity_clicks_bounded_witness :
  countActions stepperClick
    (trace (snd (run (fun _ => stepperPage 1) setQuantity (initialConfig wantsThree))))
  <= 0 + 2
  /\ ss_quantity (siteSettings (cst (initialConfig (declareState exampleState)))) = None
  /\ 0 < countActions (clicks "qty-dd-trigger")
           (trace (snd (run (fun _ => dropdownPage) setQuantity
                          (initialConfig (declareState exampleState))))).
Proof.
  split.
  - exact (proj2 (proj2 (setQuantity_clicks_bounded (fun _ => stepperPage 1)
                           (initialConfig wantsThree)))
             plainElem _ 1%Z eq_refl eq_refl eq_refl eq_refl eq_refl eq_refl).
  - split; [reflexivity|].
    exact (proj2 (proj1 (proj2 (setQuantity_clicks_bounded (fun _ => dropdownPage)
                                  (initialConfig (declareState exampleState))))
                    eq_refl)
             plainElem (fun _ => eq_refl) eq_refl eq_refl eq_refl).
Defined.

(** * The payment form *)

Ltac form_side :=
  solve [ exact I
        | split; [reflexivity | exact I]
        | apply Within_of_AtMost; never ].

Lemma fillPaymentInfo_card_in_frame : Within cardInFrame isFormFill fillPaymentInfo.
Proof.
  unfold fillPaymentInfo.
  apply Within_bind; [exact I|]. intros _.
  apply Within_bind; [form_side|]. intros _.
  apply Within_bind; [intros s; exact I|]. intros s.
  destruct (profile s) as [p0|]; [|exact I].
  destruct (negb (isSome (p_paymentMethod p0))); [exact I|].
  apply Within_bind; [form_side|]. intros addPaymentBtn.
  apply Within_bind; [form_side|]. intros _.
  apply Within_bind; [form_side|]. intros paymentForm.
  destruct (negb (isSome paymentForm)); [exact I|].
  unfold find at 1, ext, look. cbn [bind Within].
  intros d _. destruct (fails d (CallFind (Sel "checkoutPageSelectors.cardNumberFrame")));
    cbn [bind Within]; [exact I|].
  intros d0 Hd0. unfold cardInFrame in Hd0. rewrite Hd0. exact I.
Qed.

(** X23: the payment form is left alone when the card number sits in a
    frame.  As long as every snapshot shows the card-number frame,
    [fillPaymentInfo] fills no field of the payment form, whatever the
    profile holds and whatever else the page shows. *)
Theorem fillPaymentInfo_skips_framed_card (w : nat -> Dom) (c : Config) :
  (forall k, cardInFrame (w k)) ->
  countActions isFormFill (trace (snd (run w fillPaymentInfo c)))
  = countActions isFormFill (trace c).
Proof.
  intros Hw. apply (Within_run cardInFrame isFormFill w fillPaymentInfo Hw c).
  apply fillPaymentInfo_card_in_frame.
Qed.

Lemma fillPaymentInfo_skips_framed_card_witness :
  (forall k : nat, cardInFrame ((fun _ => framedCardPage) k))
  /\ countActions isFormFill
       (trace (snd (run (fun _ => framedCardPage) fillPaymentInfo
                      (initialConfig (set_profile (Some cardProfile) exampleState))))) = 0
  /\ countActions isFormFill
       (trace (snd (run (fun _ => plainCardPage) fillPaymentInfo
                      (initialConfig (set_profile (Some cardProfile) exampleState))))) = 5.
Proof.
  assert (H : forall k : nat, cardInFrame ((fun _ => framedCardPage) k))
    by (intros k; reflexivity).
  split; [exact H|]. split; [|reflexivity].
  exact (fillPaymentInfo_skips_framed_card (fun _ => framedCardPage)
           (initialConfig (set_profile (Some cardProfile) exampleState)) H).
Defined.

(** * The readiness probe *)

(** The probe never raises and changes nothing: it answers [false] when the
    lookup fails, [null] when the button is missing, and otherwise whether
    the button is visible. *)
Lemma areCriticalElementsReady_run (w : nat -> Dom) (c : Config) :
  run w areCriticalElementsReady c
  = (Returned
       (match fails (w (clock c)) (CallFind (Sel "productPageSelectors.addToCart")) with
        | Some _ => Some false
        | None =>
            match query (w (clock c)) (Sel "productPageSelectors.addToCart") with
            | Some el => Some (visible el)
            | None => None
            end
        end), c).
Proof.
  unfold areCriticalElementsReady. rewrite run_tryCatch.
  destruct (fails (w (clock c)) (CallFind (Sel "productPageSelectors.addToCart")))
    as [e|] eqn:E.
  - now rewrite (run_find_fail w _ _ c e E).
  - now rewrite (run_find_ok w _ _ c E).
Qed.
